(** * Florida election turnout pipeline: tables, cleaning, integration, checks

    A shallow embedding of the scripts
      - [clean_standardize.py]  (name normalisation, FIPS keys, quality checks),
      - [data_integration.py]   (left joins of the enrichment tables),
      - [temporal_matching.py]  (year-aligned BEA columns, rural-urban categories),
      - [add_usda_codes.py]     (rural-urban categories),
      - [combine_elections_script.py] (one table of all election years),
    together with the small part of pandas they rely on.

    Conventions of the embedding.
      - A data frame is its list of column labels and its list of rows; a row
        is the list of its labelled cells, in column order.
      - A cell is missing ([NA], i.e. NaN/None), a finite number (an exact
        rational: binary64 rounding error is not modelled), an infinity, or a
        string of 8-bit characters.
      - A column has no declared dtype: where pandas asks for the kind of a
        column, the kind is read off its cells. For the [.str] accessor a
        column counts as text when it holds a string or no cell at all; for
        the key columns of a join a column that holds a string is text.
      - Library calls that raise in Python return [Raise] with the exception
        class; everything else returns [Ok].
      - Reading a file is an argument: the table read, or the failure.
      - The string parsers of the libraries ([int], [pd.to_numeric]) are
        parameters of the functions that use them.
      - [print] calls do not influence any returned value and are left out;
        the tables they iterate over keep the names the source gives them. *)

From Stdlib Require Import Bool Arith ZArith QArith Qround Qabs Lia List String Ascii.
From Stdlib Require Import DecimalString SetoidList SetoidPermutation Permutation.
Import ListNotations.

Close Scope Q_scope.
Local Open Scope string_scope.
Local Open Scope nat_scope.
Local Open Scope list_scope.

Set Implicit Arguments.

(** ** Exceptions as values *)

Inductive exn : Type :=
| KeyError (label : string)
| TypeError
| ValueError
| AttributeError
| EOFError
| OSError.

Inductive result (A : Type) : Type :=
| Ok (a : A)
| Raise (e : exn).

Arguments Ok {A} a.
Arguments Raise {A} e.

Definition bind {A B : Type} (m : result A) (k : A -> result B) : result B :=
  match m with
  | Ok a => k a
  | Raise e => Raise e
  end.

Notation "x <- m ;; k" := (bind m (fun x => k))
  (at level 61, m at next level, right associativity).
Notation "' pat <- m ;; k" := (bind m (fun x => match x with pat => k end))
  (at level 61, pat pattern, m at next level, right associativity).

Fixpoint mapM {A B : Type} (f : A -> result B) (l : list A) : result (list B) :=
  match l with
  | [] => Ok []
  | a :: l' => b <- f a ;; bs <- mapM f l' ;; Ok (b :: bs)
  end.

(** [try: ... except Exception: default]. *)
Definition try_except {A : Type} (m : result A) (default : A) : A :=
  match m with
  | Ok a => a
  | Raise _ => default
  end.

(** ** Python strings *)

Module Str.

Definition code (c : ascii) : nat := nat_of_ascii c.

(** [str.isspace] on one character with code point below 256. *)
Definition isspace (c : ascii) : bool :=
  let n := code c in
  ((9 <=? n) && (n <=? 13)) || ((28 <=? n) && (n <=? 32))
  || (n =? 133) || (n =? 160).

Fixpoint lstrip_by (p : ascii -> bool) (s : string) : string :=
  match s with
  | EmptyString => EmptyString
  | String c s' => if p c then lstrip_by p s' else s
  end.

(** Drops the characters satisfying [p] at the end of [s]. *)
Fixpoint rstrip_by (p : ascii -> bool) (s : string) : string :=
  match s with
  | EmptyString => EmptyString
  | String c s' =>
      match rstrip_by p s' with
      | EmptyString => if p c then EmptyString else String c EmptyString
      | t => String c t
      end
  end.

Definition strip_by (p : ascii -> bool) (s : string) : string :=
  rstrip_by p (lstrip_by p s).

(** [s.strip()] *)
Definition strip (s : string) : string := strip_by isspace s.

(** [s.strip(chars)] *)
Definition strip_chars (chars : string) (s : string) : string :=
  strip_by (fun c => existsb (Ascii.eqb c) (list_ascii_of_string chars)) s.

(** [s.startswith(p)] *)
Definition startswith (p s : string) : bool := String.prefix p s.

Definition lower_char (c : ascii) : ascii :=
  let n := code c in
  if (65 <=? n) && (n <=? 90) then ascii_of_nat (n + 32) else c.

Fixpoint lower (s : string) : string :=
  match s with
  | EmptyString => EmptyString
  | String c s' => String (lower_char c) (lower s')
  end.

(** [p in s] *)
Fixpoint contains (p s : string) : bool :=
  String.prefix p s ||
  match s with
  | EmptyString => false
  | String _ s' => contains p s'
  end.

(** [re.search(p, s, re.IGNORECASE)] for a pattern [p] of letters and
    blanks only (no regular-expression operator), on 8-bit characters. *)
Definition contains_nocase (p s : string) : bool :=
  contains (lower p) (lower s).

Definition isdigit_char (c : ascii) : bool :=
  let n := code c in (48 <=? n) && (n <=? 57).

(** [s.isdigit()] *)
Definition isdigit (s : string) : bool :=
  match s with
  | EmptyString => false
  | _ => forallb isdigit_char (list_ascii_of_string s)
  end.

Definition of_nat (n : nat) : string :=
  NilEmpty.string_of_uint (Nat.to_uint n).

Definition upper_char (c : ascii) : ascii :=
  let n := code c in
  if (97 <=? n) && (n <=? 122) then ascii_of_nat (n - 32) else c.

(** [s.upper()] on the letters a-z. It is used for the test
    ['RUCC' in s.upper()] only, which no 8-bit character other than these
    letters can influence: none of the others becomes an R, a U or a C. *)
Fixpoint upper (s : string) : string :=
  match s with
  | EmptyString => EmptyString
  | String c s' => String (upper_char c) (upper s')
  end.

(** [s[:n]] *)
Definition take (n : nat) (s : string) : string := String.substring 0 n s.

(** [str.isdigit] on one character with code point below 256: the digits
    0 to 9 and the superscripts 2, 3 and 1 (178, 179, 185). *)
Definition isdigit_char_latin1 (c : ascii) : bool :=
  let n := code c in
  isdigit_char c || (n =? 178) || (n =? 179) || (n =? 185).

(** One step of [max] over strings: the later one only when it is
    greater. *)
Definition greater (best col : string) : string :=
  if String.ltb best col then col else best.

(** [s.isdigit()] for a string read with the latin1 encoding. *)
Definition isdigit_latin1 (s : string) : bool :=
  match s with
  | EmptyString => false
  | _ => forallb isdigit_char_latin1 (list_ascii_of_string s)
  end.

End Str.

(** ** Cells, rows and frames *)

Inductive cell : Type :=
| NA                       (* NaN / None *)
| Num (q : Q)              (* a finite number *)
| Inf (negative : bool)    (* float('inf'), float('-inf') *)
| Str (s : string).

Definition row : Type := list (string * cell).

Record DataFrame : Type := mkDF {
  columns : list string;
  rows : list row
}.

Definition Qlt_bool (a b : Q) : bool := negb (Qle_bool b a).

Module pd.

Definition isna (c : cell) : bool :=
  match c with NA => true | _ => false end.

(** Value equality as used for group keys, join keys and duplicate
    detection: missing values are equal to each other, numbers are compared
    by value. *)
Definition cell_eqb (a b : cell) : bool :=
  match a, b with
  | NA, NA => true
  | Num x, Num y => Qeq_bool x y
  | Inf s, Inf t => Bool.eqb s t
  | Str s, Str t => String.eqb s t
  | _, _ => false
  end.

(** Sort order of group keys: numbers by value, strings lexicographically,
    numbers before strings. *)
Definition cell_leb (a b : cell) : bool :=
  match a, b with
  | NA, _ => true
  | _, NA => false
  | Inf true, _ => true
  | _, Inf true => false
  | _, Inf false => match a with Str _ => false | _ => true end
  | Inf false, Num _ => false
  | Inf false, Str _ => true
  | Num x, Num y => Qle_bool x y
  | Num _, Str _ => true
  | Str _, Num _ => false
  | Str s, Str t => String.leb s t
  end.

Definition has_column (df : DataFrame) (c : string) : bool :=
  existsb (String.eqb c) (columns df).

(** [row[c]] for a label of the frame the row comes from. *)
Fixpoint get (r : row) (c : string) : cell :=
  match r with
  | [] => NA
  | (k, v) :: r' => if String.eqb k c then v else get r' c
  end.

(** [row[c] = v] : overwrite in place, or append a new label. *)
Fixpoint set (r : row) (c : string) (v : cell) : row :=
  match r with
  | [] => [(c, v)]
  | (k, w) :: r' => if String.eqb k c then (k, v) :: r' else (k, w) :: set r' c v
  end.

Definition require (df : DataFrame) (c : string) : result unit :=
  if has_column df c then Ok tt else Raise (KeyError c).

(** [df[c]] *)
Definition column (df : DataFrame) (c : string) : result (list cell) :=
  _ <- require df c ;; Ok (map (fun r => get r c) (rows df)).

Definition add_label (cols : list string) (c : string) : list string :=
  if existsb (String.eqb c) cols then cols else cols ++ [c].

(** [df[c] = f(row)] for a value computed row by row. *)
Definition assign (df : DataFrame) (c : string) (f : row -> result cell)
  : result DataFrame :=
  rs <- mapM (fun r => v <- f r ;; Ok (set r c v)) (rows df) ;;
  Ok (mkDF (add_label (columns df) c) rs).

(** [df[mask]] for a mask computed row by row. *)
Fixpoint filterM (p : row -> result bool) (l : list row) : result (list row) :=
  match l with
  | [] => Ok []
  | r :: l' =>
      b <- p r ;; rest <- filterM p l' ;;
      Ok (if b then r :: rest else rest)
  end.

Definition where_ (df : DataFrame) (p : row -> result bool) : result DataFrame :=
  rs <- filterM p (rows df) ;; Ok (mkDF (columns df) rs).

Definition select_row (cols : list string) (r : row) : row :=
  map (fun c => (c, get r c)) cols.

(** [df[[c1, ..., cn]]] *)
Definition select (df : DataFrame) (cols : list string) : result DataFrame :=
  _ <- mapM (require df) cols ;;
  Ok (mkDF cols (map (select_row cols) (rows df))).

Definition drop_row (cs : list string) (r : row) : row :=
  filter (fun kv => negb (existsb (String.eqb (fst kv)) cs)) r.

(** [df.drop(cs, axis=1)] *)
Definition drop (df : DataFrame) (cs : list string) : result DataFrame :=
  _ <- mapM (require df) cs ;;
  Ok (mkDF (filter (fun c => negb (existsb (String.eqb c) cs)) (columns df))
           (map (drop_row cs) (rows df))).

Definition rename_label (old new c : string) : string :=
  if String.eqb c old then new else c.

(** [df.rename(columns={old: new})] *)
Definition rename (df : DataFrame) (old new : string) : DataFrame :=
  mkDF (map (rename_label old new) (columns df))
       (map (map (fun kv => (rename_label old new (fst kv), snd kv))) (rows df)).

(** *** Comparisons and arithmetic on numeric cells

    A comparison with a missing value is false; a string operand raises
    [TypeError]. *)

Definition lt_scalar (c : cell) (k : Q) : result bool :=
  match c with
  | NA => Ok false
  | Num q => Ok (Qlt_bool q k)
  | Inf negative => Ok negative
  | Str _ => Raise TypeError
  end.

Definition gt_scalar (c : cell) (k : Q) : result bool :=
  match c with
  | NA => Ok false
  | Num q => Ok (Qlt_bool k q)
  | Inf negative => Ok (negb negative)
  | Str _ => Raise TypeError
  end.

Definition Qsign_neg (q : Q) : bool := Qlt_bool q 0%Q.
Definition Qis_zero (q : Q) : bool := Qeq_bool q 0%Q.

(** [a / b] on float64 columns: division by zero gives an infinity or NaN. *)
Definition div (a b : cell) : result cell :=
  match a, b with
  | Str _, _ | _, Str _ => Raise TypeError
  | NA, _ | _, NA => Ok NA
  | Num x, Num y =>
      if Qis_zero y then
        if Qis_zero x then Ok NA else Ok (Inf (Qsign_neg x))
      else Ok (Num (x / y)%Q)
  | Num _, Inf _ => Ok (Num 0%Q)
  | Inf s, Num y => Ok (Inf (xorb s (Qsign_neg y)))
  | Inf _, Inf _ => Ok NA
  end.

(** [a * k] for a positive constant [k]. *)
Definition mul_scalar (a : cell) (k : Q) : result cell :=
  match a with
  | Str _ => Raise TypeError
  | NA => Ok NA
  | Num x => Ok (Num (x * k)%Q)
  | Inf s => Ok (Inf s)
  end.

Definition sub (a b : cell) : result cell :=
  match a, b with
  | Str _, _ | _, Str _ => Raise TypeError
  | NA, _ | _, NA => Ok NA
  | Num x, Num y => Ok (Num (x - y)%Q)
  | Num _, Inf s => Ok (Inf (negb s))
  | Inf s, Num _ => Ok (Inf s)
  | Inf s, Inf t => if Bool.eqb s t then Ok NA else Ok (Inf s)
  end.

Definition abs (a : cell) : result cell :=
  match a with
  | Str _ => Raise TypeError
  | NA => Ok NA
  | Num x => Ok (Num (Qabs x))
  | Inf _ => Ok (Inf false)
  end.

(** Nearest integer, ties to the even one. *)
Definition round_half_even (q : Q) : Z :=
  let f := Qfloor q in
  let d := (q - inject_Z f)%Q in
  if Qlt_bool d (1 # 2)%Q then f
  else if Qlt_bool (1 # 2)%Q d then (f + 1)%Z
  else if Z.even f then f else (f + 1)%Z.

(** [.round(1)] *)
Definition round1 (a : cell) : result cell :=
  match a with
  | Str _ => Raise TypeError
  | Num x => Ok (Num (inject_Z (round_half_even (x * 10)%Q) / 10)%Q)
  | other => Ok other
  end.

(** *** Missing values, groups, duplicates *)

Definition count_na (df : DataFrame) (c : string) : nat :=
  List.length (filter (fun r => isna (get r c)) (rows df)).

(** [df.isnull().sum()] : the number of missing cells of each column. *)
Definition isnull_sum (df : DataFrame) : list (string * nat) :=
  map (fun c => (c, count_na df c)) (columns df).

Definition mem (c : cell) (l : list cell) : bool := existsb (cell_eqb c) l.

(** The distinct values of a list, in order of first appearance. *)
Fixpoint unique (l : list cell) : list cell :=
  match l with
  | [] => []
  | c :: l' => c :: filter (fun d => negb (cell_eqb c d)) (unique l')
  end.

Definition dropna (l : list cell) : list cell :=
  filter (fun c => negb (isna c)) l.

(** [s.nunique()] : distinct values, missing ones not counted. *)
Definition nunique (l : list cell) : nat := List.length (unique (dropna l)).

Fixpoint insert_sorted (c : cell) (l : list cell) : list cell :=
  match l with
  | [] => [c]
  | d :: l' => if cell_leb c d then c :: l else d :: insert_sorted c l'
  end.

Definition sort (l : list cell) : list cell := fold_right insert_sorted [] l.

(** [df.groupby(key)[val].nunique()] : one entry per distinct non-missing
    key, keys in ascending order. *)
Definition groupby_nunique (df : DataFrame) (key val : string)
  : result (list (cell * nat)) :=
  keys <- column df key ;;
  _ <- require df val ;;
  Ok (map (fun k =>
             (k, nunique (map (fun r => get r val)
                            (filter (fun r => cell_eqb (get r key) k) (rows df)))))
          (sort (unique (dropna keys)))).

Definition same_key (subset : list string) (r s : row) : bool :=
  forallb (fun c => cell_eqb (get r c) (get s c)) subset.

(** [df.duplicated(subset=subset, keep=False)] : marks every row whose key
    occurs on more than one row. *)
Definition duplicated (df : DataFrame) (subset : list string) : result (list bool) :=
  _ <- mapM (require df) subset ;;
  Ok (map (fun r => 2 <=? List.length (filter (same_key subset r) (rows df))) (rows df)).

Definition is_str (c : cell) : bool :=
  match c with Str _ => true | _ => false end.

(** Order of the values of a key of [sort_values] with several keys: each
    key is ranked as an ordered categorical, numbers by value before
    strings, and missing values last. *)
Definition key_leb (a b : cell) : bool :=
  match a, b with
  | _, NA => true
  | NA, _ => false
  | _, _ => cell_leb a b
  end.

(** The rows compared key by key, the first key first. *)
Fixpoint rows_leb (by_ : list string) (r s : row) : bool :=
  match by_ with
  | [] => true
  | c :: cs =>
      if key_leb (get r c) (get s c)
      then (if key_leb (get s c) (get r c) then rows_leb cs r s else true)
      else false
  end.

(** A row is put before the first row that does not come before it. *)
Fixpoint insert_row (by_ : list string) (r : row) (l : list row) : list row :=
  match l with
  | [] => [r]
  | s :: l' => if rows_leb by_ r s then r :: l else s :: insert_row by_ r l'
  end.

(** [df.sort_values(by).reset_index(drop=True)] for a list of several
    labels: a stable sort; a label that is no column raises [KeyError]. *)
Definition sort_values (df : DataFrame) (by_ : list string) : result DataFrame :=
  _ <- mapM (require df) by_ ;;
  Ok (mkDF (columns df) (fold_right (insert_row by_) [] (rows df))).

(** *** Joins and concatenation *)

Definition in_labels (c : string) (l : list string) : bool :=
  existsb (String.eqb c) l.

Definition suffixed (overlap : list string) (sfx c : string) : string :=
  if in_labels c overlap then c ++ sfx else c.

(** The right-hand labels that take part in the result: the key column is
    kept once when both sides name it alike. *)
Definition right_labels (R : DataFrame) (left_on right_on : string) : list string :=
  if String.eqb left_on right_on
  then filter (fun c => negb (String.eqb c right_on)) (columns R)
  else columns R.

Definition left_part (L : DataFrame) (overlap : list string) (l : row) : row :=
  map (fun c => (suffixed overlap "_x" c, get l c)) (columns L).

Definition right_part (rl overlap : list string) (r : option row) : row :=
  map (fun c => (suffixed overlap "_y" c,
                 match r with Some r => get r c | None => NA end)) rl.

Definition matches (R : DataFrame) (left_on right_on : string) (l : row) : list row :=
  filter (fun r => cell_eqb (get l left_on) (get r right_on)) (rows R).

(** The column [c] holds a string. *)
Definition holds_str (df : DataFrame) (c : string) : bool :=
  existsb is_str (map (fun r => get r c) (rows df)).

(** The check of the key columns before a join: when both tables have
    rows, a key column of text is not joined with a key column of numbers.
    The kind of a column is read off its cells, as for the [.str]
    accessor: it is text when it holds a string. *)
Definition key_clash (L R : DataFrame) (left_on right_on : string) : bool :=
  match rows L, rows R with
  | [], _ => false
  | _, [] => false
  | _, _ => negb (Bool.eqb (holds_str L left_on) (holds_str R right_on))
  end.

(** [L.merge(R, left_on=left_on, right_on=right_on, how='left')], and
    [L.merge(R, on=key, how='left')] when both labels are [key]: every
    left row, in order, once per matching right row, or once with missing
    right-hand cells when nothing matches. Labels common to both sides get
    the suffixes [_x] and [_y]. A key label that is no column raises
    [KeyError]; a text key against a numeric key raises [ValueError].
    Labels that the suffixes make equal are not told apart: the statements
    about joins keep the labels of the two sides different. *)
Definition merge_left (L R : DataFrame) (left_on right_on : string)
  : result DataFrame :=
  _ <- require L left_on ;;
  _ <- require R right_on ;;
  if key_clash L R left_on right_on then Raise ValueError else
  let rl := right_labels R left_on right_on in
  let overlap := filter (fun c => in_labels c rl) (columns L) in
  Ok (mkDF
        (map (suffixed overlap "_x") (columns L) ++ map (suffixed overlap "_y") rl)
        (flat_map
           (fun l =>
              match matches R left_on right_on l with
              | [] => [left_part L overlap l ++ right_part rl overlap None]
              | ms => map (fun r => left_part L overlap l
                                      ++ right_part rl overlap (Some r)) ms
              end)
           (rows L))).

Definition union_labels (dfs : list DataFrame) : list string :=
  fold_left (fun acc df => fold_left add_label (columns df) acc) dfs [].

(** [pd.concat(dfs, ignore_index=True)] : the rows of all frames over the
    union of their labels, missing where a frame lacks a label. *)
Definition concat (dfs : list DataFrame) : result DataFrame :=
  match dfs with
  | [] => Raise ValueError
  | _ =>
      let cols := union_labels dfs in
      Ok (mkDF cols
            (flat_map
               (fun df =>
                  map (fun r =>
                         map (fun c => (c, if has_column df c then get r c else NA)) cols)
                      (rows df))
               dfs))
  end.

(** *** The [.str] accessor *)

(** The column dtype is read off the cells: a column is text when it holds
    a string, or no cell at all. [.str] on any other column raises. *)
Definition str_accessor (df : DataFrame) (c : string) : result unit :=
  cells <- column df c ;;
  match cells with
  | [] => Ok tt
  | _ => if existsb is_str cells then Ok tt else Raise AttributeError
  end.

(** [.str.f()] cell by cell: anything but a string becomes missing. *)
Definition str_map (f : string -> string) (c : cell) : cell :=
  match c with Str s => Str (f s) | _ => NA end.

Definition str_len (c : cell) : cell :=
  match c with Str s => Num (inject_Z (Z.of_nat (String.length s))) | _ => NA end.

(** [.str.startswith(p)] used as a mask: a missing entry cannot mask. *)
Definition str_startswith (p : string) (c : cell) : result bool :=
  match c with Str s => Ok (Str.startswith p s) | _ => Raise ValueError end.

(** [.str.contains(p, case=False, na=False)] *)
Definition str_contains_nocase (p : string) (c : cell) : bool :=
  match c with Str s => Str.contains_nocase p s | _ => false end.

(** [s.replace(d)] for a dict of strings: whole values are replaced. *)
Fixpoint lookup (d : list (string * string)) (s : string) : option string :=
  match d with
  | [] => None
  | (k, v) :: d' => if String.eqb k s then Some v else lookup d' s
  end.

Definition replace (d : list (string * string)) (c : cell) : cell :=
  match c with
  | Str s => match lookup d s with Some v => Str v | None => c end
  | _ => c
  end.

(** *** Labels by position, conversions *)

(** [df.columns = new] : the labels are replaced position by position. *)
Definition set_columns (df : DataFrame) (new : list string) : result DataFrame :=
  if List.length new =? List.length (columns df)
  then Ok (mkDF new (map (fun r => combine new (map snd r)) (rows df)))
  else Raise ValueError.

(** [.astype(str)] on one cell; [repr] is the text written for a cell
    that is not a string. *)
Definition astype_str (repr : cell -> string) (c : cell) : string :=
  match c with
  | Str s => s
  | other => repr other
  end.

(** A Python value that is [None] or a string, as a cell. *)
Definition of_option (o : option string) : cell :=
  match o with Some s => Str s | None => NA end.

End pd.

(** ** clean_standardize.py

    The functions of the module, one by one, as their text reads. The
    string literal of the [print] at line 99 (in [add_fips_codes]) holds a
    malformed escape, so that the module as shipped does not load: what
    follows describes the functions, not a run of the script. *)

Module clean_standardize.

(** [load_data()] : an argument is [None] when the file does not exist,
    and else what [read_csv] makes of it, a table or a failure. *)
Definition load_data (ELECTION_FILE FIPS_FILE : option (result DataFrame))
  : result (option DataFrame * option DataFrame) :=
  match ELECTION_FILE with
  | None => Ok (None, None)
  | Some read_elections =>
      elections <- read_elections ;;
      match FIPS_FILE with
      | None => Ok (Some elections, None)
      | Some read_fips => fips <- read_fips ;; Ok (Some elections, Some fips)
      end
  end.

Definition name_fixes : list (string * string) :=
  [ ("St. Johns", "St. Johns");
    ("Saint Johns", "St. Johns");
    ("St Johns", "St. Johns");
    ("St. Lucie", "St. Lucie");
    ("Saint Lucie", "St. Lucie");
    ("St Lucie", "St. Lucie");
    ("Miami-Dade", "Miami-Dade");
    ("Dade", "Miami-Dade");
    ("Miami Dade", "Miami-Dade");
    ("DeSoto", "Desoto");
    ("De Soto", "Desoto") ].

(** What [standardize_county_names] does to one county name: trim, then
    replace by the alias table. *)
Definition normalize (x : string) : string :=
  match pd.lookup name_fixes (Str.strip x) with
  | Some v => v
  | None => Str.strip x
  end.

Definition standardize_county_names (df : DataFrame) : result DataFrame :=
  (* df['County_Original'] = df['County'] *)
  _ <- pd.require df "County" ;;
  df <- pd.assign df "County_Original" (fun r => Ok (pd.get r "County")) ;;
  (* df['County'] = df['County'].str.strip() *)
  _ <- pd.str_accessor df "County" ;;
  df <- pd.assign df "County" (fun r => Ok (pd.str_map Str.strip (pd.get r "County"))) ;;
  (* df['County'] = df['County'].replace(name_fixes) *)
  df <- pd.assign df "County" (fun r => Ok (pd.replace name_fixes (pd.get r "County"))) ;;
  Ok df.

Definition fips_columns : list string :=
  ["FIPS"; "County"; "Year"; "Election_Date"; "Registered_Voters";
   "Votes_Cast"; "Turnout_Percent"].

Definition fips_columns_with_original : list string :=
  ["FIPS"; "County"; "County_Original"; "Year"; "Election_Date";
   "Registered_Voters"; "Votes_Cast"; "Turnout_Percent"].

Definition add_fips_codes (elections_df : DataFrame) (fips_df : option DataFrame)
  : result DataFrame :=
  match fips_df with
  | None => Ok elections_df
  | Some fips_df =>
      reference <- pd.select fips_df ["FIPS"; "County_Name"] ;;
      merged <- pd.merge_left elections_df reference "County" "County_Name" ;;
      (* unmatched = merged[merged['FIPS'].isna()]['County'].unique() *)
      _ <- pd.require merged "FIPS" ;;
      _ <- pd.require merged "County" ;;
      merged <- pd.drop merged ["County_Name"] ;;
      let cols :=
        if pd.has_column merged "County_Original"
        then fips_columns_with_original
        else fips_columns in
      pd.select merged cols
  end.

(** The entries of the issue list. Each stands for the string the source
    formats from the same values. *)
Inductive issue : Type :=
| MissingValues (col : string) (count : nat)
    (* f"Missing values in {col}: {count}" *)
| CountyCount (year : cell) (count : nat)
    (* f"Year {year} has {count} counties instead of 67" *)
| LowTurnout (county year turnout : cell)
    (* f"Low turnout: {County} {Year} = {Turnout_Percent:.1f}%" *)
| DuplicateRecords (dup_count : nat).
    (* f"Duplicate records: {dup_count}" *)

Definition low_turnout (df : DataFrame) : result DataFrame :=
  _ <- pd.require df "Turnout_Percent" ;;
  pd.where_ df (fun r => pd.lt_scalar (pd.get r "Turnout_Percent") (30 # 1)).

Definition high_turnout (df : DataFrame) : result DataFrame :=
  _ <- pd.require df "Turnout_Percent" ;;
  pd.where_ df (fun r => pd.gt_scalar (pd.get r "Turnout_Percent") (95 # 1)).

(** [df] with the two helper columns of the turnout verification. *)
Definition with_calculated_turnout (df : DataFrame) : result DataFrame :=
  _ <- pd.require df "Votes_Cast" ;;
  _ <- pd.require df "Registered_Voters" ;;
  df <- pd.assign df "Calculated_Turnout"
          (fun r =>
             ratio <- pd.div (pd.get r "Votes_Cast") (pd.get r "Registered_Voters") ;;
             percent <- pd.mul_scalar ratio (100 # 1) ;;
             pd.round1 percent) ;;
  _ <- pd.require df "Turnout_Percent" ;;
  pd.assign df "Turnout_Difference"
    (fun r =>
       d <- pd.sub (pd.get r "Calculated_Turnout") (pd.get r "Turnout_Percent") ;;
       pd.abs d).

(** [df[df['Turnout_Difference'] > 0.5]], on the table that carries the
    helper columns. *)
Definition mismatches (df : DataFrame) : result DataFrame :=
  _ <- pd.require df "Turnout_Difference" ;;
  pd.where_ df (fun r => pd.gt_scalar (pd.get r "Turnout_Difference") (1 # 2)).

Definition missing_issues (df : DataFrame) : list issue :=
  map (fun cn => MissingValues (fst cn) (snd cn))
      (filter (fun cn => 0 <? snd cn) (pd.isnull_sum df)).

Definition county_issues (counts : list (cell * nat)) : list issue :=
  flat_map (fun yc => if snd yc =? 67 then [] else [CountyCount (fst yc) (snd yc)])
           counts.

Definition low_issues (low : DataFrame) : list issue :=
  map (fun r => LowTurnout (pd.get r "County") (pd.get r "Year")
                           (pd.get r "Turnout_Percent"))
      (rows low).

Definition count_true (l : list bool) : nat := List.length (filter (fun b => b) l).

Definition duplicate_issues (duplicates : list bool) : list issue :=
  if existsb (fun b => b) duplicates
  then [DuplicateRecords (count_true duplicates)]
  else [].

(** [df[duplicates][['County', 'Year', 'Votes_Cast']].sort_values(['County', 'Year'])],
    built for printing when some row is marked. *)
Definition dup_df (df : DataFrame) (duplicates : list bool)
  : result (option DataFrame) :=
  if existsb (fun b => b) duplicates then
    let marked := map snd (filter fst (combine duplicates (rows df))) in
    shown <- pd.select (mkDF (columns df) marked) ["County"; "Year"; "Votes_Cast"] ;;
    shown <- pd.sort_values shown ["County"; "Year"] ;;
    Ok (Some shown)
  else Ok None.

Definition quality_checks (df : DataFrame) : result (DataFrame * list issue) :=
  let issues := [] in
  (* Check: Missing values *)
  let issues := issues ++ missing_issues df in
  (* Check: Expected number of counties per year *)
  counts <- pd.groupby_nunique df "Year" "County" ;;
  let issues := issues ++ county_issues counts in
  (* Check: Turnout percentages in range *)
  low <- low_turnout df ;;
  high <- high_turnout df ;;
  let issues := issues ++ low_issues low in
  (* the rows of [high] are printed, nothing is appended for them *)
  (* Check: Verify turnout calculation *)
  df <- with_calculated_turnout df ;;
  mism <- mismatches df ;;
  (* the first five rows of [mism] are printed, nothing is appended *)
  (* Clean up temporary columns *)
  df <- pd.drop df ["Calculated_Turnout"; "Turnout_Difference"] ;;
  (* Check: Duplicate records *)
  duplicates <- pd.duplicated df ["County"; "Year"] ;;
  _ <- dup_df df duplicates ;;
  let issues := issues ++ duplicate_issues duplicates in
  Ok (df, issues).

End clean_standardize.

(** ** temporal_matching.py *)

Module temporal_matching.

Section Parsers.

(** The two string parsers of the libraries are taken as they are: Python's
    [int(s)], with [None] where it raises [ValueError], and the reading
    of a string by [pd.to_numeric], with [NA] where it cannot be read. *)
Variable py_int : string -> option Z.
Variable str_to_numeric : string -> cell.

(** [pd.to_numeric(x, errors='coerce')] *)
Definition to_numeric (c : cell) : cell :=
  match c with
  | Str s => str_to_numeric s
  | other => other
  end.

(** [.astype(int)] on one cell. *)
Definition astype_int (c : cell) : result cell :=
  match c with
  | Str s =>
      match py_int s with
      | Some z => Ok (Num (inject_Z z))
      | None => Raise ValueError
      end
  | Num q => Ok (Num (inject_Z (Z.quot (Qnum q) (Zpos (Qden q)))))
  | NA | Inf _ => Raise ValueError
  end.

(** [.str.strip()], [.str.strip(q)] for the double-quote character [q],
    [.str.strip()] *)
Definition clean_geofips (s : string) : string :=
  Str.strip (Str.strip_chars (String (ascii_of_nat 34) EmptyString) (Str.strip s)).

Definition year_mapping : list (Z * string) :=
  [ (2016%Z, "2016"); (2018%Z, "2018"); (2020%Z, "2020");
    (2022%Z, "2022"); (2024%Z, "2023") ].

(** The body of one [try] block of [process_bea_temporal]: the county
    rows of a BEA table whose description contains [line], with the
    column [bea_year] under the name [name]; [None] when the table has
    no such column. The two blocks of the source differ in the file
    read, in [line] and in [name] only. *)
Definition bea_variable (table : result DataFrame)
           (line bea_year name : string) : result (option DataFrame) :=
  raw <- table ;;
  let df := raw in
  (* Clean and filter *)
  _ <- pd.str_accessor raw "GeoFIPS" ;;
  df <- pd.assign df "GeoFIPS_clean"
          (fun r => Ok (pd.str_map clean_geofips (pd.get r "GeoFIPS"))) ;;
  df <- pd.where_ df
          (fun r => Ok (pd.cell_eqb (pd.str_len (pd.get r "GeoFIPS_clean"))
                                    (Num (5 # 1)))) ;;
  df <- pd.where_ df (fun r => pd.str_startswith "12" (pd.get r "GeoFIPS_clean")) ;;
  df <- pd.where_ df
          (fun r => Ok (negb (pd.cell_eqb (pd.get r "GeoFIPS_clean") (Str "12000")))) ;;
  df <- pd.assign df "FIPS" (fun r => astype_int (pd.get r "GeoFIPS_clean")) ;;
  (* Filter for the description line *)
  _ <- pd.str_accessor raw "Description" ;;
  df <- pd.assign df "Description_clean"
          (fun r => Ok (pd.str_map Str.strip (pd.get r "Description"))) ;;
  df <- pd.where_ df
          (fun r => Ok (pd.str_contains_nocase line (pd.get r "Description_clean"))) ;;
  (* Extract year-specific data *)
  if pd.has_column df bea_year then
    df <- pd.select df ["FIPS"; bea_year] ;;
    let df := pd.rename df bea_year name in
    df <- pd.assign df name (fun r => Ok (to_numeric (pd.get r name))) ;;
    Ok (Some df)
  else Ok None.

Definition merge_if (year_data : DataFrame) (variable : option DataFrame)
  : result DataFrame :=
  match variable with
  | Some v => pd.merge_left year_data v "FIPS" "FIPS"
  | None => Ok year_data
  end.

(** One turn of the loop over [year_mapping]. *)
Definition year_frame (elections : DataFrame)
           (income_file gdp_file : result DataFrame)
           (election_year : Z) (bea_year : string) : result DataFrame :=
  (* Get elections for this year *)
  _ <- pd.require elections "Year" ;;
  year_elections <-
    pd.where_ elections
      (fun r => Ok (pd.cell_eqb (pd.get r "Year") (Num (inject_Z election_year)))) ;;
  let income :=
    try_except
      (bea_variable income_file "Per capita personal income" bea_year
                    "Per_Capita_Income") None in
  let gdp :=
    try_except
      (bea_variable gdp_file "All industry total" bea_year "GDP_Millions") None in
  (* Merge BEA data with elections for this year *)
  let year_data := year_elections in
  year_data <- merge_if year_data income ;;
  year_data <- merge_if year_data gdp ;;
  Ok year_data.

(** [process_bea_temporal(elections)] : the two arguments after
    [elections] are what reading the income file and the GDP file
    gives. *)
Definition process_bea_temporal (elections : DataFrame)
           (income_file gdp_file : result DataFrame) : result DataFrame :=
  all_bea_data <-
    mapM (fun m => year_frame elections income_file gdp_file (fst m) (snd m))
         year_mapping ;;
  (* Combine all years *)
  pd.concat all_bea_data.

End Parsers.

Definition categorize (code : cell) : option string :=
  if pd.isna code then None
  else if pd.mem code [Num (1 # 1); Num (2 # 1); Num (3 # 1)]
       then Some "Metropolitan"
  else if pd.mem code [Num (4 # 1); Num (5 # 1); Num (6 # 1); Num (7 # 1)]
       then Some "Micropolitan/Small Urban"
  else Some "Rural".

Definition rucc_descriptions : list (Z * string) :=
  [ (1%Z, "Metro - Large (1M+ pop)"); (2%Z, "Metro - Medium (250K-1M pop)");
    (3%Z, "Metro - Small (<250K pop)");
    (4%Z, "Nonmetro - Urban (20K+, adjacent to metro)");
    (5%Z, "Nonmetro - Urban (20K+, not adjacent)");
    (6%Z, "Nonmetro - Urban (2.5-20K, adjacent to metro)");
    (7%Z, "Nonmetro - Urban (2.5-20K, not adjacent)");
    (8%Z, "Nonmetro - Rural (<2.5K, adjacent to metro)");
    (9%Z, "Nonmetro - Rural (<2.5K, not adjacent)") ].

(** [s.map(d)] on one cell, for a dict [d] with integer keys: a number
    equal to a key gives its entry, anything else a missing value. *)
Definition map_dict (d : list (Z * string)) (c : cell) : cell :=
  match c with
  | Num q =>
      match find (fun kv => Qeq_bool q (inject_Z (fst kv))) d with
      | Some kv => Str (snd kv)
      | None => NA
      end
  | _ => NA
  end.

Section Codes.

(** The text [.astype(str)] writes for a number or a missing value, and
    the reading of a string by [pd.to_numeric]. *)
Variable repr : cell -> string.
Variable str_to_numeric : string -> cell.

(** [add_usda_codes(df)] : the second argument is what reading the USDA
    file gives. Whatever is raised is caught, and [df] returned. *)
Definition add_usda_codes (df : DataFrame) (USDA_FILE : result DataFrame) : DataFrame :=
  try_except
    (usda <- USDA_FILE ;;
     _ <- pd.require usda "FIPS" ;;
     usda <- pd.assign usda "State_FIPS"
               (fun r => Ok (Str (Str.take 2 (pd.astype_str repr (pd.get r "FIPS"))))) ;;
     florida_usda <-
       pd.where_ usda (fun r => Ok (pd.cell_eqb (pd.get r "State_FIPS") (Str "12"))) ;;
     (* Filter for RUCC attribute *)
     _ <- pd.require florida_usda "Attribute" ;;
     florida_rucc <-
       pd.where_ florida_usda
         (fun r => Ok (pd.cell_eqb (pd.get r "Attribute") (Str "RUCC_2023"))) ;;
     florida_rucc <- pd.select florida_rucc ["FIPS"; "Value"] ;;
     florida_rucc <- pd.set_columns florida_rucc ["FIPS"; "Rural_Urban_Code"] ;;
     florida_rucc <-
       pd.assign florida_rucc "Rural_Urban_Code"
         (fun r => Ok (to_numeric str_to_numeric (pd.get r "Rural_Urban_Code"))) ;;
     (* Add descriptions and categories *)
     florida_rucc <-
       pd.assign florida_rucc "Rural_Urban_Description"
         (fun r => Ok (map_dict rucc_descriptions (pd.get r "Rural_Urban_Code"))) ;;
     florida_rucc <-
       pd.assign florida_rucc "Urban_Rural_Category"
         (fun r => Ok (pd.of_option (categorize (pd.get r "Rural_Urban_Code")))) ;;
     (* Merge *)
     pd.merge_left df florida_rucc "FIPS" "FIPS")
    df.

End Codes.

End temporal_matching.

(** ** data_integration.py *)

Module data_integration.

(** [integrate_all_data(elections, census, bea)] : [None] stands for an
    enrichment table that could not be built. *)
Definition integrate_all_data (elections : DataFrame)
           (census bea : option DataFrame) : result DataFrame :=
  let integrated := elections in
  (* Add Census data *)
  integrated <-
    match census with
    | Some census => pd.merge_left integrated census "FIPS" "FIPS"
    | None => Ok integrated
    end ;;
  (* Add BEA data *)
  integrated <-
    match bea with
    | Some bea => pd.merge_left integrated bea "FIPS" "FIPS"
    | None => Ok integrated
    end ;;
  Ok integrated.

(** [max(year_cols)] for [year_cols = [col for col in columns if
    col.isdigit()]] : the greatest label in the order of strings, the first
    one of them; [ValueError] when no label is made of digits. *)
Definition latest_year (cols : list string) : result string :=
  match filter Str.isdigit_latin1 cols with
  | [] => Raise ValueError
  | c :: year_cols =>
      Ok (fold_left Str.greater year_cols c)
  end.

Section Parsers.

Variable py_int : string -> option Z.
Variable str_to_numeric : string -> cell.

(** The body of one [try] block of [process_bea_data]: the county rows
    of a BEA table whose description contains [line], with the column of
    the latest year under the name [name]. The three blocks of the source
    differ in the file read, in [line] and in [name] only. *)
Definition bea_latest (table : result DataFrame) (line name : string)
  : result DataFrame :=
  raw <- table ;;
  let df := raw in
  (* Clean GeoFIPS - remove quotes and spaces *)
  _ <- pd.str_accessor raw "GeoFIPS" ;;
  df <- pd.assign df "GeoFIPS_clean"
          (fun r => Ok (pd.str_map temporal_matching.clean_geofips (pd.get r "GeoFIPS"))) ;;
  (* Filter for Florida counties *)
  df <- pd.where_ df
          (fun r => Ok (pd.cell_eqb (pd.str_len (pd.get r "GeoFIPS_clean"))
                                    (Num (5 # 1)))) ;;
  df <- pd.where_ df (fun r => pd.str_startswith "12" (pd.get r "GeoFIPS_clean")) ;;
  df <- pd.where_ df
          (fun r => Ok (negb (pd.cell_eqb (pd.get r "GeoFIPS_clean") (Str "12000")))) ;;
  df <- pd.assign df "FIPS"
          (fun r => temporal_matching.astype_int py_int (pd.get r "GeoFIPS_clean")) ;;
  (* Get most recent year available *)
  latest <- latest_year (columns df) ;;
  (* Filter for the description line *)
  _ <- pd.str_accessor raw "Description" ;;
  df <- pd.assign df "Description_clean"
          (fun r => Ok (pd.str_map Str.strip (pd.get r "Description"))) ;;
  df <- pd.where_ df
          (fun r => Ok (pd.str_contains_nocase line (pd.get r "Description_clean"))) ;;
  df <- pd.select df ["FIPS"; latest] ;;
  let df := pd.rename df latest name in
  df <- pd.assign df name
          (fun r => Ok (temporal_matching.to_numeric str_to_numeric (pd.get r name))) ;;
  Ok df.

(** [left.merge(right, on='FIPS', how='outer')] *)
Variable merge_outer : DataFrame -> DataFrame -> result DataFrame.

(** One turn of the loop over the keys of [bea_dfs]. *)
Definition merge_key (bea_combined : option DataFrame) (entry : option DataFrame)
  : result (option DataFrame) :=
  match entry with
  | Some d =>
      match bea_combined with
      | Some c => m <- merge_outer c d ;; Ok (Some m)
      | None => Ok (Some d)
      end
  | None => Ok bea_combined
  end.

(** [process_bea_data] : an entry of [bea_dfs] is [None] when the key is
    not in the dictionary. *)
Definition process_bea_data (income_file gdp_file emp_file : result DataFrame)
  : result (option DataFrame) :=
  (* Personal Income (CAINC1) *)
  let income :=
    try_except
      (d <- bea_latest income_file "Per capita personal income" "Per_Capita_Income" ;;
       Ok (Some d)) None in
  (* GDP (CAGDP2) *)
  let gdp :=
    try_except
      (d <- bea_latest gdp_file "All industry total" "GDP_Millions" ;; Ok (Some d))
      None in
  (* Employment (CAINC4) *)
  let employment :=
    try_except
      (d <- bea_latest emp_file "Total employment" "Total_Employment" ;; Ok (Some d))
      None in
  (* Combine BEA data *)
  match income, gdp, employment with
  | None, None, None => Ok None
  | _, _, _ =>
      let bea_combined := income in
      bea_combined <- merge_key bea_combined gdp ;;
      bea_combined <- merge_key bea_combined employment ;;
      Ok bea_combined
  end.

End Parsers.

End data_integration.

(** ** add_usda_codes.py *)

Module add_usda_codes.

Definition categorize (code : cell) : option string :=
  if pd.isna code then None
  else if pd.mem code [Num (1 # 1); Num (2 # 1); Num (3 # 1)]
       then Some "Metropolitan"
  else if pd.mem code [Num (4 # 1); Num (5 # 1); Num (6 # 1); Num (7 # 1)]
       then Some "Micropolitan/Small Urban"
  else (* 8, 9 *) Some "Rural".

Definition rucc_descriptions : list (Z * string) :=
  [ (1%Z, "Metro - Large (1M+ pop)");
    (2%Z, "Metro - Medium (250K-1M pop)");
    (3%Z, "Metro - Small (<250K pop)");
    (4%Z, "Nonmetro - Urban (20K+, adjacent to metro)");
    (5%Z, "Nonmetro - Urban (20K+, not adjacent)");
    (6%Z, "Nonmetro - Urban (2.5-20K, adjacent to metro)");
    (7%Z, "Nonmetro - Urban (2.5-20K, not adjacent)");
    (8%Z, "Nonmetro - Rural (<2.5K, adjacent to metro)");
    (9%Z, "Nonmetro - Rural (<2.5K, not adjacent)") ].

(** ['RUCC' in str(attr)] : the text of a number or of a missing value
    holds no letter R. *)
Definition is_rucc_attribute (attr : cell) : bool :=
  match attr with
  | Str s => Str.contains "RUCC" s
  | _ => false
  end.

Definition is_rucc_column (col : string) : bool := Str.contains "RUCC" (Str.upper col).

Definition is_county_column (col : string) : bool :=
  Str.contains "county" (Str.lower col) || Str.contains "name" (Str.lower col).

Section Codes.

Variable repr : cell -> string.
Variable str_to_numeric : string -> cell.

(** [process_usda_codes(usda)] : [None] when no RUCC attribute or column
    is found. *)
Definition process_usda_codes (usda : DataFrame) : result (option DataFrame) :=
  (* Filter for Florida (state FIPS = 12) *)
  _ <- pd.require usda "FIPS" ;;
  usda <- pd.assign usda "State_FIPS"
            (fun r => Ok (Str (Str.take 2 (pd.astype_str repr (pd.get r "FIPS"))))) ;;
  florida_usda <-
    pd.where_ usda (fun r => Ok (pd.cell_eqb (pd.get r "State_FIPS") (Str "12"))) ;;
  florida_rucc <-
    (if pd.has_column florida_usda "Attribute" && pd.has_column florida_usda "Value"
     then
       (* long format *)
       attributes <- pd.column florida_usda "Attribute" ;;
       match filter is_rucc_attribute (pd.unique attributes) with
       | rucc_attr :: _ =>
           florida_rucc <-
             pd.where_ florida_usda
               (fun r => Ok (pd.cell_eqb (pd.get r "Attribute") rucc_attr)) ;;
           florida_rucc <- pd.select florida_rucc ["FIPS"; "County_Name"; "Value"] ;;
           florida_rucc <-
             pd.set_columns florida_rucc ["FIPS"; "USDA_County_Name"; "Rural_Urban_Code"] ;;
           florida_rucc <-
             pd.assign florida_rucc "Rural_Urban_Code"
               (fun r => Ok (temporal_matching.to_numeric str_to_numeric
                               (pd.get r "Rural_Urban_Code"))) ;;
           Ok (Some florida_rucc)
       | [] => Ok None
       end
     else
       (* wide format *)
       match filter is_rucc_column (columns florida_usda) with
       | rucc_col :: _ =>
           let county_col :=
             match filter is_county_column (columns florida_usda) with
             | c :: _ => c
             | [] => "County_Name"
             end in
           florida_rucc <- pd.select florida_usda ["FIPS"; rucc_col; county_col] ;;
           florida_rucc <-
             pd.set_columns florida_rucc ["FIPS"; "Rural_Urban_Code"; "USDA_County_Name"] ;;
           Ok (Some florida_rucc)
       | [] => Ok None
       end) ;;
  match florida_rucc with
  | None => Ok None
  | Some florida_rucc =>
      (* Add categorical descriptions *)
      florida_rucc <-
        pd.assign florida_rucc "Rural_Urban_Description"
          (fun r => Ok (temporal_matching.map_dict rucc_descriptions
                          (pd.get r "Rural_Urban_Code"))) ;;
      (* Create simplified categories *)
      florida_rucc <-
        pd.assign florida_rucc "Urban_Rural_Category"
          (fun r => Ok (pd.of_option (categorize (pd.get r "Rural_Urban_Code")))) ;;
      out <- pd.select florida_rucc
               ["FIPS"; "Rural_Urban_Code"; "Rural_Urban_Description";
                "Urban_Rural_Category"] ;;
      Ok (Some out)
  end.

End Codes.

(** [integrate_usda(master, usda_codes)] : the unmatched records are
    looked up for printing, their counties only when there are some. *)
Definition integrate_usda (master : DataFrame) (usda_codes : option DataFrame)
  : result DataFrame :=
  match usda_codes with
  | None => Raise TypeError
  | Some usda_codes =>
      integrated <- pd.merge_left master usda_codes "FIPS" "FIPS" ;;
      (* Check for unmatched *)
      _ <- pd.require integrated "Rural_Urban_Code" ;;
      let unmatched :=
        filter (fun r => pd.isna (pd.get r "Rural_Urban_Code")) (rows integrated) in
      _ <- match unmatched with
           | [] => Ok tt
           | _ => pd.require integrated "County"
           end ;;
      Ok integrated
  end.

End add_usda_codes.

(** ** combine_elections_script.py *)

Module combine_elections_script.

(** Files to combine *)
Definition years : list Z := [2016; 2018; 2020; 2022; 2024]%Z.

(** The loop over [years]: [files year] is [None] when there is no file
    for the year, and else the table read or the failure of [read_csv]. *)
Definition read_files (files : Z -> option (result DataFrame)) : list DataFrame :=
  fold_left (fun dataframes year =>
               match files year with
               | Some (Ok df) => dataframes ++ [df]
               | Some (Raise _) => dataframes
               | None => dataframes
               end)
            years [].

(** [combine_election_data] : the table handed to [to_csv], or [None]
    when the function returns before. [INPUT_DIR] is [None] when the
    directory does not exist, and else its files by year; [input_] is what
    the call of [input] gives, a line or its failure at the end of the
    input; [mkdir] is what [OUTPUT_DIR.mkdir] gives. The summary by year is
    printed only. *)
Definition combine_election_data
           (INPUT_DIR : option (Z -> option (result DataFrame)))
           (input_ : result string) (mkdir : result unit)
  : result (option DataFrame) :=
  match INPUT_DIR with
  | None =>
      (* Check if input directory exists *)
      _ <- input_ ;;
      Ok None
  | Some files =>
      let dataframes := read_files files in
      match dataframes with
      | [] => Ok None
      | _ =>
          (* Combine all years *)
          match pd.concat dataframes with
          | Raise _ => Ok None
          | Ok combined =>
              combined <- pd.sort_values combined ["County"; "Year"] ;;
              (* Create output directory *)
              match mkdir with
              | Raise _ => Ok None
              | Ok _ => Ok (Some combined)
              end
          end
      end
  end.

End combine_elections_script.

(** ** Sample tables *)

Module Samples.

Definition election_columns : list string :=
  ["County"; "Year"; "Election_Date"; "Registered_Voters"; "Votes_Cast";
   "Turnout_Percent"].

Definition election_row (county : string) (year registered votes : Z) (turnout : Q)
  : row :=
  [ ("County", Str county); ("Year", Num (inject_Z year));
    ("Election_Date", Str "11/03/2020");
    ("Registered_Voters", Num (inject_Z registered));
    ("Votes_Cast", Num (inject_Z votes));
    ("Turnout_Percent", Num turnout) ].

Definition county_name (i : nat) : string := "County " ++ Str.of_nat i.

(** [n] counties of the year 2020, each with 700 votes of 1000 registered
    voters and a reported turnout of 70.0. *)
Definition counties (n : nat) : list row :=
  map (fun i => election_row (county_name i) 2020 1000 700 (70 # 1)) (seq 1 n).

Definition table (rs : list row) : DataFrame := mkDF election_columns rs.

Definition empty_table : DataFrame := table [].

Definition full_2020 : DataFrame := table (counties 67).

(** 66 counties only. *)
Definition short_2020 : DataFrame := table (counties 66).

(** 67 counties, the last one reporting a turnout of 96.0 (960 of 1000). *)
Definition high_row : row := election_row (county_name 67) 2020 1000 960 (96 # 1).
Definition high_2020 : DataFrame := table (counties 66 ++ [high_row]).

(** 67 counties, the last one reporting a turnout of 20.0 (200 of 1000). *)
Definition low_row : row := election_row (county_name 67) 2020 1000 200 (20 # 1).
Definition low_2020 : DataFrame := table (counties 66 ++ [low_row]).

(** 67 counties, the last one reporting 75.0 for 700 votes of 1000. *)
Definition mismatch_row : row := election_row (county_name 67) 2020 1000 700 (75 # 1).
Definition mismatch_2020 : DataFrame := table (counties 66 ++ [mismatch_row]).

(** The two one-row tables of the recomputation example. *)
Definition reported_70 : DataFrame :=
  table [election_row "Alachua" 2020 1000 700 (70 # 1)].
Definition reported_75 : DataFrame :=
  table [election_row "Alachua" 2020 1000 700 (75 # 1)].

Definition helper_columns : list string := ["Calculated_Turnout"; "Turnout_Difference"].

(** A row as the turnout verification sees it. *)
Definition with_helpers (r : row) (calculated difference : Q) : row :=
  r ++ [("Calculated_Turnout", Num calculated); ("Turnout_Difference", Num difference)].

(** A reference table and raw election rows for key resolution. *)
Definition fips_reference : DataFrame :=
  mkDF ["FIPS"; "County_Name"; "State"]
       [ [("FIPS", Num (12001 # 1)); ("County_Name", Str "Alachua"); ("State", Str "FL")];
         [("FIPS", Num (12109 # 1)); ("County_Name", Str "St. Johns"); ("State", Str "FL")] ].

Definition raw_elections : DataFrame :=
  table [ election_row "Alachua" 2020 1000 700 (70 # 1);
          election_row "  Saint Johns " 2020 1000 700 (70 # 1);
          election_row "Atlantis" 2020 1000 700 (70 # 1) ].

(** Elections with keys, and two enrichment tables. *)
Definition keyed_row (fips : Z) (county : string) (year : Z) : row :=
  ("FIPS", Num (inject_Z fips)) :: election_row county year 1000 700 (70 # 1).

Definition keyed_elections : DataFrame :=
  mkDF ("FIPS" :: election_columns)
       [ keyed_row 12001 "Alachua" 2020;
         keyed_row 12003 "Baker" 2020;
         keyed_row 12001 "Alachua" 2024 ].

Definition census_table : DataFrame :=
  mkDF ["FIPS"; "Total_Population"]
       [ [("FIPS", Num (12001 # 1)); ("Total_Population", Num (278468 # 1))];
         [("FIPS", Num (12003 # 1)); ("Total_Population", Num (28259 # 1))] ].

(** The key 12001 occurs twice. *)
Definition bea_table_dup : DataFrame :=
  mkDF ["FIPS"; "Per_Capita_Income"]
       [ [("FIPS", Num (12001 # 1)); ("Per_Capita_Income", Num (50000 # 1))];
         [("FIPS", Num (12001 # 1)); ("Per_Capita_Income", Num (51000 # 1))] ].

Definition bea_table : DataFrame :=
  mkDF ["FIPS"; "Per_Capita_Income"]
       [ [("FIPS", Num (12001 # 1)); ("Per_Capita_Income", Num (50000 # 1))] ].

(** A wide BEA table with the year columns 2022 and 2023. *)
Definition bea_row (geofips description v2022 v2023 : string) : row :=
  [ ("GeoFIPS", Str geofips); ("Description", Str description);
    ("2022", Str v2022); ("2023", Str v2023) ].

Definition quoted (s : string) : string :=
  String (ascii_of_nat 34) (s ++ String (ascii_of_nat 34) EmptyString).

Definition income_table : DataFrame :=
  mkDF ["GeoFIPS"; "Description"; "2022"; "2023"]
       [ bea_row (" " ++ quoted "12000") "Per capita personal income (dollars) 2/" "60000" "63000";
         bea_row (" " ++ quoted "12001") "Personal income (thousands of dollars)" "14000000" "15000000";
         bea_row (" " ++ quoted "12001") "Per capita personal income (dollars) 2/" "50000" "53000";
         bea_row (" " ++ quoted "12003") "Per capita personal income (dollars) 2/" "(D)" "41000" ].

(** [raw_elections] after [standardize_county_names]. *)
Definition standardized_elections : DataFrame :=
  mkDF (election_columns ++ ["County_Original"])
       [ election_row "Alachua" 2020 1000 700 (70 # 1)
           ++ [("County_Original", Str "Alachua")];
         election_row "St. Johns" 2020 1000 700 (70 # 1)
           ++ [("County_Original", Str "  Saint Johns ")];
         election_row "Atlantis" 2020 1000 700 (70 # 1)
           ++ [("County_Original", Str "Atlantis")] ].

(** Election records of 2022 and 2024 with their keys. *)
Definition aligned_elections : DataFrame :=
  mkDF ("FIPS" :: election_columns)
       [ keyed_row 12001 "Alachua" 2022;
         keyed_row 12001 "Alachua" 2024;
         keyed_row 12003 "Baker" 2024 ].





(** The files of a directory: tables for 2020 and 2024, a file for 2022
    that cannot be read, and no file for 2016 and 2018. *)
Definition election_files (year : Z) : option (result DataFrame) :=
  if (year =? 2020)%Z then Some (Ok raw_elections)
  else if (year =? 2022)%Z then Some (Raise ValueError)
  else if (year =? 2024)%Z then Some (Ok aligned_elections)
  else None.

(** The text of a cell that is not a string, for cells that hold a
    natural number or nothing. *)
Definition repr_number (c : cell) : string :=
  match c with
  | Num q => Str.of_nat (Z.to_nat (Qnum q / Zpos (Qden q)))
  | NA => "nan"
  | Inf true => "-inf"
  | Inf false => "inf"
  | Str s => s
  end.

(** A USDA table in the long format, and one in the wide format. *)
Definition usda_row (fips : Z) (county attribute value : string) : row :=
  [ ("FIPS", Num (inject_Z fips)); ("State", Str "FL"); ("County_Name", Str county);
    ("Attribute", Str attribute); ("Value", Str value) ].

Definition usda_long : DataFrame :=
  mkDF ["FIPS"; "State"; "County_Name"; "Attribute"; "Value"]
       [ usda_row 1001 "Autauga County" "RUCC_2023" "2";
         usda_row 12001 "Alachua County" "Population_2020" "278468";
         usda_row 12001 "Alachua County" "RUCC_2023" "2";
         usda_row 12003 "Baker County" "RUCC_2023" "8";
         usda_row 12003 "Baker County" "RUCC_2013" "6" ].

Definition usda_wide : DataFrame :=
  mkDF ["FIPS"; "County_Name"; "RUCC_2023"]
       [ [("FIPS", Num (1001 # 1)); ("County_Name", Str "Autauga County");
          ("RUCC_2023", Num (2 # 1))];
         [("FIPS", Num (12001 # 1)); ("County_Name", Str "Alachua County");
          ("RUCC_2023", Num (2 # 1))];
         [("FIPS", Num (12003 # 1)); ("County_Name", Str "Baker County");
          ("RUCC_2023", Num (8 # 1))] ].

(** The codes both tables give. *)
Definition usda_codes : DataFrame :=
  mkDF ["FIPS"; "Rural_Urban_Code"; "Rural_Urban_Description"; "Urban_Rural_Category"]
       [ [("FIPS", Num (12001 # 1)); ("Rural_Urban_Code", Num (2 # 1));
          ("Rural_Urban_Description", Str "Metro - Medium (250K-1M pop)");
          ("Urban_Rural_Category", Str "Metropolitan")];
         [("FIPS", Num (12003 # 1)); ("Rural_Urban_Code", Num (8 # 1));
          ("Rural_Urban_Description", Str "Nonmetro - Rural (<2.5K, adjacent to metro)");
          ("Urban_Rural_Category", Str "Rural")] ].

Definition digit_value (c : ascii) : Z := Z.of_nat (Str.code c - 48).

Definition decimal_value (s : string) : Z :=
  fold_left (fun acc c => (10 * acc + digit_value c)%Z) (list_ascii_of_string s) 0%Z.

(** Parsers for plain runs of decimal digits, on which [int] and
    [pd.to_numeric] agree with the obvious reading. *)
Definition int_of_digits (s : string) : option Z :=
  if Str.isdigit s then Some (decimal_value s) else None.

Definition numeric_of_digits (s : string) : cell :=
  if Str.isdigit s then Num (inject_Z (decimal_value s)) else NA.

(** Four records of 2020: one without a date and with a turnout of 20.0,
    one without a reported turnout, and one that occurs twice. *)
Definition flawed : DataFrame :=
  table [ election_row "Alachua" 2020 1000 700 (70 # 1);
          [ ("County", Str "Baker"); ("Year", Num (2020 # 1)); ("Election_Date", NA);
            ("Registered_Voters", Num (1000 # 1)); ("Votes_Cast", Num (200 # 1));
            ("Turnout_Percent", Num (20 # 1)) ];
          [ ("County", Str "Clay"); ("Year", Num (2020 # 1));
            ("Election_Date", Str "11/03/2020");
            ("Registered_Voters", Num (1000 # 1)); ("Votes_Cast", Num (700 # 1));
            ("Turnout_Percent", NA) ];
          election_row "Alachua" 2020 1000 700 (70 # 1) ].

Definition flawed_issues : list clean_standardize.issue :=
  [ clean_standardize.MissingValues "Election_Date" 1;
    clean_standardize.MissingValues "Turnout_Percent" 1;
    clean_standardize.CountyCount (Num (2020 # 1)) 3;
    clean_standardize.LowTurnout (Str "Baker") (Num (2020 # 1)) (Num (20 # 1));
    clean_standardize.DuplicateRecords 2 ].

End Samples.

(** ** Vocabulary of the statements *)

(** The values of the alias table. *)
Definition canonical_names : list string :=
  ["St. Johns"; "St. Lucie"; "Miami-Dade"; "Desoto"].

(** What [standardize_county_names] leaves in a cell of the County column. *)
Definition normalize_cell (c : cell) : cell :=
  pd.replace clean_standardize.name_fixes (pd.str_map Str.strip c).

Definition county_column (df : DataFrame) : list cell :=
  map (fun r => pd.get r "County") (rows df).

(** The cell [code] is the number [k]. *)
Definition is_code (code : cell) (k : Z) : Prop :=
  exists q, code = Num q /\ Qeq q (inject_Z k).

(** The row [standardize_county_names] makes of a row. *)
Definition standardized_row (r : row) : row :=
  let r := pd.set r "County_Original" (pd.get r "County") in
  let r := pd.set r "County" (pd.str_map Str.strip (pd.get r "County")) in
  pd.set r "County" (pd.replace clean_standardize.name_fixes (pd.get r "County")).

(** Equality of cell values, as a relation. *)
Definition cell_eq (a b : cell) : Prop := pd.cell_eqb a b = true.

Definition year_of (r : row) : cell := pd.get r "Year".
Definition county_of (r : row) : cell := pd.get r "County".

(** [cs] lists, without repetition, the counties named on the rows of [df]
    whose year is [y]. *)
Definition enumerates_counties (df : DataFrame) (y : cell) (cs : list cell) : Prop :=
  NoDupA cell_eq cs /\
  forall c, InA cell_eq c cs <->
            c <> NA /\
            exists r, In r (rows df) /\ cell_eq (year_of r) y /\ cell_eq (county_of r) c.

(** The issue is a county-count issue naming the year [y]. *)
Definition names_year (y : cell) (i : clean_standardize.issue) : bool :=
  match i with
  | clean_standardize.CountyCount k _ => pd.cell_eqb k y
  | _ => false
  end.

(** The typed election table of the data model: the columns the checks read
    are there, counties are text, years and counts are numbers, and any
    cell may be missing. *)
Definition text_or_missing (c : cell) : bool :=
  match c with Str _ | NA => true | _ => false end.

Definition number_or_missing (c : cell) : bool := negb (pd.is_str c).

Definition election_row_ok (r : row) : bool :=
  text_or_missing (pd.get r "County")
  && number_or_missing (pd.get r "Year")
  && number_or_missing (pd.get r "Registered_Voters")
  && number_or_missing (pd.get r "Votes_Cast")
  && number_or_missing (pd.get r "Turnout_Percent").

Definition election_schema (df : DataFrame) : bool :=
  forallb (pd.has_column df)
          ["County"; "Year"; "Registered_Voters"; "Votes_Cast"; "Turnout_Percent"]
  && forallb election_row_ok (rows df).

(** The value of a computation that does not raise. *)
Definition value_of (m : result cell) : cell :=
  match m with Ok v => v | Raise _ => NA end.

Definition truth_of (m : result bool) : bool :=
  match m with Ok b => b | Raise _ => false end.

(** The helper cells of the turnout verification, for rows on which the
    arithmetic does not raise. *)
Definition calculated (r : row) : cell :=
  value_of (ratio <- pd.div (pd.get r "Votes_Cast") (pd.get r "Registered_Voters") ;;
            percent <- pd.mul_scalar ratio (100 # 1) ;;
            pd.round1 percent).

Definition difference (r : row) : cell :=
  value_of (d <- pd.sub (pd.get r "Calculated_Turnout") (pd.get r "Turnout_Percent") ;;
            pd.abs d).

Definition helper_row (r : row) : row :=
  let r := pd.set r "Calculated_Turnout" (calculated r) in
  pd.set r "Turnout_Difference" (difference r).

(** The rows a left join makes of the left row [l]. *)
Definition joined_rows (L R : DataFrame) (left_on right_on : string) (l : row)
  : list row :=
  let rl := pd.right_labels R left_on right_on in
  let overlap := filter (fun c => pd.in_labels c rl) (columns L) in
  match pd.matches R left_on right_on l with
  | [] => [pd.left_part L overlap l ++ pd.right_part rl overlap None]
  | ms => map (fun r => pd.left_part L overlap l ++ pd.right_part rl overlap (Some r)) ms
  end.



(** No two rows of [R] have the same key. *)
Definition unique_key (R : DataFrame) (key : string) : Prop :=
  NoDupA cell_eq (map (fun r => pd.get r key) (rows R)).

Definition has_key (R : option DataFrame) (key : string) : Prop :=
  match R with Some R => In key (columns R) | None => True end.


(** The columns an election table brings to key resolution. *)
Definition raw_election_columns : list string :=
  ["County"; "Year"; "Election_Date"; "Registered_Voters"; "Votes_Cast";
   "Turnout_Percent"].

(** The output row [o] is the election row [e] with a FIPS cell. *)
Definition extends (out : DataFrame) (e o : row) : Prop :=
  forall c, In c (columns out) -> c <> "FIPS" -> pd.get o c = pd.get e c.

(** The FIPS cell of [o] is missing or comes from a reference row of the
    same county name. *)
Definition resolved (fips_df : DataFrame) (o : row) : Prop :=
  pd.get o "FIPS" = NA \/
  exists f, In f (rows fips_df) /\
            cell_eq (pd.get o "County") (pd.get f "County_Name") /\
            pd.get o "FIPS" = pd.get f "FIPS".

(** A column is text: it has no cell, or a string cell. *)
Definition text_column (df : DataFrame) (c : string) : Prop :=
  rows df = [] \/ existsb pd.is_str (map (fun r => pd.get r c) (rows df)) = true.

(** The cleaned GeoFIPS [g] names a county of the state 12. *)
Definition county_code (g : string) : Prop :=
  String.length g = 5 /\ Str.startswith "12" g = true /\ g <> "12000".

(** The row [s] of a BEA table is the line [line] of the county [fips]. *)
Definition county_line (py_int : string -> option Z) (line : string)
           (s : row) (fips : Z) : Prop :=
  exists g d,
    pd.get s "GeoFIPS" = Str g /\
    county_code (temporal_matching.clean_geofips g) /\
    py_int (temporal_matching.clean_geofips g) = Some fips /\
    pd.get s "Description" = Str d /\
    Str.contains_nocase line (Str.strip d) = true.

(** A BEA table the extraction goes through: the columns it reads are there
    and are text, and the county codes are numerals for [int]. *)
Definition readable_bea_table (py_int : string -> option Z) (df : DataFrame) : Prop :=
  In "GeoFIPS" (columns df) /\ In "Description" (columns df) /\
  text_column df "GeoFIPS" /\ text_column df "Description" /\
  forall r g, In r (rows df) -> pd.get r "GeoFIPS" = Str g ->
              county_code (temporal_matching.clean_geofips g) ->
              exists z, py_int (temporal_matching.clean_geofips g) = Some z.

(** A year label is not the name of a column the extraction adds. *)
Definition year_label (y : string) : Prop :=
  y <> "FIPS" /\ y <> "GeoFIPS_clean" /\ y <> "Description_clean".

(** The row the extraction makes of a county line. *)
Definition variable_row (str_to_numeric : string -> cell)
           (name bea_year : string) (s : row) (fips : Z) : row :=
  [ ("FIPS", Num (inject_Z fips));
    (name, temporal_matching.to_numeric str_to_numeric (pd.get s bea_year)) ].

(** The steps of the extraction, row by row. *)
Definition clean_row (r : row) : row :=
  pd.set r "GeoFIPS_clean"
         (pd.str_map temporal_matching.clean_geofips (pd.get r "GeoFIPS")).

Definition is_county_row (r : row) : bool :=
  pd.cell_eqb (pd.str_len (pd.get r "GeoFIPS_clean")) (Num (5 # 1))
  && (truth_of (pd.str_startswith "12" (pd.get r "GeoFIPS_clean"))
      && negb (pd.cell_eqb (pd.get r "GeoFIPS_clean") (Str "12000"))).

Definition fips_row (py_int : string -> option Z) (r : row) : row :=
  pd.set r "FIPS"
         (value_of (temporal_matching.astype_int py_int (pd.get r "GeoFIPS_clean"))).

Definition description_row (r : row) : row :=
  pd.set r "Description_clean" (pd.str_map Str.strip (pd.get r "Description")).

Definition is_line_row (line : string) (r : row) : bool :=
  pd.str_contains_nocase line (pd.get r "Description_clean").

Definition renamed_row (bea_year name : string) (r : row) : row :=
  map (fun kv => (pd.rename_label bea_year name (fst kv), snd kv))
      (pd.select_row ["FIPS"; bea_year] r).

Definition extracted_row (str_to_numeric : string -> cell)
           (bea_year name : string) (r : row) : row :=
  pd.set (renamed_row bea_year name r) name
         (temporal_matching.to_numeric str_to_numeric
            (pd.get (renamed_row bea_year name r) name)).

Definition extracted_rows (py_int : string -> option Z) (str_to_numeric : string -> cell)
           (line bea_year name : string) (df : DataFrame) : list row :=
  map (extracted_row str_to_numeric bea_year name)
      (filter (is_line_row line)
              (map description_row
                   (map (fips_row py_int)
                        (filter is_county_row (map clean_row (rows df)))))).

Definition working_columns (df : DataFrame) : list string :=
  pd.add_label (pd.add_label (pd.add_label (columns df) "GeoFIPS_clean") "FIPS")
               "Description_clean".

(** [o] carries the cells of [l] under the labels [cols]. *)
Definition agrees (cols : list string) (o l : row) : Prop :=
  forall c, In c cols -> pd.get o c = pd.get l c.

(** The cell [v] of [o] is missing or the cell [v] of a row of [R] with the
    FIPS key of [l]. *)
Definition attached (R : option DataFrame) (v : string) (l o : row) : Prop :=
  match R with
  | None => True
  | Some R =>
      pd.get o v = NA \/
      exists r, In r (rows R) /\ cell_eq (pd.get l "FIPS") (pd.get r "FIPS") /\
                pd.get o v = pd.get r v
  end.

Definition new_column (R : option DataFrame) (v : string) : list string :=
  match R with Some _ => [v] | None => [] end.

(** The two variables of one turn of the loop. *)
Definition income_of (py_int : string -> option Z) (str_to_numeric : string -> cell)
           (income_file : result DataFrame) (bea_year : string) : option DataFrame :=
  try_except
    (temporal_matching.bea_variable py_int str_to_numeric income_file
       "Per capita personal income" bea_year "Per_Capita_Income") None.

Definition gdp_of (py_int : string -> option Z) (str_to_numeric : string -> cell)
           (gdp_file : result DataFrame) (bea_year : string) : option DataFrame :=
  try_except
    (temporal_matching.bea_variable py_int str_to_numeric gdp_file
       "All industry total" bea_year "GDP_Millions") None.

(** An election table ready for the BEA columns. *)
Definition keyed_election_table (elections : DataFrame) : Prop :=
  In "FIPS" (columns elections) /\ In "Year" (columns elections) /\
  ~ In "Per_Capita_Income" (columns elections) /\
  ~ In "GDP_Millions" (columns elections).

(** The row [pd.concat] makes of the row [r] of the frame [df]. *)
Definition concat_row (cols : list string) (df : DataFrame) (r : row) : row :=
  map (fun c => (c, if pd.has_column df c then pd.get r c else NA)) cols.

Definition PCI_line : string := "Per capita personal income".

(** The kinds of entries of the issue list. *)
Definition is_missing_issue (i : clean_standardize.issue) : bool :=
  match i with clean_standardize.MissingValues _ _ => true | _ => false end.

Definition is_low_issue (i : clean_standardize.issue) : bool :=
  match i with clean_standardize.LowTurnout _ _ _ => true | _ => false end.

Definition is_duplicate_issue (i : clean_standardize.issue) : bool :=
  match i with clean_standardize.DuplicateRecords _ => true | _ => false end.

(** The row reports a turnout below 30. *)
Definition below_30 (r : row) : bool :=
  truth_of (pd.lt_scalar (pd.get r "Turnout_Percent") (30 # 1)).

(** The entry the low-turnout check formats from a row. *)
Definition low_issue_of (r : row) : clean_standardize.issue :=
  clean_standardize.LowTurnout (pd.get r "County") (pd.get r "Year")
                               (pd.get r "Turnout_Percent").

(** The number of rows of [df] with the county and the year of [r]. *)
Definition key_count (df : DataFrame) (r : row) : nat :=
  List.length (filter (pd.same_key ["County"; "Year"] r) (rows df)).

(** The rows whose county and year occur on more than one row. *)
Definition duplicate_rows (df : DataFrame) : list row :=
  filter (fun r => 2 <=? key_count df r) (rows df).

(** Every row carries the labels of the frame, in order. *)
Definition well_formed (df : DataFrame) : Prop :=
  forall r, In r (rows df) -> map fst r = columns df.

Definition helper_names : list string := ["Calculated_Turnout"; "Turnout_Difference"].

(** The two reference columns the resolver joins with. *)
Definition reference_table (fips_df : DataFrame) : DataFrame :=
  mkDF ["FIPS"; "County_Name"]
       (map (pd.select_row ["FIPS"; "County_Name"]) (rows fips_df)).

(** The columns of a resolved table, for the election table it is made of. *)
Definition resolved_columns (elections : DataFrame) : list string :=
  if pd.has_column elections "County_Original"
  then clean_standardize.fips_columns_with_original
  else clean_standardize.fips_columns.

(** The resolved row of the joined row [m]. *)
Definition resolved_row (elections : DataFrame) (m : row) : row :=
  pd.select_row (resolved_columns elections) (pd.drop_row ["County_Name"] m).

(** The FIPS cell of [o] is the one the reference table gives for the
    county of [e]: the cell of every reference row of that name, and a
    missing value when there is no such row. *)
Definition key_of (fips_df : DataFrame) (e o : row) : Prop :=
  (forall f, In f (rows fips_df) ->
             cell_eq (pd.get e "County") (pd.get f "County_Name") ->
             pd.get o "FIPS" = pd.get f "FIPS") /\
  ((forall f, In f (rows fips_df) ->
              ~ cell_eq (pd.get e "County") (pd.get f "County_Name")) ->
   pd.get o "FIPS" = NA).

(** The key columns of a join hold values of one kind: pandas refuses to
    join a column of numbers with a column of strings. A key column of
    numbers holds no string. *)
Definition numeric_key (df : DataFrame) (key : string) : Prop :=
  forall r, In r (rows df) -> pd.is_str (pd.get r key) = false.

(** A BEA file the extraction cannot use: it could not be read, or the
    table lacks one of the two columns every extraction reads. *)
Definition unusable (file : result DataFrame) : Prop :=
  match file with
  | Raise _ => True
  | Ok t => ~ In "GeoFIPS" (columns t) \/ ~ In "Description" (columns t)
  end.

Definition GDP_line : string := "All industry total".

(** The column [name] of [combined] is aligned with the column of [table]
    that the entry [m] of the year mapping names: every election record
    of the year of [m] whose county has a line [line] in [table] comes out
    with the value of that column on that line, and a row of that year
    carries nothing but such a value of its county, or a missing value. *)
Definition aligned (py_int : string -> option Z) (str_to_numeric : string -> cell)
           (elections table combined : DataFrame) (line name : string)
           (m : Z * string) : Prop :=
  (forall e s fips,
      In e (rows elections) ->
      cell_eq (pd.get e "Year") (Num (inject_Z (fst m))) ->
      In s (rows table) ->
      county_line py_int line s fips ->
      cell_eq (pd.get e "FIPS") (Num (inject_Z fips)) ->
      exists o, In o (rows combined) /\
                agrees (columns elections) o e /\
                pd.get o name
                = temporal_matching.to_numeric str_to_numeric (pd.get s (snd m))) /\
  (forall o,
      In o (rows combined) ->
      cell_eq (pd.get o "Year") (Num (inject_Z (fst m))) ->
      pd.get o name = NA \/
      exists s fips,
        In s (rows table) /\
        county_line py_int line s fips /\
        cell_eq (pd.get o "FIPS") (Num (inject_Z fips)) /\
        pd.get o name
        = temporal_matching.to_numeric str_to_numeric (pd.get s (snd m))).

(** The labels a table joined on FIPS adds to the table it is joined to. *)
Definition enrichment_labels (R : option DataFrame) : list string :=
  match R with
  | Some R => filter (fun c => negb (String.eqb c "FIPS")) (columns R)
  | None => []
  end.

(** None of these labels is among the labels [L]. *)
Definition fresh_labels (L : list string) (R : option DataFrame) : Prop :=
  forall c, In c (enrichment_labels R) -> ~ In c L.

(** The cells of [o] under the labels of [R] are those of one row of [R]
    with the FIPS key of [e]; they are all missing when [R] has no row
    with that key. *)
Definition enriched (R : option DataFrame) (e o : row) : Prop :=
  match R with
  | None => True
  | Some R' =>
      (exists r, In r (rows R') /\ cell_eq (pd.get e "FIPS") (pd.get r "FIPS") /\
                 forall c, In c (enrichment_labels R) -> pd.get o c = pd.get r c) \/
      ((forall r, In r (rows R') -> ~ cell_eq (pd.get e "FIPS") (pd.get r "FIPS")) /\
       forall c, In c (enrichment_labels R) -> pd.get o c = NA)
  end.

Definition numeric_key_if (R : option DataFrame) (key : string) : Prop :=
  match R with Some R => numeric_key R key | None => True end.

(** A raw election table of the data model: the election columns, no key
    column yet, a text column of county names, typed cells. *)
Definition raw_election_table (raw : DataFrame) : Prop :=
  (forall c, In c raw_election_columns -> In c (columns raw)) /\
  ~ In "FIPS" (columns raw) /\
  ~ In "County_Name" (columns raw) /\
  text_column raw "County" /\
  forall r, In r (rows raw) -> election_row_ok r = true.

(** A reference table: keys and a text column of names. *)
Definition reference_names (fips_df : DataFrame) : Prop :=
  In "FIPS" (columns fips_df) /\ In "County_Name" (columns fips_df) /\
  text_column fips_df "County_Name".

(** The rows of a USDA table whose FIPS, written as text, starts with 12. *)
Definition florida_row (repr : cell -> string) (r : row) : bool :=
  String.eqb (Str.take 2 (pd.astype_str repr (pd.get r "FIPS"))) "12".

Definition florida_rows (repr : cell -> string) (usda : DataFrame) : list row :=
  filter (florida_row repr) (rows usda).

Definition usda_columns : list string :=
  ["FIPS"; "Rural_Urban_Code"; "Rural_Urban_Description"; "Urban_Rural_Category"].

(** The row of the processed codes for a key and a code. *)
Definition rucc_row (fips code : cell) : row :=
  [ ("FIPS", fips);
    ("Rural_Urban_Code", code);
    ("Rural_Urban_Description",
     temporal_matching.map_dict add_usda_codes.rucc_descriptions code);
    ("Urban_Rural_Category", pd.of_option (add_usda_codes.categorize code)) ].

(** The Florida rows that carry an attribute with RUCC in its name. *)
Definition rucc_candidates (repr : cell -> string) (usda : DataFrame) : list row :=
  filter (fun r => add_usda_codes.is_rucc_attribute (pd.get r "Attribute"))
         (florida_rows repr usda).

(** The codes of the attribute RUCC_2023 of the Florida rows. *)
Definition codes_2023 (repr : cell -> string) (str_to_numeric : string -> cell)
           (usda : DataFrame) : DataFrame :=
  mkDF usda_columns
       (map (fun r => rucc_row (pd.get r "FIPS")
                               (temporal_matching.to_numeric str_to_numeric
                                  (pd.get r "Value")))
            (filter (fun r => pd.cell_eqb (pd.get r "Attribute") (Str "RUCC_2023"))
                    (florida_rows repr usda))).

(** The frames read in the loop over the years, in the order of the years. *)
Definition readable_frames (files : Z -> option (result DataFrame)) : list DataFrame :=
  flat_map (fun year => match files year with Some (Ok df) => [df] | _ => [] end)
           combine_elections_script.years.

(** The rows of the frames over the union of their labels, frame after
    frame. *)
Definition concatenated_rows (dfs : list DataFrame) : list row :=
  flat_map (fun df => map (concat_row (pd.union_labels dfs) df) (rows df)) dfs.

(** The rows [r] and [s] have the same rank under the keys [by_]. *)
Definition same_rank (by_ : list string) (r s : row) : bool :=
  pd.rows_leb by_ r s && pd.rows_leb by_ s r.

(** The order of two rows of the combined table: by county, and by year
    within a county. *)
Definition county_year_order (r s : row) : Prop :=
  pd.key_leb (pd.get r "County") (pd.get s "County") = true /\
  (pd.key_leb (pd.get s "County") (pd.get r "County") = true ->
   pd.key_leb (pd.get r "Year") (pd.get s "Year") = true).

(** The frames of the blocks that run through, in the order of the blocks. *)
Definition processed_frames (blocks : list (result DataFrame)) : list DataFrame :=
  flat_map (fun b => match b with Ok d => [d] | Raise _ => [] end) blocks.

(** The frames merged from left to right. *)
Definition merged_frames (merge : DataFrame -> DataFrame -> result DataFrame)
           (dfs : list DataFrame) : result (option DataFrame) :=
  match dfs with
  | [] => Ok None
  | d :: rest =>
      m <- fold_left (fun acc d' => c <- acc ;; merge c d') rest (Ok d) ;;
      Ok (Some m)
  end.

(** * Properties *)

Unset Implicit Arguments.

(** ** The result monad *)

Lemma bind_ok {A B : Type} (m : result A) (k : A -> result B) (b : B) :
  bind m k = Ok b -> exists a, m = Ok a /\ k a = Ok b.
Proof.
  destruct m as [a | e]; simpl; intro H.
  - exists a. split; [reflexivity | exact H].
  - discriminate H.
Qed.

Lemma mapM_ok_iff {A B : Type} (f : A -> result B) (l : list A) (bs : list B) :
  mapM f l = Ok bs <-> Forall2 (fun a b => f a = Ok b) l bs.
Proof.
  revert bs. induction l as [| a l IH]; intros bs; simpl.
  - split; intro H.
    + injection H as <-. constructor.
    + inversion H. reflexivity.
  - split; intro H.
    + apply bind_ok in H. destruct H as (b & Hb & H).
      apply bind_ok in H. destruct H as (bs' & Hbs & H).
      injection H as <-. constructor; [exact Hb | apply IH; exact Hbs].
    + inversion H as [| a' b l' bs' Hb Hrest]; subst.
      rewrite Hb. simpl. apply IH in Hrest. rewrite Hrest. reflexivity.
Qed.

Lemma mapM_total {A B : Type} (f : A -> result B) (g : A -> B) (l : list A) :
  (forall a, In a l -> f a = Ok (g a)) -> mapM f l = Ok (map g l).
Proof.
  induction l as [| a l IH]; intro H; simpl.
  - reflexivity.
  - rewrite (H a (or_introl eq_refl)). simpl.
    rewrite IH by (intros x Hx; apply H; right; exact Hx). reflexivity.
Qed.

Lemma filterM_total (p : row -> result bool) (q : row -> bool) (l : list row) :
  (forall r, In r l -> p r = Ok (q r)) -> pd.filterM p l = Ok (filter q l).
Proof.
  induction l as [| r l IH]; intro H; simpl.
  - reflexivity.
  - rewrite (H r (or_introl eq_refl)). simpl.
    rewrite IH by (intros x Hx; apply H; right; exact Hx). reflexivity.
Qed.

(** ** Strings *)

Lemma lstrip_by_head (p : ascii -> bool) (s : string) :
  Str.lstrip_by p s = EmptyString \/
  exists c t, Str.lstrip_by p s = String c t /\ p c = false.
Proof.
  induction s as [| c s IH]; simpl.
  - left. reflexivity.
  - destruct (p c) eqn:Hc.
    + exact IH.
    + right. exists c, s. split; [reflexivity | exact Hc].
Qed.

Lemma rstrip_by_idem (p : ascii -> bool) (s : string) :
  Str.rstrip_by p (Str.rstrip_by p s) = Str.rstrip_by p s.
Proof.
  induction s as [| c s IH]; simpl.
  - reflexivity.
  - destruct (Str.rstrip_by p s) as [| d t] eqn:Hs.
    + destruct (p c) eqn:Hc; simpl.
      * reflexivity.
      * rewrite Hc. reflexivity.
    + change (Str.rstrip_by p (String c (String d t))) with
        (match Str.rstrip_by p (String d t) with
         | EmptyString => if p c then EmptyString else String c EmptyString
         | u => String c u
         end).
      rewrite IH. reflexivity.
Qed.

Lemma lstrip_rstrip_head (p : ascii -> bool) (c : ascii) (t : string) :
  p c = false ->
  Str.lstrip_by p (Str.rstrip_by p (String c t)) = Str.rstrip_by p (String c t).
Proof.
  intro Hc.
  change (Str.rstrip_by p (String c t)) with
    (match Str.rstrip_by p t with
     | EmptyString => if p c then EmptyString else String c EmptyString
     | u => String c u
     end).
  rewrite Hc.
  destruct (Str.rstrip_by p t); cbn [Str.lstrip_by]; rewrite Hc; reflexivity.
Qed.

Lemma strip_by_idem (p : ascii -> bool) (s : string) :
  Str.strip_by p (Str.strip_by p s) = Str.strip_by p s.
Proof.
  unfold Str.strip_by.
  destruct (lstrip_by_head p s) as [H | (c & t & H & Hc)]; rewrite H.
  - reflexivity.
  - rewrite (lstrip_rstrip_head p c t Hc). apply rstrip_by_idem.
Qed.

Lemma strip_idem (s : string) : Str.strip (Str.strip s) = Str.strip s.
Proof. apply strip_by_idem. Qed.

(** ** Name normalisation *)

Lemma lookup_In (d : list (string * string)) (k v : string) :
  pd.lookup d k = Some v -> In v (map snd d).
Proof.
  induction d as [| [k' v'] d IH]; simpl; intro H.
  - discriminate H.
  - destruct (String.eqb k' k).
    + injection H as <-. left. reflexivity.
    + right. apply IH. exact H.
Qed.

Lemma name_fixes_values (k v : string) :
  pd.lookup clean_standardize.name_fixes k = Some v -> In v canonical_names.
Proof.
  intro H. apply lookup_In in H. unfold canonical_names.
  simpl in H. simpl.
  repeat (destruct H as [H | H]; [tauto |]). contradiction.
Qed.

Lemma normalize_canonical (v : string) :
  In v canonical_names -> clean_standardize.normalize v = v.
Proof.
  unfold canonical_names. simpl.
  intros [<- | [<- | [<- | [<- | []]]]]; vm_compute; reflexivity.
Qed.

Lemma normalize_idem (x : string) :
  clean_standardize.normalize (clean_standardize.normalize x)
  = clean_standardize.normalize x.
Proof.
  unfold clean_standardize.normalize at 2 3.
  destruct (pd.lookup clean_standardize.name_fixes (Str.strip x)) as [v |] eqn:Hx.
  - apply normalize_canonical. apply (name_fixes_values _ _ Hx).
  - unfold clean_standardize.normalize. rewrite strip_idem, Hx. reflexivity.
Qed.

(** ** Rows and frames *)

Lemma get_set_same (r : row) (c : string) (v : cell) : pd.get (pd.set r c v) c = v.
Proof.
  induction r as [| [k w] r IH]; simpl.
  - rewrite String.eqb_refl. reflexivity.
  - destruct (String.eqb k c) eqn:Hk; simpl; rewrite Hk; [reflexivity | exact IH].
Qed.

Lemma get_set_other (r : row) (c c' : string) (v : cell) :
  c <> c' -> pd.get (pd.set r c v) c' = pd.get r c'.
Proof.
  intro Hne. induction r as [| [k w] r IH]; simpl.
  - apply String.eqb_neq in Hne. rewrite Hne. reflexivity.
  - destruct (String.eqb k c) eqn:Hk; simpl.
    + apply String.eqb_eq in Hk. subst k.
      apply String.eqb_neq in Hne. rewrite Hne. reflexivity.
    + destruct (String.eqb k c'); [reflexivity | exact IH].
Qed.

Lemma in_labels_iff (c : string) (l : list string) :
  pd.in_labels c l = true <-> In c l.
Proof.
  unfold pd.in_labels. rewrite existsb_exists. split.
  - intros (x & Hx & Heq). apply String.eqb_eq in Heq. subst x. exact Hx.
  - intro H. exists c. split; [exact H | apply String.eqb_refl].
Qed.

Lemma has_column_iff (df : DataFrame) (c : string) :
  pd.has_column df c = true <-> In c (columns df).
Proof. apply in_labels_iff. Qed.

Lemma has_column_iff_false (df : DataFrame) (c : string) :
  pd.has_column df c = false -> ~ In c (columns df).
Proof. intros H Hin. apply has_column_iff in Hin. congruence. Qed.

Lemma require_ok (df : DataFrame) (c : string) :
  In c (columns df) -> pd.require df c = Ok tt.
Proof.
  intro H. unfold pd.require. apply has_column_iff in H. rewrite H. reflexivity.
Qed.

Lemma require_inv (df : DataFrame) (c : string) (u : unit) :
  pd.require df c = Ok u -> In c (columns df).
Proof.
  unfold pd.require. destruct (pd.has_column df c) eqn:H; intro E.
  - apply has_column_iff. exact H.
  - discriminate E.
Qed.

Lemma add_label_In (cols : list string) (c x : string) :
  In x (pd.add_label cols c) <-> In x cols \/ x = c.
Proof.
  unfold pd.add_label. destruct (existsb (String.eqb c) cols) eqn:H.
  - split; [tauto |]. intros [Hx | ->]; [exact Hx |].
    apply (in_labels_iff c cols). exact H.
  - rewrite in_app_iff. simpl. intuition congruence.
Qed.

Lemma assign_total (df : DataFrame) (c : string) (g : row -> cell) :
  pd.assign df c (fun r => Ok (g r))
  = Ok (mkDF (pd.add_label (columns df) c) (map (fun r => pd.set r c (g r)) (rows df))).
Proof.
  unfold pd.assign.
  rewrite (mapM_total _ (fun r => pd.set r c (g r))) by reflexivity.
  reflexivity.
Qed.

Lemma assign_ok (df : DataFrame) (c : string) (f : row -> result cell) (g : row -> cell) :
  (forall r, In r (rows df) -> f r = Ok (g r)) ->
  pd.assign df c f
  = Ok (mkDF (pd.add_label (columns df) c) (map (fun r => pd.set r c (g r)) (rows df))).
Proof.
  intro H. unfold pd.assign.
  rewrite (mapM_total _ (fun r => pd.set r c (g r))).
  - reflexivity.
  - intros r Hr. rewrite (H r Hr). reflexivity.
Qed.

(** ** standardize_county_names *)

Lemma normalize_cell_Str (x : string) :
  normalize_cell (Str x) = Str (clean_standardize.normalize x).
Proof.
  unfold normalize_cell, clean_standardize.normalize.
  cbn [pd.replace pd.str_map].
  destruct (pd.lookup clean_standardize.name_fixes (Str.strip x)); reflexivity.
Qed.

Lemma normalize_cell_idem (c : cell) :
  normalize_cell (normalize_cell c) = normalize_cell c.
Proof.
  destruct c as [| q | b | x]; try reflexivity.
  rewrite !normalize_cell_Str, normalize_idem. reflexivity.
Qed.

Lemma normalize_cell_is_str (c : cell) :
  pd.is_str (normalize_cell c) = pd.is_str c.
Proof.
  destruct c as [| q | b | x]; try reflexivity.
  rewrite normalize_cell_Str. reflexivity.
Qed.

Lemma standardized_row_county (r : row) :
  pd.get (standardized_row r) "County" = normalize_cell (pd.get r "County").
Proof.
  unfold standardized_row, normalize_cell. cbv zeta.
  rewrite !get_set_same. rewrite get_set_other by discriminate. reflexivity.
Qed.

Lemma str_accessor_ok (df : DataFrame) (c : string) :
  pd.str_accessor df c = Ok tt <->
  In c (columns df) /\
  (rows df = [] \/ existsb pd.is_str (map (fun r => pd.get r c) (rows df)) = true).
Proof.
  unfold pd.str_accessor, pd.column, pd.require.
  destruct (pd.has_column df c) eqn:Hc; simpl.
  - apply has_column_iff in Hc.
    destruct (rows df) as [| r rs]; simpl.
    + tauto.
    + destruct (pd.is_str (pd.get r c) || existsb pd.is_str (map (fun r0 => pd.get r0 c) rs)).
      * intuition.
      * intuition discriminate.
  - split; [discriminate |]. intros [H _]. apply has_column_iff in H. congruence.
Qed.

Lemma standardize_spec (df df' : DataFrame) :
  clean_standardize.standardize_county_names df = Ok df' ->
  rows df' = map standardized_row (rows df) /\
  In "County" (columns df') /\
  (rows df = [] \/ existsb pd.is_str (county_column df) = true).
Proof.
  unfold clean_standardize.standardize_county_names.
  destruct (pd.require df "County") as [[] |] eqn:Hreq; [| discriminate].
  cbn [bind]. rewrite assign_total. cbn [bind].
  match goal with
  | |- bind (pd.str_accessor ?d _) _ = _ -> _ =>
      destruct (pd.str_accessor d "County") as [[] |] eqn:Hstr; [| discriminate]
  end.
  cbn [bind]. rewrite assign_total. cbn [bind]. rewrite assign_total.
  cbn [bind columns rows].
  intro H. injection H as <-. cbn [rows columns].
  apply str_accessor_ok in Hstr. cbn [rows columns] in Hstr.
  destruct Hstr as [_ Hstr].
  split; [| split].
  - rewrite !map_map. reflexivity.
  - apply add_label_In. right. reflexivity.
  - destruct Hstr as [Hnil | Hstr].
    + left. destruct (rows df); [reflexivity | discriminate Hnil].
    + right. unfold county_column. rewrite map_map in Hstr.
      erewrite map_ext; [exact Hstr |].
      intro r. cbv beta. symmetry. apply get_set_other. discriminate.
Qed.

Lemma standardize_ok (df : DataFrame) :
  In "County" (columns df) ->
  (rows df = [] \/ existsb pd.is_str (county_column df) = true) ->
  exists df', clean_standardize.standardize_county_names df = Ok df'.
Proof.
  intros Hc Hstr.
  unfold clean_standardize.standardize_county_names.
  rewrite (require_ok df "County" Hc). cbn [bind]. rewrite assign_total. cbn [bind].
  match goal with
  | |- exists _, bind (pd.str_accessor ?d _) _ = _ =>
      assert (Hs : pd.str_accessor d "County" = Ok tt)
  end.
  { apply str_accessor_ok. cbn [rows columns]. split.
    - apply add_label_In. left. exact Hc.
    - destruct Hstr as [-> | Hstr]; [left; reflexivity | right].
      rewrite map_map. unfold county_column in Hstr.
      erewrite map_ext; [exact Hstr |].
      intro r. cbv beta. apply get_set_other. discriminate. }
  rewrite Hs. cbn [bind]. rewrite assign_total. cbn [bind].
  rewrite assign_total. cbn [bind]. eauto.
Qed.

Lemma county_column_standardized (df df' : DataFrame) :
  clean_standardize.standardize_county_names df = Ok df' ->
  county_column df' = map normalize_cell (county_column df).
Proof.
  intro H. apply standardize_spec in H. destruct H as (Hrows & _ & _).
  unfold county_column. rewrite Hrows, !map_map.
  apply map_ext. intro r. apply standardized_row_county.
Qed.

(** C7. County-name normalisation, i.e. trimming followed by the alias-table
    replacement, is idempotent: normalising a normalised name changes
    nothing. On tables: [standardize_county_names] normalises every name of
    the County column, and applied to its own output it succeeds and leaves
    the County column as it is. *)
Theorem normalization_idempotent :
  (forall x : string,
      clean_standardize.normalize (clean_standardize.normalize x)
      = clean_standardize.normalize x) /\
  (forall df df1 : DataFrame,
      clean_standardize.standardize_county_names df = Ok df1 ->
      (forall (r : row) (x : string),
          In r (rows df) -> pd.get r "County" = Str x ->
          exists r1, In r1 (rows df1) /\
                     pd.get r1 "County" = Str (clean_standardize.normalize x)) /\
      exists df2,
        clean_standardize.standardize_county_names df1 = Ok df2 /\
        county_column df2 = county_column df1).
Proof.
  split; [exact normalize_idem |].
  intros df df1 H. split.
  - intros r x Hr Hx. exists (standardized_row r). split.
    + apply standardize_spec in H. destruct H as (-> & _). apply in_map. exact Hr.
    + rewrite standardized_row_county, Hx. apply normalize_cell_Str.
  - pose proof (county_column_standardized _ _ H) as Hcol.
    pose proof (standardize_spec _ _ H) as (Hrows & Hc & Hstr).
    destruct (standardize_ok df1 Hc) as [df2 H2].
    + destruct Hstr as [Hnil | Hstr].
      * left. rewrite Hrows, Hnil. reflexivity.
      * right. rewrite Hcol.
        rewrite existsb_exists in *. destruct Hstr as (c & Hin & Hs).
        exists (normalize_cell c). split; [apply in_map; exact Hin |].
        rewrite normalize_cell_is_str. exact Hs.
    + exists df2. split; [exact H2 |].
      rewrite (county_column_standardized _ _ H2), Hcol, map_map.
      apply map_ext. intro c. apply normalize_cell_idem.
Qed.

Lemma normalization_idempotent_witness :
  (exists r1, In r1 (rows Samples.standardized_elections) /\
              pd.get r1 "County" = Str (clean_standardize.normalize "  Saint Johns ")) /\
  exists df2,
    clean_standardize.standardize_county_names Samples.standardized_elections = Ok df2 /\
    county_column df2 = county_column Samples.standardized_elections.
Proof.
  destruct (proj2 normalization_idempotent Samples.raw_elections
                  Samples.standardized_elections) as [Hrow Hagain].
  - vm_compute. reflexivity.
  - split; [| exact Hagain].
    apply (Hrow (Samples.election_row "  Saint Johns " 2020 1000 700 (70 # 1))).
    + simpl. tauto.
    + reflexivity.
Defined.

Example normalize_saint_johns :
  map clean_standardize.normalize ["Saint Johns"; "St Johns"; "St. Johns"; " Dade "; "Leon"]
  = ["St. Johns"; "St. Johns"; "St. Johns"; "Miami-Dade"; "Leon"].
Proof. vm_compute. reflexivity. Qed.

(** ** Rural-urban categories *)

Lemma mem_code (code : cell) (ks : list Z) :
  pd.mem code (map (fun k => Num (inject_Z k)) ks) = true <->
  exists k, In k ks /\ is_code code k.
Proof.
  unfold pd.mem, is_code. rewrite existsb_exists. split.
  - intros (c & Hc & Heq). apply in_map_iff in Hc. destruct Hc as (k & <- & Hk).
    exists k. split; [exact Hk |].
    destruct code as [| q | b | s]; try discriminate Heq.
    exists q. split; [reflexivity |]. apply Qeq_bool_iff. exact Heq.
  - intros (k & Hk & q & -> & Hq). exists (Num (inject_Z k)). split.
    + apply (in_map (fun k => Num (inject_Z k))). exact Hk.
    + simpl. apply Qeq_bool_iff. exact Hq.
Qed.

Lemma categorize_same (code : cell) :
  temporal_matching.categorize code = add_usda_codes.categorize code.
Proof. reflexivity. Qed.

Lemma categorize_cases (code : cell) :
  add_usda_codes.categorize code =
  if pd.isna code then None
  else if pd.mem code (map (fun k => Num (inject_Z k)) [1; 2; 3]%Z)
       then Some "Metropolitan"
  else if pd.mem code (map (fun k => Num (inject_Z k)) [4; 5; 6; 7]%Z)
       then Some "Micropolitan/Small Urban"
  else Some "Rural".
Proof. reflexivity. Qed.

(** C10. In both scripts the rural-urban categorisation sends a missing
    code to no category, the codes 1 to 3 to 'Metropolitan', the codes 4 to
    7 to 'Micropolitan/Small Urban', and every other code that is not
    missing to 'Rural', among them 0 and 10, which are outside the 1-9
    scale. *)
Theorem categorize_spec (categorize : cell -> option string) :
  In categorize [add_usda_codes.categorize; temporal_matching.categorize] ->
  categorize NA = None /\
  (forall code k, is_code code k -> (1 <= k <= 3)%Z ->
                  categorize code = Some "Metropolitan") /\
  (forall code k, is_code code k -> (4 <= k <= 7)%Z ->
                  categorize code = Some "Micropolitan/Small Urban") /\
  (forall code, code <> NA ->
                (forall k, (1 <= k <= 7)%Z -> ~ is_code code k) ->
                categorize code = Some "Rural") /\
  categorize (Num (0 # 1)) = Some "Rural" /\
  categorize (Num (10 # 1)) = Some "Rural".
Proof.
  intro Hin.
  assert (Heq : categorize = add_usda_codes.categorize).
  { destruct Hin as [<- | [<- | []]]; reflexivity. }
  subst categorize. clear Hin.
  split; [reflexivity |]. split; [| split; [| split; [| split; reflexivity]]].
  - intros code k Hcode Hk. rewrite categorize_cases.
    destruct Hcode as (q & -> & Hq). cbn [pd.isna].
    replace (pd.mem (Num q) (map (fun k => Num (inject_Z k)) [1; 2; 3]%Z)) with true.
    + reflexivity.
    + symmetry. apply mem_code. exists k. split.
      * simpl. lia.
      * exists q. split; [reflexivity | exact Hq].
  - intros code k Hcode Hk. rewrite categorize_cases.
    destruct (pd.mem code (map (fun k => Num (inject_Z k)) [1; 2; 3]%Z)) eqn:H13.
    + exfalso. apply mem_code in H13. destruct H13 as (k' & Hk' & q' & Hc' & Hq').
      destruct Hcode as (q & Hc & Hq). rewrite Hc in Hc'. injection Hc' as <-.
      rewrite Hq in Hq'. apply (proj1 (inject_Z_injective k k')) in Hq'.
      simpl in Hk'. lia.
    + destruct Hcode as (q & -> & Hq). cbn [pd.isna].
      replace (pd.mem (Num q) (map (fun k => Num (inject_Z k)) [4; 5; 6; 7]%Z)) with true.
      * reflexivity.
      * symmetry. apply mem_code. exists k. split.
        -- simpl. lia.
        -- exists q. split; [reflexivity | exact Hq].
  - intros code Hna Hnone. rewrite categorize_cases.
    destruct code as [| q | b | s]; [contradiction Hna; reflexivity | | reflexivity | reflexivity].
    cbn [pd.isna].
    destruct (pd.mem (Num q) (map (fun k => Num (inject_Z k)) [1; 2; 3]%Z)) eqn:H13.
    { exfalso. apply mem_code in H13. destruct H13 as (k & Hk & Hc).
      apply (Hnone k); [simpl in Hk; lia | exact Hc]. }
    destruct (pd.mem (Num q) (map (fun k => Num (inject_Z k)) [4; 5; 6; 7]%Z)) eqn:H47.
    { exfalso. apply mem_code in H47. destruct H47 as (k & Hk & Hc).
      apply (Hnone k); [simpl in Hk; lia | exact Hc]. }
    reflexivity.
Qed.

Lemma categorize_spec_witness :
  temporal_matching.categorize (Num (2 # 1)) = Some "Metropolitan" /\
  temporal_matching.categorize (Num (14 # 2)) = Some "Micropolitan/Small Urban" /\
  temporal_matching.categorize (Num (5 # 2)) = Some "Rural" /\
  add_usda_codes.categorize (Str "1") = Some "Rural".
Proof.
  pose proof (categorize_spec temporal_matching.categorize
                (or_intror (or_introl eq_refl))) as (_ & H13 & H47 & Hother & _).
  pose proof (categorize_spec add_usda_codes.categorize (or_introl eq_refl))
    as (_ & _ & _ & Hother' & _).
  split; [| split; [| split]].
  - apply (H13 _ 2%Z); [exists (2 # 1)%Q; split; reflexivity | lia].
  - apply (H47 _ 7%Z); [exists (14 # 2)%Q; split; reflexivity | lia].
  - apply Hother; [discriminate |].
    intros k Hk (q & Hq & Heq). injection Hq as <-.
    unfold Qeq in Heq. simpl in Heq. lia.
  - apply Hother'; [discriminate |].
    intros k Hk (q & Hq & _). discriminate Hq.
Defined.

(** ** A missing input table *)

(** C3, as stated, fails: a missing FIPS table is no failure. [load_data]
    hands on the election table with [None] for the reference table, and
    [add_fips_codes] hands back the table it was given, which has no FIPS
    column; neither raises. *)
Lemma missing_fips_table_not_fatal :
  clean_standardize.load_data (Some (Ok Samples.raw_elections)) None
    = Ok (Some Samples.raw_elections, None) /\
  clean_standardize.add_fips_codes Samples.standardized_elections None
    = Ok Samples.standardized_elections /\
  pd.has_column Samples.standardized_elections "FIPS" = false.
Proof. split; [reflexivity |]. split; reflexivity. Qed.

(** C3, amended. A missing table is absorbed, not reported as a failure.
    Without a reference table [add_fips_codes] returns the election table
    as it got it, whatever that table is. [load_data] returns [None] for a
    file that does not exist: the election table alone when the FIPS file
    is missing, and nothing at all when the election file is missing, in
    which case the FIPS file is not read. It raises only when [read_csv]
    raises on a file that exists. *)
Theorem missing_table_policy (elections : DataFrame) :
  clean_standardize.add_fips_codes elections None = Ok elections /\
  clean_standardize.load_data (Some (Ok elections)) None = Ok (Some elections, None) /\
  (forall FIPS_FILE,
      clean_standardize.load_data None FIPS_FILE = Ok (None, None)) /\
  (forall ELECTION_FILE FIPS_FILE e,
      clean_standardize.load_data ELECTION_FILE FIPS_FILE = Raise e <->
      ELECTION_FILE = Some (Raise e) \/
      exists t, ELECTION_FILE = Some (Ok t) /\ FIPS_FILE = Some (Raise e)).
Proof.
  split; [reflexivity |]. split; [reflexivity |]. split; [reflexivity |].
  intros ELECTION_FILE FIPS_FILE e. unfold clean_standardize.load_data.
  destruct ELECTION_FILE as [[t | e1] |]; cbn [bind].
  - destruct FIPS_FILE as [[f | e2] |]; cbn [bind].
    + split; [discriminate |].
      intros [H | (t' & _ & H)]; discriminate H.
    + split.
      * intro H. injection H as <-. right. exists t. split; reflexivity.
      * intros [H | (t' & _ & H)]; [discriminate H |]. injection H as <-. reflexivity.
    + split; [discriminate |].
      intros [H | (t' & _ & H)]; discriminate H.
  - split.
    + intro H. injection H as <-. left. reflexivity.
    + intros [H | (t' & H & _)]; [| discriminate H]. injection H as <-. reflexivity.
  - split; [discriminate |].
    intros [H | (t' & H & _)]; discriminate H.
Qed.

(** ** Equality of cells *)

Lemma cell_eq_refl (a : cell) : cell_eq a a.
Proof.
  unfold cell_eq. destruct a as [| q | b | s]; simpl.
  - reflexivity.
  - apply Qeq_bool_iff. reflexivity.
  - apply Bool.eqb_reflx.
  - apply String.eqb_refl.
Qed.

Lemma cell_eq_sym (a b : cell) : cell_eq a b -> cell_eq b a.
Proof.
  unfold cell_eq.
  destruct a as [| q | x | s], b as [| q' | x' | s']; simpl; try discriminate; try tauto.
  - rewrite !Qeq_bool_iff. intro H. symmetry. exact H.
  - rewrite !Bool.eqb_true_iff. congruence.
  - rewrite !String.eqb_eq. congruence.
Qed.

Lemma cell_eq_trans (a b c : cell) : cell_eq a b -> cell_eq b c -> cell_eq a c.
Proof.
  unfold cell_eq.
  destruct a as [| q | x | s], b as [| q' | x' | s'], c as [| q'' | x'' | s''];
    simpl; try discriminate; try tauto.
  - rewrite !Qeq_bool_iff. intros H1 H2. rewrite H1. exact H2.
  - rewrite !Bool.eqb_true_iff. congruence.
  - rewrite !String.eqb_eq. congruence.
Qed.

#[local] Instance cell_eq_equivalence : Equivalence cell_eq.
Proof.
  split.
  - exact cell_eq_refl.
  - exact cell_eq_sym.
  - exact cell_eq_trans.
Qed.

Lemma cell_eqb_sym (a b : cell) : pd.cell_eqb a b = pd.cell_eqb b a.
Proof.
  destruct (pd.cell_eqb a b) eqn:Hab, (pd.cell_eqb b a) eqn:Hba; try reflexivity.
  - apply cell_eq_sym in Hab. unfold cell_eq in Hab. congruence.
  - apply cell_eq_sym in Hba. unfold cell_eq in Hba. congruence.
Qed.

Lemma cell_eqb_congr (a b c : cell) :
  cell_eq a b -> pd.cell_eqb c a = pd.cell_eqb c b.
Proof.
  intro Hab.
  destruct (pd.cell_eqb c a) eqn:Hca, (pd.cell_eqb c b) eqn:Hcb; try reflexivity.
  - pose proof (cell_eq_trans c a b Hca Hab) as H. unfold cell_eq in H. congruence.
  - pose proof (cell_eq_trans c b a Hcb (cell_eq_sym _ _ Hab)) as H.
    unfold cell_eq in H. congruence.
Qed.

Lemma cell_eq_NA (c : cell) : cell_eq c NA -> c = NA.
Proof. unfold cell_eq. destruct c; simpl; congruence. Qed.

Lemma mem_InA (c : cell) (l : list cell) : pd.mem c l = true <-> InA cell_eq c l.
Proof.
  unfold pd.mem. rewrite existsb_exists, InA_alt. split.
  - intros (x & Hx & H). exists x. split; [exact H | exact Hx].
  - intros (x & H & Hx). exists x. split; [exact Hx | exact H].
Qed.

(** ** Distinct values and sorting *)

Lemma InA_filter (p : cell -> bool) (c : cell) (l : list cell) :
  InA cell_eq c (filter p l) -> InA cell_eq c l.
Proof.
  rewrite !InA_alt. intros (x & Hc & Hx). apply filter_In in Hx.
  exists x. tauto.
Qed.

Lemma NoDupA_filter (p : cell -> bool) (l : list cell) :
  NoDupA cell_eq l -> NoDupA cell_eq (filter p l).
Proof.
  induction 1 as [| x l Hx Hl IH]; simpl.
  - constructor.
  - destruct (p x); [| exact IH].
    constructor; [| exact IH].
    intro H. apply Hx. apply (InA_filter p). exact H.
Qed.

Lemma unique_InA (c : cell) (l : list cell) :
  InA cell_eq c (pd.unique l) <-> InA cell_eq c l.
Proof.
  induction l as [| a l IH]; simpl.
  - reflexivity.
  - rewrite !InA_cons. split.
    + intros [H | H]; [left; exact H | right].
      apply IH. apply (InA_filter _ _ _ H).
    + intros [H | H]; [left; exact H |].
      destruct (pd.cell_eqb c a) eqn:Hca; [left; exact Hca | right].
      apply IH in H. apply InA_alt in H. destruct H as (d & Hcd & Hd).
      apply InA_alt. exists d. split; [exact Hcd |].
      apply filter_In. split; [exact Hd |].
      destruct (pd.cell_eqb a d) eqn:Had; [| reflexivity].
      pose proof (cell_eq_trans c d a Hcd (cell_eq_sym _ _ Had)) as Hc.
      unfold cell_eq in Hc. congruence.
Qed.

Lemma unique_NoDupA (l : list cell) : NoDupA cell_eq (pd.unique l).
Proof.
  induction l as [| a l IH]; simpl.
  - constructor.
  - constructor.
    + intro H. apply InA_alt in H. destruct H as (d & Had & Hd).
      apply filter_In in Hd. destruct Hd as [_ Hd].
      unfold cell_eq in Had. rewrite Had in Hd. discriminate Hd.
    + apply NoDupA_filter. exact IH.
Qed.

Lemma dropna_InA (c : cell) (l : list cell) :
  InA cell_eq c (pd.dropna l) <-> c <> NA /\ InA cell_eq c l.
Proof.
  unfold pd.dropna. rewrite !InA_alt. split.
  - intros (d & Hcd & Hd). apply filter_In in Hd. destruct Hd as [Hd Hna].
    split.
    + intros ->. apply cell_eq_sym, cell_eq_NA in Hcd. subst d. discriminate Hna.
    + exists d. tauto.
  - intros (Hna & d & Hcd & Hd). exists d. split; [exact Hcd |].
    apply filter_In. split; [exact Hd |].
    destruct d; try reflexivity. apply cell_eq_NA in Hcd. contradiction.
Qed.

Lemma insert_sorted_perm (c : cell) (l : list cell) :
  Permutation (pd.insert_sorted c l) (c :: l).
Proof.
  induction l as [| d l IH]; simpl.
  - apply Permutation_refl.
  - destruct (pd.cell_leb c d).
    + apply Permutation_refl.
    + apply perm_trans with (d :: c :: l).
      * apply perm_skip. exact IH.
      * apply perm_swap.
Qed.

Lemma sort_perm (l : list cell) : Permutation (pd.sort l) l.
Proof.
  induction l as [| c l IH]; simpl.
  - apply Permutation_refl.
  - apply perm_trans with (c :: pd.sort l).
    + apply insert_sorted_perm.
    + apply perm_skip. exact IH.
Qed.

Lemma filter_length_perm {A : Type} (p : A -> bool) (l l' : list A) :
  Permutation l l' -> List.length (filter p l) = List.length (filter p l').
Proof.
  induction 1 as [| x l l' _ IH | x y l | l l' l'' _ IH1 _ IH2]; simpl.
  - reflexivity.
  - destruct (p x); simpl; congruence.
  - destruct (p x), (p y); reflexivity.
  - congruence.
Qed.

(** A list without repetition holds one value equal to [y], or none. *)
Lemma NoDupA_count (y : cell) (l : list cell) :
  NoDupA cell_eq l ->
  List.length (filter (fun k => pd.cell_eqb k y) l)
  = if pd.mem y l then 1 else 0.
Proof.
  induction 1 as [| x l Hx Hl IH]; simpl.
  - reflexivity.
  - rewrite (cell_eqb_sym y x).
    destruct (pd.cell_eqb x y) eqn:Hxy; simpl.
    + rewrite IH.
      destruct (pd.mem y l) eqn:Hm; [| reflexivity].
      exfalso. apply Hx. apply mem_InA in Hm.
      apply InA_eqA with y; [exact cell_eq_equivalence | | exact Hm].
      apply cell_eq_sym. exact Hxy.
    + exact IH.
Qed.

Lemma enumerations_same_length (l l' : list cell) :
  NoDupA cell_eq l -> NoDupA cell_eq l' ->
  (forall c, InA cell_eq c l <-> InA cell_eq c l') ->
  List.length l = List.length l'.
Proof.
  intros Hl Hl' Heq.
  pose proof (NoDupA_equivlistA_PermutationA cell_eq_equivalence Hl Hl' Heq) as Hp.
  apply (PermutationA_decompose cell_eq_equivalence) in Hp.
  destruct Hp as (m & Hperm & Hm).
  rewrite (Permutation_length Hperm). apply (eqlistA_length Hm).
Qed.

(** [nunique] counts what any enumeration without repetition counts. *)
Lemma nunique_enumeration (l cs : list cell) :
  NoDupA cell_eq cs ->
  (forall c, InA cell_eq c cs <-> c <> NA /\ InA cell_eq c l) ->
  pd.nunique l = List.length cs.
Proof.
  intros Hcs Hin. unfold pd.nunique.
  apply enumerations_same_length; [apply unique_NoDupA | exact Hcs |].
  intro c. rewrite unique_InA, dropna_InA, Hin. reflexivity.
Qed.

(** ** quality_checks *)

Ltac bind_inv H x Hx :=
  apply bind_ok in H; destruct H as (x & Hx & H).

Lemma quality_checks_inv (df out : DataFrame) (issues : list clean_standardize.issue) :
  clean_standardize.quality_checks df = Ok (out, issues) ->
  exists counts low helpers duplicates,
    pd.groupby_nunique df "Year" "County" = Ok counts /\
    clean_standardize.low_turnout df = Ok low /\
    clean_standardize.with_calculated_turnout df = Ok helpers /\
    pd.drop helpers ["Calculated_Turnout"; "Turnout_Difference"] = Ok out /\
    pd.duplicated out ["County"; "Year"] = Ok duplicates /\
    issues = clean_standardize.missing_issues df
               ++ clean_standardize.county_issues counts
               ++ clean_standardize.low_issues low
               ++ clean_standardize.duplicate_issues duplicates.
Proof.
  unfold clean_standardize.quality_checks. cbv zeta. intro H.
  bind_inv H counts Hcounts. bind_inv H low Hlow. bind_inv H high Hhigh.
  bind_inv H helpers Hhelpers. bind_inv H mism Hmism. bind_inv H dropped Hdrop.
  bind_inv H duplicates Hdup. bind_inv H shown Hshown.
  injection H as <- <-.
  exists counts, low, helpers, duplicates.
  repeat (split; [assumption |]).
  simpl. rewrite <- !app_assoc. reflexivity.
Qed.

(** ** Findings that are printed only *)

(** A clean table: 67 counties, consistent turnout, no issue. *)
Example full_2020_passes :
  clean_standardize.quality_checks Samples.full_2020 = Ok (Samples.full_2020, []).
Proof. vm_compute. reflexivity. Qed.

Lemma filterM_In (p : row -> result bool) (l kept : list row) (r : row) :
  pd.filterM p l = Ok kept -> In r kept -> In r l /\ p r = Ok true.
Proof.
  revert kept. induction l as [| a l IH]; simpl; intros kept H Hr.
  - injection H as <-. contradiction.
  - bind_inv H b Hb. bind_inv H rest Hrest. injection H as <-.
    destruct b.
    + destruct Hr as [<- | Hr]; [tauto |].
      destruct (IH rest Hrest Hr) as [Hin Hp]. tauto.
    + destruct (IH rest Hrest Hr) as [Hin Hp]. tauto.
Qed.

(** C1 at a failing input: 67 counties, one of which reports a turnout of
    96.0. The row is selected as high turnout, and the issue list is empty.
    The same table with a turnout of 20.0 in that row has one issue for
    it. For every table, the rows itemized in the issue list all have a
    turnout below 30, so that no row is ever itemized for a turnout above
    95. *)
Theorem high_turnout_not_itemized :
  clean_standardize.high_turnout Samples.high_2020
    = Ok (Samples.table [Samples.high_row]) /\
  clean_standardize.quality_checks Samples.high_2020 = Ok (Samples.high_2020, []) /\
  clean_standardize.quality_checks Samples.low_2020
    = Ok (Samples.low_2020,
          [clean_standardize.LowTurnout (Str "County 67") (Num (2020 # 1)) (Num (20 # 1))]) /\
  (forall df out issues county year turnout,
      clean_standardize.quality_checks df = Ok (out, issues) ->
      In (clean_standardize.LowTurnout county year turnout) issues ->
      pd.lt_scalar turnout (30 # 1) = Ok true /\
      pd.gt_scalar turnout (95 # 1) = Ok false).
Proof.
  split; [vm_compute; reflexivity |].
  split; [vm_compute; reflexivity |].
  split; [vm_compute; reflexivity |].
  intros df out issues county year turnout Hq Hin.
  apply quality_checks_inv in Hq.
  destruct Hq as (counts & low & helpers & duplicates & _ & Hlow & _ & _ & _ & ->).
  assert (Hitem : In (clean_standardize.LowTurnout county year turnout)
                     (clean_standardize.low_issues low)).
  { rewrite !in_app_iff in Hin. destruct Hin as [Hin | [Hin | [Hin | Hin]]].
    - unfold clean_standardize.missing_issues in Hin. apply in_map_iff in Hin.
      destruct Hin as (x & Hx & _). discriminate Hx.
    - unfold clean_standardize.county_issues in Hin. apply in_flat_map in Hin.
      destruct Hin as (x & _ & Hx). destruct (snd x =? 67); [contradiction |].
      destruct Hx as [Hx | []]. discriminate Hx.
    - exact Hin.
    - unfold clean_standardize.duplicate_issues in Hin.
      destruct (existsb (fun b => b) duplicates); [| contradiction].
      destruct Hin as [Hx | []]. discriminate Hx. }
  unfold clean_standardize.low_issues in Hitem. apply in_map_iff in Hitem.
  destruct Hitem as (r & Hr & Hrow). injection Hr as _ _ <-.
  unfold clean_standardize.low_turnout in Hlow. bind_inv Hlow u Hu.
  unfold pd.where_ in Hlow. bind_inv Hlow kept Hkept. injection Hlow as <-.
  cbn [rows] in Hrow.
  destruct (filterM_In _ _ _ r Hkept Hrow) as [_ Hlt].
  split; [exact Hlt |].
  destruct (pd.get r "Turnout_Percent") as [| q | negative | t]; simpl in Hlt |- *;
    try discriminate Hlt.
  - injection Hlt as Hlt. f_equal. unfold Qlt_bool in *.
    apply negb_true_iff in Hlt. apply negb_false_iff.
    apply Qle_bool_iff.
    destruct (Qle_bool (30 # 1) q) eqn:E; [discriminate Hlt |].
    destruct (Qlt_le_dec q (30 # 1)) as [Hlt' | Hge].
    + apply Qlt_le_weak. apply Qlt_trans with (30 # 1)%Q; [exact Hlt' | reflexivity].
    + apply Qle_bool_iff in Hge. congruence.
  - injection Hlt as ->. reflexivity.
Qed.

(** C2 at a failing input: for 700 votes of 1000 registered voters the
    verification finds no mismatch when 70.0 is reported and one when 75.0
    is reported (calculated 70.0, difference 5.0), and the issue list is
    the same in both cases; among 67 counties it is empty. *)
Theorem turnout_mismatch_not_reported :
  (helpers <- clean_standardize.with_calculated_turnout Samples.reported_70 ;;
   clean_standardize.mismatches helpers)
    = Ok (mkDF (Samples.election_columns ++ Samples.helper_columns) []) /\
  (helpers <- clean_standardize.with_calculated_turnout Samples.reported_75 ;;
   clean_standardize.mismatches helpers)
    = Ok (mkDF (Samples.election_columns ++ Samples.helper_columns)
               [Samples.with_helpers
                  (Samples.election_row "Alachua" 2020 1000 700 (75 # 1))
                  (700 # 10) (50 # 10)]) /\
  clean_standardize.quality_checks Samples.reported_70
    = Ok (Samples.reported_70, [clean_standardize.CountyCount (Num (2020 # 1)) 1]) /\
  clean_standardize.quality_checks Samples.reported_75
    = Ok (Samples.reported_75, [clean_standardize.CountyCount (Num (2020 # 1)) 1]) /\
  clean_standardize.quality_checks Samples.mismatch_2020
    = Ok (Samples.mismatch_2020, []).
Proof. repeat split; vm_compute; reflexivity. Qed.

Lemma names_year_county_issues (y : cell) (n : nat) (f : cell -> nat) (keys : list cell) :
  (forall k, cell_eq k y -> f k = n) ->
  filter (names_year y) (clean_standardize.county_issues (map (fun k => (k, f k)) keys))
  = if n =? 67 then []
    else map (fun k => clean_standardize.CountyCount k n)
             (filter (fun k => pd.cell_eqb k y) keys).
Proof.
  intro Hf. induction keys as [| k keys IH]; simpl.
  - destruct (n =? 67); reflexivity.
  - rewrite filter_app, IH. clear IH.
    destruct (pd.cell_eqb k y) eqn:Hk.
    + rewrite (Hf k Hk). destruct (n =? 67); simpl; [reflexivity |].
      rewrite Hk. reflexivity.
    + destruct (f k =? 67); simpl; [| rewrite Hk]; destruct (n =? 67); reflexivity.
Qed.

Lemma names_year_missing (y : cell) (df : DataFrame) :
  filter (names_year y) (clean_standardize.missing_issues df) = [].
Proof.
  unfold clean_standardize.missing_issues.
  induction (filter (fun cn => 0 <? snd cn) (pd.isnull_sum df)); simpl; auto.
Qed.

Lemma names_year_low (y : cell) (low : DataFrame) :
  filter (names_year y) (clean_standardize.low_issues low) = [].
Proof.
  unfold clean_standardize.low_issues. induction (rows low); simpl; auto.
Qed.

Lemma names_year_duplicates (y : cell) (duplicates : list bool) :
  filter (names_year y) (clean_standardize.duplicate_issues duplicates) = [].
Proof.
  unfold clean_standardize.duplicate_issues.
  destruct (existsb (fun b => b) duplicates); reflexivity.
Qed.

Lemma length_one {A : Type} (l : list A) : List.length l = 1 -> exists a, l = [a].
Proof.
  destruct l as [| a [| b l]]; simpl; intro H; try discriminate H.
  exists a. reflexivity.
Qed.

(** The year groups of [groupby], once per year. *)
Lemma year_groups (y : cell) (keys : list cell) :
  y <> NA -> In y keys ->
  exists k, cell_eq k y /\
            filter (fun k => pd.cell_eqb k y) (pd.sort (pd.unique (pd.dropna keys))) = [k].
Proof.
  intros Hna Hin.
  assert (Hlen : List.length (filter (fun k => pd.cell_eqb k y)
                                     (pd.sort (pd.unique (pd.dropna keys)))) = 1).
  { rewrite (filter_length_perm _ _ _ (sort_perm _)).
    rewrite NoDupA_count by apply unique_NoDupA.
    replace (pd.mem y (pd.unique (pd.dropna keys))) with true; [reflexivity |].
    symmetry. apply mem_InA. apply unique_InA. apply dropna_InA.
    split; [exact Hna |]. apply In_InA; [exact cell_eq_equivalence | exact Hin]. }
  apply length_one in Hlen. destruct Hlen as [k Hk]. exists k. split; [| exact Hk].
  assert (Hm : In k (filter (fun k => pd.cell_eqb k y)
                            (pd.sort (pd.unique (pd.dropna keys))))).
  { rewrite Hk. left. reflexivity. }
  apply filter_In in Hm. exact (proj2 Hm).
Qed.

Lemma year_rows_congr (df : DataFrame) (k y : cell) :
  cell_eq k y ->
  filter (fun r => pd.cell_eqb (pd.get r "Year") k) (rows df)
  = filter (fun r => pd.cell_eqb (pd.get r "Year") y) (rows df).
Proof.
  intro Hk. apply filter_ext. intro r. apply cell_eqb_congr. exact Hk.
Qed.

Lemma county_count_enumeration (df : DataFrame) (y : cell) (cs : list cell) :
  enumerates_counties df y cs ->
  pd.nunique (map (fun r => pd.get r "County")
                  (filter (fun r => pd.cell_eqb (pd.get r "Year") y) (rows df)))
  = List.length cs.
Proof.
  intros [Hnodup Hin]. apply nunique_enumeration; [exact Hnodup |].
  intro c. rewrite Hin. apply and_iff_compat_l.
  rewrite InA_alt. split.
  - intros (r & Hr & Hy & Hc). exists (county_of r). split.
    + apply cell_eq_sym. exact Hc.
    + apply (in_map (fun r => pd.get r "County")). apply filter_In. split; assumption.
  - intros (d & Hcd & Hd). apply in_map_iff in Hd. destruct Hd as (r & <- & Hr).
    apply filter_In in Hr. exists r. split; [tauto |]. split; [exact (proj2 Hr) |].
    apply cell_eq_sym. exact Hcd.
Qed.

(** The enumeration that [nunique] itself goes through. *)
Lemma counties_enumerated (df : DataFrame) (y : cell) :
  enumerates_counties df y
    (pd.unique (pd.dropna (map (fun r => pd.get r "County")
                               (filter (fun r => pd.cell_eqb (pd.get r "Year") y)
                                       (rows df))))).
Proof.
  split; [apply unique_NoDupA |].
  intro c. rewrite unique_InA, dropna_InA. apply and_iff_compat_l.
  rewrite InA_alt. split.
  - intros (d & Hcd & Hd). apply in_map_iff in Hd. destruct Hd as (r & <- & Hr).
    apply filter_In in Hr. exists r. split; [tauto |]. split; [exact (proj2 Hr) |].
    apply cell_eq_sym. exact Hcd.
  - intros (r & Hr & Hy & Hc). exists (county_of r). split.
    + apply cell_eq_sym. exact Hc.
    + apply (in_map (fun r => pd.get r "County")). apply filter_In. split; assumption.
Qed.

(** ** Totality of the validator *)

Lemma value_of_ok (m : result cell) : (exists v, m = Ok v) -> m = Ok (value_of m).
Proof. intros [v ->]. reflexivity. Qed.

Lemma truth_of_ok (m : result bool) : (exists b, m = Ok b) -> m = Ok (truth_of m).
Proof. intros [b ->]. reflexivity. Qed.

Lemma lt_scalar_number (c : cell) (k : Q) :
  pd.is_str c = false -> exists b, pd.lt_scalar c k = Ok b.
Proof. destruct c; simpl; intro H; try discriminate H; eauto. Qed.

Lemma gt_scalar_number (c : cell) (k : Q) :
  pd.is_str c = false -> exists b, pd.gt_scalar c k = Ok b.
Proof. destruct c; simpl; intro H; try discriminate H; eauto. Qed.

Lemma calculated_ok (a b : cell) :
  pd.is_str a = false -> pd.is_str b = false ->
  exists v, (ratio <- pd.div a b ;;
             percent <- pd.mul_scalar ratio (100 # 1) ;;
             pd.round1 percent) = Ok v /\ pd.is_str v = false.
Proof.
  destruct a as [| x | s | t], b as [| y | s' | t']; intros Ha Hb;
    try discriminate Ha; try discriminate Hb;
    cbn [pd.div]; try (destruct (pd.Qis_zero y); try destruct (pd.Qis_zero x));
    cbn [bind pd.mul_scalar pd.round1]; eexists; split; reflexivity.
Qed.

Lemma difference_ok (a b : cell) :
  pd.is_str a = false -> pd.is_str b = false ->
  exists v, (d <- pd.sub a b ;; pd.abs d) = Ok v /\ pd.is_str v = false.
Proof.
  destruct a as [| x | s | t], b as [| y | s' | t']; intros Ha Hb;
    try discriminate Ha; try discriminate Hb;
    cbn [pd.sub]; try (destruct (Bool.eqb s s'));
    cbn [bind pd.abs]; eexists; split; reflexivity.
Qed.

Lemma mapM_require_ok (df : DataFrame) (cs : list string) :
  (forall c, In c cs -> In c (columns df)) ->
  mapM (pd.require df) cs = Ok (map (fun _ => tt) cs).
Proof.
  intro H. apply mapM_total. intros c Hc. apply require_ok. apply H. exact Hc.
Qed.

Lemma drop_ok (df : DataFrame) (cs : list string) :
  (forall c, In c cs -> In c (columns df)) ->
  pd.drop df cs
  = Ok (mkDF (filter (fun c => negb (existsb (String.eqb c) cs)) (columns df))
             (map (pd.drop_row cs) (rows df))).
Proof.
  intro H. unfold pd.drop. rewrite (mapM_require_ok df cs H). reflexivity.
Qed.

Lemma select_ok (df : DataFrame) (cs : list string) :
  (forall c, In c cs -> In c (columns df)) ->
  pd.select df cs = Ok (mkDF cs (map (pd.select_row cs) (rows df))).
Proof.
  intro H. unfold pd.select. rewrite (mapM_require_ok df cs H). reflexivity.
Qed.

Lemma get_drop_row (cs : list string) (r : row) (c : string) :
  pd.in_labels c cs = false -> pd.get (pd.drop_row cs r) c = pd.get r c.
Proof.
  intro Hc. induction r as [| [k v] r IH]; simpl.
  - reflexivity.
  - destruct (String.eqb k c) eqn:Hk.
    + apply String.eqb_eq in Hk. subst k.
      unfold pd.in_labels in Hc. rewrite Hc. simpl.
      rewrite String.eqb_refl. reflexivity.
    + destruct (negb (existsb (String.eqb k) cs)); simpl.
      * rewrite Hk. exact IH.
      * exact IH.
Qed.

Lemma get_select_row (cs : list string) (r : row) (c : string) :
  In c cs -> pd.get (pd.select_row cs r) c = pd.get r c.
Proof.
  unfold pd.select_row. induction cs as [| k cs IH]; simpl; intro H.
  - contradiction.
  - destruct (String.eqb k c) eqn:Hk.
    + apply String.eqb_eq in Hk. subst k. reflexivity.
    + destruct H as [-> | H]; [rewrite String.eqb_refl in Hk; discriminate |].
      apply IH. exact H.
Qed.

Lemma helper_row_get (r : row) (c : string) :
  c <> "Calculated_Turnout" -> c <> "Turnout_Difference" ->
  pd.get (helper_row r) c = pd.get r c.
Proof.
  intros H1 H2. unfold helper_row. cbv zeta.
  rewrite !get_set_other by congruence. reflexivity.
Qed.

Lemma with_calculated_turnout_ok (df : DataFrame) :
  In "Votes_Cast" (columns df) -> In "Registered_Voters" (columns df) ->
  In "Turnout_Percent" (columns df) ->
  (forall r, In r (rows df) ->
             pd.is_str (pd.get r "Votes_Cast") = false /\
             pd.is_str (pd.get r "Registered_Voters") = false /\
             pd.is_str (pd.get r "Turnout_Percent") = false) ->
  clean_standardize.with_calculated_turnout df
  = Ok (mkDF (pd.add_label (pd.add_label (columns df) "Calculated_Turnout")
                           "Turnout_Difference")
             (map helper_row (rows df))) /\
  (forall r, In r (rows df) ->
             pd.is_str (pd.get (helper_row r) "Turnout_Difference") = false).
Proof.
  intros Hv Hr Ht Hrows.
  assert (Hcalc : forall r, In r (rows df) ->
            pd.is_str (calculated r) = false /\
            (ratio <- pd.div (pd.get r "Votes_Cast") (pd.get r "Registered_Voters") ;;
             percent <- pd.mul_scalar ratio (100 # 1) ;;
             pd.round1 percent) = Ok (calculated r)).
  { intros r Hin. destruct (Hrows r Hin) as (H1 & H2 & _).
    destruct (calculated_ok _ _ H1 H2) as (v & Hv' & Hs).
    unfold calculated. rewrite Hv'. simpl. split; [exact Hs | reflexivity]. }
  assert (Hdiff : forall r, In r (rows df) ->
            let r1 := pd.set r "Calculated_Turnout" (calculated r) in
            pd.is_str (difference r1) = false /\
            (d <- pd.sub (pd.get r1 "Calculated_Turnout") (pd.get r1 "Turnout_Percent") ;;
             pd.abs d) = Ok (difference r1)).
  { intros r Hin r1. destruct (Hrows r Hin) as (_ & _ & H3).
    destruct (Hcalc r Hin) as [Hc _].
    assert (Ha : pd.is_str (pd.get r1 "Calculated_Turnout") = false).
    { unfold r1. rewrite get_set_same. exact Hc. }
    assert (Hb : pd.is_str (pd.get r1 "Turnout_Percent") = false).
    { unfold r1. rewrite get_set_other by discriminate. exact H3. }
    destruct (difference_ok _ _ Ha Hb) as (v & Hv' & Hs).
    unfold difference. rewrite Hv'. simpl. split; [exact Hs | reflexivity]. }
  split.
  - unfold clean_standardize.with_calculated_turnout.
    rewrite (require_ok df _ Hv), (require_ok df _ Hr). cbn [bind].
    rewrite (assign_ok df _ _ calculated) by (intros r Hin; apply (Hcalc r Hin)).
    cbn [bind].
    rewrite require_ok by (cbn [columns]; apply add_label_In; left; exact Ht).
    cbn [bind].
    rewrite (assign_ok _ _ _ difference).
    + cbn [columns rows]. rewrite map_map. reflexivity.
    + cbn [rows]. intros r1 Hin. apply in_map_iff in Hin.
      destruct Hin as (r & <- & Hin). apply (Hdiff r Hin).
  - intros r Hin. unfold helper_row. cbv zeta. rewrite get_set_same.
    apply (Hdiff r Hin).
Qed.

Lemma where_ok (df : DataFrame) (p : row -> result bool) :
  (forall r, In r (rows df) -> exists b, p r = Ok b) ->
  pd.where_ df p = Ok (mkDF (columns df) (filter (fun r => truth_of (p r)) (rows df))).
Proof.
  intro H. unfold pd.where_.
  rewrite (filterM_total p (fun r => truth_of (p r))).
  - reflexivity.
  - intros r Hr. apply truth_of_ok. apply H. exact Hr.
Qed.

Lemma existsb_false {A : Type} (p : A -> bool) (l : list A) :
  (forall a, In a l -> p a = false) -> existsb p l = false.
Proof.
  intro H. induction l as [| a l IH]; simpl.
  - reflexivity.
  - rewrite (H a (or_introl eq_refl)). simpl. apply IH.
    intros x Hx. apply H. right. exact Hx.
Qed.

Lemma marked_rows (duplicates : list bool) (rs : list row) (r : row) :
  In r (map snd (filter fst (combine duplicates rs))) -> In r rs.
Proof.
  intro H. apply in_map_iff in H. destruct H as ([b r'] & <- & H).
  apply filter_In in H. destruct H as [H _]. apply in_combine_r in H. exact H.
Qed.

Lemma dup_df_ok (df : DataFrame) (duplicates : list bool) :
  In "County" (columns df) -> In "Year" (columns df) -> In "Votes_Cast" (columns df) ->
  exists shown, clean_standardize.dup_df df duplicates = Ok shown.
Proof.
  intros Hc Hy Hv. unfold clean_standardize.dup_df.
  destruct (existsb (fun b => b) duplicates); [| eauto].
  rewrite select_ok.
  2:{ cbn [columns]. simpl. intros c [<- | [<- | [<- | []]]]; assumption. }
  cbn [bind]. unfold pd.sort_values.
  rewrite mapM_require_ok by (cbn [columns]; simpl; tauto).
  cbn [bind]. eauto.
Qed.

Lemma election_schema_inv (df : DataFrame) :
  election_schema df = true ->
  (In "County" (columns df) /\ In "Year" (columns df) /\
   In "Registered_Voters" (columns df) /\ In "Votes_Cast" (columns df) /\
   In "Turnout_Percent" (columns df)) /\
  (forall r, In r (rows df) ->
             text_or_missing (pd.get r "County") = true /\
             pd.is_str (pd.get r "Year") = false /\
             pd.is_str (pd.get r "Registered_Voters") = false /\
             pd.is_str (pd.get r "Votes_Cast") = false /\
             pd.is_str (pd.get r "Turnout_Percent") = false).
Proof.
  unfold election_schema. rewrite andb_true_iff. intros [Hcols Hrows]. split.
  - cbn [forallb] in Hcols. rewrite !andb_true_iff in Hcols.
    rewrite !has_column_iff in Hcols. tauto.
  - rewrite forallb_forall in Hrows. intros r Hr. specialize (Hrows r Hr).
    unfold election_row_ok, number_or_missing in Hrows.
    rewrite !andb_true_iff, !negb_true_iff in Hrows. tauto.
Qed.

Lemma quality_checks_returns (df : DataFrame) :
  election_schema df = true ->
  exists out issues,
    clean_standardize.quality_checks df = Ok (out, issues) /\
    rows out = map (fun r => pd.drop_row ["Calculated_Turnout"; "Turnout_Difference"]
                                         (helper_row r))
                   (rows df).
Proof.
  intro Hschema. apply election_schema_inv in Hschema.
  destruct Hschema as [(Hc & Hy & Hr & Hv & Ht) Hrows].
  destruct (with_calculated_turnout_ok df Hv Hr Ht) as [Hhelpers Hdiff].
  { intros r Hin. destruct (Hrows r Hin) as (_ & _ & H1 & H2 & H3). tauto. }
  unfold clean_standardize.quality_checks. cbv zeta.
  (* county counts *)
  unfold pd.groupby_nunique, pd.column.
  rewrite (require_ok df _ Hy), (require_ok df _ Hc). cbn [bind].
  (* turnout range *)
  unfold clean_standardize.low_turnout, clean_standardize.high_turnout.
  rewrite (require_ok df _ Ht). cbn [bind].
  rewrite where_ok by (intros r Hin; apply lt_scalar_number; apply (Hrows r Hin)).
  cbn [bind].
  rewrite where_ok by (intros r Hin; apply gt_scalar_number; apply (Hrows r Hin)).
  cbn [bind].
  (* turnout verification *)
  rewrite Hhelpers. cbn [bind].
  unfold clean_standardize.mismatches.
  rewrite require_ok by (cbn [columns]; apply add_label_In; right; reflexivity).
  cbn [bind].
  rewrite where_ok.
  2:{ cbn [rows]. intros r1 Hin. apply in_map_iff in Hin.
      destruct Hin as (r & <- & Hin). apply gt_scalar_number. apply (Hdiff r Hin). }
  cbn [bind].
  rewrite drop_ok.
  2:{ cbn [columns]. intros c [<- | [<- | []]]; apply add_label_In.
      - left. apply add_label_In. right. reflexivity.
      - right. reflexivity. }
  cbn [bind columns rows].
  (* duplicates *)
  set (out := mkDF _ (map (pd.drop_row ["Calculated_Turnout"; "Turnout_Difference"])
                          (map helper_row (rows df)))).
  assert (Hkeep : forall c, In c (columns df) ->
                    pd.in_labels c ["Calculated_Turnout"; "Turnout_Difference"] = false ->
                    In c (columns out)).
  { intros c Hin Hnot. unfold out. cbn [columns]. apply filter_In. split.
    - apply add_label_In. left. apply add_label_In. left. exact Hin.
    - unfold pd.in_labels in Hnot. rewrite Hnot. reflexivity. }
  assert (Hget : forall r c, c <> "Calculated_Turnout" -> c <> "Turnout_Difference" ->
                   pd.get (pd.drop_row ["Calculated_Turnout"; "Turnout_Difference"]
                                       (helper_row r)) c = pd.get r c).
  { intros r c H1 H2. rewrite get_drop_row.
    - apply helper_row_get; assumption.
    - unfold pd.in_labels. cbn [existsb].
      apply String.eqb_neq in H1, H2. rewrite H1, H2. reflexivity. }
  unfold pd.duplicated.
  rewrite mapM_require_ok.
  2:{ intros c [<- | [<- | []]]; apply Hkeep; auto. }
  cbn [bind].
  destruct (dup_df_ok out
              (map (fun r => 2 <=? List.length
                                     (filter (pd.same_key ["County"; "Year"] r) (rows out)))
                   (rows out)))
    as [shown Hshown].
  - apply Hkeep; auto.
  - apply Hkeep; auto.
  - apply Hkeep; auto.
  - rewrite Hshown. cbn [bind].
    eexists. eexists. split; [reflexivity |].
    unfold out. cbn [rows]. apply map_map.
Qed.




Example quality_checks_empty_table :
  clean_standardize.quality_checks Samples.empty_table = Ok (Samples.empty_table, []).
Proof. vm_compute. reflexivity. Qed.

Example quality_checks_missing_cells :
  clean_standardize.quality_checks
    (Samples.table [ [("County", NA); ("Year", NA); ("Election_Date", NA);
                      ("Registered_Voters", Num (0 # 1)); ("Votes_Cast", Num (5 # 1));
                      ("Turnout_Percent", NA)] ])
  = Ok (Samples.table [ [("County", NA); ("Year", NA); ("Election_Date", NA);
                         ("Registered_Voters", Num (0 # 1)); ("Votes_Cast", Num (5 # 1));
                         ("Turnout_Percent", NA)] ],
        [ clean_standardize.MissingValues "County" 1;
          clean_standardize.MissingValues "Year" 1;
          clean_standardize.MissingValues "Election_Date" 1;
          clean_standardize.MissingValues "Turnout_Percent" 1 ]).
Proof. vm_compute. reflexivity. Qed.


(** C6. Let the year [y] occur in the table and let [cs] list its distinct
    counties. The validator returns on every election table; and whenever
    it returns, if the counties of [y] are not 67, the issue list has
    exactly one county-count issue that names [y], and that issue carries
    the actual count; if they are 67, it has none. *)
Theorem county_count_issue (df : DataFrame) (y : cell) (cs : list cell) :
  y <> NA ->
  In y (map year_of (rows df)) ->
  enumerates_counties df y cs ->
  (election_schema df = true ->
   exists out issues, clean_standardize.quality_checks df = Ok (out, issues)) /\
  (forall out issues,
      clean_standardize.quality_checks df = Ok (out, issues) ->
      (List.length cs <> 67 ->
       exists k, cell_eq k y /\
                 filter (names_year y) issues
                 = [clean_standardize.CountyCount k (List.length cs)]) /\
      (List.length cs = 67 -> filter (names_year y) issues = [])).
Proof.
  intros Hna Hin Hcs. split.
  { intro Hschema.
    destruct (quality_checks_returns df Hschema) as (out & issues & Hrun & _).
    exists out, issues. exact Hrun. }
  intros out issues Hq.
  apply quality_checks_inv in Hq.
  destruct Hq as (counts & low & helpers & duplicates & Hcounts & _ & _ & _ & _ & ->).
  unfold pd.groupby_nunique in Hcounts.
  bind_inv Hcounts keys Hkeys. bind_inv Hcounts u Hu. injection Hcounts as <-.
  unfold pd.column in Hkeys. bind_inv Hkeys u' Hu'. injection Hkeys as <-.
  rewrite !filter_app, names_year_missing, names_year_low, names_year_duplicates.
  rewrite app_nil_r. cbn [app].
  rewrite (names_year_county_issues y (List.length cs)).
  - destruct (year_groups y _ Hna Hin) as (k & Hk & Hfilter).
    unfold year_of in Hfilter. rewrite Hfilter.
    split; intro Hlen.
    + apply Nat.eqb_neq in Hlen. rewrite Hlen. exists k. split; [exact Hk | reflexivity].
    + apply Nat.eqb_eq in Hlen. rewrite Hlen. reflexivity.
  - intros k Hk. rewrite (year_rows_congr df k y Hk).
    apply county_count_enumeration. exact Hcs.
Qed.

Lemma county_count_issue_witness :
  exists out issues k,
    clean_standardize.quality_checks Samples.short_2020 = Ok (out, issues) /\
    cell_eq k (Num (2020 # 1)) /\
    filter (names_year (Num (2020 # 1))) issues = [clean_standardize.CountyCount k 66].
Proof.
  destruct (county_count_issue
              Samples.short_2020 (Num (2020 # 1))
              (pd.unique (pd.dropna (map (fun r => pd.get r "County")
                 (filter (fun r => pd.cell_eqb (pd.get r "Year") (Num (2020 # 1)))
                         (rows Samples.short_2020))))))
    as [Hreturns Hissue].
  - discriminate.
  - left. reflexivity.
  - apply counties_enumerated.
  - destruct Hreturns as (out & issues & Hrun); [vm_compute; reflexivity |].
    destruct (Hissue out issues Hrun) as [Hone _].
    destruct Hone as (k & Hk & Hfilter); [vm_compute; discriminate |].
    exists out, issues, k. split; [exact Hrun |]. split; [exact Hk | exact Hfilter].
Defined.

Example short_2020_issue :
  clean_standardize.quality_checks Samples.short_2020
  = Ok (Samples.short_2020, [clean_standardize.CountyCount (Num (2020 # 1)) 66]).
Proof. vm_compute. reflexivity. Qed.

(** ** Left joins *)

Lemma holds_str_false (df : DataFrame) (c : string) :
  (forall r, In r (rows df) -> pd.is_str (pd.get r c) = false) ->
  pd.holds_str df c = false.
Proof.
  intro H. unfold pd.holds_str.
  destruct (existsb pd.is_str (map (fun r => pd.get r c) (rows df))) eqn:E;
    [| reflexivity].
  apply existsb_exists in E. destruct E as (x & Hx & Hs).
  apply in_map_iff in Hx. destruct Hx as (r & <- & Hr).
  rewrite (H r Hr) in Hs. discriminate Hs.
Qed.

(** Two key columns of numbers can be joined. *)
Lemma numeric_keys_join (L R : DataFrame) (left_on right_on : string) :
  numeric_key L left_on -> numeric_key R right_on ->
  pd.key_clash L R left_on right_on = false.
Proof.
  intros HL HR. unfold pd.key_clash.
  rewrite (holds_str_false L left_on HL), (holds_str_false R right_on HR).
  destruct (rows L), (rows R); reflexivity.
Qed.

(** Two key columns of text can be joined. *)
Lemma text_keys_join (L R : DataFrame) (left_on right_on : string) :
  text_column L left_on -> text_column R right_on ->
  pd.key_clash L R left_on right_on = false.
Proof.
  unfold text_column, pd.key_clash, pd.holds_str.
  intros [HL | HL] [HR | HR].
  - rewrite HL. reflexivity.
  - rewrite HL. reflexivity.
  - rewrite HR. destruct (rows L); reflexivity.
  - rewrite HL, HR. destruct (rows L), (rows R); reflexivity.
Qed.

Lemma merge_left_ok (L R : DataFrame) (left_on right_on : string) :
  In left_on (columns L) -> In right_on (columns R) ->
  pd.key_clash L R left_on right_on = false ->
  exists out,
    pd.merge_left L R left_on right_on = Ok out /\
    rows out = flat_map (joined_rows L R left_on right_on) (rows L) /\
    columns out
    = map (pd.suffixed (filter (fun c => pd.in_labels c (pd.right_labels R left_on right_on))
                               (columns L)) "_x") (columns L)
      ++ map (pd.suffixed (filter (fun c => pd.in_labels c (pd.right_labels R left_on right_on))
                                  (columns L)) "_y")
             (pd.right_labels R left_on right_on).
Proof.
  intros HL HR Hkeys. unfold pd.merge_left.
  rewrite (require_ok L _ HL), (require_ok R _ HR). cbn [bind]. rewrite Hkeys.
  eexists. split; [reflexivity |]. split; reflexivity.
Qed.

Lemma merge_left_inv (L R : DataFrame) (left_on right_on : string) (out : DataFrame) :
  pd.merge_left L R left_on right_on = Ok out ->
  In left_on (columns L) /\ In right_on (columns R) /\
  pd.key_clash L R left_on right_on = false /\
  rows out = flat_map (joined_rows L R left_on right_on) (rows L).
Proof.
  unfold pd.merge_left. intro H.
  destruct (pd.require L left_on) as [u1 |] eqn:H1; [| discriminate H].
  destruct (pd.require R right_on) as [u2 |] eqn:H2; [| discriminate H].
  cbn [bind] in H.
  destruct (pd.key_clash L R left_on right_on); [discriminate H |].
  cbv zeta in H. injection H as <-.
  split; [apply (require_inv _ _ _ H1) |]. split; [apply (require_inv _ _ _ H2) |].
  split; reflexivity.
Qed.

Lemma holds_str_iff (df : DataFrame) (c : string) :
  pd.holds_str df c = true <-> exists r, In r (rows df) /\ pd.is_str (pd.get r c) = true.
Proof.
  unfold pd.holds_str. rewrite existsb_exists. split.
  - intros (x & Hx & Hs). apply in_map_iff in Hx. destruct Hx as (r & <- & Hr).
    exists r. split; assumption.
  - intros (r & Hr & Hs). exists (pd.get r c). split; [| exact Hs].
    apply in_map_iff. exists r. split; [reflexivity | exact Hr].
Qed.

(** A table whose rows carry the keys of the rows of another one, each of
    them at least once, passes the check of the keys as the other does. *)
Lemma key_clash_same_keys (L L' R : DataFrame) (left_on right_on : string) :
  (forall o, In o (rows L') ->
     exists e, In e (rows L) /\ pd.get o left_on = pd.get e left_on) ->
  (forall e, In e (rows L) ->
     exists o, In o (rows L') /\ pd.get o left_on = pd.get e left_on) ->
  pd.key_clash L' R left_on right_on = pd.key_clash L R left_on right_on.
Proof.
  intros Hfrom Hall.
  assert (Hs : pd.holds_str L' left_on = pd.holds_str L left_on).
  { destruct (pd.holds_str L left_on) eqn:E.
    - apply holds_str_iff in E. destruct E as (e & He & Hstr).
      destruct (Hall e He) as (o & Ho & Heq).
      apply holds_str_iff. exists o. split; [exact Ho |]. rewrite Heq. exact Hstr.
    - destruct (pd.holds_str L' left_on) eqn:E'; [| reflexivity].
      apply holds_str_iff in E'. destruct E' as (o & Ho & Hstr).
      destruct (Hfrom o Ho) as (e & He & Heq).
      assert (Ht : pd.holds_str L left_on = true).
      { apply holds_str_iff. exists e. split; [exact He |]. rewrite <- Heq. exact Hstr. }
      congruence. }
  unfold pd.key_clash. rewrite Hs.
  destruct (rows L) as [| e l] eqn:EL; destruct (rows L') as [| o l'] eqn:EL';
    try reflexivity.
  - destruct (Hfrom o (or_introl eq_refl)) as (e & [] & _).
  - destruct (Hall e (or_introl eq_refl)) as (o & [] & _).
Qed.








Lemma append_x_not_FIPS (c : string) : (c ++ "_x")%string <> "FIPS".
Proof.
  destruct c as [| a [| b [| d [| e c]]]]; simpl; try discriminate.
  destruct c; discriminate.
Qed.

Lemma suffixed_x_FIPS (overlap : list string) (c : string) :
  pd.suffixed overlap "_x" c = "FIPS" -> c = "FIPS".
Proof.
  unfold pd.suffixed. destruct (pd.in_labels c overlap); intro H.
  - exfalso. apply (append_x_not_FIPS c). exact H.
  - exact H.
Qed.















Example integrate_duplicate_key :
  match data_integration.integrate_all_data
          Samples.keyed_elections (Some Samples.census_table) (Some Samples.bea_table_dup)
  with
  | Ok integrated =>
      map (fun r => (pd.get r "FIPS", pd.get r "Year", pd.get r "Per_Capita_Income"))
          (rows integrated)
  | Raise _ => []
  end
  = [ (Num (12001 # 1), Num (2020 # 1), Num (50000 # 1));
      (Num (12001 # 1), Num (2020 # 1), Num (51000 # 1));
      (Num (12003 # 1), Num (2020 # 1), NA);
      (Num (12001 # 1), Num (2024 # 1), Num (50000 # 1));
      (Num (12001 # 1), Num (2024 # 1), Num (51000 # 1)) ].
Proof. vm_compute. reflexivity. Qed.

(** ** Key resolution *)

Lemma get_app (r1 r2 : row) (c : string) :
  pd.get (r1 ++ r2) c
  = if pd.in_labels c (map fst r1) then pd.get r1 c else pd.get r2 c.
Proof.
  unfold pd.in_labels. induction r1 as [| [k v] r1 IH]; simpl.
  - reflexivity.
  - rewrite (String.eqb_sym c k). destruct (String.eqb k c); simpl; [reflexivity | exact IH].
Qed.

Lemma select_row_labels (cols : list string) (r : row) :
  map fst (pd.select_row cols r) = cols.
Proof.
  unfold pd.select_row. rewrite map_map. simpl. apply map_id.
Qed.

Lemma filter_nil {A : Type} (p : A -> bool) (l : list A) :
  (forall a, In a l -> p a = false) -> filter p l = [].
Proof.
  induction l as [| a l IH]; simpl; intro H.
  - reflexivity.
  - rewrite (H a (or_introl eq_refl)). apply IH. intros x Hx. apply H. right. exact Hx.
Qed.


Lemma joined_rows_nonempty (L R : DataFrame) (left_on right_on : string) (l : row) :
  exists o, In o (joined_rows L R left_on right_on l).
Proof.
  unfold joined_rows. cbv zeta.
  destruct (pd.matches R left_on right_on l) as [| m ms]; eexists; left; reflexivity.
Qed.

Lemma joined_rows_shape (L R : DataFrame) (left_on right_on : string) (l o : row) :
  In o (joined_rows L R left_on right_on l) ->
  exists partner : option row,
    o = pd.left_part L (filter (fun c => pd.in_labels c (pd.right_labels R left_on right_on))
                               (columns L)) l
        ++ pd.right_part (pd.right_labels R left_on right_on)
                         (filter (fun c => pd.in_labels c (pd.right_labels R left_on right_on))
                                 (columns L)) partner /\
    match partner with
    | None => True
    | Some r => In r (rows R) /\ cell_eq (pd.get l left_on) (pd.get r right_on)
    end.
Proof.
  unfold joined_rows. cbv zeta.
  destruct (pd.matches R left_on right_on l) as [| m ms] eqn:Hm.
  - intros [<- | []]. exists None. split; [reflexivity | exact I].
  - intro H. apply in_map_iff in H. destruct H as (r & <- & Hr).
    exists (Some r). split; [reflexivity |].
    rewrite <- Hm in Hr. unfold pd.matches in Hr. apply filter_In in Hr. exact Hr.
Qed.

Lemma not_in_labels (c : string) (l : list string) :
  ~ In c l -> pd.in_labels c l = false.
Proof.
  intro H. destruct (pd.in_labels c l) eqn:E; [| reflexivity].
  apply in_labels_iff in E. contradiction.
Qed.

Lemma fips_columns_choice (dropped : DataFrame) (c : string) :
  In c (if pd.has_column dropped "County_Original"
        then clean_standardize.fips_columns_with_original
        else clean_standardize.fips_columns) ->
  c = "FIPS" \/ In c raw_election_columns \/
  (c = "County_Original" /\ In "County_Original" (columns dropped)).
Proof.
  destruct (pd.has_column dropped "County_Original") eqn:H; simpl; intro Hc.
  - apply has_column_iff in H. intuition.
  - intuition.
Qed.

Lemma FIPS_in_choice (dropped : DataFrame) :
  In "FIPS" (if pd.has_column dropped "County_Original"
             then clean_standardize.fips_columns_with_original
             else clean_standardize.fips_columns).
Proof. destruct (pd.has_column dropped "County_Original"); left; reflexivity. Qed.

Lemma County_in_choice (dropped : DataFrame) :
  In "County" (if pd.has_column dropped "County_Original"
               then clean_standardize.fips_columns_with_original
               else clean_standardize.fips_columns).
Proof. destruct (pd.has_column dropped "County_Original"); right; left; reflexivity. Qed.

Lemma reference_table_text (fips_df : DataFrame) :
  text_column fips_df "County_Name" ->
  text_column (reference_table fips_df) "County_Name".
Proof.
  unfold text_column, reference_table. cbn [rows].
  intros [H | H]; [left; rewrite H; reflexivity | right].
  rewrite map_map.
  rewrite (map_ext _ (fun r => pd.get r "County_Name")); [exact H |].
  intro r. apply get_select_row. simpl. tauto.
Qed.




Example add_fips_codes_sample :
  match clean_standardize.add_fips_codes Samples.standardized_elections
                                         (Some Samples.fips_reference)
  with
  | Ok out =>
      (columns out, map (fun r => (pd.get r "County", pd.get r "FIPS")) (rows out))
  | Raise _ => ([], [])
  end
  = (clean_standardize.fips_columns_with_original,
     [ (Str "Alachua", Num (12001 # 1));
       (Str "St. Johns", Num (12109 # 1));
       (Str "Atlantis", NA) ]).
Proof. vm_compute. reflexivity. Qed.

(** ** Extraction of a BEA variable *)

Lemma str_accessor_text (df : DataFrame) (c : string) :
  In c (columns df) -> text_column df c -> pd.str_accessor df c = Ok tt.
Proof. intros Hc Ht. apply str_accessor_ok. split; assumption. Qed.

Lemma where_total (df : DataFrame) (p : row -> bool) :
  pd.where_ df (fun r => Ok (p r)) = Ok (mkDF (columns df) (filter p (rows df))).
Proof.
  unfold pd.where_. rewrite (filterM_total _ p) by reflexivity. reflexivity.
Qed.

Lemma filter_filter {A : Type} (p q : A -> bool) (l : list A) :
  filter q (filter p l) = filter (fun a => p a && q a) l.
Proof.
  induction l as [| a l IH]; simpl.
  - reflexivity.
  - destruct (p a); simpl; [destruct (q a) |]; rewrite IH; reflexivity.
Qed.

Lemma bea_variable_rows (py_int : string -> option Z) (str_to_numeric : string -> cell)
      (line bea_year name : string) (df : DataFrame) :
  readable_bea_table py_int df ->
  temporal_matching.bea_variable py_int str_to_numeric (Ok df) line bea_year name
  = if pd.in_labels bea_year (working_columns df)
    then Ok (Some (mkDF (pd.add_label (map (pd.rename_label bea_year name)
                                           ["FIPS"; bea_year]) name)
                        (extracted_rows py_int str_to_numeric line bea_year name df)))
    else Ok None.
Proof.
  intros (Hgeo & Hdesc & Htgeo & Htdesc & Hint).
  unfold temporal_matching.bea_variable. cbn [bind]. cbv zeta.
  rewrite (str_accessor_text df "GeoFIPS" Hgeo Htgeo). cbn [bind].
  rewrite assign_total. cbn [bind]. fold clean_row.
  rewrite where_total. cbn [bind columns rows].
  rewrite where_ok.
  2:{ cbn [rows]. intros r Hr. apply filter_In in Hr. destruct Hr as [_ Hr].
      destruct (pd.get r "GeoFIPS_clean"); try discriminate Hr.
      eexists. reflexivity. }
  cbn [bind columns rows]. rewrite where_total. cbn [bind columns rows].
  rewrite !filter_filter. fold is_county_row.
  rewrite (assign_ok _ _ _
             (fun r => value_of (temporal_matching.astype_int py_int
                                   (pd.get r "GeoFIPS_clean")))).
  2:{ cbn [rows]. intros r Hr. apply value_of_ok.
      apply filter_In in Hr. destruct Hr as [Hr Hcounty].
      apply in_map_iff in Hr. destruct Hr as (r0 & <- & Hr0).
      unfold is_county_row, clean_row in Hcounty. rewrite get_set_same in Hcounty.
      unfold clean_row. rewrite get_set_same.
      destruct (pd.get r0 "GeoFIPS") as [| q | b | g] eqn:Hg; try discriminate Hcounty.
      cbn [pd.str_map] in *.
      assert (Hcode : county_code (temporal_matching.clean_geofips g)).
      { rewrite !andb_true_iff, negb_true_iff in Hcounty.
        destruct Hcounty as (Hlen & Hpre & Hne). split; [| split].
        - cbn [pd.str_len pd.cell_eqb] in Hlen. apply Qeq_bool_iff in Hlen.
          unfold Qeq in Hlen. simpl in Hlen. lia.
        - exact Hpre.
        - intro E. rewrite E in Hne. discriminate Hne. }
      destruct (Hint r0 g Hr0 Hg Hcode) as [z Hz].
      cbn [temporal_matching.astype_int]. rewrite Hz. eexists. reflexivity. }
  cbn [bind columns rows]. fold (fips_row py_int).
  rewrite (str_accessor_text df "Description" Hdesc Htdesc). cbn [bind].
  rewrite assign_total. cbn [bind columns rows]. fold description_row.
  rewrite where_total. cbn [bind columns rows]. fold (is_line_row line).
  unfold pd.has_column, pd.in_labels, working_columns. cbn [columns].
  match goal with |- (if ?b then _ else _) = _ => destruct b eqn:Hyear end;
    [| reflexivity].
  rewrite select_ok.
  2:{ cbn [columns]. intros c [<- | [<- | []]].
      - apply add_label_In. left. apply add_label_In. right. reflexivity.
      - apply in_labels_iff. exact Hyear. }
  cbn [bind]. unfold pd.rename. cbn [columns rows].
  rewrite assign_total. cbn [bind columns rows].
  unfold extracted_rows. rewrite !map_map. reflexivity.
Qed.


Lemma is_county_row_clean (s : row) :
  is_county_row (clean_row s) = true <->
  exists g, pd.get s "GeoFIPS" = Str g /\
            county_code (temporal_matching.clean_geofips g).
Proof.
  unfold is_county_row, clean_row. rewrite get_set_same.
  destruct (pd.get s "GeoFIPS") as [| q | b | g]; cbn [pd.str_map].
  1-3: split; [discriminate | intros (g & Hg & _); discriminate Hg].
  rewrite !andb_true_iff, negb_true_iff. unfold county_code.
  cbn [pd.str_len pd.cell_eqb pd.str_startswith truth_of].
  rewrite Qeq_bool_iff. unfold Qeq. cbn [Qnum Qden inject_Z].
  rewrite String.eqb_neq. split.
  - intros (Hlen & Hpre & Hne). exists g. split; [reflexivity |].
    split; [lia | split; assumption].
  - intros (g' & Hg & Hlen & Hpre & Hne). injection Hg as <-.
    split; [lia | split; assumption].
Qed.

Lemma extracted_county_line (py_int : string -> option Z) (str_to_numeric : string -> cell)
      (bea_year name : string) (s : row) (g : string) (z : Z) :
  year_label bea_year -> name <> "FIPS" ->
  pd.get s "GeoFIPS" = Str g ->
  py_int (temporal_matching.clean_geofips g) = Some z ->
  extracted_row str_to_numeric bea_year name
                (description_row (fips_row py_int (clean_row s)))
  = variable_row str_to_numeric name bea_year s z.
Proof.
  intros (Hy1 & Hy2 & Hy3) Hname Hg Hz.
  unfold extracted_row, renamed_row, pd.select_row. cbn [map fst snd].
  assert (Hfips : pd.get (description_row (fips_row py_int (clean_row s))) "FIPS"
                  = Num (inject_Z z)).
  { unfold description_row. rewrite get_set_other by discriminate.
    unfold fips_row. rewrite get_set_same.
    unfold clean_row. rewrite get_set_same, Hg. cbn [pd.str_map temporal_matching.astype_int].
    rewrite Hz. reflexivity. }
  assert (Hyear : pd.get (description_row (fips_row py_int (clean_row s))) bea_year
                  = pd.get s bea_year).
  { unfold description_row, fips_row, clean_row.
    rewrite !get_set_other by congruence. reflexivity. }
  rewrite Hfips, Hyear. unfold pd.rename_label.
  rewrite String.eqb_refl.
  replace (String.eqb "FIPS" bea_year) with false
    by (symmetry; apply String.eqb_neq; congruence).
  unfold variable_row. cbn [pd.get pd.set].
  replace (String.eqb "FIPS" name) with false
    by (symmetry; apply String.eqb_neq; congruence).
  rewrite String.eqb_refl. reflexivity.
Qed.

Lemma is_line_row_description (py_int : string -> option Z) (line : string) (s : row) :
  is_line_row line (description_row (fips_row py_int (clean_row s))) = true <->
  exists d, pd.get s "Description" = Str d /\
            Str.contains_nocase line (Str.strip d) = true.
Proof.
  unfold is_line_row, description_row. rewrite get_set_same.
  unfold fips_row, clean_row. rewrite !get_set_other by discriminate.
  destruct (pd.get s "Description") as [| q | b | d]; cbn [pd.str_map pd.str_contains_nocase].
  1-3: split; [discriminate | intros (d & Hd & _); discriminate Hd].
  split.
  - intro H. exists d. split; [reflexivity | exact H].
  - intros (d' & Hd & H). injection Hd as <-. exact H.
Qed.

Lemma extracted_rows_iff (py_int : string -> option Z) (str_to_numeric : string -> cell)
      (line bea_year name : string) (df : DataFrame) (i : row) :
  readable_bea_table py_int df -> year_label bea_year -> name <> "FIPS" ->
  In i (extracted_rows py_int str_to_numeric line bea_year name df) <->
  exists s z, In s (rows df) /\ county_line py_int line s z /\
              i = variable_row str_to_numeric name bea_year s z.
Proof.
  intros (_ & _ & _ & _ & Hint) Hyear Hname. unfold extracted_rows. split.
  - intro Hi. apply in_map_iff in Hi. destruct Hi as (r3 & <- & Hr3).
    apply filter_In in Hr3. destruct Hr3 as [Hr3 Hline].
    apply in_map_iff in Hr3. destruct Hr3 as (r2 & <- & Hr2).
    apply in_map_iff in Hr2. destruct Hr2 as (r1 & <- & Hr1).
    apply filter_In in Hr1. destruct Hr1 as [Hr1 Hcounty].
    apply in_map_iff in Hr1. destruct Hr1 as (s & <- & Hs).
    apply is_county_row_clean in Hcounty. destruct Hcounty as (g & Hg & Hcode).
    apply is_line_row_description in Hline. destruct Hline as (d & Hd & Hcontains).
    destruct (Hint s g Hs Hg Hcode) as [z Hz].
    exists s, z. split; [exact Hs |]. split.
    + exists g, d. repeat (split; [assumption |]). assumption.
    + apply (extracted_county_line py_int str_to_numeric bea_year name s g z);
        assumption.
  - intros (s & z & Hs & (g & d & Hg & Hcode & Hz & Hd & Hcontains) & ->).
    rewrite <- (extracted_county_line py_int str_to_numeric bea_year name s g z)
      by assumption.
    apply in_map. apply filter_In. split.
    + apply in_map, in_map. apply filter_In. split.
      * apply in_map. exact Hs.
      * apply is_county_row_clean. exists g. split; assumption.
    + apply is_line_row_description. exists d. split; assumption.
Qed.

Lemma assign_inv (df d : DataFrame) (c : string) (f : row -> result cell) :
  pd.assign df c f = Ok d ->
  columns d = pd.add_label (columns df) c /\
  Forall2 (fun r r' => exists v, f r = Ok v /\ r' = pd.set r c v) (rows df) (rows d).
Proof.
  unfold pd.assign. intro H. bind_inv H rs Hrs. injection H as <-.
  split; [reflexivity |]. cbn [rows].
  apply mapM_ok_iff in Hrs.
  induction Hrs as [| r r' l l' Hr _ IH]; constructor.
  - bind_inv Hr v Hv. injection Hr as <-. exists v. split; [exact Hv | reflexivity].
  - exact IH.
Qed.


Lemma select_inv (df d : DataFrame) (cs : list string) :
  pd.select df cs = Ok d ->
  d = mkDF cs (map (pd.select_row cs) (rows df)) /\
  forall c, In c cs -> In c (columns df).
Proof.
  unfold pd.select. intro H. bind_inv H u Hu. injection H as <-.
  split; [reflexivity |].
  apply mapM_ok_iff in Hu. intros c Hc.
  induction Hu as [| a b l l' Ha _ IH]; [contradiction |].
  destruct Hc as [<- | Hc]; [apply (require_inv _ _ _ Ha) | apply IH; exact Hc].
Qed.


Lemma Forall2_In_right {A B : Type} (P : A -> B -> Prop) (l : list A) (l' : list B) (b : B) :
  Forall2 P l l' -> In b l' -> exists a, In a l /\ P a b.
Proof.
  intro H. induction H as [| a b' l l' Hab _ IH]; intro Hb; [contradiction |].
  destruct Hb as [<- | Hb].
  - exists a. split; [left; reflexivity | exact Hab].
  - destruct (IH Hb) as (a' & Ha' & HP). exists a'. split; [right; exact Ha' | exact HP].
Qed.


Lemma Forall2_In_left {A B : Type} (P : A -> B -> Prop) (l : list A) (l' : list B) (a : A) :
  Forall2 P l l' -> In a l -> exists b, In b l' /\ P a b.
Proof.
  intro H. induction H as [| a' b l l' Hab _ IH]; intro Ha; [contradiction |].
  destruct Ha as [<- | Ha].
  - exists b. split; [left; reflexivity | exact Hab].
  - destruct (IH Ha) as (b' & Hb' & HP). exists b'. split; [right; exact Hb' | exact HP].
Qed.


(** Whatever the table, a variable that was extracted has the two columns
    FIPS and [name]. *)
Lemma bea_variable_columns (py_int : string -> option Z) (str_to_numeric : string -> cell)
      (table : result DataFrame) (line bea_year name : string) (d : DataFrame) :
  bea_year <> "FIPS" ->
  temporal_matching.bea_variable py_int str_to_numeric table line bea_year name
  = Ok (Some d) ->
  columns d = ["FIPS"; name].
Proof.
  intros Hyear H. unfold temporal_matching.bea_variable in H. cbv zeta in H.
  bind_inv H raw Hraw. bind_inv H u1 Hu1. bind_inv H d1 Hd1. bind_inv H d2 Hd2.
  bind_inv H d3 Hd3. bind_inv H d4 Hd4. bind_inv H d5 Hd5. bind_inv H u2 Hu2.
  bind_inv H d6 Hd6. bind_inv H d7 Hd7.
  destruct (pd.has_column d7 bea_year); [| discriminate H].
  bind_inv H d8 Hd8. bind_inv H d9 Hd9. injection H as <-.
  unfold pd.select in Hd8. bind_inv Hd8 u3 Hu3. injection Hd8 as <-.
  unfold pd.assign in Hd9. bind_inv Hd9 rs Hrs. injection Hd9 as <-.
  cbn [columns pd.rename map]. unfold pd.rename_label.
  rewrite String.eqb_refl.
  replace (String.eqb "FIPS" bea_year) with false
    by (symmetry; apply String.eqb_neq; congruence).
  unfold pd.add_label. cbn [existsb]. rewrite String.eqb_refl, orb_true_r.
  reflexivity.
Qed.

(** The keys of an extracted variable are numbers: they come out of
    [astype(int)]. *)
Lemma bea_variable_numeric (py_int : string -> option Z) (str_to_numeric : string -> cell)
      (table : result DataFrame) (line bea_year name : string) (d : DataFrame) :
  bea_year <> "FIPS" -> name <> "FIPS" ->
  temporal_matching.bea_variable py_int str_to_numeric table line bea_year name
  = Ok (Some d) ->
  numeric_key d "FIPS".
Proof.
  intros Hyear Hname H. unfold temporal_matching.bea_variable in H. cbv zeta in H.
  bind_inv H raw Hraw. bind_inv H u1 Hu1. bind_inv H d1 Hd1. bind_inv H d2 Hd2.
  bind_inv H d3 Hd3. bind_inv H d4 Hd4. bind_inv H d5 Hd5. bind_inv H u2 Hu2.
  bind_inv H d6 Hd6. bind_inv H d7 Hd7.
  destruct (pd.has_column d7 bea_year); [| discriminate H].
  bind_inv H d8 Hd8. bind_inv H d9 Hd9. injection H as <-.
  apply assign_inv in Hd5. destruct Hd5 as [_ H5].
  apply assign_inv in Hd6. destruct Hd6 as [_ H6].
  unfold pd.where_ in Hd7. bind_inv Hd7 rs7 Hrs7. injection Hd7 as <-.
  apply select_inv in Hd8. destruct Hd8 as [-> _].
  apply assign_inv in Hd9. destruct Hd9 as [_ H9].
  intros r Hr.
  destruct (Forall2_In_right _ _ _ r H9 Hr) as (r8 & Hr8 & v9 & _ & ->).
  rewrite get_set_other by exact Hname.
  unfold pd.rename in Hr8. cbn [rows] in Hr8.
  apply in_map_iff in Hr8. destruct Hr8 as (s8 & <- & Hs8).
  apply in_map_iff in Hs8. destruct Hs8 as (r7 & <- & Hr7).
  cbn [pd.select_row map fst snd pd.get]. unfold pd.rename_label.
  replace (String.eqb "FIPS" bea_year) with false
    by (symmetry; apply String.eqb_neq; congruence).
  replace (String.eqb "FIPS" "FIPS") with true by reflexivity.
  cbn [rows] in Hr7.
  destruct (filterM_In _ _ _ r7 Hrs7 Hr7) as [Hr6 _].
  destruct (Forall2_In_right _ _ _ r7 H6 Hr6) as (r5 & Hr5 & v6 & _ & ->).
  rewrite get_set_other by discriminate.
  destruct (Forall2_In_right _ _ _ r5 H5 Hr5) as (r4 & _ & v5 & Hv5 & ->).
  rewrite get_set_same.
  unfold temporal_matching.astype_int in Hv5.
  destruct (pd.get r4 "GeoFIPS_clean") as [| q | b | g]; try discriminate Hv5.
  - injection Hv5 as <-. reflexivity.
  - destruct (py_int g); [| discriminate Hv5]. injection Hv5 as <-. reflexivity.
Qed.

(** ** A left join that adds one column *)

Lemma merge_if_shape (L : DataFrame) (variable : option DataFrame) (v : string) :
  In "FIPS" (columns L) -> ~ In v (columns L) -> v <> "FIPS" ->
  (forall d, variable = Some d -> columns d = ["FIPS"; v]) ->
  numeric_key L "FIPS" -> numeric_key_if variable "FIPS" ->
  exists out,
    temporal_matching.merge_if L variable = Ok out /\
    columns out = columns L ++ new_column variable v /\
    (forall o, In o (rows out) ->
               exists l, In l (rows L) /\ agrees (columns L) o l /\ attached variable v l o) /\
    (forall l, In l (rows L) -> exists o, In o (rows out) /\ agrees (columns L) o l) /\
    (forall l R r, In l (rows L) -> variable = Some R -> In r (rows R) ->
                   cell_eq (pd.get l "FIPS") (pd.get r "FIPS") ->
                   exists o, In o (rows out) /\ agrees (columns L) o l /\
                             pd.get o v = pd.get r v).
Proof.
  intros HL Hv Hne Hcols HnL HnR.
  destruct variable as [R |]; cbn [temporal_matching.merge_if new_column].
  2:{ exists L. split; [reflexivity |]. split; [symmetry; apply app_nil_r |].
      split; [| split].
      - intros o Ho. exists o. split; [exact Ho |]. split; [intros c _; reflexivity | exact I].
      - intros l Hl. exists l. split; [exact Hl | intros c _; reflexivity].
      - intros l R r _ HR. discriminate HR. }
  pose proof (Hcols R eq_refl) as HR.
  assert (Hrl : pd.right_labels R "FIPS" "FIPS" = [v]).
  { unfold pd.right_labels. rewrite HR.
    replace (String.eqb "FIPS" "FIPS") with true by reflexivity.
    cbn [filter]. replace (String.eqb "FIPS" "FIPS") with true by reflexivity.
    replace (String.eqb v "FIPS") with false
      by (symmetry; apply String.eqb_neq; exact Hne).
    reflexivity. }
  assert (Hoverlap : filter (fun c => pd.in_labels c (pd.right_labels R "FIPS" "FIPS"))
                            (columns L) = []).
  { rewrite Hrl. apply filter_nil. intros c Hc. apply not_in_labels.
    intros [<- | []]. contradiction. }
  destruct (merge_left_ok L R "FIPS" "FIPS" HL) as (out & Hout & Hrows & Hcolsout).
  { rewrite HR. left. reflexivity. }
  { apply numeric_keys_join; [exact HnL | exact HnR]. }
  rewrite Hoverlap, Hrl in Hcolsout.
  assert (Hshape : forall l o, In o (joined_rows L R "FIPS" "FIPS" l) ->
            exists partner : option row,
              o = pd.select_row (columns L) l
                  ++ [(v, match partner with Some r => pd.get r v | None => NA end)] /\
              match partner with
              | None => True
              | Some r => In r (rows R) /\ cell_eq (pd.get l "FIPS") (pd.get r "FIPS")
              end).
  { intros l o Ho. apply joined_rows_shape in Ho.
    destruct Ho as (partner & -> & Hp). rewrite Hoverlap, Hrl.
    exists partner. split; [reflexivity | exact Hp]. }
  assert (Hagree : forall l x, agrees (columns L) (pd.select_row (columns L) l ++ [(v, x)]) l).
  { intros l x c Hc. rewrite get_app, select_row_labels.
    replace (pd.in_labels c (columns L)) with true
      by (symmetry; apply in_labels_iff; exact Hc).
    apply get_select_row. exact Hc. }
  assert (Hnew : forall l x, pd.get (pd.select_row (columns L) l ++ [(v, x)]) v = x).
  { intros l x. rewrite get_app, select_row_labels, (not_in_labels v _ Hv).
    cbn [pd.get]. rewrite String.eqb_refl. reflexivity. }
  exists out. split; [exact Hout |]. split.
  { rewrite Hcolsout. f_equal. apply map_id. }
  split; [| split].
  - intros o Ho. rewrite Hrows in Ho. apply in_flat_map in Ho.
    destruct Ho as (l & Hl & Ho). apply Hshape in Ho.
    destruct Ho as (partner & -> & Hp).
    exists l. split; [exact Hl |]. split; [apply Hagree |].
    unfold attached. rewrite Hnew.
    destruct partner as [r |]; [right | left; reflexivity].
    exists r. split; [tauto |]. split; [tauto | reflexivity].
  - intros l Hl. destruct (joined_rows_nonempty L R "FIPS" "FIPS" l) as [o Ho].
    exists o. split.
    + rewrite Hrows. apply in_flat_map. exists l. split; assumption.
    + apply Hshape in Ho. destruct Ho as (partner & -> & _). apply Hagree.
  - intros l R' r Hl HR' Hr Hmatch. injection HR' as <-.
    exists (pd.select_row (columns L) l ++ [(v, pd.get r v)]).
    split; [| split; [apply Hagree | apply Hnew]].
    rewrite Hrows. apply in_flat_map. exists l. split; [exact Hl |].
    unfold joined_rows. cbv zeta. rewrite Hoverlap, Hrl.
    assert (Hin : In r (pd.matches R "FIPS" "FIPS" l)).
    { unfold pd.matches. apply filter_In. split; assumption. }
    destruct (pd.matches R "FIPS" "FIPS" l) as [| m ms]; [contradiction |].
    apply (in_map (fun r0 => pd.left_part L [] l ++ pd.right_part [v] [] (Some r0))
                  (m :: ms) r Hin).
Qed.

(** ** One turn of the loop over the year mapping *)

Lemma try_except_columns (py_int : string -> option Z) (str_to_numeric : string -> cell)
      (table : result DataFrame) (line bea_year name : string) (d : DataFrame) :
  bea_year <> "FIPS" ->
  try_except (temporal_matching.bea_variable py_int str_to_numeric table line bea_year name)
             None = Some d ->
  columns d = ["FIPS"; name].
Proof.
  intros Hy H.
  destruct (temporal_matching.bea_variable py_int str_to_numeric table line bea_year name)
    as [[d' |] | e] eqn:Hb; try discriminate H.
  injection H as ->. apply (bea_variable_columns _ _ _ _ _ _ _ Hy Hb).
Qed.

Lemma try_except_numeric (py_int : string -> option Z) (str_to_numeric : string -> cell)
      (table : result DataFrame) (line bea_year name : string) :
  bea_year <> "FIPS" -> name <> "FIPS" ->
  numeric_key_if
    (try_except (temporal_matching.bea_variable py_int str_to_numeric table line
                                                bea_year name) None)
    "FIPS".
Proof.
  intros Hy Hn.
  destruct (temporal_matching.bea_variable py_int str_to_numeric table line bea_year name)
    as [[d |] | e] eqn:Hb; cbn [try_except numeric_key_if]; try exact I.
  apply (bea_variable_numeric _ _ _ _ _ _ _ Hy Hn Hb).
Qed.

Lemma year_frame_shape (py_int : string -> option Z) (str_to_numeric : string -> cell)
      (elections : DataFrame) (income_file gdp_file : result DataFrame)
      (election_year : Z) (bea_year : string) :
  keyed_election_table elections -> numeric_key elections "FIPS" ->
  bea_year <> "FIPS" ->
  exists frame,
    temporal_matching.year_frame py_int str_to_numeric elections income_file gdp_file
                                 election_year bea_year = Ok frame /\
    columns frame
    = (columns elections
         ++ new_column (income_of py_int str_to_numeric income_file bea_year)
                       "Per_Capita_Income")
        ++ new_column (gdp_of py_int str_to_numeric gdp_file bea_year) "GDP_Millions" /\
    (forall o, In o (rows frame) ->
       exists e, In e (rows elections) /\
                 cell_eq (pd.get e "Year") (Num (inject_Z election_year)) /\
                 agrees (columns elections) o e /\
                 attached (income_of py_int str_to_numeric income_file bea_year)
                          "Per_Capita_Income" e o) /\
    (forall e inc i,
        In e (rows elections) ->
        cell_eq (pd.get e "Year") (Num (inject_Z election_year)) ->
        income_of py_int str_to_numeric income_file bea_year = Some inc ->
        In i (rows inc) ->
        cell_eq (pd.get e "FIPS") (pd.get i "FIPS") ->
        exists o, In o (rows frame) /\ agrees (columns elections) o e /\
                  pd.get o "Per_Capita_Income" = pd.get i "Per_Capita_Income").
Proof.
  intros (Hfips & Hyear & Hnpci & Hngdp) Hnum Hby.
  set (income := income_of py_int str_to_numeric income_file bea_year).
  set (gdp := gdp_of py_int str_to_numeric gdp_file bea_year).
  set (year_elections :=
         mkDF (columns elections)
              (filter (fun r => pd.cell_eqb (pd.get r "Year") (Num (inject_Z election_year)))
                      (rows elections))).
  destruct (merge_if_shape year_elections income "Per_Capita_Income")
    as (out1 & Hout1 & Hcols1 & Hfrom1 & Hall1 & Hmatch1);
    [exact Hfips | exact Hnpci | discriminate | | | |].
  { intros d Hd. apply (try_except_columns _ _ _ _ _ _ _ Hby Hd). }
  { intros r Hr. cbn [rows year_elections] in Hr. apply filter_In in Hr.
    apply Hnum. tauto. }
  { apply try_except_numeric; [exact Hby | discriminate]. }
  cbn [columns rows year_elections] in Hcols1, Hfrom1, Hall1, Hmatch1.
  destruct (merge_if_shape out1 gdp "GDP_Millions")
    as (out2 & Hout2 & Hcols2 & Hfrom2 & Hall2 & _).
  { rewrite Hcols1. apply in_or_app. left. exact Hfips. }
  { rewrite Hcols1. intro H. apply in_app_or in H. destruct H as [H | H].
    - contradiction.
    - destruct income; simpl in H; [destruct H as [H | []]; discriminate H | contradiction]. }
  { discriminate. }
  { intros d Hd. apply (try_except_columns _ _ _ _ _ _ _ Hby Hd). }
  { intros o Ho. destruct (Hfrom1 o Ho) as (l & Hl & Hagree & _).
    rewrite (Hagree "FIPS" Hfips). apply filter_In in Hl. apply Hnum. tauto. }
  { apply try_except_numeric; [exact Hby | discriminate]. }
  assert (Hsub : forall o o1, agrees (columns out1) o o1 ->
                   forall l, agrees (columns elections) o1 l ->
                             agrees (columns elections) o l).
  { intros o o1 H1 l H2 c Hc. rewrite H1, H2; [reflexivity | exact Hc |].
    rewrite Hcols1. apply in_or_app. left. exact Hc. }
  exists out2. split; [| split; [| split]].
  - unfold temporal_matching.year_frame.
    rewrite (require_ok elections "Year" Hyear). cbn [bind].
    rewrite where_total. cbn [bind]. cbv zeta.
    fold year_elections.
    unfold income, income_of in Hout1. unfold gdp, gdp_of in Hout2.
    rewrite Hout1. cbn [bind]. rewrite Hout2. reflexivity.
  - rewrite Hcols2, Hcols1. reflexivity.
  - intros o Ho. destruct (Hfrom2 o Ho) as (o1 & Ho1 & Hagree2 & _).
    destruct (Hfrom1 o1 Ho1) as (l & Hl & Hagree1 & Hatt).
    apply filter_In in Hl. destruct Hl as [Hl Hy].
    exists l. split; [exact Hl |]. split; [exact Hy |].
    split; [apply (Hsub o o1 Hagree2 l Hagree1) |].
    unfold attached in *. destruct income as [inc |]; [| exact I].
    rewrite (Hagree2 "Per_Capita_Income").
    + exact Hatt.
    + rewrite Hcols1. apply in_or_app. right. left. reflexivity.
  - intros e inc i He Hy Hinc Hi Hkey.
    assert (Hl : In e (filter (fun r => pd.cell_eqb (pd.get r "Year")
                                          (Num (inject_Z election_year)))
                              (rows elections))).
    { apply filter_In. split; assumption. }
    destruct (Hmatch1 e inc i Hl Hinc Hi Hkey) as (o1 & Ho1 & Hagree1 & Hval).
    destruct (Hall2 o1 Ho1) as (o & Ho & Hagree2).
    exists o. split; [exact Ho |]. split; [apply (Hsub o o1 Hagree2 e Hagree1) |].
    rewrite (Hagree2 "Per_Capita_Income").
    + exact Hval.
    + rewrite Hcols1. apply in_or_app. right. fold income. rewrite Hinc. left. reflexivity.
Qed.

(** ** Concatenation *)

Lemma fold_add_label_In (cs acc : list string) (x : string) :
  In x (fold_left pd.add_label cs acc) <-> In x acc \/ In x cs.
Proof.
  revert acc. induction cs as [| c cs IH]; intro acc; simpl.
  - tauto.
  - rewrite IH, add_label_In. intuition.
Qed.

Lemma union_labels_In_acc (dfs : list DataFrame) (acc : list string) (x : string) :
  In x (fold_left (fun acc df => fold_left pd.add_label (columns df) acc) dfs acc) <->
  In x acc \/ exists df, In df dfs /\ In x (columns df).
Proof.
  revert acc. induction dfs as [| d dfs IH]; intro acc; simpl.
  - split; [tauto |]. intros [H | (df & [] & _)]. exact H.
  - rewrite IH, fold_add_label_In. split.
    + intros [[H | H] | (df & Hdf & H)].
      * left. exact H.
      * right. exists d. tauto.
      * right. exists df. tauto.
    + intros [H | (df & [<- | Hdf] & H)].
      * left. left. exact H.
      * left. right. exact H.
      * right. exists df. tauto.
Qed.

Lemma union_labels_In (dfs : list DataFrame) (df : DataFrame) (x : string) :
  In df dfs -> In x (columns df) -> In x (pd.union_labels dfs).
Proof.
  intros Hdf Hx. unfold pd.union_labels. apply union_labels_In_acc.
  right. exists df. tauto.
Qed.

Lemma get_labelled (cols : list string) (f : string -> cell) (c : string) :
  pd.get (map (fun c => (c, f c)) cols) c = if pd.in_labels c cols then f c else NA.
Proof.
  unfold pd.in_labels. induction cols as [| k cols IH]; simpl.
  - reflexivity.
  - rewrite (String.eqb_sym c k). destruct (String.eqb k c) eqn:Hk; simpl.
    + apply String.eqb_eq in Hk. subst k. reflexivity.
    + exact IH.
Qed.

Lemma concat_row_get (dfs : list DataFrame) (df : DataFrame) (r : row) (c : string) :
  In df dfs -> In c (columns df) ->
  pd.get (concat_row (pd.union_labels dfs) df r) c = pd.get r c.
Proof.
  intros Hdf Hc. unfold concat_row.
  rewrite (get_labelled _ (fun c => if pd.has_column df c then pd.get r c else NA)).
  replace (pd.in_labels c (pd.union_labels dfs)) with true
    by (symmetry; apply in_labels_iff; apply (union_labels_In dfs df c Hdf Hc)).
  replace (pd.has_column df c) with true
    by (symmetry; apply has_column_iff; exact Hc).
  reflexivity.
Qed.


Lemma concat_rows (dfs : list DataFrame) (out : DataFrame) (o : row) :
  pd.concat dfs = Ok out ->
  (In o (rows out) <->
   exists df r, In df dfs /\ In r (rows df) /\ o = concat_row (pd.union_labels dfs) df r).
Proof.
  intro H.
  assert (Hrows : rows out
                  = flat_map (fun df => map (concat_row (pd.union_labels dfs) df) (rows df))
                             dfs).
  { unfold pd.concat in H. destruct dfs as [| d dfs]; [discriminate H |].
    cbv zeta in H. injection H as <-. reflexivity. }
  rewrite Hrows, in_flat_map. split.
  - intros (df & Hdf & Ho). apply in_map_iff in Ho. destruct Ho as (r & <- & Hr).
    exists df, r. split; [exact Hdf |]. split; [exact Hr | reflexivity].
  - intros (df & r & Hdf & Hr & ->). exists df. split; [exact Hdf |].
    apply (in_map (concat_row (pd.union_labels dfs) df)). exact Hr.
Qed.

(** ** Temporal alignment *)

Lemma variable_row_get (str_to_numeric : string -> cell) (name bea_year : string)
      (s : row) (z : Z) :
  name <> "FIPS" ->
  pd.get (variable_row str_to_numeric name bea_year s z) "FIPS" = Num (inject_Z z) /\
  pd.get (variable_row str_to_numeric name bea_year s z) name
  = temporal_matching.to_numeric str_to_numeric (pd.get s bea_year).
Proof.
  intro Hname. unfold variable_row. cbn [pd.get].
  replace (String.eqb "FIPS" "FIPS") with true by reflexivity.
  replace (String.eqb "FIPS" name) with false
    by (symmetry; apply String.eqb_neq; congruence).
  rewrite String.eqb_refl. split; reflexivity.
Qed.




Lemma income_table_readable :
  readable_bea_table Samples.int_of_digits Samples.income_table.
Proof.
  split; [simpl; tauto |]. split; [simpl; tauto |].
  split; [right; vm_compute; reflexivity |].
  split; [right; vm_compute; reflexivity |].
  intros r g Hr Hg _.
  unfold Samples.income_table in Hr. cbn [rows In] in Hr.
  destruct Hr as [<- | [<- | [<- | [<- | []]]]];
    vm_compute in Hg; injection Hg as <-; vm_compute; eexists; reflexivity.
Qed.




Example aligned_income :
  In (2024%Z, "2023") temporal_matching.year_mapping /\
  match temporal_matching.process_bea_temporal
          Samples.int_of_digits Samples.numeric_of_digits
          Samples.aligned_elections (Ok Samples.income_table) (Raise (KeyError "GeoFIPS"))
  with
  | Ok combined =>
      map (fun r => (pd.get r "FIPS", pd.get r "Year", pd.get r "Per_Capita_Income"))
          (rows combined)
  | Raise _ => []
  end
  = [ (Num (12001 # 1), Num (2022 # 1), Num (50000 # 1));
      (Num (12001 # 1), Num (2024 # 1), Num (53000 # 1));
      (Num (12003 # 1), Num (2024 # 1), Num (41000 # 1)) ].
Proof. split; [simpl; tauto | vm_compute; reflexivity]. Qed.

(** ** The entries of the issue list, check by check *)

Lemma filter_all {A : Type} (p : A -> bool) (l : list A) :
  (forall a, In a l -> p a = true) -> filter p l = l.
Proof.
  induction l as [| a l IH]; intro H; simpl.
  - reflexivity.
  - rewrite (H a (or_introl eq_refl)). f_equal. apply IH.
    intros b Hb. apply H. right. exact Hb.
Qed.

Lemma filter_of_map {A B : Type} (p : B -> bool) (f : A -> B) (l : list A) :
  filter p (map f l) = map f (filter (fun a => p (f a)) l).
Proof.
  induction l as [| a l IH]; simpl.
  - reflexivity.
  - destruct (p (f a)); simpl; rewrite IH; reflexivity.
Qed.

Lemma missing_issues_kind (df : DataFrame) (i : clean_standardize.issue) :
  In i (clean_standardize.missing_issues df) ->
  exists c n, i = clean_standardize.MissingValues c n.
Proof.
  unfold clean_standardize.missing_issues. intro H. apply in_map_iff in H.
  destruct H as (cn & <- & _). eauto.
Qed.

Lemma county_issues_kind (counts : list (cell * nat)) (i : clean_standardize.issue) :
  In i (clean_standardize.county_issues counts) ->
  exists y n, i = clean_standardize.CountyCount y n.
Proof.
  unfold clean_standardize.county_issues. intro H. apply in_flat_map in H.
  destruct H as (yc & _ & H). destruct (snd yc =? 67); [contradiction |].
  destruct H as [<- | []]. eauto.
Qed.

Lemma low_issues_kind (low : DataFrame) (i : clean_standardize.issue) :
  In i (clean_standardize.low_issues low) -> exists r, i = low_issue_of r.
Proof.
  unfold clean_standardize.low_issues. intro H. apply in_map_iff in H.
  destruct H as (r & <- & _). exists r. reflexivity.
Qed.

Lemma duplicate_issues_kind (duplicates : list bool) (i : clean_standardize.issue) :
  In i (clean_standardize.duplicate_issues duplicates) ->
  exists n, i = clean_standardize.DuplicateRecords n.
Proof.
  unfold clean_standardize.duplicate_issues. intro H.
  destruct (existsb (fun b => b) duplicates); [| contradiction].
  destruct H as [<- | []]. eauto.
Qed.

(** Splits the issue list of a run into the outputs of the four checks and
    filters each of them by the kind [p]. *)
Ltac filter_issues p :=
  repeat rewrite (filter_app p);
  repeat match goal with
    | |- context [filter p (clean_standardize.missing_issues ?df)] =>
        first [ rewrite (filter_all p (clean_standardize.missing_issues df))
                  by (intros ? Hkind; apply missing_issues_kind in Hkind;
                      destruct Hkind as (? & ? & ->); reflexivity)
              | rewrite (filter_nil p (clean_standardize.missing_issues df))
                  by (intros ? Hkind; apply missing_issues_kind in Hkind;
                      destruct Hkind as (? & ? & ->); reflexivity) ]
    | |- context [filter p (clean_standardize.county_issues ?counts)] =>
        rewrite (filter_nil p (clean_standardize.county_issues counts))
          by (intros ? Hkind; apply county_issues_kind in Hkind;
              destruct Hkind as (? & ? & ->); reflexivity)
    | |- context [filter p (clean_standardize.low_issues ?low)] =>
        first [ rewrite (filter_all p (clean_standardize.low_issues low))
                  by (intros ? Hkind; apply low_issues_kind in Hkind;
                      destruct Hkind as (? & ->); reflexivity)
              | rewrite (filter_nil p (clean_standardize.low_issues low))
                  by (intros ? Hkind; apply low_issues_kind in Hkind;
                      destruct Hkind as (? & ->); reflexivity) ]
    | |- context [filter p (clean_standardize.duplicate_issues ?d)] =>
        first [ rewrite (filter_all p (clean_standardize.duplicate_issues d))
                  by (intros ? Hkind; apply duplicate_issues_kind in Hkind;
                      destruct Hkind as (? & ->); reflexivity)
              | rewrite (filter_nil p (clean_standardize.duplicate_issues d))
                  by (intros ? Hkind; apply duplicate_issues_kind in Hkind;
                      destruct Hkind as (? & ->); reflexivity) ]
    end;
  repeat rewrite app_nil_r; cbn [app].

Lemma missing_issues_columns (df : DataFrame) :
  clean_standardize.missing_issues df
  = map (fun c => clean_standardize.MissingValues c (pd.count_na df c))
        (filter (fun c => 0 <? pd.count_na df c) (columns df)).
Proof.
  unfold clean_standardize.missing_issues, pd.isnull_sum.
  rewrite filter_of_map, map_map. reflexivity.
Qed.

(** The missing-value check. Whenever the validator returns, the entries
    about missing values are, in column order, one entry for each column
    with at least one missing cell, carrying the number of rows whose cell
    is missing; a column without missing cells has no entry, and no entry
    names anything but a column of the table. *)
Theorem missing_values_itemized
        (df out : DataFrame) (issues : list clean_standardize.issue) :
  clean_standardize.quality_checks df = Ok (out, issues) ->
  filter is_missing_issue issues
  = map (fun c => clean_standardize.MissingValues c (pd.count_na df c))
        (filter (fun c => 0 <? pd.count_na df c) (columns df)) /\
  (forall c n, In (clean_standardize.MissingValues c n) issues <->
               In c (columns df) /\ n = pd.count_na df c /\ 0 < n).
Proof.
  intro H. apply quality_checks_inv in H.
  destruct H as (counts & low & helpers & duplicates & _ & _ & _ & _ & _ & ->).
  assert (Hfilter :
            filter is_missing_issue
                   (clean_standardize.missing_issues df
                      ++ clean_standardize.county_issues counts
                      ++ clean_standardize.low_issues low
                      ++ clean_standardize.duplicate_issues duplicates)
            = map (fun c => clean_standardize.MissingValues c (pd.count_na df c))
                  (filter (fun c => 0 <? pd.count_na df c) (columns df))).
  { filter_issues is_missing_issue. apply missing_issues_columns. }
  split; [exact Hfilter |].
  intros c n.
  transitivity (In (clean_standardize.MissingValues c n)
                   (filter is_missing_issue
                      (clean_standardize.missing_issues df
                         ++ clean_standardize.county_issues counts
                         ++ clean_standardize.low_issues low
                         ++ clean_standardize.duplicate_issues duplicates))).
  { rewrite filter_In. simpl. tauto. }
  rewrite Hfilter, in_map_iff. split.
  - intros (c' & Heq & Hc'). injection Heq as -> <-.
    apply filter_In in Hc'. destruct Hc' as [Hc' Hpos].
    apply Nat.ltb_lt in Hpos. tauto.
  - intros (Hc & -> & Hpos). exists c. split; [reflexivity |].
    apply filter_In. split; [exact Hc | apply Nat.ltb_lt; exact Hpos].
Qed.

Example flawed_run :
  clean_standardize.quality_checks Samples.flawed
  = Ok (Samples.flawed, Samples.flawed_issues).
Proof. vm_compute. reflexivity. Qed.

Lemma missing_values_itemized_witness :
  filter is_missing_issue Samples.flawed_issues
  = [ clean_standardize.MissingValues "Election_Date" 1;
      clean_standardize.MissingValues "Turnout_Percent" 1 ] /\
  (forall c n, In (clean_standardize.MissingValues c n) Samples.flawed_issues <->
               In c (columns Samples.flawed) /\ n = pd.count_na Samples.flawed c /\ 0 < n).
Proof.
  apply (missing_values_itemized Samples.flawed Samples.flawed Samples.flawed_issues).
  vm_compute. reflexivity.
Defined.

Lemma filterM_ok (p : row -> result bool) (l kept : list row) :
  pd.filterM p l = Ok kept -> kept = filter (fun r => truth_of (p r)) l.
Proof.
  revert kept. induction l as [| r l IH]; intros kept H; simpl in H.
  - injection H as <-. reflexivity.
  - bind_inv H b Hb. bind_inv H rest Hrest. injection H as <-.
    simpl. rewrite Hb. cbn [truth_of]. rewrite (IH rest Hrest). reflexivity.
Qed.

Lemma low_turnout_rows (df low : DataFrame) :
  clean_standardize.low_turnout df = Ok low -> rows low = filter below_30 (rows df).
Proof.
  unfold clean_standardize.low_turnout, pd.where_. intro H.
  bind_inv H u Hu. bind_inv H kept Hkept. injection H as <-.
  apply filterM_ok in Hkept. exact Hkept.
Qed.

(** The low-turnout check. Whenever the validator returns, the entries
    about low turnout are, in row order, one entry for each row whose
    reported turnout is below 30, naming the county, the year and the
    turnout of that row. A row without a reported turnout is never
    listed. *)
Theorem low_turnout_itemized
        (df out : DataFrame) (issues : list clean_standardize.issue) :
  clean_standardize.quality_checks df = Ok (out, issues) ->
  filter is_low_issue issues = map low_issue_of (filter below_30 (rows df)) /\
  (forall r, In r (rows df) ->
             pd.lt_scalar (pd.get r "Turnout_Percent") (30 # 1) = Ok true ->
             In (low_issue_of r) issues) /\
  (forall county year, ~ In (clean_standardize.LowTurnout county year NA) issues).
Proof.
  intro H. apply quality_checks_inv in H.
  destruct H as (counts & low & helpers & duplicates & _ & Hlow & _ & _ & _ & ->).
  apply low_turnout_rows in Hlow.
  assert (Hfilter :
            filter is_low_issue
                   (clean_standardize.missing_issues df
                      ++ clean_standardize.county_issues counts
                      ++ clean_standardize.low_issues low
                      ++ clean_standardize.duplicate_issues duplicates)
            = map low_issue_of (filter below_30 (rows df))).
  { filter_issues is_low_issue. unfold clean_standardize.low_issues.
    rewrite Hlow. reflexivity. }
  assert (Hin : forall i, is_low_issue i = true ->
            (In i (clean_standardize.missing_issues df
                     ++ clean_standardize.county_issues counts
                     ++ clean_standardize.low_issues low
                     ++ clean_standardize.duplicate_issues duplicates)
             <-> In i (map low_issue_of (filter below_30 (rows df))))).
  { intros i Hi. rewrite <- Hfilter, filter_In. tauto. }
  split; [exact Hfilter |]. split.
  - intros r Hr Hlt. apply (Hin (low_issue_of r) eq_refl).
    apply in_map. apply filter_In. split; [exact Hr |].
    unfold below_30. rewrite Hlt. reflexivity.
  - intros county year Hi.
    apply (Hin (clean_standardize.LowTurnout county year NA) eq_refl) in Hi.
    apply in_map_iff in Hi. destruct Hi as (r & Heq & Hr).
    apply filter_In in Hr. destruct Hr as [_ Hr].
    unfold low_issue_of in Heq. injection Heq as _ _ Hna.
    unfold below_30 in Hr. rewrite Hna in Hr. discriminate Hr.
Qed.

Lemma low_turnout_itemized_witness :
  filter is_low_issue Samples.flawed_issues
  = map low_issue_of (filter below_30 (rows Samples.flawed)) /\
  (forall r, In r (rows Samples.flawed) ->
             pd.lt_scalar (pd.get r "Turnout_Percent") (30 # 1) = Ok true ->
             In (low_issue_of r) Samples.flawed_issues) /\
  (forall county year,
      ~ In (clean_standardize.LowTurnout county year NA) Samples.flawed_issues).
Proof.
  apply (low_turnout_itemized Samples.flawed Samples.flawed Samples.flawed_issues).
  vm_compute. reflexivity.
Defined.

(** ** The table the validator returns *)

Lemma drop_row_set (cs : list string) (r : row) (c : string) (v : cell) :
  pd.in_labels c cs = true -> pd.drop_row cs (pd.set r c v) = pd.drop_row cs r.
Proof.
  intro Hc. unfold pd.in_labels in Hc. unfold pd.drop_row.
  induction r as [| [k w] r IH]; simpl.
  - rewrite Hc. reflexivity.
  - destruct (String.eqb k c) eqn:Hk; simpl.
    + apply String.eqb_eq in Hk. subst k. rewrite Hc. reflexivity.
    + rewrite IH. reflexivity.
Qed.

Lemma drop_row_assigned (cs : list string) (c : string) (f : row -> result cell)
      (l l' : list row) :
  pd.in_labels c cs = true ->
  Forall2 (fun r r' => exists v, f r = Ok v /\ r' = pd.set r c v) l l' ->
  map (pd.drop_row cs) l' = map (pd.drop_row cs) l.
Proof.
  intros Hc H. induction H as [| r r' l l' (v & _ & ->) _ IH]; simpl.
  - reflexivity.
  - rewrite drop_row_set by exact Hc. rewrite IH. reflexivity.
Qed.

Lemma filter_add_label (p : string -> bool) (cols : list string) (c : string) :
  p c = false -> filter p (pd.add_label cols c) = filter p cols.
Proof.
  intro Hc. unfold pd.add_label. destruct (existsb (String.eqb c) cols).
  - reflexivity.
  - rewrite filter_app. simpl. rewrite Hc. apply app_nil_r.
Qed.

Lemma drop_inv (df d : DataFrame) (cs : list string) :
  pd.drop df cs = Ok d ->
  d = mkDF (filter (fun c => negb (existsb (String.eqb c) cs)) (columns df))
           (map (pd.drop_row cs) (rows df)).
Proof.
  unfold pd.drop. intro H. bind_inv H u Hu. injection H as <-. reflexivity.
Qed.

Lemma with_calculated_turnout_inv (df helpers : DataFrame) :
  clean_standardize.with_calculated_turnout df = Ok helpers ->
  columns helpers
  = pd.add_label (pd.add_label (columns df) "Calculated_Turnout") "Turnout_Difference" /\
  map (pd.drop_row helper_names) (rows helpers) = map (pd.drop_row helper_names) (rows df).
Proof.
  unfold clean_standardize.with_calculated_turnout. intro H.
  bind_inv H u1 Hu1. bind_inv H u2 Hu2. bind_inv H d1 Hd1. bind_inv H u3 Hu3.
  apply assign_inv in Hd1. destruct Hd1 as [Hc1 Hr1].
  apply assign_inv in H. destruct H as [Hc2 Hr2].
  split.
  - rewrite Hc2, Hc1. reflexivity.
  - rewrite (drop_row_assigned helper_names "Turnout_Difference" _ _ _ eq_refl Hr2).
    apply (drop_row_assigned helper_names "Calculated_Turnout" _ _ _ eq_refl Hr1).
Qed.

Lemma quality_checks_table (df out : DataFrame) (issues : list clean_standardize.issue) :
  clean_standardize.quality_checks df = Ok (out, issues) ->
  out = mkDF (filter (fun c => negb (pd.in_labels c helper_names)) (columns df))
             (map (pd.drop_row helper_names) (rows df)).
Proof.
  intro H. apply quality_checks_inv in H.
  destruct H as (counts & low & helpers & duplicates & _ & _ & Hh & Hdrop & _ & _).
  apply drop_inv in Hdrop. apply with_calculated_turnout_inv in Hh.
  destruct Hh as [Hcols Hrows]. subst out. f_equal.
  - rewrite Hcols.
    rewrite (filter_add_label (fun c => negb (existsb (String.eqb c) helper_names)))
      by reflexivity.
    rewrite (filter_add_label (fun c => negb (existsb (String.eqb c) helper_names)))
      by reflexivity.
    reflexivity.
  - exact Hrows.
Qed.

Lemma drop_row_fresh (cs : list string) (r : row) :
  (forall c, In c cs -> ~ In c (map fst r)) -> pd.drop_row cs r = r.
Proof.
  intro H. unfold pd.drop_row. apply filter_all. intros [k v] Hkv.
  apply negb_true_iff. apply (not_in_labels k cs). intro Hk.
  apply (H k Hk). apply (in_map fst r (k, v) Hkv).
Qed.

(** The returned table. Whenever the validator returns, its table is the
    given one without the two helper columns of the turnout verification:
    no other column and no row is added, dropped, reordered or changed. A
    table that has neither name among its labels comes back as it was
    given; a column of the input that happens to bear one of the two names
    does not come back. *)
Theorem validated_table_unchanged
        (df out : DataFrame) (issues : list clean_standardize.issue) :
  clean_standardize.quality_checks df = Ok (out, issues) ->
  columns out = filter (fun c => negb (pd.in_labels c helper_names)) (columns df) /\
  rows out = map (pd.drop_row helper_names) (rows df) /\
  (forall c, In c helper_names -> ~ In c (columns out)) /\
  (well_formed df -> (forall c, In c helper_names -> ~ In c (columns df)) -> out = df).
Proof.
  intro H. apply quality_checks_table in H. subst out. cbn [columns rows].
  split; [reflexivity |]. split; [reflexivity |]. split.
  - intros c Hc Hin. apply filter_In in Hin. destruct Hin as [_ Hin].
    apply negb_true_iff in Hin. apply in_labels_iff in Hc. congruence.
  - intros Hwf Hfresh. destruct df as [cols rs]. cbn [columns rows] in *. f_equal.
    + apply filter_all. intros c Hc. apply negb_true_iff. apply not_in_labels.
      intro Hh. apply (Hfresh c Hh Hc).
    + rewrite <- (map_id rs) at 2. apply map_ext_in. intros r Hr.
      apply drop_row_fresh. intros c Hc. rewrite (Hwf r Hr). apply Hfresh. exact Hc.
Qed.

Lemma validated_table_unchanged_witness :
  columns Samples.flawed
  = filter (fun c => negb (pd.in_labels c helper_names)) (columns Samples.flawed) /\
  rows Samples.flawed = map (pd.drop_row helper_names) (rows Samples.flawed) /\
  (forall c, In c helper_names -> ~ In c (columns Samples.flawed)) /\
  (well_formed Samples.flawed ->
   (forall c, In c helper_names -> ~ In c (columns Samples.flawed)) ->
   Samples.flawed = Samples.flawed).
Proof.
  apply (validated_table_unchanged Samples.flawed Samples.flawed Samples.flawed_issues).
  vm_compute. reflexivity.
Defined.

(** ** The duplicate check *)

Lemma same_key_congr (subset : list string) (r s t : row) :
  pd.same_key subset r s = true -> pd.same_key subset s t = pd.same_key subset r t.
Proof.
  unfold pd.same_key. induction subset as [| c subset IH]; simpl; intro H.
  - reflexivity.
  - apply andb_true_iff in H. destruct H as [Hc H].
    rewrite (IH H). f_equal.
    rewrite (cell_eqb_sym (pd.get s c)), (cell_eqb_sym (pd.get r c)).
    symmetry. apply cell_eqb_congr. exact Hc.
Qed.

Lemma same_key_refl (subset : list string) (r : row) : pd.same_key subset r r = true.
Proof.
  unfold pd.same_key. apply forallb_forall. intros c _. apply cell_eq_refl.
Qed.

Lemma same_key_dropped (r s : row) :
  pd.same_key ["County"; "Year"] (pd.drop_row helper_names r) (pd.drop_row helper_names s)
  = pd.same_key ["County"; "Year"] r s.
Proof.
  unfold pd.same_key. cbn [forallb].
  rewrite !get_drop_row by reflexivity. reflexivity.
Qed.

Lemma filter_length_le {A : Type} (p q : A -> bool) (l : list A) :
  (forall a, In a l -> p a = true -> q a = true) ->
  List.length (filter p l) <= List.length (filter q l).
Proof.
  induction l as [| a l IH]; intro H; simpl.
  - lia.
  - assert (IH' : List.length (filter p l) <= List.length (filter q l)).
    { apply IH. intros b Hb. apply H. right. exact Hb. }
    destruct (p a) eqn:Hp.
    + rewrite (H a (or_introl eq_refl) Hp). simpl. lia.
    + destruct (q a); simpl; lia.
Qed.

Lemma key_count_congr (df : DataFrame) (r s : row) :
  pd.same_key ["County"; "Year"] r s = true -> key_count df s = key_count df r.
Proof.
  intro H. unfold key_count. f_equal. apply filter_ext.
  intro t. apply same_key_congr. exact H.
Qed.

Lemma key_count_positive (df : DataFrame) (r : row) :
  In r (rows df) -> 1 <= key_count df r.
Proof.
  intro Hr. unfold key_count.
  assert (Hin : In r (filter (pd.same_key ["County"; "Year"] r) (rows df))).
  { apply filter_In. split; [exact Hr | apply same_key_refl]. }
  destruct (filter (pd.same_key ["County"; "Year"] r) (rows df)); [contradiction |].
  simpl. lia.
Qed.

(** A row marked as a duplicate brings every row of its key with it. *)
Lemma duplicate_rows_group (df : DataFrame) (r : row) :
  In r (duplicate_rows df) -> 2 <= List.length (duplicate_rows df).
Proof.
  intro Hr. unfold duplicate_rows in Hr. apply filter_In in Hr.
  destruct Hr as [_ Hr]. apply Nat.leb_le in Hr.
  eapply Nat.le_trans; [exact Hr |].
  unfold key_count at 1. unfold duplicate_rows. apply filter_length_le.
  intros s _ Hs. apply Nat.leb_le.
  rewrite (key_count_congr df r s Hs). exact Hr.
Qed.

Lemma duplicated_dropped (df : DataFrame) (duplicates : list bool) :
  pd.duplicated (mkDF (filter (fun c => negb (pd.in_labels c helper_names)) (columns df))
                      (map (pd.drop_row helper_names) (rows df)))
                ["County"; "Year"] = Ok duplicates ->
  duplicates = map (fun r => 2 <=? key_count df r) (rows df).
Proof.
  unfold pd.duplicated. intro H. bind_inv H u Hu. injection H as <-.
  cbn [rows]. rewrite map_map. apply map_ext. intro r.
  unfold key_count. rewrite filter_of_map, length_map.
  rewrite (filter_ext _ (pd.same_key ["County"; "Year"] r)
                      (fun s => same_key_dropped r s)).
  reflexivity.
Qed.

Lemma count_true_map {A : Type} (g : A -> bool) (l : list A) :
  clean_standardize.count_true (map g l) = List.length (filter g l).
Proof.
  unfold clean_standardize.count_true.
  rewrite (filter_of_map (fun b : bool => b)), length_map. reflexivity.
Qed.

Lemma existsb_map_filter {A : Type} (g : A -> bool) (l : list A) :
  existsb (fun b : bool => b) (map g l) = match filter g l with [] => false | _ => true end.
Proof.
  induction l as [| a l IH]; simpl.
  - reflexivity.
  - destruct (g a); simpl; [reflexivity | exact IH].
Qed.

Lemma duplicate_issues_rows (df : DataFrame) :
  clean_standardize.duplicate_issues (map (fun r => 2 <=? key_count df r) (rows df))
  = match duplicate_rows df with
    | [] => []
    | _ => [clean_standardize.DuplicateRecords (List.length (duplicate_rows df))]
    end.
Proof.
  unfold clean_standardize.duplicate_issues.
  rewrite existsb_map_filter, count_true_map. fold (duplicate_rows df).
  destruct (duplicate_rows df); reflexivity.
Qed.

(** The duplicate check. Whenever the validator returns, the issue list
    holds at most one entry about duplicates: none when no county and year
    occur together on more than one row, and otherwise one entry whose count
    is the number of rows whose county and year occur on more than one row,
    every copy included, so that the count is never 1. Missing counties or
    years count as equal to each other. *)
Theorem duplicate_records_issue
        (df out : DataFrame) (issues : list clean_standardize.issue) :
  clean_standardize.quality_checks df = Ok (out, issues) ->
  filter is_duplicate_issue issues
  = match duplicate_rows df with
    | [] => []
    | _ => [clean_standardize.DuplicateRecords (List.length (duplicate_rows df))]
    end /\
  (forall n, In (clean_standardize.DuplicateRecords n) issues ->
             n = List.length (duplicate_rows df) /\ 2 <= n) /\
  ((forall r, In r (rows df) -> key_count df r = 1) ->
   forall n, ~ In (clean_standardize.DuplicateRecords n) issues).
Proof.
  intro H. pose proof (quality_checks_table _ _ _ H) as Hout.
  apply quality_checks_inv in H.
  destruct H as (counts & low & helpers & duplicates & _ & _ & _ & _ & Hdup & ->).
  rewrite Hout in Hdup. apply duplicated_dropped in Hdup. subst duplicates.
  assert (Hfilter :
            filter is_duplicate_issue
                   (clean_standardize.missing_issues df
                      ++ clean_standardize.county_issues counts
                      ++ clean_standardize.low_issues low
                      ++ clean_standardize.duplicate_issues
                           (map (fun r => 2 <=? key_count df r) (rows df)))
            = match duplicate_rows df with
              | [] => []
              | _ => [clean_standardize.DuplicateRecords (List.length (duplicate_rows df))]
              end).
  { filter_issues is_duplicate_issue. apply duplicate_issues_rows. }
  assert (Hin : forall n,
            In (clean_standardize.DuplicateRecords n)
               (clean_standardize.missing_issues df
                  ++ clean_standardize.county_issues counts
                  ++ clean_standardize.low_issues low
                  ++ clean_standardize.duplicate_issues
                       (map (fun r => 2 <=? key_count df r) (rows df))) ->
            duplicate_rows df <> [] /\ n = List.length (duplicate_rows df)).
  { intros n Hn.
    assert (Hn' : In (clean_standardize.DuplicateRecords n)
                     (filter is_duplicate_issue
                        (clean_standardize.missing_issues df
                           ++ clean_standardize.county_issues counts
                           ++ clean_standardize.low_issues low
                           ++ clean_standardize.duplicate_issues
                                (map (fun r => 2 <=? key_count df r) (rows df))))).
    { apply filter_In. split; [exact Hn | reflexivity]. }
    rewrite Hfilter in Hn'.
    destruct (duplicate_rows df) as [| r rs]; [contradiction |].
    destruct Hn' as [Heq | []]. injection Heq as <-.
    split; [discriminate | reflexivity]. }
  split; [exact Hfilter |]. split.
  - intros n Hn. destruct (Hin n Hn) as [Hne ->]. split; [reflexivity |].
    destruct (duplicate_rows df) as [| r rs] eqn:Hrows; [congruence |].
    rewrite <- Hrows. apply (duplicate_rows_group df r). rewrite Hrows. left. reflexivity.
  - intros Hone n Hn. destruct (Hin n Hn) as [Hne _]. apply Hne.
    unfold duplicate_rows. apply filter_nil. intros r Hr.
    rewrite (Hone r Hr). reflexivity.
Qed.

Lemma duplicate_records_issue_witness :
  filter is_duplicate_issue Samples.flawed_issues
  = match duplicate_rows Samples.flawed with
    | [] => []
    | _ => [clean_standardize.DuplicateRecords (List.length (duplicate_rows Samples.flawed))]
    end /\
  (forall n, In (clean_standardize.DuplicateRecords n) Samples.flawed_issues ->
             n = List.length (duplicate_rows Samples.flawed) /\ 2 <= n) /\
  ((forall r, In r (rows Samples.flawed) -> key_count Samples.flawed r = 1) ->
   forall n, ~ In (clean_standardize.DuplicateRecords n) Samples.flawed_issues).
Proof.
  apply (duplicate_records_issue Samples.flawed Samples.flawed Samples.flawed_issues).
  vm_compute. reflexivity.
Defined.

(** ** Key resolution, row by row *)

Lemma add_fips_codes_table (elections fips_df : DataFrame) :
  (forall c, In c raw_election_columns -> In c (columns elections)) ->
  ~ In "FIPS" (columns elections) ->
  ~ In "County_Name" (columns elections) ->
  In "FIPS" (columns fips_df) ->
  In "County_Name" (columns fips_df) ->
  text_column elections "County" ->
  text_column fips_df "County_Name" ->
  clean_standardize.add_fips_codes elections (Some fips_df)
  = Ok (mkDF (resolved_columns elections)
             (map (resolved_row elections)
                  (flat_map (joined_rows elections (reference_table fips_df)
                                         "County" "County_Name")
                            (rows elections)))).
Proof.
  intros Hcols Hnf Hnn Hf Hn Hte Htf.
  set (keys := ["FIPS"; "County_Name"]).
  assert (Hoverlap :
            filter (fun c => pd.in_labels c (pd.right_labels (reference_table fips_df)
                                                             "County" "County_Name"))
                   (columns elections) = []).
  { apply filter_nil. intros c Hc. apply not_in_labels. simpl.
    intros [<- | [<- | []]]; contradiction. }
  destruct (merge_left_ok elections (reference_table fips_df) "County" "County_Name")
    as (merged & Hmerged & Hmrows & Hmcols).
  { apply Hcols. left. reflexivity. }
  { simpl. tauto. }
  { apply text_keys_join; [exact Hte |]. apply (reference_table_text fips_df Htf). }
  rewrite Hoverlap in Hmcols.
  change (pd.right_labels (reference_table fips_df) "County" "County_Name")
    with keys in Hmcols.
  assert (Hmcols' : columns merged = columns elections ++ keys).
  { rewrite Hmcols. f_equal. apply map_id. }
  clear Hmcols.
  set (dropped := mkDF (filter (fun c => negb (existsb (String.eqb c) ["County_Name"]))
                               (columns merged))
                       (map (pd.drop_row ["County_Name"]) (rows merged))).
  assert (Hdropped_cols : forall c, In c (columns dropped) <->
                                    (In c (columns elections) \/ c = "FIPS")).
  { intro c. unfold dropped. cbn [columns]. rewrite filter_In, Hmcols', in_app_iff.
    cbn [existsb]. rewrite orb_false_r, negb_true_iff, String.eqb_neq. simpl.
    split.
    - intros [[H | [H | [H | []]]] Hne]; auto. congruence.
    - intros [H | ->]; [| split; [auto | discriminate]].
      split; [auto |]. intros ->. contradiction. }
  assert (Hsame : pd.has_column dropped "County_Original"
                  = pd.has_column elections "County_Original").
  { destruct (pd.has_column elections "County_Original") eqn:He.
    - apply has_column_iff. apply Hdropped_cols. left. apply has_column_iff. exact He.
    - destruct (pd.has_column dropped "County_Original") eqn:Hd; [| reflexivity].
      apply has_column_iff, Hdropped_cols in Hd. destruct Hd as [Hd | Hd];
        [| discriminate Hd].
      apply has_column_iff in Hd. congruence. }
  unfold clean_standardize.add_fips_codes.
  rewrite select_ok by (intros c [<- | [<- | []]]; assumption).
  cbn [bind].
  change (mkDF ["FIPS"; "County_Name"]
               (map (pd.select_row ["FIPS"; "County_Name"]) (rows fips_df)))
    with (reference_table fips_df).
  rewrite Hmerged. cbn [bind].
  rewrite !require_ok.
  2:{ rewrite Hmcols'. apply in_or_app. left. apply Hcols. left. reflexivity. }
  2:{ rewrite Hmcols'. apply in_or_app. right. left. reflexivity. }
  cbn [bind].
  rewrite drop_ok.
  2:{ intros c [<- | []]. rewrite Hmcols'. apply in_or_app. right. simpl. tauto. }
  cbn [bind]. fold dropped. rewrite Hsame. fold (resolved_columns elections).
  rewrite select_ok.
  - unfold dropped. cbn [rows]. rewrite map_map, Hmrows. reflexivity.
  - intros c Hc. unfold resolved_columns in Hc. rewrite <- Hsame in Hc.
    apply fips_columns_choice in Hc.
    destruct Hc as [-> | [Hc | [-> Hc]]].
    + apply Hdropped_cols. right. reflexivity.
    + apply Hdropped_cols. left. apply Hcols. exact Hc.
    + exact Hc.
Qed.

Lemma resolved_columns_cases (elections : DataFrame) (c : string) :
  In c (resolved_columns elections) ->
  c = "FIPS" \/ In c raw_election_columns \/
  (c = "County_Original" /\ In "County_Original" (columns elections)).
Proof.
  unfold resolved_columns. destruct (pd.has_column elections "County_Original") eqn:H.
  - apply has_column_iff in H. simpl. intuition.
  - simpl. intuition.
Qed.

Lemma resolved_row_get (elections : DataFrame) (l : row) (partner : option row)
      (c : string) :
  In c (resolved_columns elections) ->
  pd.get (resolved_row elections
            (pd.select_row (columns elections) l
               ++ pd.right_part ["FIPS"; "County_Name"] [] partner)) c
  = if pd.in_labels c (columns elections) then pd.get l c
    else pd.get (pd.right_part ["FIPS"; "County_Name"] [] partner) c.
Proof.
  intro Hc. unfold resolved_row. rewrite get_select_row by exact Hc.
  rewrite get_drop_row.
  - rewrite get_app, select_row_labels.
    destruct (pd.in_labels c (columns elections)) eqn:Hin; [| reflexivity].
    apply get_select_row. apply in_labels_iff. exact Hin.
  - apply resolved_columns_cases in Hc. unfold raw_election_columns in Hc. simpl in Hc.
    destruct Hc as [-> | [Hc | [-> _]]]; try reflexivity.
    repeat (destruct Hc as [<- | Hc]; [reflexivity |]). contradiction.
Qed.

Lemma matches_reference (fips_df : DataFrame) (l m : row) :
  In m (pd.matches (reference_table fips_df) "County" "County_Name" l) <->
  exists f, In f (rows fips_df) /\
            cell_eq (pd.get l "County") (pd.get f "County_Name") /\
            m = pd.select_row ["FIPS"; "County_Name"] f.
Proof.
  unfold pd.matches, reference_table. cbn [rows]. rewrite filter_In, in_map_iff. split.
  - intros [(f & <- & Hf) Hm]. exists f. split; [exact Hf |]. split; [| reflexivity].
    rewrite get_select_row in Hm by (simpl; tauto). exact Hm.
  - intros (f & Hf & Hm & ->). split; [exists f; tauto |].
    rewrite get_select_row by (simpl; tauto). exact Hm.
Qed.

Lemma matches_unique (fips_df : DataFrame) (l : row) :
  unique_key fips_df "County_Name" ->
  List.length (pd.matches (reference_table fips_df) "County" "County_Name" l) <= 1.
Proof.
  intro Hu. unfold pd.matches, reference_table. cbn [rows].
  rewrite filter_of_map, length_map.
  rewrite (filter_ext _ (fun f => pd.cell_eqb (pd.get f "County_Name") (pd.get l "County"))).
  - rewrite <- (length_map (fun f => pd.get f "County_Name")).
    rewrite <- (filter_of_map (fun k => pd.cell_eqb k (pd.get l "County"))
                              (fun f => pd.get f "County_Name")).
    rewrite (NoDupA_count _ _ Hu).
    destruct (pd.mem (pd.get l "County") (map (fun r => pd.get r "County_Name") (rows fips_df)));
      lia.
  - intro f. rewrite get_select_row by (simpl; tauto). apply cell_eqb_sym.
Qed.

Lemma Forall2_flat_map_single {A B C : Type} (P : A -> C -> Prop)
      (J : A -> list B) (g : B -> C) (L : list A) :
  (forall a, In a L -> exists b, J a = [b] /\ P a (g b)) ->
  Forall2 P L (map g (flat_map J L)).
Proof.
  induction L as [| a L IH]; intro H; simpl.
  - constructor.
  - destruct (H a (or_introl eq_refl)) as (b & -> & Hb). simpl.
    constructor; [exact Hb |]. apply IH. intros a' Ha'. apply H. right. exact Ha'.
Qed.

(** Key resolution against a reference table whose county names are all
    different, both name columns being text as the join requires. The
    resolved table has exactly one row per election record,
    in the order of the records; the row carries the cells of its record
    under the fixed list of columns, and its FIPS cell is the one of the
    reference row of that name, or missing when there is none. *)
Theorem key_resolution_one_to_one (elections fips_df : DataFrame) :
  (forall c, In c raw_election_columns -> In c (columns elections)) ->
  ~ In "FIPS" (columns elections) ->
  ~ In "County_Name" (columns elections) ->
  In "FIPS" (columns fips_df) ->
  In "County_Name" (columns fips_df) ->
  text_column elections "County" ->
  text_column fips_df "County_Name" ->
  unique_key fips_df "County_Name" ->
  exists out,
    clean_standardize.add_fips_codes elections (Some fips_df) = Ok out /\
    columns out = resolved_columns elections /\
    List.length (rows out) = List.length (rows elections) /\
    Forall2 (fun e o => extends out e o /\ key_of fips_df e o)
            (rows elections) (rows out).
Proof.
  intros Hcols Hnf Hnn Hf Hn Hte Htf Hu.
  set (out := mkDF (resolved_columns elections)
                   (map (resolved_row elections)
                        (flat_map (joined_rows elections (reference_table fips_df)
                                               "County" "County_Name")
                                  (rows elections)))).
  assert (Hall : Forall2 (fun e o => extends out e o /\ key_of fips_df e o)
                         (rows elections) (rows out)).
  { unfold out at 2. cbn [rows]. apply Forall2_flat_map_single. intros e He.
    assert (Hoverlap :
              filter (fun c => pd.in_labels c (pd.right_labels (reference_table fips_df)
                                                               "County" "County_Name"))
                     (columns elections) = []).
    { apply filter_nil. intros c Hc. apply not_in_labels. simpl.
      intros [<- | [<- | []]]; contradiction. }
    assert (Hext : forall partner,
              extends out e
                (resolved_row elections
                   (pd.select_row (columns elections) e
                      ++ pd.right_part ["FIPS"; "County_Name"] [] partner))).
    { intros partner c Hc Hne. cbn [columns out] in Hc.
      rewrite (resolved_row_get elections e partner c Hc).
      replace (pd.in_labels c (columns elections)) with true; [reflexivity |].
      symmetry. apply in_labels_iff.
      apply resolved_columns_cases in Hc.
      destruct Hc as [-> | [Hc | [-> Hc]]]; [congruence | apply Hcols; exact Hc | exact Hc]. }
    assert (Hkey : forall partner,
              pd.get (resolved_row elections
                        (pd.select_row (columns elections) e
                           ++ pd.right_part ["FIPS"; "County_Name"] [] partner)) "FIPS"
              = match partner with Some r => pd.get r "FIPS" | None => NA end).
    { intro partner. rewrite resolved_row_get.
      - rewrite (not_in_labels "FIPS" _ Hnf). reflexivity.
      - unfold resolved_columns.
        destruct (pd.has_column elections "County_Original"); left; reflexivity. }
    pose proof (matches_unique fips_df e Hu) as Hlen.
    pose proof (matches_reference fips_df e) as Hmatch.
    unfold joined_rows. cbv zeta. rewrite Hoverlap.
    change (pd.right_labels (reference_table fips_df) "County" "County_Name")
      with ["FIPS"; "County_Name"].
    change (pd.left_part elections [] e) with (pd.select_row (columns elections) e).
    destruct (pd.matches (reference_table fips_df) "County" "County_Name" e)
      as [| m [| m' ms]]; [| | simpl in Hlen; lia].
    - eexists. split; [reflexivity |]. split; [apply Hext |]. split.
      + intros f Hf' Hm. exfalso.
        apply (proj2 (Hmatch (pd.select_row ["FIPS"; "County_Name"] f))).
        exists f. tauto.
      + intros _. apply (Hkey None).
    - cbn [map]. eexists. split; [reflexivity |]. split; [apply Hext |].
      destruct (proj1 (Hmatch m) (or_introl eq_refl)) as (f0 & Hf0 & Hm0 & Heq).
      split.
      + intros f Hf' Hm. rewrite (Hkey (Some m)).
        destruct (proj2 (Hmatch (pd.select_row ["FIPS"; "County_Name"] f))) as [H | []].
        { exists f. tauto. }
        rewrite H. apply get_select_row. simpl. tauto.
      + intro Hnone. exfalso. apply (Hnone f0 Hf0 Hm0). }
  exists out. split.
  { apply add_fips_codes_table; assumption. }
  split; [reflexivity |]. split; [| exact Hall].
  symmetry. apply (Forall2_length Hall).
Qed.

Lemma key_resolution_one_to_one_witness :
  exists out,
    clean_standardize.add_fips_codes Samples.standardized_elections
                                     (Some Samples.fips_reference) = Ok out /\
    columns out = resolved_columns Samples.standardized_elections /\
    List.length (rows out) = List.length (rows Samples.standardized_elections) /\
    Forall2 (fun e o => extends out e o /\ key_of Samples.fips_reference e o)
            (rows Samples.standardized_elections) (rows out).
Proof.
  apply (key_resolution_one_to_one Samples.standardized_elections Samples.fips_reference).
  - intros c Hc. simpl in Hc. simpl. intuition.
  - simpl. intuition discriminate.
  - simpl. intuition discriminate.
  - simpl. tauto.
  - simpl. tauto.
  - right. vm_compute. reflexivity.
  - right. vm_compute. reflexivity.
  - unfold unique_key. simpl. constructor.
    + intro H. inversion H as [? ? Heq | ? ? Hin]; subst.
      * vm_compute in Heq. discriminate Heq.
      * inversion Hin.
    + constructor; [intro H; inversion H | constructor].
Defined.

Lemma append_x_not_County (c : string) : (c ++ "_x")%string <> "County".
Proof.
  destruct c as [| a1 [| a2 [| a3 [| a4 [| a5 [| a6 c]]]]]]; simpl; try discriminate.
  destruct c; discriminate.
Qed.

Lemma get_left_part_County (L : DataFrame) (overlap : list string) (l rest : row) :
  In "County" (columns L) -> pd.in_labels "County" overlap = false ->
  pd.get (pd.left_part L overlap l ++ rest) "County" = pd.get l "County".
Proof.
  intros Hin Hover. unfold pd.left_part.
  induction (columns L) as [| c cols IH]; simpl.
  - contradiction.
  - destruct (String.eqb (pd.suffixed overlap "_x" c) "County") eqn:Hc.
    + apply String.eqb_eq in Hc. unfold pd.suffixed in Hc.
      destruct (pd.in_labels c overlap).
      * exfalso. apply (append_x_not_County c). exact Hc.
      * subst c. reflexivity.
    + apply IH. destruct Hin as [-> | Hin]; [| exact Hin].
      unfold pd.suffixed in Hc. rewrite Hover in Hc. discriminate Hc.
Qed.

(** A table that already has a FIPS column. The join (of two text columns
    of names) then holds the two FIPS columns under the names FIPS_x and
    FIPS_y, and the lookup of the column FIPS that follows raises
    [KeyError]; in particular the resolver cannot be applied to a table it
    has produced. *)
Theorem key_resolution_not_repeatable :
  (forall elections fips_df : DataFrame,
      In "FIPS" (columns elections) ->
      In "County" (columns elections) ->
      ~ In "FIPS_x" (columns elections) ->
      ~ In "County_Name" (columns elections) ->
      In "FIPS" (columns fips_df) ->
      In "County_Name" (columns fips_df) ->
      text_column elections "County" ->
      text_column fips_df "County_Name" ->
      clean_standardize.add_fips_codes elections (Some fips_df)
      = Raise (KeyError "FIPS")) /\
  (forall elections fips_df out : DataFrame,
      clean_standardize.add_fips_codes elections (Some fips_df) = Ok out ->
      clean_standardize.add_fips_codes out (Some fips_df) = Raise (KeyError "FIPS")).
Proof.
  assert (Hgeneral : forall elections fips_df : DataFrame,
             In "FIPS" (columns elections) ->
             In "County" (columns elections) ->
             ~ In "County_Name" (columns elections) ->
             In "FIPS" (columns fips_df) ->
             In "County_Name" (columns fips_df) ->
             pd.key_clash elections (reference_table fips_df) "County" "County_Name"
             = false ->
             clean_standardize.add_fips_codes elections (Some fips_df)
             = Raise (KeyError "FIPS")).
  { intros elections fips_df Hfips Hcounty Hnn Hf Hn Hkeys.
    destruct (merge_left_ok elections (reference_table fips_df) "County" "County_Name")
      as (merged & Hmerged & _ & Hmcols); [exact Hcounty | simpl; tauto | exact Hkeys |].
    change (pd.right_labels (reference_table fips_df) "County" "County_Name")
      with ["FIPS"; "County_Name"] in Hmcols.
    set (overlap := filter (fun c => pd.in_labels c ["FIPS"; "County_Name"])
                           (columns elections)) in Hmcols.
    assert (Hover : pd.in_labels "FIPS" overlap = true).
    { apply in_labels_iff. apply filter_In. split; [exact Hfips | reflexivity]. }
    assert (Hmissing : pd.has_column merged "FIPS" = false).
    { apply not_in_labels. rewrite Hmcols. intro H. apply in_app_or in H.
      destruct H as [H | H].
      - apply in_map_iff in H. destruct H as (c & Hc & _).
        pose proof (suffixed_x_FIPS overlap c Hc) as ->.
        unfold pd.suffixed in Hc. rewrite Hover in Hc. discriminate Hc.
      - cbn [map In] in H. destruct H as [H | [H | []]].
        + unfold pd.suffixed in H. rewrite Hover in H. discriminate H.
        + unfold pd.suffixed in H.
          destruct (pd.in_labels "County_Name" overlap); discriminate H. }
    unfold clean_standardize.add_fips_codes.
    rewrite select_ok by (intros c [<- | [<- | []]]; assumption).
    cbn [bind].
    change (mkDF ["FIPS"; "County_Name"]
                 (map (pd.select_row ["FIPS"; "County_Name"]) (rows fips_df)))
      with (reference_table fips_df).
    rewrite Hmerged. cbn [bind]. unfold pd.require at 1. rewrite Hmissing. reflexivity. }
  split.
  - intros elections fips_df Hfips Hcounty _ Hnn Hf Hn Hte Htf.
    apply Hgeneral; try assumption.
    apply text_keys_join; [exact Hte |]. apply (reference_table_text fips_df Htf).
  - intros elections fips_df out H.
    unfold clean_standardize.add_fips_codes in H.
    bind_inv H reference Href. apply select_inv in Href. destruct Href as [-> Href].
    change (mkDF ["FIPS"; "County_Name"]
                 (map (pd.select_row ["FIPS"; "County_Name"]) (rows fips_df)))
      with (reference_table fips_df) in H.
    bind_inv H merged Hmerged. bind_inv H u1 Hu1. bind_inv H u2 Hu2.
    bind_inv H dropped Hdropped. apply select_inv in H. destruct H as [-> _].
    apply merge_left_inv in Hmerged.
    destruct Hmerged as (Hcounty & _ & Hkeys & Hmrows).
    apply drop_inv in Hdropped. subst dropped. cbn [rows columns].
    set (cols := if pd.has_column _ "County_Original"
                 then clean_standardize.fips_columns_with_original
                 else clean_standardize.fips_columns).
    assert (Hcell : forall e m,
              In m (joined_rows elections (reference_table fips_df)
                                "County" "County_Name" e) ->
              pd.get (pd.select_row cols (pd.drop_row ["County_Name"] m)) "County"
              = pd.get e "County").
    { intros e m Hm. rewrite get_select_row by (unfold cols; apply County_in_choice).
      rewrite get_drop_row by reflexivity.
      apply joined_rows_shape in Hm. destruct Hm as (partner & -> & _).
      apply get_left_part_County; [exact Hcounty |].
      apply not_in_labels. intro Hin. apply filter_In in Hin.
      destruct Hin as [_ Hin]. discriminate Hin. }
    apply Hgeneral; cbn [columns].
    + apply FIPS_in_choice.
    + apply County_in_choice.
    + intro Hc. apply fips_columns_choice in Hc. unfold raw_election_columns in Hc.
      simpl in Hc. intuition discriminate.
    + apply Href. simpl. tauto.
    + apply Href. simpl. tauto.
    + etransitivity; [| exact Hkeys]. apply key_clash_same_keys; cbn [rows].
      * intros o Ho. apply in_map_iff in Ho. destruct Ho as (d & <- & Hd).
        apply in_map_iff in Hd. destruct Hd as (m & <- & Hm).
        rewrite Hmrows in Hm. apply in_flat_map in Hm. destruct Hm as (e & He & Hm).
        exists e. split; [exact He | apply (Hcell e m Hm)].
      * intros e He.
        destruct (joined_rows_nonempty elections (reference_table fips_df)
                                       "County" "County_Name" e) as [m Hm].
        exists (pd.select_row cols (pd.drop_row ["County_Name"] m)). split.
        -- apply in_map, in_map. rewrite Hmrows. apply in_flat_map.
           exists e. split; assumption.
        -- apply (Hcell e m Hm).
Qed.

Lemma key_resolution_not_repeatable_witness :
  exists out,
    clean_standardize.add_fips_codes Samples.standardized_elections
                                     (Some Samples.fips_reference) = Ok out /\
    clean_standardize.add_fips_codes out (Some Samples.fips_reference)
    = Raise (KeyError "FIPS").
Proof.
  destruct (clean_standardize.add_fips_codes Samples.standardized_elections
                                             (Some Samples.fips_reference))
    as [out | e] eqn:H.
  - exists out. split; [reflexivity |].
    apply (proj2 key_resolution_not_repeatable
                 Samples.standardized_elections Samples.fips_reference out H).
  - vm_compute in H. discriminate H.
Defined.

(** ** What name standardisation leaves in place *)

Lemma add_label_present (cols : list string) (c : string) :
  In c cols -> pd.add_label cols c = cols.
Proof.
  intro H. unfold pd.add_label.
  replace (existsb (String.eqb c) cols) with true; [reflexivity |].
  symmetry. apply (in_labels_iff c cols). exact H.
Qed.

Lemma standardized_row_frame (r : row) :
  pd.get (standardized_row r) "County_Original" = pd.get r "County" /\
  forall c, c <> "County" -> c <> "County_Original" ->
            pd.get (standardized_row r) c = pd.get r c.
Proof.
  unfold standardized_row. cbv zeta. split.
  - rewrite !get_set_other by discriminate. apply get_set_same.
  - intros c Hc Ho. rewrite !get_set_other by congruence. reflexivity.
Qed.

Lemma standardize_columns (df df' : DataFrame) :
  clean_standardize.standardize_county_names df = Ok df' ->
  In "County" (columns df) /\
  columns df' = pd.add_label (columns df) "County_Original".
Proof.
  intro H. unfold clean_standardize.standardize_county_names in H.
  bind_inv H u Hu. apply require_inv in Hu.
  rewrite assign_total in H. cbn [bind] in H.
  bind_inv H u' Hu'.
  rewrite assign_total in H. cbn [bind] in H. rewrite assign_total in H.
  cbn [bind columns rows] in H. injection H as <-. cbn [columns].
  assert (Hin : In "County" (pd.add_label (columns df) "County_Original")).
  { apply add_label_In. left. exact Hu. }
  split; [exact Hu |].
  rewrite (add_label_present _ "County" Hin). apply (add_label_present _ "County" Hin).
Qed.

Lemma Forall2_map_right {A B : Type} (P : A -> B -> Prop) (f : A -> B) (l : list A) :
  (forall a, In a l -> P a (f a)) -> Forall2 P l (map f l).
Proof.
  induction l as [| a l IH]; intro H; simpl; constructor.
  - apply H. left. reflexivity.
  - apply IH. intros b Hb. apply H. right. exact Hb.
Qed.

(** The audit column of name standardisation. Whenever the function
    returns, the table has the same rows in the same order; the column
    County_Original (added at the end unless the table had one) holds, row
    by row, the county cell as it was given; the county cell is the trimmed
    name or its canonical spelling, and missing where the given cell was not
    a string; every other cell is left as it was. *)
Theorem standardize_keeps_original (df df' : DataFrame) :
  clean_standardize.standardize_county_names df = Ok df' ->
  columns df' = pd.add_label (columns df) "County_Original" /\
  List.length (rows df') = List.length (rows df) /\
  Forall2 (fun r r' =>
             pd.get r' "County_Original" = pd.get r "County" /\
             pd.get r' "County" = normalize_cell (pd.get r "County") /\
             (pd.is_str (pd.get r "County") = false -> pd.get r' "County" = NA) /\
             forall c, c <> "County" -> c <> "County_Original" ->
                       pd.get r' c = pd.get r c)
          (rows df) (rows df').
Proof.
  intro H. pose proof (standardize_spec _ _ H) as (Hrows & _ & _).
  pose proof (standardize_columns _ _ H) as (_ & Hcols).
  split; [exact Hcols |]. rewrite Hrows. split; [apply length_map |].
  apply Forall2_map_right. intros r _.
  destruct (standardized_row_frame r) as [Horig Hother].
  split; [exact Horig |]. split; [apply standardized_row_county |].
  split; [| exact Hother].
  intro Hstr. rewrite standardized_row_county.
  destruct (pd.get r "County"); try reflexivity. discriminate Hstr.
Qed.

Lemma standardize_keeps_original_witness :
  columns Samples.standardized_elections
  = pd.add_label (columns Samples.raw_elections) "County_Original" /\
  List.length (rows Samples.standardized_elections)
  = List.length (rows Samples.raw_elections) /\
  Forall2 (fun r r' =>
             pd.get r' "County_Original" = pd.get r "County" /\
             pd.get r' "County" = normalize_cell (pd.get r "County") /\
             (pd.is_str (pd.get r "County") = false -> pd.get r' "County" = NA) /\
             forall c, c <> "County" -> c <> "County_Original" ->
                       pd.get r' c = pd.get r c)
          (rows Samples.raw_elections) (rows Samples.standardized_elections).
Proof.
  apply (standardize_keeps_original Samples.raw_elections Samples.standardized_elections).
  vm_compute. reflexivity.
Defined.

(** ** The loop over the year mapping *)

Lemma mapM_exists {A B : Type} (f : A -> result B) (l : list A) :
  (forall a, In a l -> exists b, f a = Ok b) -> exists bs, mapM f l = Ok bs.
Proof.
  induction l as [| a l IH]; intro H; simpl.
  - exists []. reflexivity.
  - destruct (H a (or_introl eq_refl)) as [b ->].
    destruct IH as [bs ->]; [intros a' Ha'; apply H; right; exact Ha' |].
    exists (b :: bs). reflexivity.
Qed.

Lemma year_mapping_labels (m : Z * string) :
  In m temporal_matching.year_mapping ->
  snd m <> "FIPS" /\ year_label (snd m) /\
  snd m <> "GeoFIPS" /\ snd m <> "Description".
Proof.
  unfold temporal_matching.year_mapping, year_label. simpl.
  intros [<- | [<- | [<- | [<- | [<- | []]]]]]; simpl; repeat split; discriminate.
Qed.

Lemma year_mapping_keys (m m' : Z * string) :
  In m temporal_matching.year_mapping -> In m' temporal_matching.year_mapping ->
  fst m = fst m' -> m = m'.
Proof.
  unfold temporal_matching.year_mapping. simpl.
  intros [<- | [<- | [<- | [<- | [<- | []]]]]] [<- | [<- | [<- | [<- | [<- | []]]]]];
    simpl; intro H; try reflexivity; discriminate H.
Qed.

Lemma same_year (c : cell) (y y' : Z) :
  cell_eq c (Num (inject_Z y)) -> cell_eq c (Num (inject_Z y')) -> y = y'.
Proof.
  intros H H'. apply cell_eq_sym in H.
  pose proof (cell_eq_trans _ _ _ H H') as Heq.
  unfold cell_eq in Heq. simpl in Heq. apply Qeq_bool_iff in Heq.
  unfold Qeq, inject_Z in Heq. simpl in Heq. lia.
Qed.

(** The frames of a run: one per entry of the year mapping, and the table
    made of them. *)
Lemma process_bea_temporal_frames
      (py_int : string -> option Z) (str_to_numeric : string -> cell)
      (elections : DataFrame) (income_file gdp_file : result DataFrame) :
  keyed_election_table elections -> numeric_key elections "FIPS" ->
  exists frames combined,
    Forall2 (fun m frame =>
               temporal_matching.year_frame py_int str_to_numeric elections
                 income_file gdp_file (fst m) (snd m) = Ok frame)
            temporal_matching.year_mapping frames /\
    temporal_matching.process_bea_temporal py_int str_to_numeric
                                           elections income_file gdp_file = Ok combined /\
    pd.concat frames = Ok combined.
Proof.
  intros Hkeyed Hnum.
  destruct (mapM_exists
              (fun m => temporal_matching.year_frame py_int str_to_numeric elections
                          income_file gdp_file (fst m) (snd m))
              temporal_matching.year_mapping) as [frames Hframes].
  { intros m Hm. apply year_mapping_labels in Hm. destruct Hm as [Hm _].
    destruct (year_frame_shape py_int str_to_numeric elections income_file gdp_file
                               (fst m) (snd m) Hkeyed Hnum Hm) as (frame & Hframe & _).
    exists frame. exact Hframe. }
  pose proof (proj1 (mapM_ok_iff _ _ _) Hframes) as Hall.
  assert (Hconcat : exists combined, pd.concat frames = Ok combined).
  { unfold pd.concat. destruct frames as [| f fs]; [| eexists; reflexivity].
    inversion Hall. }
  destruct Hconcat as [combined Hconcat].
  exists frames, combined. split; [exact Hall |]. split; [| exact Hconcat].
  unfold temporal_matching.process_bea_temporal. rewrite Hframes. exact Hconcat.
Qed.

Lemma year_frame_full (py_int : string -> option Z) (str_to_numeric : string -> cell)
      (elections : DataFrame) (income_file gdp_file : result DataFrame)
      (election_year : Z) (bea_year : string) :
  keyed_election_table elections -> numeric_key elections "FIPS" ->
  bea_year <> "FIPS" ->
  exists frame,
    temporal_matching.year_frame py_int str_to_numeric elections income_file gdp_file
                                 election_year bea_year = Ok frame /\
    columns frame
    = (columns elections
         ++ new_column (income_of py_int str_to_numeric income_file bea_year)
                       "Per_Capita_Income")
        ++ new_column (gdp_of py_int str_to_numeric gdp_file bea_year) "GDP_Millions" /\
    (forall o, In o (rows frame) ->
       exists e, In e (rows elections) /\
                 cell_eq (pd.get e "Year") (Num (inject_Z election_year)) /\
                 agrees (columns elections) o e /\
                 attached (gdp_of py_int str_to_numeric gdp_file bea_year)
                          "GDP_Millions" e o) /\
    (forall e, In e (rows elections) ->
               cell_eq (pd.get e "Year") (Num (inject_Z election_year)) ->
               exists o, In o (rows frame) /\ agrees (columns elections) o e) /\
    (forall e g x,
        In e (rows elections) ->
        cell_eq (pd.get e "Year") (Num (inject_Z election_year)) ->
        gdp_of py_int str_to_numeric gdp_file bea_year = Some g ->
        In x (rows g) ->
        cell_eq (pd.get e "FIPS") (pd.get x "FIPS") ->
        exists o, In o (rows frame) /\ agrees (columns elections) o e /\
                  pd.get o "GDP_Millions" = pd.get x "GDP_Millions").
Proof.
  intros (Hfips & Hyear & Hnpci & Hngdp) Hnum Hby.
  set (income := income_of py_int str_to_numeric income_file bea_year).
  set (gdp := gdp_of py_int str_to_numeric gdp_file bea_year).
  set (year_elections :=
         mkDF (columns elections)
              (filter (fun r => pd.cell_eqb (pd.get r "Year") (Num (inject_Z election_year)))
                      (rows elections))).
  destruct (merge_if_shape year_elections income "Per_Capita_Income")
    as (out1 & Hout1 & Hcols1 & Hfrom1 & Hall1 & _);
    [exact Hfips | exact Hnpci | discriminate | | | |].
  { intros d Hd. apply (try_except_columns _ _ _ _ _ _ _ Hby Hd). }
  { intros r Hr. cbn [rows year_elections] in Hr. apply filter_In in Hr.
    apply Hnum. tauto. }
  { apply try_except_numeric; [exact Hby | discriminate]. }
  cbn [columns rows year_elections] in Hcols1, Hfrom1, Hall1.
  destruct (merge_if_shape out1 gdp "GDP_Millions")
    as (out2 & Hout2 & Hcols2 & Hfrom2 & Hall2 & Hmatch2).
  { rewrite Hcols1. apply in_or_app. left. exact Hfips. }
  { rewrite Hcols1. intro H. apply in_app_or in H. destruct H as [H | H].
    - contradiction.
    - destruct income; simpl in H; [destruct H as [H | []]; discriminate H | contradiction]. }
  { discriminate. }
  { intros d Hd. apply (try_except_columns _ _ _ _ _ _ _ Hby Hd). }
  { intros o Ho. destruct (Hfrom1 o Ho) as (l & Hl & Hagree & _).
    rewrite (Hagree "FIPS" Hfips). apply filter_In in Hl. apply Hnum. tauto. }
  { apply try_except_numeric; [exact Hby | discriminate]. }
  assert (Hsub : forall o o1, agrees (columns out1) o o1 ->
                   forall l, agrees (columns elections) o1 l ->
                             agrees (columns elections) o l).
  { intros o o1 H1 l H2 c Hc. rewrite H1, H2; [reflexivity | exact Hc |].
    rewrite Hcols1. apply in_or_app. left. exact Hc. }
  exists out2. split; [| split; [| split; [| split]]].
  - unfold temporal_matching.year_frame.
    rewrite (require_ok elections "Year" Hyear). cbn [bind].
    rewrite where_total. cbn [bind]. cbv zeta.
    fold year_elections.
    unfold income, income_of in Hout1. unfold gdp, gdp_of in Hout2.
    rewrite Hout1. cbn [bind]. rewrite Hout2. reflexivity.
  - rewrite Hcols2, Hcols1. reflexivity.
  - intros o Ho. destruct (Hfrom2 o Ho) as (o1 & Ho1 & Hagree2 & Hatt).
    destruct (Hfrom1 o1 Ho1) as (l & Hl & Hagree1 & _).
    apply filter_In in Hl. destruct Hl as [Hl Hy].
    exists l. split; [exact Hl |]. split; [exact Hy |].
    split; [apply (Hsub o o1 Hagree2 l Hagree1) |].
    unfold attached in *. destruct gdp as [g |]; [| exact I].
    rewrite <- (Hagree1 "FIPS" Hfips). exact Hatt.
  - intros e He Hy.
    assert (Hl : In e (filter (fun r => pd.cell_eqb (pd.get r "Year")
                                          (Num (inject_Z election_year)))
                              (rows elections))).
    { apply filter_In. split; assumption. }
    destruct (Hall1 e Hl) as (o1 & Ho1 & Hagree1).
    destruct (Hall2 o1 Ho1) as (o & Ho & Hagree2).
    exists o. split; [exact Ho | apply (Hsub o o1 Hagree2 e Hagree1)].
  - intros e g x He Hy Hg Hx Hkey.
    assert (Hl : In e (filter (fun r => pd.cell_eqb (pd.get r "Year")
                                          (Num (inject_Z election_year)))
                              (rows elections))).
    { apply filter_In. split; assumption. }
    destruct (Hall1 e Hl) as (o1 & Ho1 & Hagree1).
    destruct (Hmatch2 o1 g x Ho1 Hg Hx) as (o & Ho & Hagree2 & Hval).
    { rewrite (Hagree1 "FIPS" Hfips). exact Hkey. }
    exists o. split; [exact Ho |]. split; [apply (Hsub o o1 Hagree2 e Hagree1) | exact Hval].
Qed.

Lemma concat_columns (dfs : list DataFrame) (out : DataFrame) :
  pd.concat dfs = Ok out -> columns out = pd.union_labels dfs.
Proof.
  unfold pd.concat. destruct dfs as [| d dfs]; [discriminate |].
  cbv zeta. intro H. injection H as <-. reflexivity.
Qed.

Lemma concat_row_labels (cols : list string) (df : DataFrame) (r : row) :
  map fst (concat_row cols df r) = cols.
Proof. unfold concat_row. rewrite map_map. apply map_id. Qed.

Lemma concat_well_formed (dfs : list DataFrame) (out : DataFrame) :
  pd.concat dfs = Ok out -> well_formed out.
Proof.
  intros H o Ho. rewrite (concat_columns _ _ H).
  apply (concat_rows dfs out o H) in Ho. destruct Ho as (df & r & _ & _ & ->).
  apply concat_row_labels.
Qed.

(** The frame of an entry of the year mapping, with what is known of it. *)
Lemma frame_of_entry (py_int : string -> option Z) (str_to_numeric : string -> cell)
      (elections : DataFrame) (income_file gdp_file : result DataFrame)
      (m : Z * string) (frame : DataFrame) :
  keyed_election_table elections -> numeric_key elections "FIPS" ->
  In m temporal_matching.year_mapping ->
  temporal_matching.year_frame py_int str_to_numeric elections income_file gdp_file
                               (fst m) (snd m) = Ok frame ->
  columns frame
  = (columns elections
       ++ new_column (income_of py_int str_to_numeric income_file (snd m))
                     "Per_Capita_Income")
      ++ new_column (gdp_of py_int str_to_numeric gdp_file (snd m)) "GDP_Millions" /\
  (forall o, In o (rows frame) ->
     exists e, In e (rows elections) /\
               cell_eq (pd.get e "Year") (Num (inject_Z (fst m))) /\
               agrees (columns elections) o e /\
               attached (income_of py_int str_to_numeric income_file (snd m))
                        "Per_Capita_Income" e o /\
               attached (gdp_of py_int str_to_numeric gdp_file (snd m))
                        "GDP_Millions" e o) /\
  (forall e, In e (rows elections) ->
             cell_eq (pd.get e "Year") (Num (inject_Z (fst m))) ->
             exists o, In o (rows frame) /\ agrees (columns elections) o e) /\
  (forall e inc i,
      In e (rows elections) ->
      cell_eq (pd.get e "Year") (Num (inject_Z (fst m))) ->
      income_of py_int str_to_numeric income_file (snd m) = Some inc ->
      In i (rows inc) ->
      cell_eq (pd.get e "FIPS") (pd.get i "FIPS") ->
      exists o, In o (rows frame) /\ agrees (columns elections) o e /\
                pd.get o "Per_Capita_Income" = pd.get i "Per_Capita_Income") /\
  (forall e g x,
      In e (rows elections) ->
      cell_eq (pd.get e "Year") (Num (inject_Z (fst m))) ->
      gdp_of py_int str_to_numeric gdp_file (snd m) = Some g ->
      In x (rows g) ->
      cell_eq (pd.get e "FIPS") (pd.get x "FIPS") ->
      exists o, In o (rows frame) /\ agrees (columns elections) o e /\
                pd.get o "GDP_Millions" = pd.get x "GDP_Millions").
Proof.
  intros Hkeyed Hnum Hm Hframe.
  pose proof (year_mapping_labels m Hm) as (Hby & _).
  destruct (year_frame_shape py_int str_to_numeric elections income_file gdp_file
                             (fst m) (snd m) Hkeyed Hnum Hby)
    as (f1 & Hf1 & Hcols & Hfrom1 & Hmatch1).
  destruct (year_frame_full py_int str_to_numeric elections income_file gdp_file
                            (fst m) (snd m) Hkeyed Hnum Hby)
    as (f2 & Hf2 & _ & Hfrom2 & Hall2 & Hmatch2).
  rewrite Hframe in Hf1, Hf2. injection Hf1 as <-. injection Hf2 as <-.
  split; [exact Hcols |]. split; [| split; [exact Hall2 | split; assumption]].
  intros o Ho.
  destruct (Hfrom1 o Ho) as (e & He & Hy & Hagree & Hinc).
  destruct (Hfrom2 o Ho) as (e' & He' & _ & Hagree' & Hgdp).
  exists e. split; [exact He |]. split; [exact Hy |]. split; [exact Hagree |].
  split; [exact Hinc |].
  unfold attached in *. destruct (gdp_of py_int str_to_numeric gdp_file (snd m)); [| exact I].
  destruct Hkeyed as (Hfips & _).
  rewrite <- (Hagree "FIPS" Hfips), (Hagree' "FIPS" Hfips). exact Hgdp.
Qed.

(** Temporal matching, whatever the BEA files are. For an election table
    with numeric FIPS keys the function returns a table, also when a BEA
    file is
    missing, unreadable or of another shape. Every row of the table is an
    election record of one of the five election years of the mapping, with
    its election cells unchanged; every election record of such a year is
    in the table; a record of any other year, or without a year, is not. *)
Theorem temporal_rows_by_year
        (py_int : string -> option Z) (str_to_numeric : string -> cell)
        (elections : DataFrame) (income_file gdp_file : result DataFrame) :
  keyed_election_table elections ->
  numeric_key elections "FIPS" ->
  exists combined,
    temporal_matching.process_bea_temporal py_int str_to_numeric
                                           elections income_file gdp_file = Ok combined /\
    well_formed combined /\
    (forall c, In c (columns elections) -> In c (columns combined)) /\
    (forall o, In o (rows combined) ->
       exists e m, In e (rows elections) /\ In m temporal_matching.year_mapping /\
                   cell_eq (pd.get o "Year") (Num (inject_Z (fst m))) /\
                   agrees (columns elections) o e) /\
    (forall e m, In e (rows elections) -> In m temporal_matching.year_mapping ->
                 cell_eq (pd.get e "Year") (Num (inject_Z (fst m))) ->
                 exists o, In o (rows combined) /\ agrees (columns elections) o e) /\
    (forall e, In e (rows elections) ->
               (forall m, In m temporal_matching.year_mapping ->
                          ~ cell_eq (pd.get e "Year") (Num (inject_Z (fst m)))) ->
               forall o, In o (rows combined) ->
                         ~ cell_eq (pd.get o "Year") (pd.get e "Year")).
Proof.
  intros Hkeyed Hnum. pose proof Hkeyed as (Hfips & Hyear & _ & _).
  destruct (process_bea_temporal_frames py_int str_to_numeric elections
                                        income_file gdp_file Hkeyed Hnum)
    as (frames & combined & Hall & Hrun & Hconcat).
  assert (Hentry : forall m f,
            In m temporal_matching.year_mapping -> In f frames ->
            temporal_matching.year_frame py_int str_to_numeric elections
              income_file gdp_file (fst m) (snd m) = Ok f ->
            (forall c, In c (columns elections) -> In c (columns f)) /\
            (forall r, In r (rows f) ->
               exists e, In e (rows elections) /\
                         cell_eq (pd.get e "Year") (Num (inject_Z (fst m))) /\
                         agrees (columns elections)
                                (concat_row (pd.union_labels frames) f r) e) /\
            (forall e, In e (rows elections) ->
                       cell_eq (pd.get e "Year") (Num (inject_Z (fst m))) ->
                       exists r, In r (rows f) /\
                                 agrees (columns elections)
                                        (concat_row (pd.union_labels frames) f r) e)).
  { intros m f Hm Hf Hyf.
    destruct (frame_of_entry py_int str_to_numeric elections income_file gdp_file
                             m f Hkeyed Hnum Hm Hyf) as (Hcols & Hfrom & Hto & _ & _).
    assert (Hcolf : forall c, In c (columns elections) -> In c (columns f)).
    { intros c Hc. rewrite Hcols. apply in_or_app. left. apply in_or_app. left. exact Hc. }
    assert (Hlift : forall r e, agrees (columns elections) r e ->
                      agrees (columns elections)
                             (concat_row (pd.union_labels frames) f r) e).
    { intros r e Hagree c Hc.
      rewrite (concat_row_get frames f r c Hf (Hcolf c Hc)). apply Hagree. exact Hc. }
    split; [exact Hcolf |]. split.
    - intros r Hr. destruct (Hfrom r Hr) as (e & He & Hy & Hagree & _).
      exists e. split; [exact He |]. split; [exact Hy | apply Hlift; exact Hagree].
    - intros e He Hy. destruct (Hto e He Hy) as (r & Hr & Hagree).
      exists r. split; [exact Hr | apply Hlift; exact Hagree]. }
  assert (Hrow : forall o, In o (rows combined) ->
            exists e m, In e (rows elections) /\ In m temporal_matching.year_mapping /\
                        cell_eq (pd.get o "Year") (Num (inject_Z (fst m))) /\
                        agrees (columns elections) o e).
  { intros o Ho. apply (concat_rows frames combined o Hconcat) in Ho.
    destruct Ho as (f & r & Hf & Hr & ->).
    destruct (Forall2_In_right _ _ _ f Hall Hf) as (m & Hm & Hyf).
    destruct (Hentry m f Hm Hf Hyf) as (_ & Hfrom & _).
    destruct (Hfrom r Hr) as (e & He & Hy & Hagree).
    exists e, m. split; [exact He |]. split; [exact Hm |]. split; [| exact Hagree].
    rewrite (Hagree "Year" Hyear). exact Hy. }
  exists combined. split; [exact Hrun |].
  split; [apply (concat_well_formed frames combined Hconcat) |].
  split; [| split; [exact Hrow | split]].
  - intros c Hc. rewrite (concat_columns frames combined Hconcat).
    destruct (Forall2_In_left _ _ _ (2016%Z, "2016") Hall) as (f & Hf & Hyf);
      [simpl; tauto |].
    destruct (Hentry (2016%Z, "2016") f) as (Hcolf & _); [simpl; tauto | exact Hf | exact Hyf |].
    apply (union_labels_In frames f c Hf). apply Hcolf. exact Hc.
  - intros e m He Hm Hy.
    destruct (Forall2_In_left _ _ _ m Hall Hm) as (f & Hf & Hyf).
    destruct (Hentry m f Hm Hf Hyf) as (_ & _ & Hto).
    destruct (Hto e He Hy) as (r & Hr & Hagree).
    exists (concat_row (pd.union_labels frames) f r). split; [| exact Hagree].
    apply (concat_rows frames combined _ Hconcat). exists f, r. tauto.
  - intros e He Hnone o Ho Heq.
    destruct (Hrow o Ho) as (e' & m & _ & Hm & Hy & _).
    apply (Hnone m Hm). apply cell_eq_sym in Heq.
    apply (cell_eq_trans _ _ _ Heq Hy).
Qed.

Lemma temporal_rows_by_year_witness :
  exists combined,
    temporal_matching.process_bea_temporal
      Samples.int_of_digits Samples.numeric_of_digits
      Samples.keyed_elections (Raise ValueError) (Ok Samples.census_table) = Ok combined /\
    well_formed combined /\
    List.length (rows combined) = 3.
Proof.
  destruct (temporal_rows_by_year
              Samples.int_of_digits Samples.numeric_of_digits
              Samples.keyed_elections (Raise ValueError) (Ok Samples.census_table))
    as (combined & Hrun & Hwf & _).
  - unfold keyed_election_table. simpl. intuition discriminate.
  - intros r Hr. simpl in Hr. destruct Hr as [<- | [<- | [<- | []]]]; reflexivity.
  - exists combined. split; [exact Hrun |]. split; [exact Hwf |].
    vm_compute in Hrun. injection Hrun as <-. reflexivity.
Defined.

(** ** A BEA variable that cannot be extracted *)

Lemma where_columns (df d : DataFrame) (p : row -> result bool) :
  pd.where_ df p = Ok d -> columns d = columns df.
Proof.
  unfold pd.where_. intro H. bind_inv H rs Hrs. injection H as <-. reflexivity.
Qed.

Lemma bea_variable_some (py_int : string -> option Z) (str_to_numeric : string -> cell)
      (table : result DataFrame) (line bea_year name : string) (d : DataFrame) :
  temporal_matching.bea_variable py_int str_to_numeric table line bea_year name
  = Ok (Some d) ->
  exists raw, table = Ok raw /\
              In "GeoFIPS" (columns raw) /\ In "Description" (columns raw) /\
              In bea_year (working_columns raw).
Proof.
  intro H. unfold temporal_matching.bea_variable in H. cbv zeta in H.
  bind_inv H raw Hraw. bind_inv H u1 Hu1. bind_inv H d1 Hd1. bind_inv H d2 Hd2.
  bind_inv H d3 Hd3. bind_inv H d4 Hd4. bind_inv H d5 Hd5. bind_inv H u2 Hu2.
  bind_inv H d6 Hd6. bind_inv H d7 Hd7.
  destruct (pd.has_column d7 bea_year) eqn:Hyear; [| discriminate H].
  exists raw. split; [exact Hraw |].
  destruct u1, u2.
  apply str_accessor_ok in Hu1. apply str_accessor_ok in Hu2.
  split; [tauto |]. split; [tauto |].
  apply has_column_iff in Hyear.
  apply assign_inv in Hd1. destruct Hd1 as [Hc1 _].
  apply where_columns in Hd2. apply where_columns in Hd3. apply where_columns in Hd4.
  apply assign_inv in Hd5. destruct Hd5 as [Hc5 _].
  apply assign_inv in Hd6. destruct Hd6 as [Hc6 _].
  apply where_columns in Hd7.
  unfold working_columns.
  rewrite Hd7, Hc6, Hc5, Hd4, Hd3, Hd2, Hc1 in Hyear. exact Hyear.
Qed.

Lemma try_except_some (py_int : string -> option Z) (str_to_numeric : string -> cell)
      (table : result DataFrame) (line bea_year name : string) (d : DataFrame) :
  try_except (temporal_matching.bea_variable py_int str_to_numeric table line bea_year name)
             None = Some d ->
  exists raw, table = Ok raw /\
              In "GeoFIPS" (columns raw) /\ In "Description" (columns raw) /\
              In bea_year (working_columns raw).
Proof.
  intro H.
  destruct (temporal_matching.bea_variable py_int str_to_numeric table line bea_year name)
    as [[d' |] | e] eqn:Hb; try discriminate H.
  apply (bea_variable_some _ _ _ _ _ _ _ Hb).
Qed.

Lemma unusable_none (py_int : string -> option Z) (str_to_numeric : string -> cell)
      (table : result DataFrame) (line bea_year name : string) :
  unusable table ->
  try_except (temporal_matching.bea_variable py_int str_to_numeric table line bea_year name)
             None = None.
Proof.
  intro Hun.
  destruct (try_except
              (temporal_matching.bea_variable py_int str_to_numeric table line bea_year name)
              None) as [d |] eqn:H; [| reflexivity].
  apply try_except_some in H. destruct H as (raw & -> & Hg & Hd & _).
  simpl in Hun. tauto.
Qed.

Lemma absent_label_none (py_int : string -> option Z) (str_to_numeric : string -> cell)
      (t : DataFrame) (line name : string) (m : Z * string) :
  In m temporal_matching.year_mapping -> ~ In (snd m) (columns t) ->
  try_except (temporal_matching.bea_variable py_int str_to_numeric (Ok t) line (snd m) name)
             None = None.
Proof.
  intros Hm Habsent.
  destruct (try_except
              (temporal_matching.bea_variable py_int str_to_numeric (Ok t) line (snd m) name)
              None) as [d |] eqn:H; [| reflexivity].
  apply try_except_some in H. destruct H as (raw & Hraw & _ & _ & Hin).
  injection Hraw as <-.
  destruct (year_mapping_labels m Hm) as (_ & (H1 & H2 & H3) & _).
  unfold working_columns in Hin.
  apply add_label_In in Hin. destruct Hin as [Hin | Hin]; [| congruence].
  apply add_label_In in Hin. destruct Hin as [Hin | Hin]; [| congruence].
  apply add_label_In in Hin. destruct Hin as [Hin | Hin]; [| congruence].
  contradiction.
Qed.

Lemma concat_row_absent (cols : list string) (f : DataFrame) (r : row) (v : string) :
  ~ In v (columns f) -> pd.get (concat_row cols f r) v = NA.
Proof.
  intro H. unfold concat_row.
  rewrite (get_labelled _ (fun c => if pd.has_column f c then pd.get r c else NA)).
  replace (pd.has_column f v) with false.
  - destruct (pd.in_labels v cols); reflexivity.
  - symmetry. apply not_in_labels. exact H.
Qed.

(** A BEA variable that cannot be extracted. When the income file cannot
    be used (it is missing or unreadable, or its table has no GeoFIPS or
    no Description column) the result has no Per_Capita_Income column; when
    its table has no column for the label an election year is mapped to,
    the records of that year are kept and their Per_Capita_Income is
    missing. The same holds of the GDP file and GDP_Millions. *)
Theorem temporal_missing_variable
        (py_int : string -> option Z) (str_to_numeric : string -> cell)
        (elections : DataFrame) (income_file gdp_file : result DataFrame) :
  keyed_election_table elections ->
  numeric_key elections "FIPS" ->
  exists combined,
    temporal_matching.process_bea_temporal py_int str_to_numeric
                                           elections income_file gdp_file = Ok combined /\
    (unusable income_file -> ~ In "Per_Capita_Income" (columns combined)) /\
    (unusable gdp_file -> ~ In "GDP_Millions" (columns combined)) /\
    (forall t m o,
        income_file = Ok t -> In m temporal_matching.year_mapping ->
        ~ In (snd m) (columns t) ->
        In o (rows combined) -> cell_eq (pd.get o "Year") (Num (inject_Z (fst m))) ->
        pd.get o "Per_Capita_Income" = NA) /\
    (forall t m o,
        gdp_file = Ok t -> In m temporal_matching.year_mapping ->
        ~ In (snd m) (columns t) ->
        In o (rows combined) -> cell_eq (pd.get o "Year") (Num (inject_Z (fst m))) ->
        pd.get o "GDP_Millions" = NA).
Proof.
  intros Hkeyed Hnum. pose proof Hkeyed as (Hfips & Hyear & Hnpci & Hngdp).
  destruct (process_bea_temporal_frames py_int str_to_numeric elections
                                        income_file gdp_file Hkeyed Hnum)
    as (frames & combined & Hall & Hrun & Hconcat).
  (* which columns a frame has *)
  assert (Hframe : forall f, In f frames ->
            exists m, In m temporal_matching.year_mapping /\
              columns f
              = (columns elections
                   ++ new_column (income_of py_int str_to_numeric income_file (snd m))
                                 "Per_Capita_Income")
                  ++ new_column (gdp_of py_int str_to_numeric gdp_file (snd m))
                                "GDP_Millions" /\
              forall r, In r (rows f) ->
                        cell_eq (pd.get (concat_row (pd.union_labels frames) f r) "Year")
                                (Num (inject_Z (fst m)))).
  { intros f Hf. destruct (Forall2_In_right _ _ _ f Hall Hf) as (m & Hm & Hyf).
    destruct (frame_of_entry py_int str_to_numeric elections income_file gdp_file
                             m f Hkeyed Hnum Hm Hyf) as (Hcols & Hfrom & _).
    exists m. split; [exact Hm |]. split; [exact Hcols |].
    intros r Hr. destruct (Hfrom r Hr) as (e & _ & Hy & Hagree & _).
    rewrite (concat_row_get frames f r "Year" Hf).
    - rewrite (Hagree "Year" Hyear). exact Hy.
    - rewrite Hcols. apply in_or_app. left. apply in_or_app. left. exact Hyear. }
  assert (Hpci : forall (f : DataFrame) (m : Z * string),
            columns f
            = (columns elections
                 ++ new_column (income_of py_int str_to_numeric income_file (snd m))
                               "Per_Capita_Income")
                ++ new_column (gdp_of py_int str_to_numeric gdp_file (snd m))
                              "GDP_Millions" ->
            income_of py_int str_to_numeric income_file (snd m) = None ->
            ~ In "Per_Capita_Income" (columns f)).
  { intros f m -> ->. cbn [new_column]. rewrite app_nil_r. intro H.
    apply in_app_or in H. destruct H as [H | H]; [contradiction |].
    destruct (gdp_of py_int str_to_numeric gdp_file (snd m)); simpl in H;
      [destruct H as [H | []]; discriminate H | contradiction]. }
  assert (Hgdp : forall (f : DataFrame) (m : Z * string),
            columns f
            = (columns elections
                 ++ new_column (income_of py_int str_to_numeric income_file (snd m))
                               "Per_Capita_Income")
                ++ new_column (gdp_of py_int str_to_numeric gdp_file (snd m))
                              "GDP_Millions" ->
            gdp_of py_int str_to_numeric gdp_file (snd m) = None ->
            ~ In "GDP_Millions" (columns f)).
  { intros f m -> ->. cbn [new_column]. rewrite app_nil_r. intro H.
    apply in_app_or in H. destruct H as [H | H]; [contradiction |].
    destruct (income_of py_int str_to_numeric income_file (snd m)); simpl in H;
      [destruct H as [H | []]; discriminate H | contradiction]. }
  assert (Hcolumn : forall v, In v (columns combined) ->
                              exists f, In f frames /\ In v (columns f)).
  { intros v Hv. rewrite (concat_columns frames combined Hconcat) in Hv.
    unfold pd.union_labels in Hv. apply union_labels_In_acc in Hv.
    destruct Hv as [[] | Hv]. exact Hv. }
  assert (Hcell : forall o m,
            In m temporal_matching.year_mapping ->
            In o (rows combined) -> cell_eq (pd.get o "Year") (Num (inject_Z (fst m))) ->
            exists f r, In f frames /\ o = concat_row (pd.union_labels frames) f r /\
              columns f
              = (columns elections
                   ++ new_column (income_of py_int str_to_numeric income_file (snd m))
                                 "Per_Capita_Income")
                  ++ new_column (gdp_of py_int str_to_numeric gdp_file (snd m))
                                "GDP_Millions").
  { intros o m Hm Ho Hy. apply (concat_rows frames combined o Hconcat) in Ho.
    destruct Ho as (f & r & Hf & Hr & ->).
    destruct (Hframe f Hf) as (m' & Hm' & Hcols & Hyears).
    pose proof (same_year _ _ _ Hy (Hyears r Hr)) as Heq.
    apply (year_mapping_keys m m' Hm Hm') in Heq. subst m'.
    exists f, r. split; [exact Hf |]. split; [reflexivity | exact Hcols]. }
  exists combined. split; [exact Hrun |]. split; [| split; [| split]].
  - intros Hun Hin. destruct (Hcolumn _ Hin) as (f & Hf & Hv).
    destruct (Hframe f Hf) as (m & _ & Hcols & _).
    apply (Hpci f m Hcols); [| exact Hv].
    apply unusable_none. exact Hun.
  - intros Hun Hin. destruct (Hcolumn _ Hin) as (f & Hf & Hv).
    destruct (Hframe f Hf) as (m & _ & Hcols & _).
    apply (Hgdp f m Hcols); [| exact Hv].
    apply unusable_none. exact Hun.
  - intros t m o -> Hm Habsent Ho Hy.
    destruct (Hcell o m Hm Ho Hy) as (f & r & Hf & -> & Hcols).
    apply concat_row_absent. apply (Hpci f m Hcols).
    apply absent_label_none; assumption.
  - intros t m o -> Hm Habsent Ho Hy.
    destruct (Hcell o m Hm Ho Hy) as (f & r & Hf & -> & Hcols).
    apply concat_row_absent. apply (Hgdp f m Hcols).
    apply absent_label_none; assumption.
Qed.

Lemma temporal_missing_variable_witness :
  exists combined,
    temporal_matching.process_bea_temporal
      Samples.int_of_digits Samples.numeric_of_digits
      Samples.keyed_elections (Ok Samples.income_table) (Raise ValueError) = Ok combined /\
    ~ In "GDP_Millions" (columns combined) /\
    forall o, In o (rows combined) ->
              cell_eq (pd.get o "Year") (Num (2020 # 1)) ->
              pd.get o "Per_Capita_Income" = NA.
Proof.
  destruct (temporal_missing_variable
              Samples.int_of_digits Samples.numeric_of_digits
              Samples.keyed_elections (Ok Samples.income_table) (Raise ValueError))
    as (combined & Hrun & _ & Hgdp & Hincome & _).
  - unfold keyed_election_table. simpl. intuition discriminate.
  - intros r Hr. simpl in Hr. destruct Hr as [<- | [<- | [<- | []]]]; reflexivity.
  - exists combined. split; [exact Hrun |]. split; [apply Hgdp; exact I |].
    intros o Ho Hy.
    apply (Hincome Samples.income_table (2020%Z, "2020") o eq_refl).
    + simpl. tauto.
    + simpl. intuition discriminate.
    + exact Ho.
    + exact Hy.
Defined.

(** ** Temporal alignment, every year and both variables *)

Lemma combined_rows_of_year
      (py_int : string -> option Z) (str_to_numeric : string -> cell)
      (elections : DataFrame) (income_file gdp_file : result DataFrame)
      (frames : list DataFrame) (combined : DataFrame) (m : Z * string) (o : row) :
  keyed_election_table elections -> numeric_key elections "FIPS" ->
  Forall2 (fun m frame =>
             temporal_matching.year_frame py_int str_to_numeric elections
               income_file gdp_file (fst m) (snd m) = Ok frame)
          temporal_matching.year_mapping frames ->
  pd.concat frames = Ok combined ->
  In m temporal_matching.year_mapping ->
  In o (rows combined) ->
  cell_eq (pd.get o "Year") (Num (inject_Z (fst m))) ->
  exists f r,
    In f frames /\
    temporal_matching.year_frame py_int str_to_numeric elections
      income_file gdp_file (fst m) (snd m) = Ok f /\
    In r (rows f) /\ o = concat_row (pd.union_labels frames) f r.
Proof.
  intros Hkeyed Hnum Hall Hconcat Hm Ho Hy. pose proof Hkeyed as (_ & Hyear & _ & _).
  apply (concat_rows frames combined o Hconcat) in Ho.
  destruct Ho as (f & r & Hf & Hr & ->).
  destruct (Forall2_In_right _ _ _ f Hall Hf) as (m' & Hm' & Hyf).
  destruct (frame_of_entry py_int str_to_numeric elections income_file gdp_file
                           m' f Hkeyed Hnum Hm' Hyf) as (Hcols & Hfrom & _).
  destruct (Hfrom r Hr) as (e & _ & Hy' & Hagree & _).
  rewrite (concat_row_get frames f r "Year" Hf) in Hy.
  2:{ rewrite Hcols. apply in_or_app. left. apply in_or_app. left. exact Hyear. }
  rewrite (Hagree "Year" Hyear) in Hy.
  pose proof (same_year _ _ _ Hy Hy') as Heq.
  apply (year_mapping_keys m m' Hm Hm') in Heq. subst m'.
  exists f, r. tauto.
Qed.

Lemma variable_of_label (py_int : string -> option Z) (str_to_numeric : string -> cell)
      (t : DataFrame) (line name : string) (m : Z * string) :
  readable_bea_table py_int t ->
  In m temporal_matching.year_mapping -> In (snd m) (columns t) ->
  exists d,
    try_except (temporal_matching.bea_variable py_int str_to_numeric (Ok t) line (snd m) name)
               None = Some d /\
    rows d = extracted_rows py_int str_to_numeric line (snd m) name t.
Proof.
  intros Hreadable Hm Hin.
  rewrite (bea_variable_rows py_int str_to_numeric line (snd m) name t Hreadable).
  replace (pd.in_labels (snd m) (working_columns t)) with true.
  - eexists. split; reflexivity.
  - symmetry. apply in_labels_iff. unfold working_columns.
    apply add_label_In. left. apply add_label_In. left. apply add_label_In. left.
    exact Hin.
Qed.

Lemma aligned_variable
      (py_int : string -> option Z) (str_to_numeric : string -> cell)
      (elections : DataFrame) (income_file gdp_file : result DataFrame)
      (frames : list DataFrame) (combined t : DataFrame) (line name : string)
      (variable_of : string -> option DataFrame) :
  keyed_election_table elections -> numeric_key elections "FIPS" ->
  Forall2 (fun m frame =>
             temporal_matching.year_frame py_int str_to_numeric elections
               income_file gdp_file (fst m) (snd m) = Ok frame)
          temporal_matching.year_mapping frames ->
  pd.concat frames = Ok combined ->
  (forall bea_year,
      variable_of bea_year
      = try_except (temporal_matching.bea_variable py_int str_to_numeric (Ok t)
                                                   line bea_year name) None) ->
  name <> "FIPS" ->
  (forall m f,
      In m temporal_matching.year_mapping -> In f frames ->
      temporal_matching.year_frame py_int str_to_numeric elections
        income_file gdp_file (fst m) (snd m) = Ok f ->
      (forall c, In c (columns elections) -> In c (columns f)) /\
      (forall d, variable_of (snd m) = Some d -> In name (columns f)) /\
      (forall r, In r (rows f) ->
         exists e, In e (rows elections) /\
                   agrees (columns elections) r e /\
                   attached (variable_of (snd m)) name e r) /\
      (forall e d x,
          In e (rows elections) ->
          cell_eq (pd.get e "Year") (Num (inject_Z (fst m))) ->
          variable_of (snd m) = Some d -> In x (rows d) ->
          cell_eq (pd.get e "FIPS") (pd.get x "FIPS") ->
          exists r, In r (rows f) /\ agrees (columns elections) r e /\
                    pd.get r name = pd.get x name)) ->
  readable_bea_table py_int t ->
  forall m, In m temporal_matching.year_mapping -> In (snd m) (columns t) ->
            aligned py_int str_to_numeric elections t combined line name m.
Proof.
  intros Hkeyed Hnum Hall Hconcat Hvar Hname Hframes Hreadable m Hm Hlabel.
  pose proof Hkeyed as (Hfips & _).
  destruct (variable_of_label py_int str_to_numeric t line name m Hreadable Hm Hlabel)
    as (d & Hd & Hrows).
  rewrite <- Hvar in Hd.
  destruct (year_mapping_labels m Hm) as (_ & Hyl & _).
  destruct (Forall2_In_left _ _ _ m Hall Hm) as (f & Hf & Hyf).
  destruct (Hframes m f Hm Hf Hyf) as (Hcolf & Hnamef & Hfrom & Hmatch).
  pose proof (Hnamef d Hd) as Hnamein.
  assert (Hlift : forall r e, agrees (columns elections) r e ->
                    agrees (columns elections)
                           (concat_row (pd.union_labels frames) f r) e).
  { intros r e Hagree c Hc.
    rewrite (concat_row_get frames f r c Hf (Hcolf c Hc)). apply Hagree. exact Hc. }
  split.
  - intros e s fips He Hy Hs Hline Hkey.
    destruct (variable_row_get str_to_numeric name (snd m) s fips Hname) as [Hifips Hival].
    destruct (Hmatch e d (variable_row str_to_numeric name (snd m) s fips) He Hy Hd)
      as (r & Hr & Hagree & Hval).
    { rewrite Hrows. apply extracted_rows_iff; try assumption.
      exists s, fips. split; [exact Hs |]. split; [exact Hline | reflexivity]. }
    { rewrite Hifips. exact Hkey. }
    exists (concat_row (pd.union_labels frames) f r). split; [| split].
    + apply (concat_rows frames combined _ Hconcat). exists f, r. tauto.
    + apply Hlift. exact Hagree.
    + rewrite (concat_row_get frames f r name Hf Hnamein). rewrite Hval. exact Hival.
  - intros o Ho Hy.
    destruct (combined_rows_of_year py_int str_to_numeric elections income_file gdp_file
                                    frames combined m o Hkeyed Hnum Hall Hconcat Hm Ho Hy)
      as (f' & r & Hf' & Hyf' & Hr & ->).
    rewrite Hyf in Hyf'. injection Hyf' as <-.
    destruct (Hfrom r Hr) as (e & He & Hagree & Hatt).
    rewrite (concat_row_get frames f r name Hf Hnamein).
    rewrite (concat_row_get frames f r "FIPS" Hf (Hcolf "FIPS" Hfips)).
    rewrite Hd in Hatt. unfold attached in Hatt.
    destruct Hatt as [Hna | (i & Hi & Hkey & Hval)]; [left; exact Hna | right].
    rewrite Hrows in Hi. apply extracted_rows_iff in Hi; try assumption.
    destruct Hi as (s & fips & Hs & Hline & ->).
    destruct (variable_row_get str_to_numeric name (snd m) s fips Hname) as [Hifips Hival].
    exists s, fips. split; [exact Hs |]. split; [exact Hline |]. split.
    + rewrite (Hagree "FIPS" Hfips). rewrite Hifips in Hkey. exact Hkey.
    + rewrite Hval. exact Hival.
Qed.

(** Temporal alignment for every election year and both BEA variables.
    For an election table with numeric FIPS keys and a readable BEA table
    that has the column an election year is mapped to, the records of that
    year whose county has the line of the variable come out with the value
    of that column on that line, and no row of that year carries anything
    but such a value of its county or a missing value: 2016, 2018, 2020 and
    2022 read the column of their own year and 2024 reads 2023, for
    per-capita income and for GDP alike. *)
Theorem temporal_alignment_all_years
        (py_int : string -> option Z) (str_to_numeric : string -> cell)
        (elections : DataFrame) (income_file gdp_file : result DataFrame) :
  keyed_election_table elections ->
  numeric_key elections "FIPS" ->
  exists combined,
    temporal_matching.process_bea_temporal py_int str_to_numeric
                                           elections income_file gdp_file = Ok combined /\
    (forall income m,
        income_file = Ok income -> readable_bea_table py_int income ->
        In m temporal_matching.year_mapping -> In (snd m) (columns income) ->
        aligned py_int str_to_numeric elections income combined
                PCI_line "Per_Capita_Income" m) /\
    (forall gdp m,
        gdp_file = Ok gdp -> readable_bea_table py_int gdp ->
        In m temporal_matching.year_mapping -> In (snd m) (columns gdp) ->
        aligned py_int str_to_numeric elections gdp combined
                GDP_line "GDP_Millions" m).
Proof.
  intros Hkeyed Hnum.
  destruct (process_bea_temporal_frames py_int str_to_numeric elections
                                        income_file gdp_file Hkeyed Hnum)
    as (frames & combined & Hall & Hrun & Hconcat).
  exists combined. split; [exact Hrun |]. split.
  - intros income m -> Hreadable Hm Hlabel.
    apply (aligned_variable py_int str_to_numeric elections (Ok income) gdp_file
             frames combined income PCI_line "Per_Capita_Income"
             (income_of py_int str_to_numeric (Ok income)));
      try assumption; [reflexivity | discriminate |].
    intros m' f Hm' Hf Hyf.
    destruct (frame_of_entry py_int str_to_numeric elections (Ok income) gdp_file
                             m' f Hkeyed Hnum Hm' Hyf) as (Hcols & Hfrom & _ & Hmatch & _).
    split; [| split; [| split]].
    + intros c Hc. rewrite Hcols. apply in_or_app. left. apply in_or_app. left. exact Hc.
    + intros d Hd. rewrite Hcols, Hd. apply in_or_app. left. apply in_or_app. right.
      left. reflexivity.
    + intros r Hr. destruct (Hfrom r Hr) as (e & He & _ & Hagree & Hatt & _).
      exists e. tauto.
    + exact Hmatch.
  - intros gdp m -> Hreadable Hm Hlabel.
    apply (aligned_variable py_int str_to_numeric elections income_file (Ok gdp)
             frames combined gdp GDP_line "GDP_Millions"
             (gdp_of py_int str_to_numeric (Ok gdp)));
      try assumption; [reflexivity | discriminate |].
    intros m' f Hm' Hf Hyf.
    destruct (frame_of_entry py_int str_to_numeric elections income_file (Ok gdp)
                             m' f Hkeyed Hnum Hm' Hyf) as (Hcols & Hfrom & _ & _ & Hmatch).
    split; [| split; [| split]].
    + intros c Hc. rewrite Hcols. apply in_or_app. left. apply in_or_app. left. exact Hc.
    + intros d Hd. rewrite Hcols, Hd. apply in_or_app. right. left. reflexivity.
    + intros r Hr. destruct (Hfrom r Hr) as (e & He & _ & Hagree & _ & Hatt).
      exists e. tauto.
    + exact Hmatch.
Qed.

Lemma temporal_alignment_all_years_witness :
  exists combined,
    temporal_matching.process_bea_temporal
      Samples.int_of_digits Samples.numeric_of_digits
      Samples.aligned_elections (Ok Samples.income_table) (Raise (KeyError "GeoFIPS"))
    = Ok combined /\
    exists o, In o (rows combined) /\
              agrees (columns Samples.aligned_elections) o
                     (Samples.keyed_row 12001 "Alachua" 2022) /\
              pd.get o "Per_Capita_Income" = Num (50000 # 1).
Proof.
  destruct (temporal_alignment_all_years
              Samples.int_of_digits Samples.numeric_of_digits
              Samples.aligned_elections (Ok Samples.income_table)
              (Raise (KeyError "GeoFIPS")))
    as (combined & Hrun & Hincome & _).
  - unfold keyed_election_table. simpl. intuition discriminate.
  - intros r Hr. simpl in Hr. destruct Hr as [<- | [<- | [<- | []]]]; reflexivity.
  - exists combined. split; [exact Hrun |].
    destruct (Hincome Samples.income_table (2022%Z, "2022") eq_refl income_table_readable)
      as [Hget _]; [simpl; tauto | simpl; tauto |].
    apply (Hget (Samples.keyed_row 12001 "Alachua" 2022)
                (Samples.bea_row (" " ++ Samples.quoted "12001")
                                 "Per capita personal income (dollars) 2/" "50000" "53000")
                12001%Z).
    + simpl. tauto.
    + vm_compute. reflexivity.
    + simpl. tauto.
    + exists (" " ++ Samples.quoted "12001")%string,
             "Per capita personal income (dollars) 2/".
      split; [reflexivity |]. split.
      * split; [vm_compute; reflexivity |]. split; [vm_compute; reflexivity |].
        intro H. vm_compute in H. discriminate H.
      * split; [vm_compute; reflexivity |]. split; vm_compute; reflexivity.
    + vm_compute. reflexivity.
Defined.

(** ** The cells of an integrated row *)

Lemma joined_rows_cases (L R : DataFrame) (left_on right_on : string) (l o : row) :
  In o (joined_rows L R left_on right_on l) ->
  let rl := pd.right_labels R left_on right_on in
  let overlap := filter (fun c => pd.in_labels c rl) (columns L) in
  (pd.matches R left_on right_on l = [] /\
   o = pd.left_part L overlap l ++ pd.right_part rl overlap None) \/
  (exists r, In r (pd.matches R left_on right_on l) /\
             o = pd.left_part L overlap l ++ pd.right_part rl overlap (Some r)).
Proof.
  unfold joined_rows. cbv zeta.
  destruct (pd.matches R left_on right_on l) as [| m ms] eqn:Hm.
  - intros [<- | []]. left. split; reflexivity.
  - intro Ho. right. apply in_map_iff in Ho. destruct Ho as (r & <- & Hr).
    exists r. split; [exact Hr | reflexivity].
Qed.

Lemma joined_rows_match (L R : DataFrame) (left_on right_on : string) (l r : row) :
  In r (pd.matches R left_on right_on l) ->
  let rl := pd.right_labels R left_on right_on in
  let overlap := filter (fun c => pd.in_labels c rl) (columns L) in
  In (pd.left_part L overlap l ++ pd.right_part rl overlap (Some r))
     (joined_rows L R left_on right_on l).
Proof.
  intro Hr. unfold joined_rows. cbv zeta.
  destruct (pd.matches R left_on right_on l) as [| m ms]; [contradiction |].
  apply (in_map (fun r0 => pd.left_part L _ l ++ pd.right_part _ _ (Some r0))
                (m :: ms) r Hr).
Qed.

(** One join on FIPS with a table whose other labels are new. *)
Lemma merge_on_key (L : DataFrame) (R : option DataFrame) :
  In "FIPS" (columns L) -> has_key R "FIPS" -> fresh_labels (columns L) R ->
  numeric_key L "FIPS" -> numeric_key_if R "FIPS" ->
  exists out,
    match R with
    | Some R => pd.merge_left L R "FIPS" "FIPS"
    | None => Ok L
    end = Ok out /\
    columns out = columns L ++ enrichment_labels R /\
    (forall o, In o (rows out) ->
       exists l, In l (rows L) /\ agrees (columns L) o l /\ enriched R l o) /\
    (forall l, In l (rows L) -> exists o, In o (rows out) /\ agrees (columns L) o l).
Proof.
  intros HL HR Hfresh HnL HnR. destruct R as [R |].
  2:{ exists L. split; [reflexivity |]. split; [symmetry; apply app_nil_r |]. split.
      - intros o Ho. exists o. split; [exact Ho |]. split; [intros c _; reflexivity | exact I].
      - intros l Hl. exists l. split; [exact Hl | intros c _; reflexivity]. }
  cbn [has_key] in HR.
  set (rl := enrichment_labels (Some R)).
  assert (Hrl : pd.right_labels R "FIPS" "FIPS" = rl) by reflexivity.
  assert (Hoverlap : filter (fun c => pd.in_labels c (pd.right_labels R "FIPS" "FIPS"))
                            (columns L) = []).
  { rewrite Hrl. apply filter_nil. intros c Hc.
    destruct (pd.in_labels c rl) eqn:Hin; [| reflexivity].
    apply in_labels_iff in Hin. exfalso. apply (Hfresh c Hin Hc). }
  destruct (merge_left_ok L R "FIPS" "FIPS" HL HR (numeric_keys_join _ _ _ _ HnL HnR))
    as (out & Hout & Hrows & Hcols).
  rewrite Hoverlap, Hrl in Hcols.
  assert (Hleft : forall l rest, agrees (columns L) (pd.select_row (columns L) l ++ rest) l).
  { intros l rest c Hc. rewrite get_app, select_row_labels.
    replace (pd.in_labels c (columns L)) with true
      by (symmetry; apply in_labels_iff; exact Hc).
    apply get_select_row. exact Hc. }
  assert (Hright : forall l partner c,
            In c rl ->
            pd.get (pd.select_row (columns L) l ++ pd.right_part rl [] partner) c
            = match partner with Some r => pd.get r c | None => NA end).
  { intros l partner c Hc. rewrite get_app, select_row_labels.
    rewrite (not_in_labels c (columns L) (Hfresh c Hc)).
    unfold pd.right_part.
    rewrite (get_labelled rl (fun c => match partner with
                                       | Some r => pd.get r c
                                       | None => NA
                                       end)).
    replace (pd.in_labels c rl) with true
      by (symmetry; apply in_labels_iff; exact Hc).
    reflexivity. }
  exists out. split; [exact Hout |]. split.
  { rewrite Hcols. f_equal; apply map_id. }
  split.
  - intros o Ho. rewrite Hrows in Ho. apply in_flat_map in Ho.
    destruct Ho as (l & Hl & Ho). apply joined_rows_cases in Ho. cbv zeta in Ho.
    rewrite Hoverlap, Hrl in Ho.
    change (pd.left_part L [] l) with (pd.select_row (columns L) l) in Ho.
    exists l. split; [exact Hl |].
    destruct Ho as [[Hnone ->] | (r & Hr & ->)].
    + split; [apply Hleft |]. right. split.
      * intros r Hr Hkey.
        assert (Hin : In r (pd.matches R "FIPS" "FIPS" l)).
        { unfold pd.matches. apply filter_In. split; assumption. }
        rewrite Hnone in Hin. exact Hin.
      * intros c Hc. apply (Hright l None c Hc).
    + split; [apply Hleft |]. left.
      unfold pd.matches in Hr. apply filter_In in Hr. destruct Hr as [Hr Hkey].
      exists r. split; [exact Hr |]. split; [exact Hkey |].
      intros c Hc. apply (Hright l (Some r) c Hc).
  - intros l Hl. destruct (joined_rows_nonempty L R "FIPS" "FIPS" l) as [o Ho].
    exists o. split.
    + rewrite Hrows. apply in_flat_map. exists l. split; assumption.
    + apply joined_rows_cases in Ho. cbv zeta in Ho. rewrite Hoverlap, Hrl in Ho.
      change (pd.left_part L [] l) with (pd.select_row (columns L) l) in Ho.
      destruct Ho as [[_ ->] | (r & _ & ->)]; apply Hleft.
Qed.

Lemma enriched_congr (R : option DataFrame) (e e' o o' : row) :
  pd.get e' "FIPS" = pd.get e "FIPS" ->
  (forall c, In c (enrichment_labels R) -> pd.get o' c = pd.get o c) ->
  enriched R e o -> enriched R e' o'.
Proof.
  intros Hkey Hcells. unfold enriched. destruct R as [R |]; [| trivial].
  rewrite Hkey. intros [(r & Hr & Hm & Hv) | [Hnone Hv]].
  - left. exists r. split; [exact Hr |]. split; [exact Hm |].
    intros c Hc. rewrite (Hcells c Hc). apply Hv. exact Hc.
  - right. split; [exact Hnone |].
    intros c Hc. rewrite (Hcells c Hc). apply Hv. exact Hc.
Qed.

(** What integration puts in a row. For an election table and enrichment
    tables joined on numeric FIPS keys, the labels of the tables being
    different apart from FIPS, the integrated table has the election
    columns followed by the Census columns and the BEA columns. Every row
    of it is an election record with its election cells unchanged; its
    Census cells are those of one Census row with the same FIPS, and are all
    missing when there is no such row; likewise its BEA cells. Every
    election record is in the table. *)
Theorem integration_cells (elections : DataFrame) (census bea : option DataFrame) :
  In "FIPS" (columns elections) ->
  has_key census "FIPS" ->
  has_key bea "FIPS" ->
  numeric_key elections "FIPS" ->
  numeric_key_if census "FIPS" ->
  numeric_key_if bea "FIPS" ->
  fresh_labels (columns elections) census ->
  fresh_labels (columns elections ++ enrichment_labels census) bea ->
  exists integrated,
    data_integration.integrate_all_data elections census bea = Ok integrated /\
    columns integrated
    = columns elections ++ enrichment_labels census ++ enrichment_labels bea /\
    (forall o, In o (rows integrated) ->
       exists e, In e (rows elections) /\ agrees (columns elections) o e /\
                 enriched census e o /\ enriched bea e o) /\
    (forall e, In e (rows elections) ->
       exists o, In o (rows integrated) /\ agrees (columns elections) o e).
Proof.
  intros He Hc Hb Hne Hnc Hnb Hfc Hfb.
  destruct (merge_on_key elections census He Hc Hfc Hne Hnc)
    as (out1 & Hout1 & Hcols1 & Hfrom1 & Hall1).
  assert (He1 : In "FIPS" (columns out1)).
  { rewrite Hcols1. apply in_or_app. left. exact He. }
  destruct (merge_on_key out1 bea He1 Hb) as (out2 & Hout2 & Hcols2 & Hfrom2 & Hall2).
  { rewrite Hcols1. exact Hfb. }
  { intros o Ho. destruct (Hfrom1 o Ho) as (e & He' & Hagree & _).
    rewrite (Hagree "FIPS" He). apply Hne. exact He'. }
  { exact Hnb. }
  assert (Hsub : forall o o1 e, agrees (columns out1) o o1 ->
                   agrees (columns elections) o1 e -> agrees (columns elections) o e).
  { intros o o1 e H1 H2 c Hc'. rewrite H1, H2; [reflexivity | exact Hc' |].
    rewrite Hcols1. apply in_or_app. left. exact Hc'. }
  exists out2. split; [| split; [| split]].
  - unfold data_integration.integrate_all_data. cbv zeta.
    rewrite Hout1. cbn [bind]. rewrite Hout2. reflexivity.
  - rewrite Hcols2, Hcols1, <- app_assoc. reflexivity.
  - intros o Ho. destruct (Hfrom2 o Ho) as (o1 & Ho1 & Hagree2 & Hbea).
    destruct (Hfrom1 o1 Ho1) as (e & He' & Hagree1 & Hcensus).
    exists e. split; [exact He' |]. split; [apply (Hsub o o1 e Hagree2 Hagree1) |].
    split.
    + apply (enriched_congr census e e o1 o eq_refl); [| exact Hcensus].
      intros c Hc'. apply Hagree2. rewrite Hcols1. apply in_or_app. right. exact Hc'.
    + apply (enriched_congr bea o1 e o o); [| reflexivity | exact Hbea].
      symmetry. apply Hagree1. exact He.
  - intros e He'. destruct (Hall1 e He') as (o1 & Ho1 & Hagree1).
    destruct (Hall2 o1 Ho1) as (o & Ho & Hagree2).
    exists o. split; [exact Ho | apply (Hsub o o1 e Hagree2 Hagree1)].
Qed.

Lemma integration_cells_witness :
  exists integrated,
    data_integration.integrate_all_data
      Samples.keyed_elections (Some Samples.census_table) (Some Samples.bea_table)
    = Ok integrated /\
    columns integrated
    = columns Samples.keyed_elections ++ ["Total_Population"; "Per_Capita_Income"] /\
    (forall o, In o (rows integrated) ->
       exists e, In e (rows Samples.keyed_elections) /\
                 agrees (columns Samples.keyed_elections) o e /\
                 enriched (Some Samples.census_table) e o /\
                 enriched (Some Samples.bea_table) e o) /\
    (forall e, In e (rows Samples.keyed_elections) ->
       exists o, In o (rows integrated) /\
                 agrees (columns Samples.keyed_elections) o e).
Proof.
  apply (integration_cells Samples.keyed_elections
                           (Some Samples.census_table) (Some Samples.bea_table)).
  - simpl. tauto.
  - simpl. tauto.
  - simpl. tauto.
  - intros r Hr. simpl in Hr. destruct Hr as [<- | [<- | [<- | []]]]; reflexivity.
  - intros r Hr. simpl in Hr. destruct Hr as [<- | [<- | []]]; reflexivity.
  - intros r Hr. simpl in Hr. destruct Hr as [<- | []]; reflexivity.
  - intros c Hc. simpl in Hc. destruct Hc as [<- | []]. simpl. intuition discriminate.
  - intros c Hc. simpl in Hc. destruct Hc as [<- | []]. simpl. intuition discriminate.
Defined.

(** ** The stages of the cleaning script in sequence *)

Lemma normalize_cell_text (c : cell) : text_or_missing (normalize_cell c) = true.
Proof.
  destruct c as [| q | s | x]; try reflexivity.
  rewrite normalize_cell_Str. reflexivity.
Qed.

Lemma resolved_row_cells (elections fips_df : DataFrame) (e m : row) (c : string) :
  ~ In "FIPS" (columns elections) ->
  ~ In "County_Name" (columns elections) ->
  In m (joined_rows elections (reference_table fips_df) "County" "County_Name" e) ->
  In c (resolved_columns elections) -> In c (columns elections) ->
  pd.get (resolved_row elections m) c = pd.get e c.
Proof.
  intros Hnf Hnn Hm Hc Hin.
  assert (Hoverlap :
            filter (fun c => pd.in_labels c (pd.right_labels (reference_table fips_df)
                                                             "County" "County_Name"))
                   (columns elections) = []).
  { apply filter_nil. intros c' Hc'. apply not_in_labels. simpl.
    intros [<- | [<- | []]]; contradiction. }
  apply joined_rows_shape in Hm. destruct Hm as (partner & -> & _).
  rewrite Hoverlap.
  change (pd.right_labels (reference_table fips_df) "County" "County_Name")
    with ["FIPS"; "County_Name"].
  change (pd.left_part elections [] e) with (pd.select_row (columns elections) e).
  rewrite (resolved_row_get elections e partner c Hc).
  replace (pd.in_labels c (columns elections)) with true; [reflexivity |].
  symmetry. apply in_labels_iff. exact Hin.
Qed.

(** The three stages of the cleaning script in sequence, on typed input.
    For a raw election table of the data model and a reference table with
    a text column of names, [standardize_county_names] returns a table,
    [add_fips_codes] applied to that table returns the resolved table, and
    [quality_checks] applied to the resolved table returns it as it is
    together with an issue list. The resolved table has the fixed list of
    eight columns, and each of its rows carries exactly these labels. *)
Theorem cleaning_stages_compose (raw fips_df : DataFrame) :
  raw_election_table raw ->
  reference_names fips_df ->
  exists standardized resolved issues,
    clean_standardize.standardize_county_names raw = Ok standardized /\
    clean_standardize.add_fips_codes standardized (Some fips_df) = Ok resolved /\
    clean_standardize.quality_checks resolved = Ok (resolved, issues) /\
    columns resolved = clean_standardize.fips_columns_with_original /\
    well_formed resolved.
Proof.
  intros (Hcols & Hnf & Hnn & Htext & Htyped) (Hf & Hn & Hntext).
  destruct (standardize_ok raw) as [standardized Hs].
  { apply Hcols. left. reflexivity. }
  { exact Htext. }
  pose proof (standardize_spec _ _ Hs) as (Hsrows & _ & _).
  pose proof (standardize_columns _ _ Hs) as (_ & Hscols).
  assert (Hsin : forall c, In c (columns raw) -> In c (columns standardized)).
  { intros c Hc. rewrite Hscols. apply add_label_In. left. exact Hc. }
  assert (Hsnf : ~ In "FIPS" (columns standardized)).
  { rewrite Hscols. intro H. apply add_label_In in H.
    destruct H as [H | H]; [contradiction | discriminate H]. }
  assert (Hsnn : ~ In "County_Name" (columns standardized)).
  { rewrite Hscols. intro H. apply add_label_In in H.
    destruct H as [H | H]; [contradiction | discriminate H]. }
  assert (Hrc : resolved_columns standardized
                = clean_standardize.fips_columns_with_original).
  { unfold resolved_columns.
    replace (pd.has_column standardized "County_Original") with true; [reflexivity |].
    symmetry. apply has_column_iff. rewrite Hscols. apply add_label_In. right. reflexivity. }
  set (resolved :=
         mkDF (resolved_columns standardized)
              (map (resolved_row standardized)
                   (flat_map (joined_rows standardized (reference_table fips_df)
                                          "County" "County_Name")
                             (rows standardized)))).
  assert (Hstext : text_column standardized "County").
  { unfold text_column in *. rewrite Hsrows.
    destruct Htext as [Hempty | Hstr]; [left; rewrite Hempty; reflexivity | right].
    apply existsb_exists in Hstr. destruct Hstr as (x & Hx & Hs').
    apply in_map_iff in Hx. destruct Hx as (r & <- & Hr).
    apply existsb_exists. exists (pd.get (standardized_row r) "County"). split.
    - apply in_map_iff. exists (standardized_row r). split; [reflexivity |].
      apply in_map. exact Hr.
    - rewrite standardized_row_county.
      destruct (pd.get r "County") as [| q | bb | x]; try discriminate Hs'.
      rewrite normalize_cell_Str. reflexivity. }
  assert (Hadd : clean_standardize.add_fips_codes standardized (Some fips_df) = Ok resolved).
  { apply add_fips_codes_table; try assumption.
    intros c Hc. apply Hsin. apply Hcols. exact Hc. }
  assert (Hwf : well_formed resolved).
  { intros o Ho. unfold resolved in Ho. cbn [rows] in Ho.
    apply in_map_iff in Ho. destruct Ho as (m & <- & _).
    unfold resolved_row. apply select_row_labels. }
  assert (Hschema : election_schema resolved = true).
  { unfold election_schema. apply andb_true_iff. split.
    - unfold resolved, pd.has_column. cbn [columns]. rewrite Hrc. reflexivity.
    - apply forallb_forall. intros o Ho. unfold resolved in Ho. cbn [rows] in Ho.
      apply in_map_iff in Ho. destruct Ho as (m & <- & Hm).
      apply in_flat_map in Hm. destruct Hm as (e & He & Hm).
      rewrite Hsrows in He. apply in_map_iff in He. destruct He as (r & <- & Hr).
      assert (Hcell : forall c, In c raw_election_columns ->
                pd.get (resolved_row standardized m) c = pd.get (standardized_row r) c).
      { intros c Hc.
        apply (resolved_row_cells standardized fips_df (standardized_row r) m c Hsnf Hsnn Hm).
        - rewrite Hrc. unfold raw_election_columns in Hc. simpl in Hc. simpl. tauto.
        - apply Hsin. apply Hcols. exact Hc. }
      destruct (standardized_row_frame r) as [_ Hother].
      pose proof (Htyped r Hr) as Hok. unfold election_row_ok in Hok.
      apply andb_true_iff in Hok. destruct Hok as [Hok Ht].
      apply andb_true_iff in Hok. destruct Hok as [Hok Hv].
      apply andb_true_iff in Hok. destruct Hok as [Hok Hg].
      apply andb_true_iff in Hok. destruct Hok as [_ Hy].
      unfold election_row_ok.
      rewrite !Hcell by (unfold raw_election_columns; simpl; tauto).
      rewrite standardized_row_county, normalize_cell_text.
      rewrite !Hother by discriminate.
      rewrite Hy, Hg, Hv, Ht. reflexivity. }
  destruct (quality_checks_returns resolved Hschema) as (out & issues & Hq & _).
  assert (Hout : out = resolved).
  { rewrite (quality_checks_table _ _ _ Hq). unfold resolved at 3.
    unfold resolved at 1 2. cbn [columns rows]. f_equal.
    - rewrite Hrc. reflexivity.
    - rewrite map_map. apply map_ext. intro m. apply drop_row_fresh.
      intros c Hc. unfold resolved_row. rewrite select_row_labels, Hrc.
      unfold helper_names in Hc. simpl in Hc. simpl. intuition congruence. }
  subst out.
  exists standardized, resolved, issues.
  split; [exact Hs |]. split; [exact Hadd |]. split; [exact Hq |].
  split; [exact Hrc | exact Hwf].
Qed.

Lemma cleaning_stages_compose_witness :
  exists standardized resolved issues,
    clean_standardize.standardize_county_names Samples.raw_elections = Ok standardized /\
    clean_standardize.add_fips_codes standardized (Some Samples.fips_reference)
    = Ok resolved /\
    clean_standardize.quality_checks resolved = Ok (resolved, issues) /\
    columns resolved = clean_standardize.fips_columns_with_original /\
    well_formed resolved.
Proof.
  apply (cleaning_stages_compose Samples.raw_elections Samples.fips_reference).
  - split; [| split; [| split; [| split]]].
    + intros c Hc. simpl in Hc. simpl. intuition.
    + simpl. intuition discriminate.
    + simpl. intuition discriminate.
    + right. vm_compute. reflexivity.
    + intros r Hr. simpl in Hr. destruct Hr as [<- | [<- | [<- | []]]]; reflexivity.
  - split; [simpl; tauto |]. split; [simpl; tauto |]. right. vm_compute. reflexivity.
Defined.

Example cleaning_stages_sample :
  match
    (elections <- clean_standardize.standardize_county_names Samples.raw_elections ;;
     elections <- clean_standardize.add_fips_codes elections (Some Samples.fips_reference) ;;
     clean_standardize.quality_checks elections)
  with
  | Ok (elections, issues) =>
      (map (fun r => (pd.get r "FIPS", pd.get r "County", pd.get r "County_Original"))
           (rows elections),
       issues)
  | Raise _ => ([], [])
  end
  = ([ (Num (12001 # 1), Str "Alachua", Str "Alachua");
       (Num (12109 # 1), Str "St. Johns", Str "  Saint Johns ");
       (NA, Str "Atlantis", Str "Atlantis") ],
     [ clean_standardize.MissingValues "FIPS" 1;
       clean_standardize.CountyCount (Num (2020 # 1)) 3 ]).
Proof. vm_compute. reflexivity. Qed.

(** ** Rural-urban codes: the long format *)

Lemma hd_filter_unique (p : cell -> bool) (l : list cell) :
  (forall c d, pd.cell_eqb c d = true -> p c = p d) ->
  hd_error (filter p (pd.unique l)) = hd_error (filter p l).
Proof.
  intro Hp. induction l as [| c l IH]; [reflexivity |].
  cbn [pd.unique filter]. destruct (p c) eqn:Hc; [reflexivity |].
  rewrite filter_filter, <- IH. f_equal. apply filter_ext_in.
  intros d _. destruct (pd.cell_eqb c d) eqn:Hcd; [| reflexivity].
  cbn [negb andb]. rewrite <- (Hp c d Hcd). symmetry. exact Hc.
Qed.

Lemma is_rucc_attribute_congr (c d : cell) :
  pd.cell_eqb c d = true ->
  add_usda_codes.is_rucc_attribute c = add_usda_codes.is_rucc_attribute d.
Proof.
  destruct c, d; simpl; intro H; try discriminate H; try reflexivity.
  apply String.eqb_eq in H. subst. reflexivity.
Qed.

Lemma hd_filter_map {A B : Type} (p : B -> bool) (g : A -> B) (l : list A) :
  hd_error (filter p (map g l)) = option_map g (hd_error (filter (fun a => p (g a)) l)).
Proof. rewrite filter_of_map. destruct (filter (fun a => p (g a)) l); reflexivity. Qed.

Lemma select_raises (df : DataFrame) (pre : list string) (c : string) (post : list string) :
  (forall x, In x pre -> In x (columns df)) -> ~ In c (columns df) ->
  pd.select df (pre ++ c :: post) = Raise (KeyError c).
Proof.
  intros Hpre Hc. unfold pd.select.
  assert (H : mapM (pd.require df) (pre ++ c :: post) = Raise (KeyError c)).
  { induction pre as [| x pre IH]; cbn [app mapM].
    - unfold pd.require.
      replace (pd.has_column df c) with false
        by (symmetry; apply not_in_labels; exact Hc).
      reflexivity.
    - rewrite (require_ok df x (Hpre x (or_introl eq_refl))). cbn [bind].
      rewrite IH; [reflexivity |]. intros y Hy. apply Hpre. right. exact Hy. }
  rewrite H. reflexivity.
Qed.

(** The Florida rows of a table, as the script holds them. *)
Lemma florida_frame (repr : cell -> string) (usda : DataFrame) :
  (usda' <- pd.assign usda "State_FIPS"
              (fun r => Ok (Str (Str.take 2 (pd.astype_str repr (pd.get r "FIPS"))))) ;;
   pd.where_ usda' (fun r => Ok (pd.cell_eqb (pd.get r "State_FIPS") (Str "12"))))
  = Ok (mkDF (pd.add_label (columns usda) "State_FIPS")
             (map (fun r => pd.set r "State_FIPS"
                              (Str (Str.take 2 (pd.astype_str repr (pd.get r "FIPS")))))
                  (florida_rows repr usda))).
Proof.
  rewrite assign_total. cbn [bind]. rewrite where_total. cbn [columns rows].
  rewrite filter_of_map. unfold florida_rows. do 3 f_equal.
  apply filter_ext. intro r. rewrite get_set_same. reflexivity.
Qed.

Lemma process_long_format
      (repr : cell -> string) (str_to_numeric : string -> cell) (usda : DataFrame) :
  In "FIPS" (columns usda) ->
  In "Attribute" (columns usda) ->
  In "Value" (columns usda) ->
  add_usda_codes.process_usda_codes repr str_to_numeric usda
  = match rucc_candidates repr usda with
    | [] => Ok None
    | first :: _ =>
        if pd.has_column usda "County_Name" then
          Ok (Some
                (mkDF usda_columns
                      (map (fun r => rucc_row (pd.get r "FIPS")
                                              (temporal_matching.to_numeric str_to_numeric
                                                 (pd.get r "Value")))
                           (filter (fun r => pd.cell_eqb (pd.get r "Attribute")
                                                         (pd.get first "Attribute"))
                                   (florida_rows repr usda)))))
        else Raise (KeyError "County_Name")
    end.
Proof.
  intros Hfips Hattr Hvalue.
  unfold add_usda_codes.process_usda_codes.
  rewrite (require_ok usda "FIPS" Hfips). cbn [bind].
  pose proof (florida_frame repr usda) as Hflorida.
  destruct (pd.assign usda "State_FIPS"
              (fun r => Ok (Str (Str.take 2 (pd.astype_str repr (pd.get r "FIPS"))))))
    as [usda' |] eqn:Hassign; [| discriminate Hflorida].
  cbn [bind] in Hflorida |- *. rewrite Hflorida. cbn [bind]. clear Hflorida Hassign usda'.
  set (tag := fun r => pd.set r "State_FIPS"
                         (Str (Str.take 2 (pd.astype_str repr (pd.get r "FIPS"))))).
  set (florida_usda := mkDF (pd.add_label (columns usda) "State_FIPS")
                            (map tag (florida_rows repr usda))).
  assert (Hcol : forall c, In c (columns usda) -> In c (columns florida_usda)).
  { intros c Hc. unfold florida_usda. cbn [columns]. apply add_label_In. left. exact Hc. }
  replace (pd.has_column florida_usda "Attribute") with true
    by (symmetry; apply has_column_iff; apply Hcol; exact Hattr).
  replace (pd.has_column florida_usda "Value") with true
    by (symmetry; apply has_column_iff; apply Hcol; exact Hvalue).
  cbn [andb]. unfold pd.column.
  rewrite (require_ok florida_usda "Attribute" (Hcol _ Hattr)). cbn [bind].
  assert (Htag : forall r c, c <> "State_FIPS" -> pd.get (tag r) c = pd.get r c).
  { intros r c Hc. unfold tag. apply get_set_other. congruence. }
  assert (Hattrs : map (fun r => pd.get r "Attribute") (rows florida_usda)
                   = map (fun r => pd.get r "Attribute") (florida_rows repr usda)).
  { unfold florida_usda. cbn [rows]. rewrite map_map. apply map_ext.
    intro r. apply Htag. discriminate. }
  rewrite Hattrs.
  pose proof (hd_filter_unique add_usda_codes.is_rucc_attribute
                (map (fun r => pd.get r "Attribute") (florida_rows repr usda))
                is_rucc_attribute_congr) as Hhead.
  rewrite (hd_filter_map add_usda_codes.is_rucc_attribute
                         (fun r => pd.get r "Attribute")) in Hhead.
  fold (rucc_candidates repr usda) in Hhead.
  destruct (rucc_candidates repr usda) as [| first rest];
    destruct (filter add_usda_codes.is_rucc_attribute
                     (pd.unique (map (fun r => pd.get r "Attribute")
                                     (florida_rows repr usda))))
      as [| rucc_attr others]; try discriminate Hhead.
  - reflexivity.
  - cbn [hd_error option_map] in Hhead. injection Hhead as ->.
    rewrite where_total. cbn [bind].
    destruct (pd.has_column usda "County_Name") eqn:Hname.
    2:{ change ["FIPS"; "County_Name"; "Value"]
          with (["FIPS"] ++ "County_Name" :: ["Value"]).
        rewrite select_raises; [reflexivity | |].
        - cbn [columns]. intros c [<- | []]. apply Hcol. exact Hfips.
        - cbn [columns]. intro H. apply add_label_In in H.
          destruct H as [H | H]; [| discriminate H].
          apply has_column_iff in H. congruence. }
    apply has_column_iff in Hname.
    rewrite select_ok.
    2:{ cbn [columns]. intros c [<- | [<- | [<- | []]]]; apply Hcol; assumption. }
    cbn [bind]. unfold pd.set_columns. cbn [columns List.length Nat.eqb bind rows].
    repeat (rewrite assign_total; cbn [bind]). cbn [columns rows].
    rewrite select_ok.
    2:{ cbn [columns]. intros c Hc. unfold pd.add_label. simpl. simpl in Hc. tauto. }
    cbn [bind rows columns].
    f_equal. f_equal. unfold usda_columns. f_equal.
    unfold florida_usda. cbn [rows].
    rewrite !map_map. rewrite filter_of_map, map_map.
    rewrite (filter_ext (fun a => pd.cell_eqb (pd.get (tag a) "Attribute")
                                              (pd.get first "Attribute"))
                        (fun r => pd.cell_eqb (pd.get r "Attribute")
                                              (pd.get first "Attribute"))).
    2:{ intro r. rewrite Htag by discriminate. reflexivity. }
    apply map_ext. intro r.
    cbn [pd.select_row map snd combine pd.set pd.get String.eqb Ascii.eqb Bool.eqb fst].
    rewrite !Htag by discriminate. reflexivity.
Qed.

(** ** Rural-urban codes: the wide format *)

Lemma rucc_column_not_state (c : string) :
  add_usda_codes.is_rucc_column c = true -> c <> "State_FIPS".
Proof. intros H ->. vm_compute in H. discriminate H. Qed.

Lemma process_wide_format
      (repr : cell -> string) (str_to_numeric : string -> cell) (usda : DataFrame) :
  In "FIPS" (columns usda) ->
  ~ In "Attribute" (columns usda) \/ ~ In "Value" (columns usda) ->
  add_usda_codes.process_usda_codes repr str_to_numeric usda
  = match filter add_usda_codes.is_rucc_column (columns usda) with
    | [] => Ok None
    | rucc_col :: _ =>
        match filter add_usda_codes.is_county_column (columns usda) with
        | [] => Raise (KeyError "County_Name")
        | _ :: _ =>
            Ok (Some (mkDF usda_columns
                           (map (fun r => rucc_row (pd.get r "FIPS") (pd.get r rucc_col))
                                (florida_rows repr usda))))
        end
    end.
Proof.
  intros Hfips Hwide.
  unfold add_usda_codes.process_usda_codes.
  rewrite (require_ok usda "FIPS" Hfips). cbn [bind].
  pose proof (florida_frame repr usda) as Hflorida.
  destruct (pd.assign usda "State_FIPS"
              (fun r => Ok (Str (Str.take 2 (pd.astype_str repr (pd.get r "FIPS"))))))
    as [usda' |] eqn:Hassign; [| discriminate Hflorida].
  cbn [bind] in Hflorida |- *. rewrite Hflorida. cbn [bind]. clear Hflorida Hassign usda'.
  set (tag := fun r => pd.set r "State_FIPS"
                         (Str (Str.take 2 (pd.astype_str repr (pd.get r "FIPS"))))).
  set (florida_usda := mkDF (pd.add_label (columns usda) "State_FIPS")
                            (map tag (florida_rows repr usda))).
  assert (Hcol : forall c, In c (columns usda) -> In c (columns florida_usda)).
  { intros c Hc. unfold florida_usda. cbn [columns]. apply add_label_In. left. exact Hc. }
  assert (Hnocol : forall c, c <> "State_FIPS" -> ~ In c (columns usda) ->
                             pd.has_column florida_usda c = false).
  { intros c Hne Hc. apply not_in_labels. unfold florida_usda. cbn [columns].
    intro H. apply add_label_In in H. destruct H as [H | H]; [contradiction | congruence]. }
  assert (Hformat : pd.has_column florida_usda "Attribute"
                    && pd.has_column florida_usda "Value" = false).
  { destruct Hwide as [H | H].
    - rewrite (Hnocol "Attribute") by (discriminate || exact H). reflexivity.
    - rewrite (Hnocol "Value") by (discriminate || exact H). apply andb_false_r. }
  rewrite Hformat.
  assert (Htag : forall r c, c <> "State_FIPS" -> pd.get (tag r) c = pd.get r c).
  { intros r c Hc. unfold tag. apply get_set_other. congruence. }
  assert (Hcolumns : columns florida_usda = pd.add_label (columns usda) "State_FIPS")
    by reflexivity.
  rewrite !Hcolumns. rewrite !filter_add_label by reflexivity.
  destruct (filter add_usda_codes.is_rucc_column (columns usda))
    as [| rucc_col others] eqn:Hrucc; [reflexivity |].
  assert (Hin : In rucc_col (columns usda) /\ add_usda_codes.is_rucc_column rucc_col = true).
  { apply filter_In. rewrite Hrucc. left. reflexivity. }
  destruct Hin as [Hin Hisrucc].
  destruct (filter add_usda_codes.is_county_column (columns usda))
    as [| county_col more] eqn:Hcounty.
  - cbv zeta.
    change ["FIPS"; rucc_col; "County_Name"] with (["FIPS"; rucc_col] ++ ["County_Name"]).
    rewrite (select_raises florida_usda ["FIPS"; rucc_col] "County_Name" []);
      [reflexivity | |].
    { intros c [<- | [<- | []]]; apply Hcol; assumption. }
    apply has_column_iff_false. apply Hnocol; [discriminate |].
    intro H.
    assert (Hc : In "County_Name" (filter add_usda_codes.is_county_column (columns usda))).
    { apply filter_In. split; [exact H | reflexivity]. }
    rewrite Hcounty in Hc. exact Hc.
  - assert (Hcin : In county_col (columns usda)).
    { assert (H : In county_col (filter add_usda_codes.is_county_column (columns usda))).
      { rewrite Hcounty. left. reflexivity. }
      apply filter_In in H. tauto. }
    cbv zeta. rewrite select_ok.
    2:{ intros c [<- | [<- | [<- | []]]]; apply Hcol; assumption. }
    cbn [bind]. unfold pd.set_columns. cbn [columns List.length Nat.eqb bind rows].
    repeat (rewrite assign_total; cbn [bind]). cbn [columns rows].
    rewrite select_ok.
    2:{ cbn [columns]. intros c Hc. unfold pd.add_label. simpl. simpl in Hc. tauto. }
    cbn [bind rows columns].
    f_equal. f_equal. unfold usda_columns. f_equal.
    unfold florida_usda. cbn [rows].
    rewrite !map_map. apply map_ext. intro r.
    cbn [pd.select_row map snd combine pd.set pd.get String.eqb Ascii.eqb Bool.eqb fst].
    rewrite !Htag; [reflexivity | apply rucc_column_not_state; exact Hisrucc | discriminate].
Qed.


(** The wide format. For a USDA table with a FIPS column and without the
    pair of columns Attribute and Value, the code column is the first column
    whose name has RUCC in it, whatever the case of the letters; without
    such a column the function returns [None]. The processed codes then
    hold one row per Florida row, in order, with its FIPS, its code as it
    is in the table, and the description and category of that code. The
    name County_Name that stands in for a missing column of county names
    cannot be found either: a table none of whose column names contains
    county or name makes the function raise [KeyError]. *)
Theorem process_usda_codes_wide
        (repr : cell -> string) (str_to_numeric : string -> cell) (usda : DataFrame) :
  In "FIPS" (columns usda) ->
  ~ In "Attribute" (columns usda) \/ ~ In "Value" (columns usda) ->
  (filter add_usda_codes.is_rucc_column (columns usda) = [] ->
   add_usda_codes.process_usda_codes repr str_to_numeric usda = Ok None) /\
  (forall rucc_col others,
      filter add_usda_codes.is_rucc_column (columns usda) = rucc_col :: others ->
      (filter add_usda_codes.is_county_column (columns usda) = [] ->
       add_usda_codes.process_usda_codes repr str_to_numeric usda
       = Raise (KeyError "County_Name")) /\
      (filter add_usda_codes.is_county_column (columns usda) <> [] ->
       exists out,
         add_usda_codes.process_usda_codes repr str_to_numeric usda = Ok (Some out) /\
         columns out = usda_columns /\
         rows out = map (fun r => rucc_row (pd.get r "FIPS") (pd.get r rucc_col))
                        (florida_rows repr usda) /\
         List.length (rows out) = List.length (florida_rows repr usda))).
Proof.
  intros Hfips Hwide.
  pose proof (process_wide_format repr str_to_numeric usda Hfips Hwide) as Heq.
  split.
  - intro Hnone. rewrite Hnone in Heq. exact Heq.
  - intros rucc_col others Hrucc. rewrite Hrucc in Heq. split.
    + intro Hnone. rewrite Hnone in Heq. exact Heq.
    + intro Hsome.
      destruct (filter add_usda_codes.is_county_column (columns usda)) as [| c cs];
        [congruence |].
      eexists. split; [exact Heq |]. cbn [columns rows].
      split; [reflexivity |]. split; [reflexivity | apply length_map].
Qed.

Lemma process_usda_codes_wide_witness :
  add_usda_codes.process_usda_codes Samples.repr_number Samples.numeric_of_digits
                                    Samples.usda_wide
  = Ok (Some Samples.usda_codes).
Proof.
  destruct (process_usda_codes_wide Samples.repr_number Samples.numeric_of_digits
                                    Samples.usda_wide) as [_ Hsome].
  - simpl. tauto.
  - left. simpl. intuition discriminate.
  - destruct (Hsome "RUCC_2023" []) as [_ Hout]; [vm_compute; reflexivity |].
    destruct Hout as (out & Hrun & Hcols & Hrows & _).
    + vm_compute. discriminate.
    + rewrite Hrun. destruct out as [cols rs]. cbn [columns rows] in Hcols, Hrows.
      rewrite Hcols, Hrows. vm_compute. reflexivity.
Defined.

(** The long format. For a USDA table with the columns FIPS, Attribute and
    Value, the codes are those of the first attribute, in row order among
    the Florida rows, that has RUCC in its name. When no Florida row has
    such an attribute the function returns [None]. Otherwise the table
    needs a County_Name column although none of its cells is returned:
    without it the function raises [KeyError], and with it the processed
    codes hold one row for each Florida row of that attribute, in order,
    with its FIPS, its value read as a number, and the description and
    category of that number. *)
Theorem process_usda_codes_long
        (repr : cell -> string) (str_to_numeric : string -> cell) (usda : DataFrame) :
  In "FIPS" (columns usda) ->
  In "Attribute" (columns usda) ->
  In "Value" (columns usda) ->
  (rucc_candidates repr usda = [] ->
   add_usda_codes.process_usda_codes repr str_to_numeric usda = Ok None) /\
  (rucc_candidates repr usda <> [] -> ~ In "County_Name" (columns usda) ->
   add_usda_codes.process_usda_codes repr str_to_numeric usda
   = Raise (KeyError "County_Name")) /\
  (forall first rest,
      rucc_candidates repr usda = first :: rest ->
      In "County_Name" (columns usda) ->
      exists out,
        add_usda_codes.process_usda_codes repr str_to_numeric usda = Ok (Some out) /\
        columns out = usda_columns /\
        rows out
        = map (fun r => rucc_row (pd.get r "FIPS")
                                 (temporal_matching.to_numeric str_to_numeric
                                    (pd.get r "Value")))
              (filter (fun r => pd.cell_eqb (pd.get r "Attribute")
                                            (pd.get first "Attribute"))
                      (florida_rows repr usda)) /\
        forall o, In o (rows out) ->
          exists r, In r (rows usda) /\ florida_row repr r = true /\
                    add_usda_codes.is_rucc_attribute (pd.get r "Attribute") = true /\
                    o = rucc_row (pd.get r "FIPS")
                                 (temporal_matching.to_numeric str_to_numeric
                                    (pd.get r "Value"))).
Proof.
  intros Hfips Hattr Hvalue.
  pose proof (process_long_format repr str_to_numeric usda Hfips Hattr Hvalue) as Heq.
  split; [| split].
  - intro Hnone. rewrite Hnone in Heq. exact Heq.
  - intros Hsome Hname.
    destruct (rucc_candidates repr usda) as [| first rest]; [congruence |].
    replace (pd.has_column usda "County_Name") with false in Heq; [exact Heq |].
    symmetry. apply not_in_labels. exact Hname.
  - intros first rest Hcand Hname. rewrite Hcand in Heq.
    replace (pd.has_column usda "County_Name") with true in Heq
      by (symmetry; apply has_column_iff; exact Hname).
    eexists. split; [exact Heq |]. cbn [columns rows].
    split; [reflexivity |]. split; [reflexivity |].
    intros o Ho. apply in_map_iff in Ho. destruct Ho as (r & <- & Hr).
    apply filter_In in Hr. destruct Hr as [Hr Hsame].
    unfold florida_rows in Hr. apply filter_In in Hr. destruct Hr as [Hr Hflorida].
    exists r. split; [exact Hr |]. split; [exact Hflorida |]. split; [| reflexivity].
    rewrite (is_rucc_attribute_congr _ _ Hsame).
    assert (Hfirst : In first (rucc_candidates repr usda)).
    { rewrite Hcand. left. reflexivity. }
    unfold rucc_candidates in Hfirst. apply filter_In in Hfirst. tauto.
Qed.

Lemma process_usda_codes_long_witness :
  add_usda_codes.process_usda_codes Samples.repr_number Samples.numeric_of_digits
                                    Samples.usda_long
  = Ok (Some Samples.usda_codes).
Proof.
  destruct (process_usda_codes_long Samples.repr_number Samples.numeric_of_digits
                                    Samples.usda_long) as (_ & _ & Hsome).
  - simpl. tauto.
  - simpl. tauto.
  - simpl. tauto.
  - destruct (Hsome (Samples.usda_row 12001 "Alachua County" "RUCC_2023" "2")
                    [Samples.usda_row 12003 "Baker County" "RUCC_2023" "8";
                     Samples.usda_row 12003 "Baker County" "RUCC_2013" "6"])
      as (out & Hrun & Hcols & Hrows & _).
    + vm_compute. reflexivity.
    + simpl. tauto.
    + rewrite Hrun. destruct out as [cols rs]. cbn [columns rows] in Hcols, Hrows.
      rewrite Hcols, Hrows. vm_compute. reflexivity.
Defined.

(** ** Rural-urban codes: integration *)

(** A USDA table without codes. When the table, in either format, has a
    FIPS column but no RUCC attribute among its Florida rows (long format)
    or no RUCC column (wide format), [process_usda_codes] returns [None]
    without raising, and the integration that follows raises [TypeError] on
    it, whatever the master table: the run ends in the error branch and no
    dataset is saved. *)
Theorem usda_run_without_codes
        (repr : cell -> string) (str_to_numeric : string -> cell)
        (master usda : DataFrame) :
  In "FIPS" (columns usda) ->
  (In "Attribute" (columns usda) /\ In "Value" (columns usda) /\
   rucc_candidates repr usda = []) \/
  ((~ In "Attribute" (columns usda) \/ ~ In "Value" (columns usda)) /\
   filter add_usda_codes.is_rucc_column (columns usda) = []) ->
  add_usda_codes.process_usda_codes repr str_to_numeric usda = Ok None /\
  (usda_codes <- add_usda_codes.process_usda_codes repr str_to_numeric usda ;;
   add_usda_codes.integrate_usda master usda_codes) = Raise TypeError.
Proof.
  intros Hfips Hcase.
  assert (Hnone : add_usda_codes.process_usda_codes repr str_to_numeric usda = Ok None).
  { destruct Hcase as [(Hattr & Hvalue & Hcand) | (Hwide & Hcols)].
    - rewrite (process_long_format repr str_to_numeric usda Hfips Hattr Hvalue), Hcand.
      reflexivity.
    - rewrite (process_wide_format repr str_to_numeric usda Hfips Hwide), Hcols.
      reflexivity. }
  split; [exact Hnone |]. rewrite Hnone. reflexivity.
Qed.

Lemma usda_run_without_codes_witness :
  add_usda_codes.process_usda_codes Samples.repr_number Samples.numeric_of_digits
                                    Samples.census_table = Ok None /\
  (usda_codes <- add_usda_codes.process_usda_codes
                   Samples.repr_number Samples.numeric_of_digits Samples.census_table ;;
   add_usda_codes.integrate_usda Samples.keyed_elections usda_codes) = Raise TypeError.
Proof.
  apply (usda_run_without_codes Samples.repr_number Samples.numeric_of_digits
                                Samples.keyed_elections Samples.census_table).
  - simpl. tauto.
  - right. split; [left; simpl; intuition discriminate | vm_compute; reflexivity].
Defined.

(** Integration of the codes. For a master table with numeric FIPS keys
    and a County column, and a table of codes none of whose three code
    columns is a column of the master table, [integrate_usda] returns the
    master columns followed by the three code columns. Every row of the
    result is a master record with its cells unchanged; its code cells are
    those of one row of codes with the same FIPS, and are all missing when
    there is none. Every master record is in the result. *)
Theorem integrate_usda_cells (master usda_codes : DataFrame) :
  In "FIPS" (columns master) ->
  In "County" (columns master) ->
  columns usda_codes = usda_columns ->
  numeric_key master "FIPS" ->
  numeric_key usda_codes "FIPS" ->
  fresh_labels (columns master) (Some usda_codes) ->
  exists integrated,
    add_usda_codes.integrate_usda master (Some usda_codes) = Ok integrated /\
    columns integrated
    = columns master
        ++ ["Rural_Urban_Code"; "Rural_Urban_Description"; "Urban_Rural_Category"] /\
    (forall o, In o (rows integrated) ->
       exists e, In e (rows master) /\ agrees (columns master) o e /\
                 enriched (Some usda_codes) e o) /\
    (forall e, In e (rows master) ->
       exists o, In o (rows integrated) /\ agrees (columns master) o e).
Proof.
  intros Hfips Hcounty Hcols Hnm Hnu Hfresh.
  destruct (merge_on_key master (Some usda_codes) Hfips) as (out & Hout & Hc & Hfrom & Hall).
  { cbn [has_key]. rewrite Hcols. left. reflexivity. }
  { exact Hfresh. }
  { exact Hnm. }
  { exact Hnu. }
  assert (Hlabels : enrichment_labels (Some usda_codes)
                    = ["Rural_Urban_Code"; "Rural_Urban_Description";
                       "Urban_Rural_Category"]).
  { unfold enrichment_labels. rewrite Hcols. reflexivity. }
  rewrite Hlabels in Hc.
  exists out. split; [| split; [exact Hc | split; assumption]].
  unfold add_usda_codes.integrate_usda. rewrite Hout. cbn [bind].
  rewrite require_ok by (rewrite Hc; apply in_or_app; right; left; reflexivity).
  cbn [bind].
  rewrite require_ok by (rewrite Hc; apply in_or_app; left; exact Hcounty).
  destruct (filter (fun r => pd.isna (pd.get r "Rural_Urban_Code")) (rows out));
    reflexivity.
Qed.

Lemma integrate_usda_cells_witness :
  exists integrated,
    add_usda_codes.integrate_usda Samples.keyed_elections (Some Samples.usda_codes)
    = Ok integrated /\
    columns integrated
    = columns Samples.keyed_elections
        ++ ["Rural_Urban_Code"; "Rural_Urban_Description"; "Urban_Rural_Category"] /\
    (forall o, In o (rows integrated) ->
       exists e, In e (rows Samples.keyed_elections) /\
                 agrees (columns Samples.keyed_elections) o e /\
                 enriched (Some Samples.usda_codes) e o) /\
    (forall e, In e (rows Samples.keyed_elections) ->
       exists o, In o (rows integrated) /\
                 agrees (columns Samples.keyed_elections) o e).
Proof.
  apply (integrate_usda_cells Samples.keyed_elections Samples.usda_codes).
  - simpl. tauto.
  - simpl. tauto.
  - reflexivity.
  - intros r Hr. simpl in Hr. destruct Hr as [<- | [<- | [<- | []]]]; reflexivity.
  - intros r Hr. simpl in Hr. destruct Hr as [<- | [<- | []]]; reflexivity.
  - intros c Hc. simpl in Hc. simpl. intuition (subst; discriminate).
Defined.

(** ** Descriptions and categories of the codes *)

Lemma Qeq_bool_code (q : Q) (k j : Z) :
  Qeq q (inject_Z k) -> Qeq_bool q (inject_Z j) = Z.eqb k j.
Proof.
  intro H. destruct (Z.eqb k j) eqn:Hkj.
  - apply Z.eqb_eq in Hkj. subst j. apply Qeq_bool_iff. exact H.
  - apply Z.eqb_neq in Hkj. destruct (Qeq_bool q (inject_Z j)) eqn:Hq; [| reflexivity].
    apply Qeq_bool_iff in Hq. rewrite H in Hq.
    unfold Qeq, inject_Z in Hq. simpl in Hq. lia.
Qed.

Lemma find_pointwise {A : Type} (f g : A -> bool) (l : list A) :
  (forall a, f a = g a) -> find f l = find g l.
Proof.
  intro H. induction l as [| a l IH]; simpl; [reflexivity |].
  rewrite (H a), IH. reflexivity.
Qed.

Lemma existsb_of_map {A B : Type} (p : B -> bool) (g : A -> B) (l : list A) :
  existsb p (map g l) = existsb (fun a => p (g a)) l.
Proof. induction l as [| a l IH]; simpl; [reflexivity | rewrite IH; reflexivity]. Qed.

Lemma existsb_pointwise {A : Type} (f g : A -> bool) (l : list A) :
  (forall a, f a = g a) -> existsb f l = existsb g l.
Proof.
  intro H. induction l as [| a l IH]; simpl; [reflexivity |].
  rewrite (H a), IH. reflexivity.
Qed.

Lemma map_dict_code (d : list (Z * string)) (code : cell) (k : Z) :
  is_code code k ->
  temporal_matching.map_dict d code
  = match find (fun kv => Z.eqb k (fst kv)) d with
    | Some kv => Str (snd kv)
    | None => NA
    end.
Proof.
  intros (q & -> & Hq). unfold temporal_matching.map_dict.
  rewrite (find_pointwise (fun kv => Qeq_bool q (inject_Z (fst kv)))
                          (fun kv => Z.eqb k (fst kv))).
  - reflexivity.
  - intro kv. apply Qeq_bool_code. exact Hq.
Qed.

Lemma map_dict_outside (d : list (Z * string)) (code : cell) :
  (forall k, In k (map fst d) -> ~ is_code code k) ->
  temporal_matching.map_dict d code = NA.
Proof.
  intro H. destruct code as [| q | s | x]; try reflexivity.
  unfold temporal_matching.map_dict.
  destruct (find (fun kv => Qeq_bool q (inject_Z (fst kv))) d) as [kv |] eqn:Hfind;
    [| reflexivity].
  apply find_some in Hfind. destruct Hfind as [Hin Hq]. exfalso.
  apply (H (fst kv)); [apply in_map; exact Hin |].
  exists q. split; [reflexivity | apply Qeq_bool_iff; exact Hq].
Qed.

Lemma categorize_code (code : cell) (k : Z) :
  is_code code k ->
  add_usda_codes.categorize code
  = if ((1 <=? k) && (k <=? 3))%Z then Some "Metropolitan"
    else if ((4 <=? k) && (k <=? 7))%Z then Some "Micropolitan/Small Urban"
    else Some "Rural".
Proof.
  intro Hcode. rewrite categorize_cases.
  destruct Hcode as (q & -> & Hq). cbn [pd.isna].
  assert (Hmem : forall ks, pd.mem (Num q) (map (fun j => Num (inject_Z j)) ks)
                            = existsb (Z.eqb k) ks).
  { intro ks. unfold pd.mem. rewrite existsb_of_map. apply existsb_pointwise.
    intro j. cbn [pd.cell_eqb]. apply Qeq_bool_code. exact Hq. }
  rewrite !Hmem. cbn [existsb].
  destruct ((1 <=? k) && (k <=? 3))%Z eqn:H1.
  - replace ((k =? 1) || ((k =? 2) || ((k =? 3) || false)))%Z with true; [reflexivity |].
    symmetry. apply andb_true_iff in H1. destruct H1 as [Ha Hb].
    apply Z.leb_le in Ha. apply Z.leb_le in Hb.
    assert (Hk : k = 1%Z \/ k = 2%Z \/ k = 3%Z) by lia.
    destruct Hk as [-> | [-> | ->]]; reflexivity.
  - replace ((k =? 1) || ((k =? 2) || ((k =? 3) || false)))%Z with false.
    2:{ symmetry. apply andb_false_iff in H1.
        rewrite !orb_false_iff. rewrite !Z.eqb_neq.
        destruct H1 as [H1 | H1]; [apply Z.leb_gt in H1 | apply Z.leb_gt in H1];
          repeat split; lia. }
    destruct ((4 <=? k) && (k <=? 7))%Z eqn:H2.
    + replace ((k =? 4) || ((k =? 5) || ((k =? 6) || ((k =? 7) || false))))%Z with true;
        [reflexivity |].
      symmetry. apply andb_true_iff in H2. destruct H2 as [Ha Hb].
      apply Z.leb_le in Ha. apply Z.leb_le in Hb.
      assert (Hk : k = 4%Z \/ k = 5%Z \/ k = 6%Z \/ k = 7%Z) by lia.
      destruct Hk as [-> | [-> | [-> | ->]]]; reflexivity.
    + replace ((k =? 4) || ((k =? 5) || ((k =? 6) || ((k =? 7) || false))))%Z with false;
        [reflexivity |].
      symmetry. apply andb_false_iff in H2.
      rewrite !orb_false_iff. rewrite !Z.eqb_neq.
      destruct H2 as [H2 | H2]; [apply Z.leb_gt in H2 | apply Z.leb_gt in H2];
        repeat split; lia.
Qed.

(** The description and the category of a code agree. In both scripts, a
    code from 1 to 3 has a description that starts with Metro and the
    category Metropolitan, a code from 4 to 7 a description that starts
    with Nonmetro - Urban and the category Micropolitan/Small Urban, a code
    8 or 9 a description that starts with Nonmetro - Rural and the category
    Rural. Any other value has no description; it still gets the category
    Rural unless it is missing. The two scripts use the same table. *)
Theorem description_matches_category :
  temporal_matching.rucc_descriptions = add_usda_codes.rucc_descriptions /\
  (forall code k, is_code code k -> (1 <= k <= 9)%Z ->
     exists d,
       temporal_matching.map_dict add_usda_codes.rucc_descriptions code = Str d /\
       add_usda_codes.categorize code
       = Some (if (k <=? 3)%Z then "Metropolitan"
               else if (k <=? 7)%Z then "Micropolitan/Small Urban"
               else "Rural") /\
       Str.startswith (if (k <=? 3)%Z then "Metro - "
                       else if (k <=? 7)%Z then "Nonmetro - Urban"
                       else "Nonmetro - Rural") d = true) /\
  (forall code,
      (forall k, (1 <= k <= 9)%Z -> ~ is_code code k) ->
      temporal_matching.map_dict add_usda_codes.rucc_descriptions code = NA /\
      (code <> NA -> add_usda_codes.categorize code = Some "Rural")).
Proof.
  split; [reflexivity |]. split.
  - intros code k Hcode Hk.
    rewrite (map_dict_code _ code k Hcode), (categorize_code code k Hcode).
    assert (Hcases : (k = 1 \/ k = 2 \/ k = 3 \/ k = 4 \/ k = 5 \/ k = 6 \/ k = 7
                      \/ k = 8 \/ k = 9)%Z) by lia.
    destruct Hcases as [-> | [-> | [-> | [-> | [-> | [-> | [-> | [-> | ->]]]]]]]];
      eexists; (split; [reflexivity | split; reflexivity]).
  - intros code Hout. split.
    + apply map_dict_outside. intros k Hk. apply Hout.
      simpl in Hk. lia.
    + intro Hna. rewrite categorize_cases.
      destruct (pd.isna code) eqn:Hisna; [destruct code; try discriminate; congruence |].
      replace (pd.mem code (map (fun k => Num (inject_Z k)) [1; 2; 3]%Z)) with false.
      2:{ symmetry. apply not_true_is_false. intro H. apply mem_code in H.
          destruct H as (k & Hk & Hc). apply (Hout k); [simpl in Hk; lia | exact Hc]. }
      replace (pd.mem code (map (fun k => Num (inject_Z k)) [4; 5; 6; 7]%Z)) with false.
      2:{ symmetry. apply not_true_is_false. intro H. apply mem_code in H.
          destruct H as (k & Hk & Hc). apply (Hout k); [simpl in Hk; lia | exact Hc]. }
      reflexivity.
Qed.

(** ** Rural-urban codes in the temporal script *)

Lemma codes_2023_numeric (repr : cell -> string) (str_to_numeric : string -> cell)
      (usda : DataFrame) :
  numeric_key usda "FIPS" -> numeric_key (codes_2023 repr str_to_numeric usda) "FIPS".
Proof.
  intros H o Ho. unfold codes_2023 in Ho. cbn [rows] in Ho.
  apply in_map_iff in Ho. destruct Ho as (r & <- & Hr).
  apply filter_In in Hr. destruct Hr as [Hr _].
  unfold florida_rows in Hr. apply filter_In in Hr. destruct Hr as [Hr _].
  cbn [rucc_row pd.get]. replace (String.eqb "FIPS" "FIPS") with true by reflexivity.
  apply H. exact Hr.
Qed.

Lemma add_usda_codes_merge
      (repr : cell -> string) (str_to_numeric : string -> cell) (df usda : DataFrame) :
  In "FIPS" (columns usda) ->
  In "Attribute" (columns usda) ->
  In "Value" (columns usda) ->
  temporal_matching.add_usda_codes repr str_to_numeric df (Ok usda)
  = try_except (pd.merge_left df (codes_2023 repr str_to_numeric usda) "FIPS" "FIPS") df.
Proof.
  intros Hfips Hattr Hvalue.
  unfold temporal_matching.add_usda_codes. f_equal. cbn [bind].
  rewrite (require_ok usda "FIPS" Hfips). cbn [bind].
  pose proof (florida_frame repr usda) as Hflorida.
  destruct (pd.assign usda "State_FIPS"
              (fun r => Ok (Str (Str.take 2 (pd.astype_str repr (pd.get r "FIPS"))))))
    as [usda' |] eqn:Hassign; [| discriminate Hflorida].
  cbn [bind] in Hflorida |- *. rewrite Hflorida. cbn [bind]. clear Hflorida Hassign usda'.
  set (tag := fun r => pd.set r "State_FIPS"
                         (Str (Str.take 2 (pd.astype_str repr (pd.get r "FIPS"))))).
  set (florida_usda := mkDF (pd.add_label (columns usda) "State_FIPS")
                            (map tag (florida_rows repr usda))).
  assert (Hcol : forall c, In c (columns usda) -> In c (columns florida_usda)).
  { intros c Hc. unfold florida_usda. cbn [columns]. apply add_label_In. left. exact Hc. }
  assert (Htag : forall r c, c <> "State_FIPS" -> pd.get (tag r) c = pd.get r c).
  { intros r c Hc. unfold tag. apply get_set_other. congruence. }
  rewrite (require_ok florida_usda "Attribute" (Hcol _ Hattr)). cbn [bind].
  rewrite where_total. cbn [bind].
  rewrite select_ok.
  2:{ cbn [columns]. intros c [<- | [<- | []]]; apply Hcol; assumption. }
  cbn [bind]. unfold pd.set_columns. cbn [columns List.length Nat.eqb bind rows].
  repeat (rewrite assign_total; cbn [bind]). cbn [columns rows].
  f_equal. unfold codes_2023. f_equal.
  unfold florida_usda. cbn [rows].
  rewrite !map_map. rewrite filter_of_map, map_map.
  rewrite (filter_ext (fun a => pd.cell_eqb (pd.get (tag a) "Attribute") (Str "RUCC_2023"))
                      (fun r => pd.cell_eqb (pd.get r "Attribute") (Str "RUCC_2023"))).
  2:{ intro r. rewrite Htag by discriminate. reflexivity. }
  apply map_ext. intro r.
  cbn [pd.select_row map snd combine pd.set pd.get String.eqb Ascii.eqb Bool.eqb fst].
  rewrite !Htag by discriminate. reflexivity.
Qed.

Lemma add_usda_codes_cases
      (repr : cell -> string) (str_to_numeric : string -> cell) (df usda : DataFrame) :
  temporal_matching.add_usda_codes repr str_to_numeric df (Ok usda)
  = if pd.has_column usda "FIPS" && pd.has_column usda "Attribute"
       && pd.has_column usda "Value"
    then try_except (pd.merge_left df (codes_2023 repr str_to_numeric usda) "FIPS" "FIPS")
                    df
    else df.
Proof.
  destruct (pd.has_column usda "FIPS") eqn:Hfips.
  2:{ unfold temporal_matching.add_usda_codes. cbn [bind]. unfold pd.require.
      rewrite Hfips. reflexivity. }
  apply has_column_iff in Hfips.
  destruct (pd.has_column usda "Attribute") eqn:Hattr.
  2:{ unfold temporal_matching.add_usda_codes. cbn [bind].
      rewrite (require_ok usda "FIPS" Hfips). cbn [bind].
      pose proof (florida_frame repr usda) as Hflorida.
      destruct (pd.assign usda "State_FIPS"
                  (fun r => Ok (Str (Str.take 2 (pd.astype_str repr (pd.get r "FIPS"))))))
        as [usda' |]; [| discriminate Hflorida].
      cbn [bind] in Hflorida |- *. rewrite Hflorida. cbn [bind].
      unfold pd.require at 1.
      replace (pd.has_column _ "Attribute") with false; [reflexivity |].
      symmetry. apply not_in_labels. cbn [columns]. intro H. apply add_label_In in H.
      destruct H as [H | H]; [| discriminate H].
      apply has_column_iff in H. congruence. }
  apply has_column_iff in Hattr.
  destruct (pd.has_column usda "Value") eqn:Hvalue.
  - apply has_column_iff in Hvalue. cbn [andb].
    apply add_usda_codes_merge; assumption.
  - unfold temporal_matching.add_usda_codes. cbn [bind andb].
    rewrite (require_ok usda "FIPS" Hfips). cbn [bind].
    pose proof (florida_frame repr usda) as Hflorida.
    destruct (pd.assign usda "State_FIPS"
                (fun r => Ok (Str (Str.take 2 (pd.astype_str repr (pd.get r "FIPS"))))))
      as [usda' |]; [| discriminate Hflorida].
    cbn [bind] in Hflorida |- *. rewrite Hflorida. cbn [bind].
    rewrite require_ok by (cbn [columns]; apply add_label_In; left; exact Hattr).
    cbn [bind]. rewrite where_total. cbn [bind].
    change ["FIPS"; "Value"] with (["FIPS"] ++ "Value" :: []).
    rewrite select_raises; [reflexivity | |].
    + cbn [columns]. intros c [<- | []]. apply add_label_In. left. exact Hfips.
    + cbn [columns]. intro H. apply add_label_In in H.
      destruct H as [H | H]; [| discriminate H].
      apply has_column_iff in H. congruence.
Qed.

(** Rural-urban codes in the temporal script. Nothing that goes wrong with
    the USDA file changes the table: when the file cannot be read, when its
    table lacks the FIPS, Attribute or Value column, or when the table
    given has no FIPS column to join on, [add_usda_codes] returns the table
    it was given. Otherwise, for numeric FIPS keys and code columns that
    are new to the table, it returns the table with the three code columns
    added: every row is a record of the table with its cells unchanged and
    with the code, description and category of one RUCC_2023 row of its
    FIPS, all missing when there is none, and every record is kept. *)
Theorem temporal_usda_codes
        (repr : cell -> string) (str_to_numeric : string -> cell) (df : DataFrame) :
  (forall e, temporal_matching.add_usda_codes repr str_to_numeric df (Raise e) = df) /\
  (forall usda,
      ~ In "FIPS" (columns usda) \/ ~ In "Attribute" (columns usda)
      \/ ~ In "Value" (columns usda) ->
      temporal_matching.add_usda_codes repr str_to_numeric df (Ok usda) = df) /\
  (forall usda,
      ~ In "FIPS" (columns df) ->
      temporal_matching.add_usda_codes repr str_to_numeric df (Ok usda) = df) /\
  (forall usda,
      In "FIPS" (columns usda) -> In "Attribute" (columns usda) ->
      In "Value" (columns usda) ->
      In "FIPS" (columns df) ->
      numeric_key df "FIPS" ->
      numeric_key usda "FIPS" ->
      fresh_labels (columns df) (Some (codes_2023 repr str_to_numeric usda)) ->
      let out := temporal_matching.add_usda_codes repr str_to_numeric df (Ok usda) in
      columns out
      = columns df
          ++ ["Rural_Urban_Code"; "Rural_Urban_Description"; "Urban_Rural_Category"] /\
      (forall o, In o (rows out) ->
         exists e, In e (rows df) /\ agrees (columns df) o e /\
                   enriched (Some (codes_2023 repr str_to_numeric usda)) e o) /\
      (forall e, In e (rows df) ->
         exists o, In o (rows out) /\ agrees (columns df) o e)).
Proof.
  split; [intro e; reflexivity |]. split; [| split].
  - intros usda Hmissing. rewrite add_usda_codes_cases.
    destruct (pd.has_column usda "FIPS") eqn:Hf; [| reflexivity].
    destruct (pd.has_column usda "Attribute") eqn:Ha; [| reflexivity].
    destruct (pd.has_column usda "Value") eqn:Hv; [| reflexivity].
    apply has_column_iff in Hf. apply has_column_iff in Ha. apply has_column_iff in Hv.
    tauto.
  - intros usda Hnokey. rewrite add_usda_codes_cases.
    destruct (pd.has_column usda "FIPS" && pd.has_column usda "Attribute"
              && pd.has_column usda "Value"); [| reflexivity].
    unfold pd.merge_left, pd.require.
    replace (pd.has_column df "FIPS") with false; [reflexivity |].
    symmetry. apply not_in_labels. exact Hnokey.
  - intros usda Hf Ha Hv Hkey Hnd Hnu Hfresh.
    rewrite (add_usda_codes_merge repr str_to_numeric df usda Hf Ha Hv).
    destruct (merge_on_key df (Some (codes_2023 repr str_to_numeric usda)) Hkey)
      as (out & Hout & Hcols & Hfrom & Hall).
    { cbn [has_key columns codes_2023]. left. reflexivity. }
    { exact Hfresh. }
    { exact Hnd. }
    { apply codes_2023_numeric. exact Hnu. }
    rewrite Hout. cbn [try_except]. cbv zeta.
    split; [exact Hcols |]. split; assumption.
Qed.

(** The two scripts attach the same codes. For a long-format USDA table
    with a County_Name column whose first RUCC attribute among the Florida
    rows is RUCC_2023, the table [process_usda_codes] returns is the table
    of codes the temporal script joins with; so whenever [integrate_usda]
    returns a table for a master table, [add_usda_codes] of the temporal
    script returns that same table for it. *)
Theorem usda_scripts_agree
        (repr : cell -> string) (str_to_numeric : string -> cell)
        (master usda : DataFrame) (first : row) (rest : list row) :
  In "FIPS" (columns usda) ->
  In "Attribute" (columns usda) ->
  In "Value" (columns usda) ->
  In "County_Name" (columns usda) ->
  rucc_candidates repr usda = first :: rest ->
  pd.get first "Attribute" = Str "RUCC_2023" ->
  add_usda_codes.process_usda_codes repr str_to_numeric usda
  = Ok (Some (codes_2023 repr str_to_numeric usda)) /\
  forall integrated,
    add_usda_codes.integrate_usda master (Some (codes_2023 repr str_to_numeric usda))
    = Ok integrated ->
    temporal_matching.add_usda_codes repr str_to_numeric master (Ok usda) = integrated.
Proof.
  intros Hf Ha Hv Hn Hcand Hfirst. split.
  - rewrite (process_long_format repr str_to_numeric usda Hf Ha Hv), Hcand.
    replace (pd.has_column usda "County_Name") with true
      by (symmetry; apply has_column_iff; exact Hn).
    rewrite Hfirst. reflexivity.
  - intros integrated H.
    rewrite (add_usda_codes_merge repr str_to_numeric master usda Hf Ha Hv).
    unfold add_usda_codes.integrate_usda in H.
    bind_inv H merged Hmerged. bind_inv H u1 Hu1. bind_inv H u2 Hu2.
    injection H as <-. rewrite Hmerged. reflexivity.
Qed.

Lemma usda_scripts_agree_witness :
  add_usda_codes.process_usda_codes Samples.repr_number Samples.numeric_of_digits
                                    Samples.usda_long
  = Ok (Some (codes_2023 Samples.repr_number Samples.numeric_of_digits Samples.usda_long)) /\
  forall integrated,
    add_usda_codes.integrate_usda
      Samples.keyed_elections
      (Some (codes_2023 Samples.repr_number Samples.numeric_of_digits Samples.usda_long))
    = Ok integrated ->
    temporal_matching.add_usda_codes Samples.repr_number Samples.numeric_of_digits
                                     Samples.keyed_elections (Ok Samples.usda_long)
    = integrated.
Proof.
  apply (usda_scripts_agree Samples.repr_number Samples.numeric_of_digits
                            Samples.keyed_elections Samples.usda_long
                            (Samples.usda_row 12001 "Alachua County" "RUCC_2023" "2")
                            [Samples.usda_row 12003 "Baker County" "RUCC_2023" "8";
                             Samples.usda_row 12003 "Baker County" "RUCC_2013" "6"]).
  - simpl. tauto.
  - simpl. tauto.
  - simpl. tauto.
  - simpl. tauto.
  - vm_compute. reflexivity.
  - reflexivity.
Defined.

Lemma temporal_usda_codes_witness :
  let out := temporal_matching.add_usda_codes
               Samples.repr_number Samples.numeric_of_digits
               Samples.keyed_elections (Ok Samples.usda_long) in
  columns out
  = columns Samples.keyed_elections
      ++ ["Rural_Urban_Code"; "Rural_Urban_Description"; "Urban_Rural_Category"] /\
  (forall o, In o (rows out) ->
     exists e, In e (rows Samples.keyed_elections) /\
               agrees (columns Samples.keyed_elections) o e /\
               enriched (Some (codes_2023 Samples.repr_number Samples.numeric_of_digits
                                          Samples.usda_long)) e o) /\
  (forall e, In e (rows Samples.keyed_elections) ->
     exists o, In o (rows out) /\ agrees (columns Samples.keyed_elections) o e).
Proof.
  destruct (temporal_usda_codes Samples.repr_number Samples.numeric_of_digits
                                Samples.keyed_elections) as (_ & _ & _ & Hcodes).
  apply (Hcodes Samples.usda_long).
  - simpl. tauto.
  - simpl. tauto.
  - simpl. tauto.
  - simpl. tauto.
  - intros r Hr. simpl in Hr. destruct Hr as [<- | [<- | [<- | []]]]; reflexivity.
  - intros r Hr. simpl in Hr.
    destruct Hr as [<- | [<- | [<- | [<- | [<- | []]]]]]; reflexivity.
  - intros c Hc. simpl in Hc. simpl. intuition (subst; discriminate).
Defined.

(** ** The latest year of a BEA table *)

Lemma string_compare_refl (s : string) : String.compare s s = Eq.
Proof.
  induction s as [| a s IH]; simpl; [reflexivity |].
  unfold Ascii.compare. rewrite N.compare_refl. exact IH.
Qed.

Lemma string_compare_lt_trans (a b c : string) :
  String.compare a b = Lt -> String.compare b c = Lt -> String.compare a c = Lt.
Proof.
  revert b c. induction a as [| x a IH]; intros [| y b] [| z c]; simpl;
    try congruence.
  unfold Ascii.compare.
  destruct (N.compare_spec (N_of_ascii x) (N_of_ascii y)) as [Exy | Lxy | Gxy];
    try discriminate;
    destruct (N.compare_spec (N_of_ascii y) (N_of_ascii z)) as [Eyz | Lyz | Gyz];
    try discriminate; intros Hab Hbc.
  - rewrite Exy, Eyz, N.compare_refl. exact (IH _ _ Hab Hbc).
  - rewrite Exy. apply N.compare_lt_iff in Lyz. rewrite Lyz. reflexivity.
  - rewrite <- Eyz. apply N.compare_lt_iff in Lxy. rewrite Lxy. reflexivity.
  - assert (L : (N_of_ascii x < N_of_ascii z)%N) by lia.
    apply N.compare_lt_iff in L. rewrite L. reflexivity.
Qed.

Lemma string_leb_refl (s : string) : String.leb s s = true.
Proof. unfold String.leb. rewrite string_compare_refl. reflexivity. Qed.

Lemma string_leb_cases (a b : string) :
  String.leb a b = true <-> a = b \/ String.ltb a b = true.
Proof.
  unfold String.leb, String.ltb. split.
  - destruct (String.compare a b) eqn:E; try discriminate.
    + left. apply String.compare_eq_iff. exact E.
    + right. reflexivity.
  - intros [-> | H].
    + rewrite string_compare_refl. reflexivity.
    + destruct (String.compare a b); try discriminate H; reflexivity.
Qed.

Lemma string_ltb_trans (a b c : string) :
  String.ltb a b = true -> String.ltb b c = true -> String.ltb a c = true.
Proof.
  unfold String.ltb. intros Hab Hbc.
  destruct (String.compare a b) eqn:Eab; try discriminate.
  destruct (String.compare b c) eqn:Ebc; try discriminate.
  rewrite (string_compare_lt_trans _ _ _ Eab Ebc). reflexivity.
Qed.

Lemma string_leb_trans (a b c : string) :
  String.leb a b = true -> String.leb b c = true -> String.leb a c = true.
Proof.
  rewrite !string_leb_cases. intros [-> | Hab] [-> | Hbc]; auto.
  right. exact (string_ltb_trans _ _ _ Hab Hbc).
Qed.

Lemma string_ltb_false (a b : string) :
  String.ltb a b = false -> String.leb b a = true.
Proof.
  unfold String.ltb, String.leb. rewrite (String.compare_antisym a b).
  destruct (String.compare b a); simpl; congruence.
Qed.

Lemma string_ltb_leb (a b : string) :
  String.ltb a b = true -> String.leb a b = true.
Proof. intro H. apply string_leb_cases. right. exact H. Qed.

(** [max] returns one of its arguments, and none of them is greater. *)
Lemma fold_greater (l : list string) (c : string) :
  In (fold_left Str.greater l c) (c :: l) /\
  forall x, In x (c :: l) -> String.leb x (fold_left Str.greater l c) = true.
Proof.
  revert c. induction l as [| a l IH]; intro c; cbn [fold_left].
  - split; [left; reflexivity |]. intros x [<- | []]. apply string_leb_refl.
  - destruct (IH (Str.greater c a)) as [Hin Hmax]. split.
    + destruct Hin as [Hin | Hin]; [| right; right; exact Hin].
      rewrite <- Hin. unfold Str.greater at 1. destruct (String.ltb c a).
      * right. left. reflexivity.
      * left. reflexivity.
    + assert (Hc : String.leb c (Str.greater c a) = true /\
                   String.leb a (Str.greater c a) = true).
      { unfold Str.greater. destruct (String.ltb c a) eqn:E.
        - split; [apply string_ltb_leb; exact E | apply string_leb_refl].
        - split; [apply string_leb_refl | apply string_ltb_false; exact E]. }
      destruct Hc as [Hc Ha].
      intros x [<- | [<- | Hx]].
      * apply (string_leb_trans _ _ _ Hc). apply Hmax. left. reflexivity.
      * apply (string_leb_trans _ _ _ Ha). apply Hmax. left. reflexivity.
      * apply Hmax. right. exact Hx.
Qed.

Lemma decimal_shift (l : list ascii) (acc : Z) :
  fold_left (fun acc c => (10 * acc + Samples.digit_value c)%Z) l acc
  = (acc * 10 ^ Z.of_nat (List.length l)
     + fold_left (fun acc c => (10 * acc + Samples.digit_value c)%Z) l 0)%Z.
Proof.
  revert acc. induction l as [| c l IH]; intro acc.
  - simpl. lia.
  - cbn [fold_left List.length]. rewrite (IH (10 * acc + Samples.digit_value c)%Z).
    rewrite (IH (10 * 0 + Samples.digit_value c)%Z).
    rewrite Nat2Z.inj_succ, Z.pow_succ_r by lia. ring.
Qed.

Lemma digit_value_range (c : ascii) :
  Str.isdigit_char c = true -> (0 <= Samples.digit_value c <= 9)%Z.
Proof.
  unfold Str.isdigit_char, Samples.digit_value. cbv zeta. rewrite andb_true_iff.
  intros [H1 H2]. apply Nat.leb_le in H1, H2. lia.
Qed.

Lemma decimal_range (l : list ascii) :
  forallb Str.isdigit_char l = true ->
  (0 <= fold_left (fun acc c => (10 * acc + Samples.digit_value c)%Z) l 0
   < 10 ^ Z.of_nat (List.length l))%Z.
Proof.
  induction l as [| c l IH]; intro H.
  - simpl. lia.
  - cbn [forallb] in H. apply andb_true_iff in H. destruct H as [Hc Hl].
    cbn [fold_left List.length]. rewrite decimal_shift.
    specialize (IH Hl). pose proof (digit_value_range c Hc) as Hd.
    rewrite Nat2Z.inj_succ, Z.pow_succ_r by lia. nia.
Qed.

Lemma digit_value_compare (x y : ascii) :
  Str.isdigit_char x = true -> Str.isdigit_char y = true ->
  (N_of_ascii x < N_of_ascii y)%N ->
  (Samples.digit_value x < Samples.digit_value y)%Z.
Proof.
  unfold Str.isdigit_char, Samples.digit_value, Str.code. cbv zeta.
  rewrite !andb_true_iff.
  intros [H1 H2] [H3 H4] H. apply Nat.leb_le in H1, H2, H3, H4.
  unfold nat_of_ascii in *. lia.
Qed.

Lemma chars_length (s : string) :
  List.length (list_ascii_of_string s) = String.length s.
Proof. induction s as [| c s IH]; simpl; [reflexivity | rewrite IH; reflexivity]. Qed.

(** On numerals of one length the order of strings is the order of the
    numbers. *)
Lemma decimal_compare_lt (a b : string) :
  forallb Str.isdigit_char (list_ascii_of_string a) = true ->
  forallb Str.isdigit_char (list_ascii_of_string b) = true ->
  String.length a = String.length b ->
  String.compare a b = Lt ->
  (Samples.decimal_value a < Samples.decimal_value b)%Z.
Proof.
  unfold Samples.decimal_value. revert b.
  induction a as [| x a IH]; intros [| y b]; simpl; try discriminate.
  rewrite !andb_true_iff. intros [Hx Ha] [Hy Hb] Hlen. injection Hlen as Hlen.
  assert (Hl : List.length (list_ascii_of_string a)
               = List.length (list_ascii_of_string b)).
  { rewrite !chars_length. exact Hlen. }
  rewrite (decimal_shift _ (0 + Samples.digit_value x)),
          (decimal_shift _ (0 + Samples.digit_value y)).
  pose proof (decimal_range _ Ha) as Ra. pose proof (decimal_range _ Hb) as Rb.
  rewrite Hl in *.
  unfold Ascii.compare.
  destruct (N.compare_spec (N_of_ascii x) (N_of_ascii y)) as [E | L | G];
    try discriminate; intro Hc.
  - assert (x = y) as ->.
    { rewrite <- (ascii_N_embedding x), <- (ascii_N_embedding y), E. reflexivity. }
    specialize (IH b Ha Hb Hlen Hc). lia.
  - pose proof (digit_value_compare x y Hx Hy L). nia.
Qed.

Lemma isdigit_chars (s : string) :
  Str.isdigit s = true -> forallb Str.isdigit_char (list_ascii_of_string s) = true.
Proof. destruct s; [discriminate | intro H; exact H]. Qed.

Lemma isdigit_is_latin1 (s : string) :
  Str.isdigit s = true -> Str.isdigit_latin1 s = true.
Proof.
  destruct s as [| c s]; [discriminate |].
  unfold Str.isdigit, Str.isdigit_latin1. rewrite !forallb_forall.
  intros H x Hx. unfold Str.isdigit_char_latin1. cbv zeta.
  rewrite (H x Hx). reflexivity.
Qed.

Lemma decimal_leb (a b : string) :
  Str.isdigit a = true -> Str.isdigit b = true ->
  String.length a = String.length b -> String.leb a b = true ->
  (Samples.decimal_value a <= Samples.decimal_value b)%Z.
Proof.
  intros Ha Hb Hlen Hle. apply string_leb_cases in Hle.
  destruct Hle as [-> | Hlt]; [lia |].
  unfold String.ltb in Hlt.
  destruct (String.compare a b) eqn:E; try discriminate Hlt.
  pose proof (decimal_compare_lt a b (isdigit_chars a Ha) (isdigit_chars b Hb) Hlen E).
  lia.
Qed.

Lemma latest_year_cases (cols : list string) :
  match data_integration.latest_year cols with
  | Ok y =>
      In y cols /\ Str.isdigit_latin1 y = true /\
      forall c, In c cols -> Str.isdigit_latin1 c = true -> String.leb c y = true
  | Raise e =>
      e = ValueError /\ forall c, In c cols -> Str.isdigit_latin1 c = false
  end.
Proof.
  unfold data_integration.latest_year.
  destruct (filter Str.isdigit_latin1 cols) as [| c year_cols] eqn:E.
  - split; [reflexivity |]. intros c Hc.
    destruct (Str.isdigit_latin1 c) eqn:Hd; [| reflexivity].
    assert (Hin : In c (filter Str.isdigit_latin1 cols)).
    { apply filter_In. split; assumption. }
    rewrite E in Hin. contradiction.
  - destruct (fold_greater year_cols c) as [Hin Hmax].
    rewrite <- E in Hin. apply filter_In in Hin. destruct Hin as [Hin Hd].
    split; [exact Hin |]. split; [exact Hd |].
    intros x Hx Hdx. apply Hmax. rewrite <- E. apply filter_In. split; assumption.
Qed.

Lemma latest_year_add_label (cols : list string) (c : string) :
  Str.isdigit_latin1 c = false ->
  data_integration.latest_year (pd.add_label cols c)
  = data_integration.latest_year cols.
Proof.
  intro H. unfold data_integration.latest_year, pd.add_label.
  destruct (existsb (String.eqb c) cols); [reflexivity |].
  rewrite filter_app. cbn [filter]. rewrite H, app_nil_r. reflexivity.
Qed.

(** X20. The latest year of [process_bea_data] is [max] of the labels made
    of digits: there is a [ValueError] exactly when no label is made of
    digits; otherwise the result is such a label of the table and no such
    label is greater in the order of strings. Among numerals of its own
    length it is the greatest number, but a shorter numeral can win over a
    longer one. *)
Theorem latest_year_greatest (cols : list string) :
  (data_integration.latest_year cols = Raise ValueError <->
   forall c, In c cols -> Str.isdigit_latin1 c = false) /\
  (forall y, data_integration.latest_year cols = Ok y ->
     In y cols /\ Str.isdigit_latin1 y = true /\
     (forall c, In c cols -> Str.isdigit_latin1 c = true -> String.leb c y = true) /\
     (Str.isdigit y = true ->
      forall c, In c cols -> Str.isdigit c = true ->
                String.length c = String.length y ->
                (Samples.decimal_value c <= Samples.decimal_value y)%Z)) /\
  data_integration.latest_year ["2023"; "999"] = Ok "999".
Proof.
  pose proof (latest_year_cases cols) as H.
  split; [| split; [| reflexivity]].
  - destruct (data_integration.latest_year cols) as [y | e].
    + destruct H as (Hin & Hd & _). split; [discriminate |].
      intro Hnone. rewrite (Hnone y Hin) in Hd. discriminate Hd.
    + destruct H as [-> Hnone]. split; [intros _; exact Hnone | reflexivity].
  - intros y Hy. rewrite Hy in H. destruct H as (Hin & Hd & Hmax).
    split; [exact Hin |]. split; [exact Hd |]. split; [exact Hmax |].
    intros Hdy c Hc Hdc Hlen.
    apply (decimal_leb c y Hdc Hdy Hlen).
    apply (Hmax c Hc). apply isdigit_is_latin1. exact Hdc.
Qed.

Lemma latest_year_working (raw : DataFrame) :
  data_integration.latest_year
    (pd.add_label (pd.add_label (columns raw) "GeoFIPS_clean") "FIPS")
  = data_integration.latest_year (columns raw).
Proof. rewrite !latest_year_add_label by reflexivity. reflexivity. Qed.

Lemma latest_year_label (cols : list string) (y : string) :
  data_integration.latest_year cols = Ok y ->
  In y cols /\ Str.isdigit_latin1 y = true.
Proof.
  intro H. pose proof (latest_year_cases cols) as Hc. rewrite H in Hc.
  destruct Hc as (Hin & Hd & _). split; assumption.
Qed.

(** With the latest year for [bea_year], the block of
    [process_bea_temporal] does what the block of [process_bea_data]
    does. *)
Lemma bea_latest_variable (py_int : string -> option Z) (str_to_numeric : string -> cell)
      (raw : DataFrame) (line name y : string) :
  data_integration.latest_year (columns raw) = Ok y ->
  temporal_matching.bea_variable py_int str_to_numeric (Ok raw) line y name
  = (d <- data_integration.bea_latest py_int str_to_numeric (Ok raw) line name ;;
     Ok (Some d)).
Proof.
  intro Hy.
  unfold temporal_matching.bea_variable, data_integration.bea_latest.
  cbn [bind]. cbv zeta.
  destruct (pd.str_accessor raw "GeoFIPS"); cbn [bind]; [| reflexivity].
  rewrite assign_total. cbn [bind].
  rewrite where_total. cbn [bind].
  match goal with
  | |- context [pd.where_ ?d ?p] => destruct (pd.where_ d p) as [d3 | e3] eqn:H3
  end; cbn [bind]; [| reflexivity].
  apply where_columns in H3. cbn [columns] in H3.
  rewrite where_total. cbn [bind].
  match goal with
  | |- context [pd.assign ?d "FIPS" ?f] =>
      destruct (pd.assign d "FIPS" f) as [d5 | e5] eqn:H5
  end; cbn [bind]; [| reflexivity].
  apply assign_inv in H5. destruct H5 as [H5 _]. cbn [columns] in H5.
  rewrite H5, H3, latest_year_working, Hy. cbn [bind].
  destruct (pd.str_accessor raw "Description"); cbn [bind]; [| reflexivity].
  rewrite assign_total. cbn [bind].
  rewrite where_total. cbn [bind].
  unfold pd.has_column. cbn [columns].
  replace (existsb (String.eqb y) _) with true.
  2:{ symmetry. apply (in_labels_iff y).
      rewrite H5, H3. apply add_label_In. left. apply add_label_In. left.
      apply add_label_In. left. apply (latest_year_label _ _ Hy). }
  match goal with
  | |- context [pd.select ?d ?cs] => destruct (pd.select d cs) as [d8 | e8]
  end; cbn [bind]; [| reflexivity].
  rewrite assign_total. cbn [bind]. reflexivity.
Qed.

Lemma bea_latest_rows (py_int : string -> option Z) (str_to_numeric : string -> cell)
      (line name : string) (df : DataFrame) :
  readable_bea_table py_int df ->
  data_integration.bea_latest py_int str_to_numeric (Ok df) line name
  = (y <- data_integration.latest_year (columns df) ;;
     Ok (mkDF ["FIPS"; name] (extracted_rows py_int str_to_numeric line y name df))).
Proof.
  intros (Hgeo & Hdesc & Htgeo & Htdesc & Hint).
  unfold data_integration.bea_latest. cbn [bind]. cbv zeta.
  rewrite (str_accessor_text df "GeoFIPS" Hgeo Htgeo). cbn [bind].
  rewrite assign_total. cbn [bind]. fold clean_row.
  rewrite where_total. cbn [bind columns rows].
  rewrite where_ok.
  2:{ cbn [rows]. intros r Hr. apply filter_In in Hr. destruct Hr as [_ Hr].
      destruct (pd.get r "GeoFIPS_clean"); try discriminate Hr.
      eexists. reflexivity. }
  cbn [bind columns rows]. rewrite where_total. cbn [bind columns rows].
  rewrite !filter_filter. fold is_county_row.
  rewrite (assign_ok _ _ _
             (fun r => value_of (temporal_matching.astype_int py_int
                                   (pd.get r "GeoFIPS_clean")))).
  2:{ cbn [rows]. intros r Hr. apply value_of_ok.
      apply filter_In in Hr. destruct Hr as [Hr Hcounty].
      apply in_map_iff in Hr. destruct Hr as (r0 & <- & Hr0).
      unfold is_county_row, clean_row in Hcounty. rewrite get_set_same in Hcounty.
      unfold clean_row. rewrite get_set_same.
      destruct (pd.get r0 "GeoFIPS") as [| q | b | g] eqn:Hg; try discriminate Hcounty.
      cbn [pd.str_map] in *.
      assert (Hcode : county_code (temporal_matching.clean_geofips g)).
      { rewrite !andb_true_iff, negb_true_iff in Hcounty.
        destruct Hcounty as (Hlen & Hpre & Hne). split; [| split].
        - cbn [pd.str_len pd.cell_eqb] in Hlen. apply Qeq_bool_iff in Hlen.
          unfold Qeq in Hlen. simpl in Hlen. lia.
        - exact Hpre.
        - intro E. rewrite E in Hne. discriminate Hne. }
      destruct (Hint r0 g Hr0 Hg Hcode) as [z Hz].
      cbn [temporal_matching.astype_int]. rewrite Hz. eexists. reflexivity. }
  cbn [bind columns rows]. fold (fips_row py_int).
  rewrite latest_year_working.
  destruct (data_integration.latest_year (columns df)) as [y | e] eqn:Hy;
    cbn [bind]; [| reflexivity].
  destruct (latest_year_label _ _ Hy) as [Hin Hd].
  rewrite (str_accessor_text df "Description" Hdesc Htdesc). cbn [bind].
  rewrite assign_total. cbn [bind columns rows]. fold description_row.
  rewrite where_total. cbn [bind columns rows]. fold (is_line_row line).
  rewrite select_ok.
  2:{ cbn [columns]. intros c [<- | [<- | []]].
      - apply add_label_In. left. apply add_label_In. right. reflexivity.
      - apply add_label_In. left. apply add_label_In. left.
        apply add_label_In. left. exact Hin. }
  cbn [bind]. unfold pd.rename. cbn [columns rows].
  rewrite assign_total. cbn [bind columns rows].
  unfold extracted_rows. rewrite !map_map.
  assert (Hcols : pd.add_label (map (pd.rename_label y name) ["FIPS"; y]) name
                  = ["FIPS"; name]).
  { cbn [map]. unfold pd.rename_label. rewrite String.eqb_refl.
    destruct (String.eqb "FIPS" y) eqn:E.
    - apply String.eqb_eq in E. subst y. discriminate Hd.
    - unfold pd.add_label. cbn [existsb]. rewrite String.eqb_refl, orb_true_r.
      reflexivity. }
  rewrite Hcols. reflexivity.
Qed.

(** X21. When the table has a label made of digits, the block of
    [process_bea_data] and the block of [process_bea_temporal] run for the
    latest year end alike: they give the same frame or raise the same
    exception, and the temporal block does not skip the variable. *)
Theorem latest_block_is_temporal_block
        (py_int : string -> option Z) (str_to_numeric : string -> cell)
        (raw : DataFrame) (line name y : string) :
  data_integration.latest_year (columns raw) = Ok y ->
  (forall d,
     data_integration.bea_latest py_int str_to_numeric (Ok raw) line name = Ok d <->
     temporal_matching.bea_variable py_int str_to_numeric (Ok raw) line y name
     = Ok (Some d)) /\
  (forall e,
     data_integration.bea_latest py_int str_to_numeric (Ok raw) line name = Raise e <->
     temporal_matching.bea_variable py_int str_to_numeric (Ok raw) line y name
     = Raise e) /\
  temporal_matching.bea_variable py_int str_to_numeric (Ok raw) line y name <> Ok None.
Proof.
  intro Hy. rewrite (bea_latest_variable py_int str_to_numeric raw line name y Hy).
  destruct (data_integration.bea_latest py_int str_to_numeric (Ok raw) line name)
    as [d0 | e0]; cbn [bind].
  - split; [| split].
    + intro d. split; intro H; injection H as <-; reflexivity.
    + intro e. split; intro H; discriminate H.
    + discriminate.
  - split; [| split].
    + intro d. split; intro H; discriminate H.
    + intro e. split; intro H; injection H as <-; reflexivity.
    + discriminate.
Qed.

Lemma latest_block_is_temporal_block_witness :
  data_integration.latest_year (columns Samples.income_table) = Ok "2023" /\
  temporal_matching.bea_variable Samples.int_of_digits Samples.numeric_of_digits
    (Ok Samples.income_table) PCI_line "2023" "Per_Capita_Income" <> Ok None.
Proof.
  split; [reflexivity |].
  apply (latest_block_is_temporal_block
           Samples.int_of_digits Samples.numeric_of_digits
           Samples.income_table PCI_line "Per_Capita_Income" "2023").
  reflexivity.
Defined.

(** X22. On a readable BEA table the block of [process_bea_data] gives a
    frame with the columns FIPS and [name] that holds the rows made of the
    county lines of the table, each with the number read in the column of
    the latest year; on a readable table without a label made of digits it
    raises [ValueError]. *)
Theorem latest_block_rows
        (py_int : string -> option Z) (str_to_numeric : string -> cell)
        (raw : DataFrame) (line name : string) :
  readable_bea_table py_int raw -> name <> "FIPS" ->
  (forall y, data_integration.latest_year (columns raw) = Ok y ->
     exists d,
       data_integration.bea_latest py_int str_to_numeric (Ok raw) line name = Ok d /\
       columns d = ["FIPS"; name] /\
       forall i, In i (rows d) <->
                 exists s z, In s (rows raw) /\ county_line py_int line s z /\
                             i = variable_row str_to_numeric name y s z) /\
  ((forall c, In c (columns raw) -> Str.isdigit_latin1 c = false) ->
   data_integration.bea_latest py_int str_to_numeric (Ok raw) line name
   = Raise ValueError).
Proof.
  intros Hreadable Hname.
  rewrite (bea_latest_rows py_int str_to_numeric line name raw Hreadable).
  pose proof (latest_year_cases (columns raw)) as Hcases. split.
  - intros y Hy. rewrite Hy. cbn [bind]. eexists. split; [reflexivity |].
    split; [reflexivity |]. cbn [rows]. intro i.
    destruct (latest_year_label _ _ Hy) as [_ Hd].
    apply extracted_rows_iff; try assumption.
    repeat split; intro E; subst y; discriminate Hd.
  - intro Hnone.
    destruct (data_integration.latest_year (columns raw)) as [y | e].
    + destruct Hcases as (Hin & Hd & _). rewrite (Hnone y Hin) in Hd.
      discriminate Hd.
    + destruct Hcases as [-> _]. reflexivity.
Qed.

Lemma latest_block_rows_witness :
  exists d,
    data_integration.bea_latest Samples.int_of_digits Samples.numeric_of_digits
      (Ok Samples.income_table) PCI_line "Per_Capita_Income" = Ok d /\
    columns d = ["FIPS"; "Per_Capita_Income"].
Proof.
  destruct (latest_block_rows Samples.int_of_digits Samples.numeric_of_digits
              Samples.income_table PCI_line "Per_Capita_Income"
              income_table_readable ltac:(discriminate)) as [H _].
  destruct (H "2023" eq_refl) as (d & Hd & Hc & _).
  exists d. split; assumption.
Defined.

(** ** Sorting rows by several keys *)

Lemma cell_leb_total (a b : cell) :
  pd.cell_leb a b = true \/ pd.cell_leb b a = true.
Proof.
  destruct a as [| x | [|] | s], b as [| y | [|] | t]; cbn [pd.cell_leb]; auto.
  - destruct (Qlt_le_dec y x) as [H | H].
    + right. apply Qle_bool_iff. apply Qlt_le_weak. exact H.
    + left. apply Qle_bool_iff. exact H.
  - apply String.leb_total.
Qed.

Lemma cell_leb_trans (a b c : cell) :
  pd.cell_leb a b = true -> pd.cell_leb b c = true -> pd.cell_leb a c = true.
Proof.
  destruct a as [| x | [|] | s], b as [| y | [|] | t], c as [| z | [|] | u];
    cbn [pd.cell_leb]; try reflexivity; try discriminate; try (intros; assumption).
  - rewrite !Qle_bool_iff. apply Qle_trans.
  - apply string_leb_trans.
Qed.

Lemma key_leb_total (a b : cell) :
  pd.key_leb a b = true \/ pd.key_leb b a = true.
Proof.
  destruct a as [| x | [|] | s], b as [| y | [|] | t]; cbn [pd.key_leb]; auto;
    apply cell_leb_total.
Qed.

Lemma key_leb_trans (a b c : cell) :
  pd.key_leb a b = true -> pd.key_leb b c = true -> pd.key_leb a c = true.
Proof.
  destruct a as [| x | [|] | s], b as [| y | [|] | t], c as [| z | [|] | u];
    cbn [pd.key_leb]; try reflexivity; try discriminate; apply cell_leb_trans.
Qed.

Lemma rows_leb_total (by_ : list string) (r s : row) :
  pd.rows_leb by_ r s = true \/ pd.rows_leb by_ s r = true.
Proof.
  induction by_ as [| c cs IH]; cbn [pd.rows_leb]; [left; reflexivity |].
  destruct (pd.key_leb (pd.get r c) (pd.get s c)) eqn:E1,
           (pd.key_leb (pd.get s c) (pd.get r c)) eqn:E2; auto.
  destruct (key_leb_total (pd.get r c) (pd.get s c)); congruence.
Qed.

Lemma rows_leb_trans (by_ : list string) (r s t : row) :
  pd.rows_leb by_ r s = true -> pd.rows_leb by_ s t = true ->
  pd.rows_leb by_ r t = true.
Proof.
  induction by_ as [| c cs IH]; cbn [pd.rows_leb]; [reflexivity |].
  destruct (pd.key_leb (pd.get r c) (pd.get s c)) eqn:Ers; [| discriminate].
  destruct (pd.key_leb (pd.get s c) (pd.get t c)) eqn:Est; [| intros _; discriminate].
  rewrite (key_leb_trans _ _ _ Ers Est).
  destruct (pd.key_leb (pd.get t c) (pd.get r c)) eqn:Etr; [| reflexivity].
  rewrite (key_leb_trans _ _ _ Est Etr), (key_leb_trans _ _ _ Etr Ers).
  exact IH.
Qed.

Lemma insert_row_perm (by_ : list string) (r : row) (l : list row) :
  Permutation (pd.insert_row by_ r l) (r :: l).
Proof.
  induction l as [| s l IH]; cbn [pd.insert_row].
  - apply Permutation_refl.
  - destruct (pd.rows_leb by_ r s).
    + apply Permutation_refl.
    + apply perm_trans with (s :: r :: l).
      * apply perm_skip. exact IH.
      * apply perm_swap.
Qed.

Lemma sorted_rows_perm (by_ : list string) (l : list row) :
  Permutation (fold_right (pd.insert_row by_) [] l) l.
Proof.
  induction l as [| r l IH]; cbn [fold_right].
  - apply Permutation_refl.
  - apply perm_trans with (r :: fold_right (pd.insert_row by_) [] l).
    + apply insert_row_perm.
    + apply perm_skip. exact IH.
Qed.

Lemma insert_row_sorted (by_ : list string) (r : row) (l : list row) :
  StronglySorted (fun a b => pd.rows_leb by_ a b = true) l ->
  StronglySorted (fun a b => pd.rows_leb by_ a b = true) (pd.insert_row by_ r l).
Proof.
  induction 1 as [| s l Hl IH Hs]; cbn [pd.insert_row].
  - constructor; constructor.
  - destruct (pd.rows_leb by_ r s) eqn:E.
    + constructor; [constructor; assumption |].
      constructor; [exact E |].
      apply Forall_forall. intros x Hx. rewrite Forall_forall in Hs.
      apply (rows_leb_trans by_ r s x E). apply Hs. exact Hx.
    + constructor; [exact IH |].
      apply Forall_forall. intros x Hx.
      apply (Permutation_in _ (insert_row_perm by_ r l)) in Hx.
      destruct Hx as [<- | Hx].
      * destruct (rows_leb_total by_ r s); congruence.
      * rewrite Forall_forall in Hs. apply Hs. exact Hx.
Qed.

Lemma sorted_rows_sorted (by_ : list string) (l : list row) :
  StronglySorted (fun a b => pd.rows_leb by_ a b = true)
                 (fold_right (pd.insert_row by_) [] l).
Proof.
  induction l as [| r l IH]; cbn [fold_right].
  - constructor.
  - apply insert_row_sorted. exact IH.
Qed.

Lemma same_rank_trans (by_ : list string) (r s t : row) :
  same_rank by_ r s = true -> same_rank by_ s t = true -> same_rank by_ r t = true.
Proof.
  unfold same_rank. rewrite !andb_true_iff. intros [H1 H2] [H3 H4]. split.
  - apply (rows_leb_trans by_ r s t); assumption.
  - apply (rows_leb_trans by_ t s r); assumption.
Qed.

Lemma same_rank_sym (by_ : list string) (r s : row) :
  same_rank by_ r s = same_rank by_ s r.
Proof. unfold same_rank. apply andb_comm. Qed.

(** The sort is stable: the rows of one rank keep their order. *)
Lemma insert_row_stable (by_ : list string) (k r : row) (l : list row) :
  filter (same_rank by_ k) (pd.insert_row by_ r l)
  = filter (same_rank by_ k) (r :: l).
Proof.
  induction l as [| s l IH]; cbn [pd.insert_row]; [reflexivity |].
  destruct (pd.rows_leb by_ r s) eqn:E; [reflexivity |].
  cbn [filter] in *. rewrite IH.
  destruct (same_rank by_ k r) eqn:Hr; [| reflexivity].
  destruct (same_rank by_ k s) eqn:Hs; [| reflexivity].
  rewrite same_rank_sym in Hr.
  pose proof (same_rank_trans by_ r k s Hr Hs) as H.
  unfold same_rank in H. rewrite E in H. discriminate H.
Qed.

Lemma sorted_rows_stable (by_ : list string) (k : row) (l : list row) :
  filter (same_rank by_ k) (fold_right (pd.insert_row by_) [] l)
  = filter (same_rank by_ k) l.
Proof.
  induction l as [| r l IH]; cbn [fold_right]; [reflexivity |].
  rewrite insert_row_stable. cbn [filter]. rewrite IH. reflexivity.
Qed.

Lemma sort_values_cases (df : DataFrame) (a b : string) :
  pd.sort_values df [a; b]
  = if pd.has_column df a
    then if pd.has_column df b
         then Ok (mkDF (columns df) (fold_right (pd.insert_row [a; b]) [] (rows df)))
         else Raise (KeyError b)
    else Raise (KeyError a).
Proof.
  unfold pd.sort_values. cbn [mapM]. unfold pd.require.
  destruct (pd.has_column df a); cbn [bind]; [| reflexivity].
  destruct (pd.has_column df b); reflexivity.
Qed.

(** ** One table of all election years *)

Lemma fold_left_append {A B : Type} (step : list B -> A -> list B) (g : A -> list B)
      (l : list A) (acc : list B) :
  (forall acc a, step acc a = acc ++ g a) ->
  fold_left step l acc = acc ++ flat_map g l.
Proof.
  intro H. revert acc. induction l as [| a l IH]; intro acc; cbn [fold_left flat_map].
  - rewrite app_nil_r. reflexivity.
  - rewrite IH, H, app_assoc. reflexivity.
Qed.

Lemma read_files_frames (files : Z -> option (result DataFrame)) :
  combine_elections_script.read_files files = readable_frames files.
Proof.
  unfold combine_elections_script.read_files, readable_frames.
  rewrite (fold_left_append _
             (fun year => match files year with Some (Ok df) => [df] | _ => [] end)).
  - reflexivity.
  - intros acc year. destruct (files year) as [[df | e] |];
      rewrite ?app_nil_r; reflexivity.
Qed.

Lemma readable_frames_iff (files : Z -> option (result DataFrame)) (df : DataFrame) :
  In df (readable_frames files) <->
  exists year, In year combine_elections_script.years /\ files year = Some (Ok df).
Proof.
  unfold readable_frames. rewrite in_flat_map. split.
  - intros (year & Hy & Hdf). exists year. split; [exact Hy |].
    destruct (files year) as [[d | e] |]; try contradiction.
    destruct Hdf as [<- | []]. reflexivity.
  - intros (year & Hy & Hf). exists year. split; [exact Hy |].
    rewrite Hf. left. reflexivity.
Qed.

Lemma union_labels_iff (dfs : list DataFrame) (x : string) :
  In x (pd.union_labels dfs) <-> exists df, In df dfs /\ In x (columns df).
Proof.
  unfold pd.union_labels. rewrite union_labels_In_acc. split.
  - intros [[] | H]. exact H.
  - intro H. right. exact H.
Qed.

Lemma union_labels_none (dfs : list DataFrame) (x : string) :
  pd.in_labels x (pd.union_labels dfs) = false <->
  forall df, In df dfs -> ~ In x (columns df).
Proof.
  split.
  - intros H df Hdf Hx.
    assert (Hin : In x (pd.union_labels dfs)) by (apply union_labels_iff; eauto).
    apply in_labels_iff in Hin. congruence.
  - intro H. apply not_in_labels. intro Hin. apply union_labels_iff in Hin.
    destruct Hin as (df & Hdf & Hx). exact (H df Hdf Hx).
Qed.

(** The outcome of the script by the frames it reads. *)
Lemma combine_cases (files : Z -> option (result DataFrame))
      (input_ : result string) (mkdir : result unit) :
  combine_elections_script.combine_election_data (Some files) input_ mkdir
  = match readable_frames files with
    | [] => Ok None
    | _ =>
        let cols := pd.union_labels (readable_frames files) in
        if pd.in_labels "County" cols
        then if pd.in_labels "Year" cols
             then match mkdir with
                  | Raise _ => Ok None
                  | Ok _ =>
                      Ok (Some (mkDF cols
                                  (fold_right (pd.insert_row ["County"; "Year"]) []
                                     (concatenated_rows (readable_frames files)))))
                  end
             else Raise (KeyError "Year")
        else Raise (KeyError "County")
    end.
Proof.
  unfold combine_elections_script.combine_election_data. cbv zeta.
  rewrite read_files_frames.
  destruct (readable_frames files) as [| d dfs] eqn:E; [reflexivity |].
  unfold pd.concat. cbv zeta. rewrite sort_values_cases.
  unfold pd.has_column, pd.in_labels, concatenated_rows. cbn [columns rows].
  destruct (existsb (String.eqb "County") (pd.union_labels (d :: dfs)));
    [| reflexivity].
  destruct (existsb (String.eqb "Year") (pd.union_labels (d :: dfs)));
    [| reflexivity].
  cbn [bind]. destruct mkdir; reflexivity.
Qed.

Lemma readable_frames_none (files : Z -> option (result DataFrame)) :
  readable_frames files = [] <->
  forall year df, In year combine_elections_script.years -> files year <> Some (Ok df).
Proof.
  split.
  - intros H year df Hy Hf.
    assert (Hin : In df (readable_frames files))
      by (apply readable_frames_iff; eauto).
    rewrite H in Hin. contradiction.
  - intro H. destruct (readable_frames files) as [| d dfs] eqn:E; [reflexivity |].
    assert (Hin : In d (readable_frames files)) by (rewrite E; left; reflexivity).
    apply readable_frames_iff in Hin. destruct Hin as (year & Hy & Hf).
    destruct (H year d Hy Hf).
Qed.

Lemma union_labels_some (dfs : list DataFrame) (x : string) :
  pd.in_labels x (pd.union_labels dfs) = true <->
  exists df, In df dfs /\ In x (columns df).
Proof. rewrite in_labels_iff. apply union_labels_iff. Qed.

(** X23. [combine_election_data] hands no table to [to_csv] and raises
    nothing exactly in these cases: the input directory does not exist and
    the prompt that follows is answered; none of the five files of 2016 to
    2024 can be read; or the files read have a County and a Year column
    and the output directory cannot be made. It raises exactly when the
    directory does not exist and the prompt fails, or when a file was read
    and no file read has a County column ([KeyError] of County), or one
    has a County column and none has a Year column ([KeyError] of Year). *)
Theorem combine_without_table
        (INPUT_DIR : option (Z -> option (result DataFrame)))
        (input_ : result string) (mkdir : result unit) :
  (combine_elections_script.combine_election_data INPUT_DIR input_ mkdir = Ok None <->
   (INPUT_DIR = None /\ exists line, input_ = Ok line) \/
   exists files, INPUT_DIR = Some files /\
     ((forall year df, In year combine_elections_script.years ->
                       files year <> Some (Ok df)) \/
      ((exists df, In df (readable_frames files) /\ In "County" (columns df)) /\
       (exists df, In df (readable_frames files) /\ In "Year" (columns df)) /\
       exists e, mkdir = Raise e))) /\
  (forall e,
     combine_elections_script.combine_election_data INPUT_DIR input_ mkdir = Raise e <->
     (INPUT_DIR = None /\ input_ = Raise e) \/
     exists files, INPUT_DIR = Some files /\ readable_frames files <> [] /\
       ((e = KeyError "County" /\
         forall df, In df (readable_frames files) -> ~ In "County" (columns df)) \/
        (e = KeyError "Year" /\
         (exists df, In df (readable_frames files) /\ In "County" (columns df)) /\
         forall df, In df (readable_frames files) -> ~ In "Year" (columns df)))).
Proof.
  destruct INPUT_DIR as [files |].
  2:{ cbn [combine_elections_script.combine_election_data]. split.
      - destruct input_ as [line | e0]; cbn [bind]; split.
        + intros _. left. split; [reflexivity | exists line; reflexivity].
        + reflexivity.
        + discriminate.
        + intros [[_ (line & H)] | (files & H & _)]; discriminate H.
      - intro e. destruct input_ as [line | e0]; cbn [bind]; split.
        + discriminate.
        + intros [[_ H] | (files & H & _)]; discriminate H.
        + intro H. injection H as <-. left. split; reflexivity.
        + intros [[_ H] | (files & H & _)]; [| discriminate H].
          injection H as <-. reflexivity. }
  rewrite combine_cases. cbv zeta.
  pose proof (readable_frames_none files) as Hnone.
  pose proof (union_labels_none (readable_frames files) "County") as HC.
  pose proof (union_labels_none (readable_frames files) "Year") as HY.
  pose proof (union_labels_some (readable_frames files) "County") as HC'.
  pose proof (union_labels_some (readable_frames files) "Year") as HY'.
  assert (Hfiles : forall (P : (Z -> option (result DataFrame)) -> Prop),
             (exists files', Some files = Some files' /\ P files') <-> P files).
  { intro P. split.
    - intros (files' & Hf & HP). injection Hf as <-. exact HP.
    - intro HP. exists files. split; [reflexivity | exact HP]. }
  split.
  - assert (Hno : forall A B : Prop,
              ((Some files = @None (Z -> option (result DataFrame)) /\ A) \/ B) <-> B).
    { intros A B. split; [intros [[H _] | H]; [discriminate H | exact H] | tauto]. }
    rewrite Hno.
    rewrite (Hfiles (fun f =>
               (forall year df, In year combine_elections_script.years ->
                                f year <> Some (Ok df)) \/
               ((exists df, In df (readable_frames f) /\ In "County" (columns df)) /\
                (exists df, In df (readable_frames f) /\ In "Year" (columns df)) /\
                exists e, mkdir = Raise e))).
    rewrite <- Hnone.
    destruct (readable_frames files) as [| d dfs] eqn:E.
    + split; [intros _; left; reflexivity | reflexivity].
    + destruct (pd.in_labels "County" (pd.union_labels (d :: dfs))) eqn:EC.
      * destruct (pd.in_labels "Year" (pd.union_labels (d :: dfs))) eqn:EY.
        -- destruct mkdir as [u | e0].
           ++ split; [discriminate |].
              intros [H | (_ & _ & e & H)]; discriminate H.
           ++ split; [| reflexivity]. intros _. right.
              split; [apply HC'; reflexivity |].
              split; [apply HY'; reflexivity | exists e0; reflexivity].
        -- split; [discriminate |].
           intros [H | (_ & H & _)]; [discriminate H |].
           apply HY' in H. discriminate H.
      * split; [discriminate |].
        intros [H | (H & _)]; [discriminate H |].
        apply HC' in H. discriminate H.
  - intro e.
    assert (Hno : forall A B : Prop,
              ((Some files = @None (Z -> option (result DataFrame)) /\ A) \/ B) <-> B).
    { intros A B. split; [intros [[H _] | H]; [discriminate H | exact H] | tauto]. }
    rewrite Hno.
    rewrite (Hfiles (fun f =>
               readable_frames f <> [] /\
               ((e = KeyError "County" /\
                 forall df, In df (readable_frames f) -> ~ In "County" (columns df)) \/
                (e = KeyError "Year" /\
                 (exists df, In df (readable_frames f) /\ In "County" (columns df)) /\
                 forall df, In df (readable_frames f) -> ~ In "Year" (columns df))))).
    destruct (readable_frames files) as [| d dfs] eqn:E.
    + split; [discriminate |]. intros [H _]. contradiction.
    + destruct (pd.in_labels "County" (pd.union_labels (d :: dfs))) eqn:EC.
      * destruct (pd.in_labels "Year" (pd.union_labels (d :: dfs))) eqn:EY.
        -- assert (Hok : forall r : result (option DataFrame),
                     r = match mkdir with
                         | Raise _ => Ok None
                         | Ok _ =>
                             Ok (Some (mkDF (pd.union_labels (d :: dfs))
                                         (fold_right (pd.insert_row ["County"; "Year"])
                                                     [] (concatenated_rows (d :: dfs)))))
                         end ->
                     r <> Raise e).
           { intros r ->. destruct mkdir; discriminate. }
           split.
           ++ intro H. exfalso. apply (Hok _ eq_refl). exact H.
           ++ intros (_ & [[_ H] | [_ [_ H]]]).
              ** apply HC in H. discriminate H.
              ** apply HY in H. discriminate H.
        -- split.
           ++ intro H. injection H as <-. split; [discriminate |]. right.
              split; [reflexivity |]. split; [apply HC'; reflexivity |].
              apply HY. reflexivity.
           ++ intros (_ & [[_ H] | [-> _]]); [| reflexivity].
              apply HC in H. discriminate H.
      * split.
        -- intro H. injection H as <-. split; [discriminate |]. left.
           split; [reflexivity |]. apply HC. reflexivity.
        -- intros (_ & [[-> _] | [_ [H _]]]); [reflexivity |].
           apply HC' in H. discriminate H.
Qed.

Lemma combine_table (INPUT_DIR : option (Z -> option (result DataFrame)))
      (input_ : result string) (mkdir : result unit) (combined : DataFrame) :
  combine_elections_script.combine_election_data INPUT_DIR input_ mkdir
  = Ok (Some combined) ->
  exists files,
    INPUT_DIR = Some files /\
    combined = mkDF (pd.union_labels (readable_frames files))
                    (fold_right (pd.insert_row ["County"; "Year"]) []
                                (concatenated_rows (readable_frames files))).
Proof.
  destruct INPUT_DIR as [files |].
  2:{ cbn [combine_elections_script.combine_election_data].
      destruct input_; discriminate. }
  rewrite combine_cases. cbv zeta. intro H. exists files. split; [reflexivity |].
  destruct (readable_frames files) as [| d dfs]; [discriminate H |].
  destruct (pd.in_labels "County" (pd.union_labels (d :: dfs))); [| discriminate H].
  destruct (pd.in_labels "Year" (pd.union_labels (d :: dfs))); [| discriminate H].
  destruct mkdir; [| discriminate H].
  injection H as <-. reflexivity.
Qed.

Lemma flat_map_rows_length (f : DataFrame -> row -> row) (dfs : list DataFrame) :
  List.length (flat_map (fun df => map (f df) (rows df)) dfs)
  = list_sum (map (fun df => List.length (rows df)) dfs).
Proof.
  induction dfs as [| d dfs IH]; cbn [flat_map map list_sum]; [reflexivity |].
  rewrite length_app, length_map, IH. reflexivity.
Qed.

(** X24. The table [combine_election_data] writes has the union of the
    labels of the files read, and its rows are the rows of these files,
    completed with missing values, in another order: it has as many
    records as the files read together, and none from a file of another
    year. *)
Theorem combined_table_rows (INPUT_DIR : option (Z -> option (result DataFrame)))
        (input_ : result string) (mkdir : result unit) (combined : DataFrame) :
  combine_elections_script.combine_election_data INPUT_DIR input_ mkdir
  = Ok (Some combined) ->
  exists files,
    INPUT_DIR = Some files /\
    columns combined = pd.union_labels (readable_frames files) /\
    Permutation (rows combined) (concatenated_rows (readable_frames files)) /\
    List.length (rows combined)
    = list_sum (map (fun df => List.length (rows df)) (readable_frames files)) /\
    (forall o, In o (rows combined) ->
       exists year df r,
         In year combine_elections_script.years /\ files year = Some (Ok df) /\
         In r (rows df) /\
         forall c, pd.get o c = if pd.has_column df c then pd.get r c else NA).
Proof.
  intro H. destruct (combine_table _ _ _ _ H) as (files & -> & ->).
  exists files. cbn [columns rows].
  pose proof (sorted_rows_perm ["County"; "Year"]
                (concatenated_rows (readable_frames files))) as Hperm.
  split; [reflexivity |]. split; [reflexivity |]. split; [exact Hperm |]. split.
  - rewrite (Permutation_length Hperm). apply flat_map_rows_length.
  - intros o Ho. apply (Permutation_in _ Hperm) in Ho.
    unfold concatenated_rows in Ho. apply in_flat_map in Ho.
    destruct Ho as (df & Hdf & Ho). apply in_map_iff in Ho.
    destruct Ho as (r & <- & Hr).
    pose proof Hdf as Hfile. apply readable_frames_iff in Hfile.
    destruct Hfile as (year & Hy & Hf).
    exists year, df, r. split; [exact Hy |]. split; [exact Hf |].
    split; [exact Hr |]. intro c.
    destruct (pd.has_column df c) eqn:Hc.
    + apply concat_row_get; [exact Hdf | apply has_column_iff; exact Hc].
    + apply concat_row_absent. apply has_column_iff_false. exact Hc.
Qed.

Lemma combined_table_rows_witness :
  exists combined,
    combine_elections_script.combine_election_data
      (Some Samples.election_files) (Ok "y") (Ok tt)
    = Ok (Some combined) /\
    List.length (rows combined) = 6.
Proof.
  destruct (combine_elections_script.combine_election_data
              (Some Samples.election_files) (Ok "y") (Ok tt))
    as [[combined |] | e] eqn:E; try (vm_compute in E; discriminate E).
  exists combined. split; [reflexivity |].
  destruct (combined_table_rows _ _ _ _ E) as (files & Hf & _ & _ & Hlen & _).
  injection Hf as <-. rewrite Hlen. reflexivity.
Defined.

Lemma rows_leb_county_year (r s : row) :
  pd.rows_leb ["County"; "Year"] r s = true -> county_year_order r s.
Proof.
  unfold county_year_order. cbn [pd.rows_leb].
  destruct (pd.key_leb (pd.get r "County") (pd.get s "County")); [| discriminate].
  destruct (pd.key_leb (pd.get s "County") (pd.get r "County")).
  - destruct (pd.key_leb (pd.get r "Year") (pd.get s "Year")); [| discriminate].
    intros _. split; reflexivity.
  - intros _. split; [reflexivity | discriminate].
Qed.

Lemma StronglySorted_weaken {A : Type} (R S : A -> A -> Prop) (l : list A) :
  (forall a b, R a b -> S a b) -> StronglySorted R l -> StronglySorted S l.
Proof.
  intro H. induction 1 as [| a l Hl IH Ha]; constructor.
  - exact IH.
  - apply Forall_forall. intros b Hb. rewrite Forall_forall in Ha.
    apply H. apply Ha. exact Hb.
Qed.

(** X25. The table [combine_election_data] writes is sorted by county and,
    within a county, by year, missing values last: of two records the
    earlier one has the lesser or the same county, and with the same county
    the lesser or the same year. The sort is stable: records of one county
    and year keep the order of the files and of their lines. *)
Theorem combined_table_sorted (INPUT_DIR : option (Z -> option (result DataFrame)))
        (input_ : result string) (mkdir : result unit) (combined : DataFrame) :
  combine_elections_script.combine_election_data INPUT_DIR input_ mkdir
  = Ok (Some combined) ->
  StronglySorted county_year_order (rows combined) /\
  forall files k,
    INPUT_DIR = Some files ->
    filter (same_rank ["County"; "Year"] k) (rows combined)
    = filter (same_rank ["County"; "Year"] k)
             (concatenated_rows (readable_frames files)).
Proof.
  intro H. destruct (combine_table _ _ _ _ H) as (files & -> & ->). cbn [rows]. split.
  - apply (StronglySorted_weaken
             (fun a b => pd.rows_leb ["County"; "Year"] a b = true)).
    + exact rows_leb_county_year.
    + apply sorted_rows_sorted.
  - intros files' k Hf. injection Hf as <-. apply sorted_rows_stable.
Qed.

Lemma combined_table_sorted_witness :
  exists combined,
    combine_elections_script.combine_election_data
      (Some Samples.election_files) (Ok "y") (Ok tt)
    = Ok (Some combined) /\
    StronglySorted county_year_order (rows combined).
Proof.
  destruct (combine_elections_script.combine_election_data
              (Some Samples.election_files) (Ok "y") (Ok tt))
    as [[combined |] | e] eqn:E; try (vm_compute in E; discriminate E).
  exists combined. split; [reflexivity |].
  apply (combined_table_sorted _ _ _ _ E).
Defined.

(** ** The BEA variables of the latest year *)

(** X26. [process_bea_data] merges the frames of the blocks that run
    through, from left to right in the order income, GDP, employment; a
    block that raises is left out. It returns nothing exactly when all
    three blocks raise, returns the frame of a block as it is when the two
    others raise, and raises only what a merge raises. *)
Theorem process_bea_data_blocks
        (py_int : string -> option Z) (str_to_numeric : string -> cell)
        (merge_outer : DataFrame -> DataFrame -> result DataFrame)
        (income_file gdp_file emp_file : result DataFrame) :
  let income := data_integration.bea_latest py_int str_to_numeric income_file
                  "Per capita personal income" "Per_Capita_Income" in
  let gdp := data_integration.bea_latest py_int str_to_numeric gdp_file
               "All industry total" "GDP_Millions" in
  let employment := data_integration.bea_latest py_int str_to_numeric emp_file
                      "Total employment" "Total_Employment" in
  let bea_combined := data_integration.process_bea_data py_int str_to_numeric
                        merge_outer income_file gdp_file emp_file in
  bea_combined = merged_frames merge_outer (processed_frames [income; gdp; employment]) /\
  (bea_combined = Ok None <-> processed_frames [income; gdp; employment] = []) /\
  (forall d, processed_frames [income; gdp; employment] = [d] -> bea_combined = Ok (Some d)) /\
  (forall e, bea_combined = Raise e ->
     exists c d, In d (processed_frames [income; gdp; employment]) /\
                 merge_outer c d = Raise e).
Proof.
  cbv zeta. unfold data_integration.process_bea_data. cbv zeta.
  destruct (data_integration.bea_latest py_int str_to_numeric income_file _ _)
    as [a | ea];
    destruct (data_integration.bea_latest py_int str_to_numeric gdp_file _ _)
      as [b | eb];
    destruct (data_integration.bea_latest py_int str_to_numeric emp_file _ _)
      as [c | ec];
    cbn [bind try_except data_integration.merge_key processed_frames flat_map app merged_frames
         fold_left].
  - destruct (merge_outer a b) as [ab | e1] eqn:E1; cbn [bind].
    + destruct (merge_outer ab c) as [abc | e2] eqn:E2; cbn [bind].
      * repeat split; try discriminate.
      * repeat split; try discriminate.
        intros e H. injection H as <-. exists ab, c. split; [simpl; tauto | exact E2].
    + repeat split; try discriminate.
      intros e H. injection H as <-. exists a, b. split; [simpl; tauto | exact E1].
  - destruct (merge_outer a b) as [ab | e1] eqn:E1; cbn [bind].
    + repeat split; try discriminate.
    + repeat split; try discriminate.
      intros e H. injection H as <-. exists a, b. split; [simpl; tauto | exact E1].
  - destruct (merge_outer a c) as [ac | e1] eqn:E1; cbn [bind].
    + repeat split; try discriminate.
    + repeat split; try discriminate.
      intros e H. injection H as <-. exists a, c. split; [simpl; tauto | exact E1].
  - repeat split; try discriminate. intros d H. injection H as <-. reflexivity.
  - destruct (merge_outer b c) as [bc | e1] eqn:E1; cbn [bind].
    + repeat split; try discriminate.
    + repeat split; try discriminate.
      intros e H. injection H as <-. exists b, c. split; [simpl; tauto | exact E1].
  - repeat split; try discriminate. intros d H. injection H as <-. reflexivity.
  - repeat split; try discriminate. intros d H. injection H as <-. reflexivity.
  - repeat split; try discriminate.
Qed.
